(** * Expense-Split-Tracker: balance ledger, split calculator, settlements
      and debt simplification

    A shallow embedding of the Go services
    ([internal/service/expense_service.go], the settlement service, the
    repositories they call and the [utils]/[errors] helpers), followed by the
    properties of the ledger that the design document states.

    Conventions of the embedding
    - [decimal.Decimal] (github.com/shopspring/decimal) is an
      arbitrary-precision decimal.  Every operation the services use
      ([Add], [Sub], [Neg], [Abs], [Mul], [Div], [Round], the comparisons) is a
      function of the number the decimal denotes, so a decimal is modelled by
      that number, a rational of [Q]; equality of decimals is [Equal]
      (numerical), i.e. [Qeq].
    - Go's [error] result is [option AppError] ([None] is [nil]); a
      [(T, error)] result is [result T].
    - The MySQL database is a record of tables (lists of rows, in insertion
      order).  A statement is modelled by its effect on the tables, the
      UNIQUE keys of the schema are checked on INSERT, AUTO_INCREMENT hands
      out one more than the largest id in use.  Connection failures are not
      modelled, timestamps are left out, and column values are kept as the
      decimals handed to the statement.  The INSERTs into [groups] and
      [group_members] check their FOREIGN KEYs as well.  Strings are compared
      character by character (the collation of the columns is not modelled)
      and the widths of the columns are not checked.
    - The columns of amounts and balances are DECIMAL(15,2) and round what
      they are handed to whole cents.  The properties of the calculators are
      about the decimals they compute; the properties of what the tables
      hold after a request are stated for amounts in whole cents, which the
      columns keep as they are.  The two statements of the balance
      repository are also given with the constraints of their table
      (FOREIGN KEYs, VARCHAR(3), DECIMAL(15,2)) in the module [schema].
    - Functions of third-party packages whose exact behaviour no property
      depends on (uuid.Parse, strings.ToUpper, strings.TrimSpace,
      Decimal.String) are the fields of the class [Externals]. *)

From Stdlib Require Import ZArith QArith Qround Qabs Qminmax Lqa Lia.
From Stdlib Require Import List String Ascii Bool Permutation.
Import ListNotations.

Set Implicit Arguments.
Unset Strict Implicit.

Open Scope string_scope.
Open Scope list_scope.
Open Scope Q_scope.

(** ** Third-party functions taken as parameters *)

Class Externals : Type := {
  (** [uuid.Parse(s)] of github.com/google/uuid returns no error *)
  uuid_Parse_ok : string -> bool;
  (** [strings.ToUpper] *)
  strings_ToUpper : string -> string;
  (** [strings.TrimSpace] *)
  strings_TrimSpace : string -> string;
  (** [Decimal.String] *)
  Decimal_String : Q -> string
}.

(** ** Go's [int] (64 bit, two's complement) *)

Module goint.
Definition wrap (x : Z) : Z := ((x + 2 ^ 63) mod 2 ^ 64 - 2 ^ 63)%Z.
Definition mul (a b : Z) : Z := wrap (a * b).
Definition sub (a b : Z) : Z := wrap (a - b).
Definition len {A} (l : list A) : Z := Z.of_nat (List.length l).
End goint.

(** ** github.com/shopspring/decimal *)

Module decimal.

Abbreviation Decimal := Q (only parsing).

Definition Zero : Decimal := 0.
Definition NewFromInt (value : Z) : Decimal := inject_Z value.

Definition Add (d d2 : Decimal) : Decimal := d + d2.
Definition Sub (d d2 : Decimal) : Decimal := d - d2.
Definition Neg (d : Decimal) : Decimal := - d.
Definition Abs (d : Decimal) : Decimal := Qabs d.
Definition Mul (d d2 : Decimal) : Decimal := d * d2.

Definition Cmp (d d2 : Decimal) : comparison := d ?= d2.

Definition Equal (d d2 : Decimal) : bool :=
  match Cmp d d2 with Eq => true | _ => false end.
Definition GreaterThan (d d2 : Decimal) : bool :=
  match Cmp d d2 with Gt => true | _ => false end.
Definition LessThan (d d2 : Decimal) : bool :=
  match Cmp d d2 with Lt => true | _ => false end.
Definition LessThanOrEqual (d d2 : Decimal) : bool :=
  match Cmp d d2 with Gt => false | _ => true end.

(** The nearest integer, a tie going away from zero. *)
Definition roundHalfAway (x : Q) : Z :=
  if Qle_bool 0 x then Qfloor (x + (1 # 2))
  else (- Qfloor (- x + (1 # 2)))%Z.

Definition pow10 (n : Z) : Q := Qpower (10 # 1) n.

(** [d.DivRound(d2, precision)]: the quotient rounded to a multiple of
    [10^(-precision)], digit 5 rounded away from zero.  Go panics when
    [d2] is zero; no caller in the services divides by zero. *)
Definition DivRound (d d2 : Decimal) (precision : Z) : Decimal :=
  inject_Z (roundHalfAway (d / d2 * pow10 precision)) / pow10 precision.

Definition DivisionPrecision : Z := 16.

(** [d.Div(d2)]: "if it doesn't divide exactly, the result will have
    DivisionPrecision digits after the decimal point". *)
Definition Div (d d2 : Decimal) : Decimal := DivRound d d2 DivisionPrecision.

(** [d.Round(places)]: half away from zero ([5.45] rounds to [5.5],
    [-5.45] to [-5.5]). *)
Definition Round (d : Decimal) (places : Z) : Decimal :=
  inject_Z (roundHalfAway (d * pow10 places)) / pow10 places.

(** [sum.Add(x)] over a slice, from [decimal.Zero], left to right. *)
Definition Sum (l : list Decimal) : Decimal := fold_left Add l Zero.

End decimal.

Import decimal.

(** ** pkg/errors *)

Module errors.
Local Open Scope string_scope.

Record AppError : Type := mkAppError {
  Code : string;
  Message : string;
  Status : Z
}.

Definition ErrCodeValidation : string := "VALIDATION_ERROR".
Definition ErrCodeRequired : string := "REQUIRED_FIELD".
Definition ErrCodeInvalid : string := "INVALID_VALUE".
Definition ErrCodeNotFound : string := "NOT_FOUND".
Definition ErrCodeAlreadyExists : string := "ALREADY_EXISTS".
Definition ErrCodeInsufficientFund : string := "INSUFFICIENT_FUND".
Definition ErrCodeInvalidSplit : string := "INVALID_SPLIT".
Definition ErrCodeCurrencyMismatch : string := "CURRENCY_MISMATCH".
Definition ErrCodeDatabase : string := "DATABASE_ERROR".
Definition ErrCodeInternal : string := "INTERNAL_ERROR".
Definition ErrCodeIdempotency : string := "IDEMPOTENCY_ERROR".

Definition StatusBadRequest : Z := 400.
Definition StatusNotFound : Z := 404.
Definition StatusConflict : Z := 409.
Definition StatusInternalServerError : Z := 500.

Definition NewValidationError (message : string) : AppError :=
  mkAppError ErrCodeValidation message StatusBadRequest.

Definition NewRequiredFieldError (field : string) : AppError :=
  mkAppError ErrCodeRequired ("Field '" ++ field ++ "' is required")
             StatusBadRequest.

Definition NewInvalidValueError (field value : string) : AppError :=
  mkAppError ErrCodeInvalid
             ("Invalid value '" ++ value ++ "' for field '" ++ field ++ "'")
             StatusBadRequest.

Definition NewNotFoundError (resource : string) : AppError :=
  mkAppError ErrCodeNotFound (resource ++ " not found") StatusNotFound.

Definition NewAlreadyExistsError (resource : string) : AppError :=
  mkAppError ErrCodeAlreadyExists (resource ++ " already exists") StatusConflict.

Definition NewInsufficientFundError (available required : string) : AppError :=
  mkAppError ErrCodeInsufficientFund
             ("Insufficient funds: available " ++ available ++
              ", required " ++ required)
             StatusBadRequest.

Definition NewInvalidSplitError (message : string) : AppError :=
  mkAppError ErrCodeInvalidSplit message StatusBadRequest.

(** The cause is logged, not kept. *)
Definition NewDatabaseError : AppError :=
  mkAppError ErrCodeDatabase "Database operation failed"
             StatusInternalServerError.

(** The error kinds of the design document. *)
Definition isValidationError (e : AppError) : bool :=
  String.eqb (Code e) ErrCodeValidation.
Definition isInvalidSplitError (e : AppError) : bool :=
  String.eqb (Code e) ErrCodeInvalidSplit.

End errors.

Import errors.

(** ** Results and early returns *)

Inductive result (A : Type) : Type :=
| Ok (a : A)
| Err (e : AppError).

Arguments Ok {A} a.
Arguments Err {A} e.

Definition bind {A B} (r : result A) (k : A -> result B) : result B :=
  match r with
  | Ok a => k a
  | Err e => Err e
  end.

(** [x, err := f(); if err != nil { return nil, err }] *)
Notation "'let*' x ':=' r 'in' k" := (bind r (fun x => k))
  (at level 10, x pattern, r at level 100, k at level 200).

(** [if err := f(); err != nil { return nil, err }] *)
Notation "'check' e 'in' k" :=
  (match e with Some err => Err err | None => k end)
  (at level 10, e at level 100, k at level 200).

(** [if cond { return nil, err }] *)
Notation "'reject' c 'with' e 'in' k" :=
  (if c then Err e else k)
  (at level 10, c at level 100, e at level 100, k at level 200).

Definition isOk {A} (r : result A) : bool :=
  match r with Ok _ => true | Err _ => false end.

(** ** regexp: the constructs of Go's regular expressions that
    [emailRegex] is written with

    A pattern is matched by Brzozowski derivatives, one byte of the string
    at a time.  Go's [regexp] decodes the string as UTF-8; the classes of
    [emailRegex] hold ASCII characters only, so a character outside ASCII
    matches none of them, and neither does any of its bytes. *)

Module regexp.

Inductive Regexp : Type :=
| NoMatch
| EmptyMatch
| CharClass (class : ascii -> bool)
| Concat (r1 r2 : Regexp)
| Alternate (r1 r2 : Regexp)
| Star (r : Regexp).

(** [x+] *)
Definition Plus (r : Regexp) : Regexp := Concat r (Star r).

(** [x{n,}] *)
Fixpoint AtLeast (n : nat) (r : Regexp) : Regexp :=
  match n with
  | O => Star r
  | S n => Concat r (AtLeast n r)
  end.

(** a literal character *)
Definition Literal (c : ascii) : Regexp := CharClass (Ascii.eqb c).

(** the range [lo-hi] of a bracket expression *)
Definition between (lo hi c : ascii) : bool :=
  ((nat_of_ascii lo <=? nat_of_ascii c)
   && (nat_of_ascii c <=? nat_of_ascii hi))%nat.

(** the single characters of a bracket expression *)
Definition oneOf (chars : string) (c : ascii) : bool :=
  existsb (Ascii.eqb c) (list_ascii_of_string chars).

Fixpoint nullable (r : Regexp) : bool :=
  match r with
  | NoMatch => false
  | EmptyMatch => true
  | CharClass _ => false
  | Concat r1 r2 => nullable r1 && nullable r2
  | Alternate r1 r2 => nullable r1 || nullable r2
  | Star _ => true
  end.

Fixpoint derive (c : ascii) (r : Regexp) : Regexp :=
  match r with
  | NoMatch => NoMatch
  | EmptyMatch => NoMatch
  | CharClass class => if class c then EmptyMatch else NoMatch
  | Concat r1 r2 =>
      if nullable r1
      then Alternate (Concat (derive c r1) r2) (derive c r2)
      else Concat (derive c r1) r2
  | Alternate r1 r2 => Alternate (derive c r1) (derive c r2)
  | Star r => Concat (derive c r) (Star r)
  end.

Fixpoint matchAll (r : Regexp) (s : string) : bool :=
  match s with
  | EmptyString => nullable r
  | String c s => matchAll (derive c r) s
  end.

(** [re.MatchString(s)] for a pattern between [^] and [$]: without the
    [m] flag they stand for the beginning and the end of the text, so the
    whole string has to match. *)
Definition MatchString (re : Regexp) (s : string) : bool := matchAll re s.

End regexp.

(** ** internal/utils *)

Module utils.
Section WithExternals.
Context {ext : Externals}.

Definition isLetter (c : ascii) : bool :=
regexp.between "a" "z" c || regexp.between "A" "Z" c.
Definition isDigit (c : ascii) : bool := regexp.between "0" "9" c.

(** [[a-zA-Z0-9._%+-]] *)
Definition localChar (c : ascii) : bool :=
isLetter c || isDigit c || regexp.oneOf "._%+-" c.
(** [[a-zA-Z0-9.-]] *)
Definition domainChar (c : ascii) : bool :=
isLetter c || isDigit c || regexp.oneOf ".-" c.

(** [regexp.MustCompile(`^[a-zA-Z0-9._%+-]+@[a-zA-Z0-9.-]+\.[a-zA-Z]{2,}$`)] *)
Definition emailRegex : regexp.Regexp :=
regexp.Concat (regexp.Plus (regexp.CharClass localChar))
  (regexp.Concat (regexp.Literal "@")
     (regexp.Concat (regexp.Plus (regexp.CharClass domainChar))
        (regexp.Concat (regexp.Literal ".")
           (regexp.AtLeast 2 (regexp.CharClass isLetter))))).

Definition ValidateEmail (email : string) : option AppError :=
if String.eqb email "" then
  Some (NewRequiredFieldError "email")
else if negb (regexp.MatchString emailRegex email) then
  Some (NewInvalidValueError "email" email)
else None.

Definition ValidateName (name : string) : option AppError :=
let name := strings_TrimSpace name in
if String.eqb name "" then
  Some (NewRequiredFieldError "name")
else if (String.length name <? 2)%nat then
  Some (NewValidationError "Name must be at least 2 characters long")
else if (255 <? String.length name)%nat then
  Some (NewValidationError "Name must be less than 255 characters")
else None.

Definition IsValidUUID (uuidStr : string) : bool := uuid_Parse_ok uuidStr.

(** [decimal.NewFromFloat(999999999.99)]: the shortest decimal that
  denotes the float, 999999999.99. *)
Definition maxAmount : Decimal := 99999999999 # 100.

Definition ValidateAmount (amount : Decimal) : option AppError :=
if LessThanOrEqual amount Zero then
  Some (NewValidationError "Amount must be greater than zero")
else if GreaterThan amount maxAmount then
  Some (NewValidationError "Amount is too large")
else None.

Definition ValidateDescription (description : string) : option AppError :=
let description := strings_TrimSpace description in
if String.eqb description "" then
  Some (NewRequiredFieldError "description")
else if (1000 <? String.length description)%nat then
  Some (NewValidationError "Description must be less than 1000 characters")
else None.

Definition ValidatePercentage (percentage : Decimal) : option AppError :=
if LessThan percentage Zero then
  Some (NewValidationError "Percentage cannot be negative")
else if GreaterThan percentage (NewFromInt 100) then
  Some (NewValidationError "Percentage cannot be greater than 100")
else None.

Definition SupportedCurrencies (currency : string) : bool :=
existsb (String.eqb currency)
        ["USD"; "EUR"; "GBP"; "JPY"; "CAD"; "AUD"; "CHF"; "CNY"; "INR"]%string.

Definition ValidateCurrency (currency : string) : option AppError :=
let currency := strings_ToUpper currency in
if negb (SupportedCurrencies currency) then
  Some (NewInvalidValueError "currency" currency)
else None.

End WithExternals.
End utils.

(** ** internal/models

    Each struct is a record in a module of its name, so that a field reads
    [User.ID u].  Timestamps, and relationship fields that no modelled
    function assigns, are left out. *)

Module models.

Module User.
Record t : Type := mk {
  ID : Z;
  UUID : string;
  Name : string;
  Email : string
}.
End User.

Module Group.
Record t : Type := mk {
  ID : Z;
  UUID : string;
  Name : string;
  Description : string;
  CreatedBy : Z;
  Creator : option User.t
}.
End Group.

Module GroupMember.
Record t : Type := mk {
  ID : Z;
  GroupID : Z;
  UserID : Z
}.
End GroupMember.

Module Balance.
Record t : Type := mk {
  ID : Z;
  GroupID : Z;
  UserID : Z;
  Balance : Decimal;
  Currency : string;
  Group : option Group.t;
  User : option User.t
}.

(** [&models.Balance{}] *)
Definition zero : t := mk 0 0 0 Zero "" None None.

Definition withBalance (b : t) (v : Decimal) : t :=
  mk (ID b) (GroupID b) (UserID b) v (Currency b) (Group b) (User b).
End Balance.

Definition SplitType : Type := string.
Definition SplitTypeEqual : SplitType := "equal".
Definition SplitTypeExact : SplitType := "exact".
Definition SplitTypePercentage : SplitType := "percentage".

Module ExpenseSplit.
Record t : Type := mk {
  ID : Z;
  ExpenseID : Z;
  UserID : Z;
  Amount : Decimal;
  Percentage : Decimal;
  User : option User.t
}.

Definition withExpenseID (s : t) (v : Z) : t :=
  mk (ID s) v (UserID s) (Amount s) (Percentage s) (User s).
Definition withID (s : t) (v : Z) : t :=
  mk v (ExpenseID s) (UserID s) (Amount s) (Percentage s) (User s).
End ExpenseSplit.

Module Expense.
Record t : Type := mk {
  ID : Z;
  UUID : string;
  GroupID : Z;
  PaidBy : Z;
  Amount : Decimal;
  Currency : string;
  Description : string;
  SplitType : SplitType;
  Splits : list ExpenseSplit.t
}.

Definition withID (e : t) (v : Z) : t :=
  mk v (UUID e) (GroupID e) (PaidBy e) (Amount e) (Currency e)
     (Description e) (SplitType e) (Splits e).
Definition withSplits (e : t) (v : list ExpenseSplit.t) : t :=
  mk (ID e) (UUID e) (GroupID e) (PaidBy e) (Amount e) (Currency e)
     (Description e) (SplitType e) v.
End Expense.

Module CreateExpenseSplitRequest.
Record t : Type := mk {
  UserUUID : string;
  Amount : Decimal;
  Percentage : Decimal
}.
End CreateExpenseSplitRequest.

Module CreateExpenseRequest.
Record t : Type := mk {
  GroupUUID : string;
  PaidByUUID : string;
  Amount : Decimal;
  Currency : string;
  Description : string;
  SplitType : SplitType;
  Splits : list CreateExpenseSplitRequest.t
}.
End CreateExpenseRequest.

Module Settlement.
Record t : Type := mk {
  ID : Z;
  UUID : string;
  GroupID : Z;
  FromUserID : Z;
  ToUserID : Z;
  Amount : Decimal;
  Currency : string;
  Description : string;
  Group : option Group.t;
  FromUser : option User.t;
  ToUser : option User.t
}.

Definition withID (s : t) (v : Z) : t :=
  mk v (UUID s) (GroupID s) (FromUserID s) (ToUserID s) (Amount s)
     (Currency s) (Description s) (Group s) (FromUser s) (ToUser s).
End Settlement.

Module CreateSettlementRequest.
Record t : Type := mk {
  GroupUUID : string;
  FromUserUUID : string;
  ToUserUUID : string;
  Amount : Decimal;
  Currency : string;
  Description : string
}.
End CreateSettlementRequest.

Module SettlementSuggestion.
Record t : Type := mk {
  FromUser : option User.t;
  ToUser : option User.t;
  Amount : Decimal;
  Currency : string
}.
End SettlementSuggestion.

Module DebtSimplification.
Record t : Type := mk {
  OriginalTransactions : Z;
  SimplifiedTransactions : Z;
  Savings : Z;
  Suggestions : list SettlementSuggestion.t
}.
End DebtSimplification.

Module CreateUserRequest.
Record t : Type := mk {
  Name : string;
  Email : string
}.
End CreateUserRequest.

Module CreateGroupRequest.
Record t : Type := mk {
  Name : string;
  Description : string
}.
End CreateGroupRequest.

Module AddMemberRequest.
Record t : Type := mk {
  UserUUID : string
}.
End AddMemberRequest.

Module UserBalance.
Record t : Type := mk {
  UserID : Z;
  GroupID : Z;
  User : option User.t;
  Balance : Decimal;
  Currency : string
}.
End UserBalance.

Module BalanceSummary.
Record t : Type := mk {
  TotalPositive : Decimal;
  TotalNegative : Decimal;
  NetBalance : Decimal;
  UserCount : Z
}.
End BalanceSummary.

Module BalanceSheet.
Record t : Type := mk {
  Group : Group.t;
  Balances : list UserBalance.t;
  Summary : BalanceSummary.t;
  Currency : string
}.
End BalanceSheet.

Module DebtRelationship.
Record t : Type := mk {
  Creditor : option User.t;
  Debtor : option User.t;
  Amount : Decimal;
  Currency : string
}.
End DebtRelationship.

End models.

Import models.

(** ** internal/database: the tables of [001_initial_schema.up.sql] *)

Module database.

Record DB : Type := mkDB {
  users : list User.t;
  groups : list Group.t;
  group_members : list GroupMember.t;
  expenses : list Expense.t;
  expense_splits : list ExpenseSplit.t;
  settlements : list Settlement.t;
  user_balances : list Balance.t
}.

Definition empty : DB := mkDB [] [] [] [] [] [] [].

(** AUTO_INCREMENT *)
Definition nextID (ids : list Z) : Z := (1 + fold_right Z.max 0 ids)%Z.

Definition withUsers (db : DB) (v : list User.t) : DB :=
  mkDB v (groups db) (group_members db) (expenses db) (expense_splits db)
       (settlements db) (user_balances db).
Definition withGroups (db : DB) (v : list Group.t) : DB :=
  mkDB (users db) v (group_members db) (expenses db) (expense_splits db)
       (settlements db) (user_balances db).
Definition withGroupMembers (db : DB) (v : list GroupMember.t) : DB :=
  mkDB (users db) (groups db) v (expenses db) (expense_splits db)
       (settlements db) (user_balances db).
Definition withExpenses (db : DB) (v : list Expense.t) : DB :=
  mkDB (users db) (groups db) (group_members db) v (expense_splits db)
       (settlements db) (user_balances db).
Definition withExpenseSplits (db : DB) (v : list ExpenseSplit.t) : DB :=
  mkDB (users db) (groups db) (group_members db) (expenses db) v
       (settlements db) (user_balances db).
Definition withSettlements (db : DB) (v : list Settlement.t) : DB :=
  mkDB (users db) (groups db) (group_members db) (expenses db)
       (expense_splits db) v (user_balances db).
Definition withUserBalances (db : DB) (v : list Balance.t) : DB :=
  mkDB (users db) (groups db) (group_members db) (expenses db)
       (expense_splits db) (settlements db) v.

(** A computation that reads and writes the database and may fail. *)
Definition M (A : Type) : Type := DB -> result A * DB.

Definition ret {A} (a : A) : M A := fun db => (Ok a, db).
Definition fail {A} (e : AppError) : M A := fun db => (Err e, db).
Definition bindM {A B} (m : M A) (k : A -> M B) : M B :=
  fun db => match m db with
            | (Ok a, db') => k a db'
            | (Err e, db') => (Err e, db')
            end.
(** a repository read *)
Definition query {A} (f : DB -> result A) : M A := fun db => (f db, db).
(** a repository read whose error the caller inspects *)
Definition attempt {A} (f : DB -> result A) : M (result A) :=
  fun db => (Ok (f db), db).
(** a repository write; a failed statement changes nothing *)
Definition exec {A} (f : DB -> result (A * DB)) : M A :=
  fun db => match f db with
            | Ok (a, db') => (Ok a, db')
            | Err e => (Err e, db)
            end.

(** [db.WithTransaction(fn)]: commit when [fn] returns [nil], roll back
    when it returns an error. *)
Definition WithTransaction {A} (fn : M A) : M A :=
  fun db => match fn db with
            | (Ok a, db') => (Ok a, db')
            | (Err e, _) => (Err e, db)
            end.

End database.

Import database.

Notation "'do*' x ':=' m 'in' k" := (bindM m (fun x => k))
  (at level 10, x pattern, m at level 100, k at level 200).
Notation "'guard' e 'in' k" :=
  (match e with Some err => fail err | None => k end)
  (at level 10, e at level 100, k at level 200).
Notation "'refuse' c 'with' e 'in' k" :=
  (if c then fail e else k)
  (at level 10, c at level 100, e at level 100, k at level 200).

(** ** internal/repository *)

Module userRepository.

(** [SELECT ... FROM users WHERE uuid = ?] *)
Definition GetByUUID (db : DB) (uuid : string) : result User.t :=
  match find (fun u => String.eqb (User.UUID u) uuid) (users db) with
  | Some user => Ok user
  | None => Err (NewNotFoundError "User")
  end.

(** the row a [LEFT JOIN users u ON ... = u.id] contributes *)
Definition joinByID (db : DB) (id : Z) : option User.t :=
  find (fun u => Z.eqb (User.ID u) id) (users db).

(** [INSERT INTO users (uuid, name, email, ...)]; [uuid] and [email] are
    UNIQUE; sets [user.ID] *)
Definition Create (user : User.t) (db : DB) : result (User.t * DB) :=
  if existsb (fun u => String.eqb (User.UUID u) (User.UUID user)
                       || String.eqb (User.Email u) (User.Email user))
             (users db)
  then Err NewDatabaseError
  else
    let id := nextID (map User.ID (users db)) in
    let user := User.mk id (User.UUID user) (User.Name user) (User.Email user) in
    Ok (user, withUsers db (users db ++ [user])).

(** [SELECT ... FROM users WHERE id = ?] *)
Definition GetByID (db : DB) (id : Z) : result User.t :=
  match find (fun u => Z.eqb (User.ID u) id) (users db) with
  | Some user => Ok user
  | None => Err (NewNotFoundError "User")
  end.

(** [SELECT ... FROM users WHERE email = ?] *)
Definition GetByEmail (db : DB) (email : string) : result User.t :=
  match find (fun u => String.eqb (User.Email u) email) (users db) with
  | Some user => Ok user
  | None => Err (NewNotFoundError "User")
  end.

End userRepository.

Module groupRepository.

Definition joinByID (db : DB) (id : Z) : option Group.t :=
  find (fun g => Z.eqb (Group.ID g) id) (groups db).

(** [SELECT ... FROM groups g LEFT JOIN users u ON g.created_by = u.id
    WHERE g.uuid = ?] *)
Definition GetByUUID (db : DB) (uuid : string) : result Group.t :=
  match find (fun g => String.eqb (Group.UUID g) uuid) (groups db) with
  | None => Err (NewNotFoundError "Group")
  | Some g =>
      let creator :=
        match userRepository.joinByID db (Group.CreatedBy g) with
        | Some u => Some (User.mk (Group.CreatedBy g) (User.UUID u)
                                  (User.Name u) (User.Email u))
        | None => None
        end in
      Ok (Group.mk (Group.ID g) (Group.UUID g) (Group.Name g)
                   (Group.Description g) (Group.CreatedBy g) creator)
  end.

(** [SELECT COUNT( * ) FROM group_members WHERE group_id = ? AND user_id = ?] *)
Definition IsMember (db : DB) (groupID userID : Z) : result bool :=
  let count :=
    goint.len (filter (fun m => Z.eqb (GroupMember.GroupID m) groupID
                                && Z.eqb (GroupMember.UserID m) userID)
                      (group_members db)) in
  Ok (0 <? count)%Z.

(** [INSERT INTO groups (uuid, name, description, created_by, ...)]; [uuid]
    is UNIQUE and [created_by] REFERENCES [users(id)]; sets [group.ID] *)
Definition Create (group : Group.t) (db : DB) : result (Group.t * DB) :=
  if existsb (fun g => String.eqb (Group.UUID g) (Group.UUID group)) (groups db)
     || negb (existsb (fun u => Z.eqb (User.ID u) (Group.CreatedBy group))
                      (users db))
  then Err NewDatabaseError
  else
    let id := nextID (map Group.ID (groups db)) in
    let group := Group.mk id (Group.UUID group) (Group.Name group)
                          (Group.Description group) (Group.CreatedBy group)
                          (Group.Creator group) in
    Ok (group,
        withGroups db
          (groups db ++ [Group.mk id (Group.UUID group) (Group.Name group)
                           (Group.Description group) (Group.CreatedBy group)
                           None])).

(** [SELECT ... FROM groups g LEFT JOIN users u ON g.created_by = u.id
    WHERE g.id = ?] *)
Definition GetByID (db : DB) (id : Z) : result Group.t :=
  match find (fun g => Z.eqb (Group.ID g) id) (groups db) with
  | None => Err (NewNotFoundError "Group")
  | Some g =>
      let creator :=
        match userRepository.joinByID db (Group.CreatedBy g) with
        | Some u => Some (User.mk (Group.CreatedBy g) (User.UUID u)
                                  (User.Name u) (User.Email u))
        | None => None
        end in
      Ok (Group.mk (Group.ID g) (Group.UUID g) (Group.Name g)
                   (Group.Description g) (Group.CreatedBy g) creator)
  end.

(** [WHERE group_id = ? AND user_id = ?], also the UNIQUE KEY
    [unique_group_user] *)
Definition isMembership (groupID userID : Z) (m : GroupMember.t) : bool :=
  Z.eqb (GroupMember.GroupID m) groupID && Z.eqb (GroupMember.UserID m) userID.

(** [INSERT INTO group_members (group_id, user_id, joined_at) VALUES (?, ?,
    NOW()) ON DUPLICATE KEY UPDATE joined_at = joined_at]: nothing changes
    when the membership exists; [group_id] REFERENCES [groups(id)] and
    [user_id] REFERENCES [users(id)]. *)
Definition AddMember (groupID userID : Z) (db : DB) : result (unit * DB) :=
  if existsb (isMembership groupID userID) (group_members db) then Ok (tt, db)
  else if negb (existsb (fun g => Z.eqb (Group.ID g) groupID) (groups db))
          || negb (existsb (fun u => Z.eqb (User.ID u) userID) (users db))
  then Err NewDatabaseError
  else
    let id := nextID (map GroupMember.ID (group_members db)) in
    Ok (tt, withGroupMembers db
              (group_members db ++ [GroupMember.mk id groupID userID])).

(** [DELETE FROM group_members WHERE group_id = ? AND user_id = ?] *)
Definition RemoveMember (groupID userID : Z) (db : DB) : result (unit * DB) :=
  let rowsAffected :=
    goint.len (filter (isMembership groupID userID) (group_members db)) in
  if (rowsAffected =? 0)%Z then Err (NewNotFoundError "Group membership")
  else
    Ok (tt, withGroupMembers db
              (filter (fun m => negb (isMembership groupID userID m))
                      (group_members db))).

(** [SELECT u.id, u.uuid, u.name, u.email, ... FROM users u INNER JOIN
    group_members gm ON u.id = gm.user_id WHERE gm.group_id = ? ORDER BY
    gm.joined_at ASC]; the memberships are kept in the order they were
    inserted in, which is the order of [joined_at] (for memberships with one
    and the same [joined_at] the statement fixes no order, and no property
    below depends on it). *)
Definition GetMembers (db : DB) (groupID : Z) : result (list User.t) :=
  Ok (flat_map
        (fun gm => filter (fun u => Z.eqb (User.ID u) (GroupMember.UserID gm))
                          (users db))
        (filter (fun gm => Z.eqb (GroupMember.GroupID gm) groupID)
                (group_members db))).

End groupRepository.

Module balanceRepository.

(** [WHERE ub.group_id = ? AND ub.user_id = ? AND ub.currency = ?], also
    the UNIQUE KEY [unique_group_user_currency] *)
Definition hasKey (groupID userID : Z) (currency : string)
           (row : Balance.t) : bool :=
  Z.eqb (Balance.GroupID row) groupID
  && Z.eqb (Balance.UserID row) userID
  && String.eqb (Balance.Currency row) currency.

Definition inGroup (groupID : Z) (currency : string) (row : Balance.t) : bool :=
  Z.eqb (Balance.GroupID row) groupID
  && String.eqb (Balance.Currency row) currency.

Definition joinGroup (db : DB) (groupID : Z) : option Group.t :=
  match groupRepository.joinByID db groupID with
  | Some g => Some (Group.mk groupID (Group.UUID g) (Group.Name g) "" 0 None)
  | None => None
  end.

Definition joinUser (db : DB) (userID : Z) : option User.t :=
  match userRepository.joinByID db userID with
  | Some u => Some (User.mk userID (User.UUID u) (User.Name u) (User.Email u))
  | None => None
  end.

Definition GetByGroupAndUser (db : DB) (groupID userID : Z)
           (currency : string) : result Balance.t :=
  match find (hasKey groupID userID currency) (user_balances db) with
  | None =>
      (* sql.ErrNoRows: return zero balance if no record exists *)
      Ok (Balance.mk 0 groupID userID Zero currency None None)
  | Some row =>
      Ok (Balance.mk (Balance.ID row) (Balance.GroupID row)
                     (Balance.UserID row) (Balance.Balance row)
                     (Balance.Currency row)
                     (joinGroup db (Balance.GroupID row))
                     (joinUser db (Balance.UserID row)))
  end.

(** [ORDER BY ub.balance DESC] *)
Fixpoint insertDesc (b : Balance.t) (l : list Balance.t) : list Balance.t :=
  match l with
  | [] => [b]
  | x :: xs =>
      if GreaterThan (Balance.Balance x) (Balance.Balance b)
      then x :: insertDesc b xs
      else b :: l
  end.

Definition orderByBalanceDesc (l : list Balance.t) : list Balance.t :=
  fold_right insertDesc [] l.

Definition GetGroupBalances (db : DB) (groupID : Z) (currency : string)
  : result (list Balance.t) :=
  Ok (map (fun row =>
             Balance.mk (Balance.ID row) (Balance.GroupID row)
                        (Balance.UserID row) (Balance.Balance row)
                        (Balance.Currency row) None
                        (joinUser db (Balance.UserID row)))
          (orderByBalanceDesc
             (filter (inGroup groupID currency) (user_balances db)))).

(** [INSERT INTO user_balances ... ON DUPLICATE KEY UPDATE
    balance = balance + VALUES(balance)]: add [amount] to the row of the
    key when there is one, insert a row holding [amount] otherwise. *)
Fixpoint upsertAdd (newID groupID userID : Z) (amount : Decimal)
         (currency : string) (rows : list Balance.t) : list Balance.t :=
  match rows with
  | [] => [Balance.mk newID groupID userID amount currency None None]
  | row :: rest =>
      if hasKey groupID userID currency row
      then Balance.withBalance row (Add (Balance.Balance row) amount) :: rest
      else row :: upsertAdd newID groupID userID amount currency rest
  end.

Definition UpdateBalance (groupID userID : Z) (amount : Decimal)
           (currency : string) (db : DB) : result (unit * DB) :=
  Ok (tt, withUserBalances db
            (upsertAdd (nextID (map Balance.ID (user_balances db)))
                       groupID userID amount currency (user_balances db))).

(** [INSERT INTO user_balances ... ON DUPLICATE KEY UPDATE
    balance = VALUES(balance)]: the row of the key takes the balance handed
    in when there is one, a row holding it is inserted otherwise. *)
Fixpoint upsertSet (newID : Z) (balance : Balance.t) (rows : list Balance.t)
  : list Balance.t :=
  match rows with
  | [] => [Balance.mk newID (Balance.GroupID balance) (Balance.UserID balance)
             (Balance.Balance balance) (Balance.Currency balance) None None]
  | row :: rest =>
      if hasKey (Balance.GroupID balance) (Balance.UserID balance)
                (Balance.Currency balance) row
      then Balance.withBalance row (Balance.Balance balance) :: rest
      else row :: upsertSet newID balance rest
  end.

Definition Upsert (balance : Balance.t) (db : DB) : result (unit * DB) :=
  Ok (tt, withUserBalances db
            (upsertSet (nextID (map Balance.ID (user_balances db)))
                       balance (user_balances db))).

End balanceRepository.

Module expenseRepository.

(** [INSERT INTO expenses ...]; [uuid] is UNIQUE; sets [expense.ID] *)
Definition Create (expense : Expense.t) (db : DB) : result (Expense.t * DB) :=
  if existsb (fun e => String.eqb (Expense.UUID e) (Expense.UUID expense))
             (expenses db)
  then Err NewDatabaseError
  else
    let id := nextID (map Expense.ID (expenses db)) in
    let expense := Expense.withID expense id in
    Ok (expense, withExpenses db (expenses db ++ [Expense.withSplits expense []])).

(** [INSERT INTO expense_splits ...]; [(expense_id, user_id)] is UNIQUE;
    sets [split.ID] *)
Definition CreateSplit (split : ExpenseSplit.t) (db : DB)
  : result (ExpenseSplit.t * DB) :=
  if existsb (fun s => Z.eqb (ExpenseSplit.ExpenseID s) (ExpenseSplit.ExpenseID split)
                       && Z.eqb (ExpenseSplit.UserID s) (ExpenseSplit.UserID split))
             (expense_splits db)
  then Err NewDatabaseError
  else
    let id := nextID (map ExpenseSplit.ID (expense_splits db)) in
    let split := ExpenseSplit.withID split id in
    Ok (split, withExpenseSplits db (expense_splits db ++ [split])).

Fixpoint scanSplits (db : DB) (rows : list ExpenseSplit.t)
  : result (list ExpenseSplit.t) :=
  match rows with
  | [] => Ok []
  | row :: rest =>
      match userRepository.joinByID db (ExpenseSplit.UserID row) with
      | None => Err NewDatabaseError (* NULL scanned into a string *)
      | Some u =>
          let* splits := scanSplits db rest in
          Ok (ExpenseSplit.mk (ExpenseSplit.ID row) (ExpenseSplit.ExpenseID row)
                (ExpenseSplit.UserID row) (ExpenseSplit.Amount row)
                (ExpenseSplit.Percentage row)
                (Some (User.mk (ExpenseSplit.UserID row) (User.UUID u)
                               (User.Name u) (User.Email u)))
              :: splits)
      end
  end.

(** [SELECT ... FROM expense_splits es LEFT JOIN users u ...
    WHERE es.expense_id = ? ORDER BY es.created_at ASC] *)
Definition GetExpenseSplits (db : DB) (expenseID : Z)
  : result (list ExpenseSplit.t) :=
  scanSplits db (filter (fun s => Z.eqb (ExpenseSplit.ExpenseID s) expenseID)
                        (expense_splits db)).

End expenseRepository.

Module settlementRepository.

(** [INSERT INTO settlements ...]; [uuid] is UNIQUE; sets [settlement.ID] *)
Definition Create (settlement : Settlement.t) (db : DB)
  : result (Settlement.t * DB) :=
  if existsb (fun s => String.eqb (Settlement.UUID s) (Settlement.UUID settlement))
             (settlements db)
  then Err NewDatabaseError
  else
    let id := nextID (map Settlement.ID (settlements db)) in
    let settlement := Settlement.withID settlement id in
    Ok (settlement, withSettlements db (settlements db ++ [settlement])).

(** [SELECT ... FROM settlements s LEFT JOIN groups g ... LEFT JOIN users fu
    ... LEFT JOIN users tu ... WHERE s.uuid = ?] *)
Definition GetByUUID (db : DB) (uuid : string) : result Settlement.t :=
  match find (fun s => String.eqb (Settlement.UUID s) uuid) (settlements db) with
  | None => Err (NewNotFoundError "Settlement")
  | Some s =>
      Ok (Settlement.mk (Settlement.ID s) (Settlement.UUID s)
            (Settlement.GroupID s) (Settlement.FromUserID s)
            (Settlement.ToUserID s) (Settlement.Amount s)
            (Settlement.Currency s) (Settlement.Description s)
            (balanceRepository.joinGroup db (Settlement.GroupID s))
            (balanceRepository.joinUser db (Settlement.FromUserID s))
            (balanceRepository.joinUser db (Settlement.ToUserID s)))
  end.

(** the same query [WHERE s.id = ?] *)
Definition GetByID (db : DB) (id : Z) : result Settlement.t :=
  match find (fun s => Z.eqb (Settlement.ID s) id) (settlements db) with
  | None => Err (NewNotFoundError "Settlement")
  | Some s =>
      Ok (Settlement.mk (Settlement.ID s) (Settlement.UUID s)
            (Settlement.GroupID s) (Settlement.FromUserID s)
            (Settlement.ToUserID s) (Settlement.Amount s)
            (Settlement.Currency s) (Settlement.Description s)
            (balanceRepository.joinGroup db (Settlement.GroupID s))
            (balanceRepository.joinUser db (Settlement.FromUserID s))
            (balanceRepository.joinUser db (Settlement.ToUserID s)))
  end.

End settlementRepository.

(** ** internal/service: the expense service *)

Module expenseService.
Section WithExternals.
Context {ext : Externals}.
Import utils.

(** The [for i, splitReq := range req.Splits] loop of
  [calculateEqualSplits]; [rest] is what remains of [req.Splits] from
  index [i] on. *)
Fixpoint equalSplitsLoop (db : DB) (req : CreateExpenseRequest.t) (groupID : Z)
       (amountPerUser : Decimal) (i : Z)
       (rest : list CreateExpenseSplitRequest.t)
       (totalAssigned : Decimal) (splits : list ExpenseSplit.t)
: result (list ExpenseSplit.t) :=
match rest with
| [] => Ok splits
| splitReq :: rest =>
    reject negb (IsValidUUID (CreateExpenseSplitRequest.UserUUID splitReq))
      with NewInvalidValueError "user_uuid"
             (CreateExpenseSplitRequest.UserUUID splitReq) in
    let* user := userRepository.GetByUUID db
                   (CreateExpenseSplitRequest.UserUUID splitReq) in
    let* isMember := groupRepository.IsMember db groupID (User.ID user) in
    reject negb isMember
      with NewValidationError "All users in split must be members of the group" in
    let amount :=
      (* for the last user, assign remaining amount to handle rounding *)
      if (i =? goint.len (CreateExpenseRequest.Splits req) - 1)%Z
      then Sub (CreateExpenseRequest.Amount req) totalAssigned
      else amountPerUser in
    equalSplitsLoop db req groupID amountPerUser (i + 1)%Z rest
      (Add totalAssigned amount)
      (splits ++ [ExpenseSplit.mk 0 0 (User.ID user) amount Zero (Some user)])
end.

Definition calculateEqualSplits (db : DB) (req : CreateExpenseRequest.t)
         (groupID : Z) : result (list ExpenseSplit.t) :=
let splitCount := NewFromInt (goint.len (CreateExpenseRequest.Splits req)) in
let amountPerUser :=
  Round (Div (CreateExpenseRequest.Amount req) splitCount) 2 in
equalSplitsLoop db req groupID amountPerUser 0
                (CreateExpenseRequest.Splits req) Zero [].

Fixpoint exactSplitsLoop (db : DB) (groupID : Z)
       (rest : list CreateExpenseSplitRequest.t)
       (totalSplitAmount : Decimal) (splits : list ExpenseSplit.t)
: result (list ExpenseSplit.t * Decimal) :=
match rest with
| [] => Ok (splits, totalSplitAmount)
| splitReq :: rest =>
    reject negb (IsValidUUID (CreateExpenseSplitRequest.UserUUID splitReq))
      with NewInvalidValueError "user_uuid"
             (CreateExpenseSplitRequest.UserUUID splitReq) in
    reject LessThanOrEqual (CreateExpenseSplitRequest.Amount splitReq) Zero
      with NewValidationError "Split amounts must be greater than zero" in
    let* user := userRepository.GetByUUID db
                   (CreateExpenseSplitRequest.UserUUID splitReq) in
    let* isMember := groupRepository.IsMember db groupID (User.ID user) in
    reject negb isMember
      with NewValidationError "All users in split must be members of the group" in
    exactSplitsLoop db groupID rest
      (Add totalSplitAmount (CreateExpenseSplitRequest.Amount splitReq))
      (splits ++ [ExpenseSplit.mk 0 0 (User.ID user)
                    (CreateExpenseSplitRequest.Amount splitReq) Zero
                    (Some user)])
end.

Definition calculateExactSplits (db : DB) (req : CreateExpenseRequest.t)
         (groupID : Z) : result (list ExpenseSplit.t) :=
let* (splits, totalSplitAmount) :=
  exactSplitsLoop db groupID (CreateExpenseRequest.Splits req) Zero [] in
(* validate that split amounts equal total expense amount *)
reject negb (Equal totalSplitAmount (CreateExpenseRequest.Amount req))
  with NewInvalidSplitError
         "Sum of split amounts must equal total expense amount" in
Ok splits.

Fixpoint percentageSplitsLoop (db : DB) (req : CreateExpenseRequest.t)
       (groupID : Z) (rest : list CreateExpenseSplitRequest.t)
       (totalPercentage : Decimal) (splits : list ExpenseSplit.t)
: result (list ExpenseSplit.t * Decimal) :=
match rest with
| [] => Ok (splits, totalPercentage)
| splitReq :: rest =>
    reject negb (IsValidUUID (CreateExpenseSplitRequest.UserUUID splitReq))
      with NewInvalidValueError "user_uuid"
             (CreateExpenseSplitRequest.UserUUID splitReq) in
    check ValidatePercentage (CreateExpenseSplitRequest.Percentage splitReq) in
    let* user := userRepository.GetByUUID db
                   (CreateExpenseSplitRequest.UserUUID splitReq) in
    let* isMember := groupRepository.IsMember db groupID (User.ID user) in
    reject negb isMember
      with NewValidationError "All users in split must be members of the group" in
    (* calculate amount from percentage *)
    let amount :=
      Round (Div (Mul (CreateExpenseRequest.Amount req)
                      (CreateExpenseSplitRequest.Percentage splitReq))
                 (NewFromInt 100)) 2 in
    percentageSplitsLoop db req groupID rest
      (Add totalPercentage (CreateExpenseSplitRequest.Percentage splitReq))
      (splits ++ [ExpenseSplit.mk 0 0 (User.ID user) amount
                    (CreateExpenseSplitRequest.Percentage splitReq)
                    (Some user)])
end.

Definition calculatePercentageSplits (db : DB) (req : CreateExpenseRequest.t)
         (groupID : Z) : result (list ExpenseSplit.t) :=
let* (splits, totalPercentage) :=
  percentageSplitsLoop db req groupID (CreateExpenseRequest.Splits req)
                       Zero [] in
(* validate that percentages sum to 100 *)
reject negb (Equal totalPercentage (NewFromInt 100))
  with NewInvalidSplitError "Percentages must sum to 100" in
Ok splits.

Definition validateAndCalculateSplits (db : DB) (req : CreateExpenseRequest.t)
         (groupID : Z) : result (list ExpenseSplit.t) :=
reject (goint.len (CreateExpenseRequest.Splits req) =? 0)%Z
  with NewValidationError "At least one split is required" in
if String.eqb (CreateExpenseRequest.SplitType req) SplitTypeEqual then
  calculateEqualSplits db req groupID
else if String.eqb (CreateExpenseRequest.SplitType req) SplitTypeExact then
  calculateExactSplits db req groupID
else if String.eqb (CreateExpenseRequest.SplitType req) SplitTypePercentage then
  calculatePercentageSplits db req groupID
else
  Err (NewInvalidValueError "split_type" (CreateExpenseRequest.SplitType req)).

(** for each split, increase the user's debt *)
Fixpoint debitSplits (expense : Expense.t) (splits : list ExpenseSplit.t)
: M unit :=
match splits with
| [] => ret tt
| split :: rest =>
    do* _ := exec (balanceRepository.UpdateBalance
                     (Expense.GroupID expense) (ExpenseSplit.UserID split)
                     (ExpenseSplit.Amount split) (Expense.Currency expense)) in
    debitSplits expense rest
end.

Definition updateBalancesAfterExpense (expense : Expense.t)
         (splits : list ExpenseSplit.t) : M unit :=
do* _ := debitSplits expense splits in
(* decrease the payer's debt (they paid for others) *)
do* _ := exec (balanceRepository.UpdateBalance
                 (Expense.GroupID expense) (Expense.PaidBy expense)
                 (Neg (Expense.Amount expense)) (Expense.Currency expense)) in
ret tt.

(** [for _, split := range splits { split.ExpenseID = expense.ID; CreateSplit }] *)
Fixpoint createSplits (expense : Expense.t) (splits : list ExpenseSplit.t)
: M (list ExpenseSplit.t) :=
match splits with
| [] => ret []
| split :: rest =>
    let split := ExpenseSplit.withExpenseID split (Expense.ID expense) in
    do* split := exec (expenseRepository.CreateSplit split) in
    do* rest := createSplits expense rest in
    ret (split :: rest)
end.

(** [newUUID] is the value [utils.GenerateUUID()] returns. *)
Definition CreateExpense (newUUID : string) (req : CreateExpenseRequest.t)
: M Expense.t :=
guard ValidateAmount (CreateExpenseRequest.Amount req) in
guard ValidateDescription (CreateExpenseRequest.Description req) in
let currency :=
  if String.eqb (CreateExpenseRequest.Currency req) "" then "USD"
  else CreateExpenseRequest.Currency req in
guard ValidateCurrency currency in
refuse negb (IsValidUUID (CreateExpenseRequest.GroupUUID req))
  with NewInvalidValueError "group_uuid" (CreateExpenseRequest.GroupUUID req) in
refuse negb (IsValidUUID (CreateExpenseRequest.PaidByUUID req))
  with NewInvalidValueError "paid_by_uuid" (CreateExpenseRequest.PaidByUUID req) in
do* group := query (fun db => groupRepository.GetByUUID db
                                (CreateExpenseRequest.GroupUUID req)) in
do* payer := query (fun db => userRepository.GetByUUID db
                                (CreateExpenseRequest.PaidByUUID req)) in
do* isMember := query (fun db => groupRepository.IsMember db
                                   (Group.ID group) (User.ID payer)) in
refuse negb isMember
  with NewValidationError "Payer must be a member of the group" in
do* splits := query (fun db => validateAndCalculateSplits db req
                                 (Group.ID group)) in
let expense :=
  Expense.mk 0 newUUID (Group.ID group) (User.ID payer)
             (CreateExpenseRequest.Amount req) currency
             (CreateExpenseRequest.Description req)
             (CreateExpenseRequest.SplitType req) [] in
do* expense := WithTransaction (
  do* expense := exec (expenseRepository.Create expense) in
  do* splits := createSplits expense splits in
  do* _ := updateBalancesAfterExpense expense splits in
  ret expense) in
do* stored := query (fun db => expenseRepository.GetExpenseSplits db
                                 (Expense.ID expense)) in
ret (Expense.withSplits expense stored).

End WithExternals.
End expenseService.

(** ** internal/service: the settlement service *)

Module settlementService.
Section WithExternals.
Context {ext : Externals}.
Import utils.

Definition updateBalancesAfterSettlement (settlement : Settlement.t) : M unit :=
(* reduce debt for the payer (fromUser owes less) *)
do* _ := exec (balanceRepository.UpdateBalance
                 (Settlement.GroupID settlement) (Settlement.FromUserID settlement)
                 (Neg (Settlement.Amount settlement))
                 (Settlement.Currency settlement)) in
(* reduce credit for the receiver (toUser is owed less) *)
do* _ := exec (balanceRepository.UpdateBalance
                 (Settlement.GroupID settlement) (Settlement.ToUserID settlement)
                 (Settlement.Amount settlement)
                 (Settlement.Currency settlement)) in
ret tt.

Definition CreateSettlement (newUUID : string) (req : CreateSettlementRequest.t)
: M Settlement.t :=
guard ValidateAmount (CreateSettlementRequest.Amount req) in
let currency :=
  if String.eqb (CreateSettlementRequest.Currency req) "" then "USD"
  else CreateSettlementRequest.Currency req in
guard ValidateCurrency currency in
refuse negb (IsValidUUID (CreateSettlementRequest.GroupUUID req))
  with NewInvalidValueError "group_uuid"
         (CreateSettlementRequest.GroupUUID req) in
refuse negb (IsValidUUID (CreateSettlementRequest.FromUserUUID req))
  with NewInvalidValueError "from_user_uuid"
         (CreateSettlementRequest.FromUserUUID req) in
refuse negb (IsValidUUID (CreateSettlementRequest.ToUserUUID req))
  with NewInvalidValueError "to_user_uuid"
         (CreateSettlementRequest.ToUserUUID req) in
refuse String.eqb (CreateSettlementRequest.FromUserUUID req)
                  (CreateSettlementRequest.ToUserUUID req)
  with NewValidationError "From user and to user cannot be the same" in
do* group := query (fun db => groupRepository.GetByUUID db
                                (CreateSettlementRequest.GroupUUID req)) in
do* fromUser := query (fun db => userRepository.GetByUUID db
                                   (CreateSettlementRequest.FromUserUUID req)) in
do* toUser := query (fun db => userRepository.GetByUUID db
                                 (CreateSettlementRequest.ToUserUUID req)) in
do* isFromMember := query (fun db => groupRepository.IsMember db
                                       (Group.ID group) (User.ID fromUser)) in
refuse negb isFromMember
  with NewValidationError "From user must be a member of the group" in
do* isToMember := query (fun db => groupRepository.IsMember db
                                     (Group.ID group) (User.ID toUser)) in
refuse negb isToMember
  with NewValidationError "To user must be a member of the group" in
(* get current balances to validate settlement amount *)
do* fromBalance := query (fun db => balanceRepository.GetByGroupAndUser db
                                      (Group.ID group) (User.ID fromUser)
                                      currency) in
(* user cannot pay more than they owe *)
refuse GreaterThan (CreateSettlementRequest.Amount req)
                   (Balance.Balance fromBalance)
  with NewInsufficientFundError
         (Decimal_String (Balance.Balance fromBalance))
         (Decimal_String (CreateSettlementRequest.Amount req)) in
let settlement :=
  Settlement.mk 0 newUUID (Group.ID group) (User.ID fromUser)
                (User.ID toUser) (CreateSettlementRequest.Amount req)
                currency (CreateSettlementRequest.Description req)
                None None None in
do* settlement := WithTransaction (
  do* settlement := exec (settlementRepository.Create settlement) in
  do* _ := updateBalancesAfterSettlement settlement in
  ret settlement) in
(* get complete settlement with relationships *)
query (fun db => settlementRepository.GetByUUID db (Settlement.UUID settlement)).

Definition GetSettlementByUUID (uuid : string) : M Settlement.t :=
refuse negb (IsValidUUID uuid) with NewInvalidValueError "uuid" uuid in
query (fun db => settlementRepository.GetByUUID db uuid).

(** *** Debt simplification *)

(** Separate creditors (negative balance, made positive) and debtors
  (positive balance); the pair is [(creditors, debtors)]. *)
Definition separate (balances : list Balance.t)
: list Balance.t * list Balance.t :=
fold_left
  (fun '(creditors, debtors) balance =>
     if GreaterThan (Balance.Balance balance) Zero then
       (creditors, debtors ++ [balance])
     else if LessThan (Balance.Balance balance) Zero then
       (creditors ++ [Balance.withBalance balance
                        (Abs (Balance.Balance balance))],
        debtors)
     else (creditors, debtors))
  balances ([], []).

(** [&models.Balance{User: c.User, Balance: c.Balance}] *)
Definition workingCopy (b : Balance.t) : Balance.t :=
Balance.mk 0 0 0 (Balance.Balance b) "" None (Balance.User b).

Definition balanceAt (work : list Balance.t) (idx : nat) : Balance.t :=
nth idx work Balance.zero.

(** [for i, c := range work { if c.Balance.GreaterThan(work[maxIdx].Balance)
  { maxIdx = i } }] *)
Fixpoint scanMax (work : list Balance.t) (i : nat) (rest : list Balance.t)
       (maxIdx : nat) : nat :=
match rest with
| [] => maxIdx
| c :: rest =>
    scanMax work (S i) rest
            (if GreaterThan (Balance.Balance c)
                            (Balance.Balance (balanceAt work maxIdx))
             then i else maxIdx)
end.

(** index of the largest balance, the first one among equals *)
Definition largest (work : list Balance.t) : nat := scanMax work 0 work 0.

(** [work[idx].Balance = v] through the pointer held in the slice *)
Definition setBalanceAt (idx : nat) (v : Decimal) (work : list Balance.t)
: list Balance.t :=
firstn idx work
++ match skipn idx work with
   | [] => []
   | b :: rest => Balance.withBalance b v :: rest
   end.

(** [append(work[:idx], work[idx+1:]...)] *)
Definition removeAt (idx : nat) (work : list Balance.t) : list Balance.t :=
firstn idx work ++ skipn (S idx) work.

Record matching : Type := mkMatching {
creditorsWork : list Balance.t;
debtorsWork : list Balance.t;
suggestions : list SettlementSuggestion.t
}.

(** A policy choosing the creditor and the debtor to match next; the
  source uses [largest] for both. *)
Definition selection : Type := list Balance.t -> nat.

(** One iteration of the greedy loop. *)
Definition matchStep (pickCreditor pickDebtor : selection)
         (currency : string) (m : matching) : matching :=
let maxCreditorIdx := pickCreditor (creditorsWork m) in
let maxDebtorIdx := pickDebtor (debtorsWork m) in
let creditor := balanceAt (creditorsWork m) maxCreditorIdx in
let debtor := balanceAt (debtorsWork m) maxDebtorIdx in
(* minimum of what creditor is owed and what debtor owes *)
let settlementAmount :=
  if LessThan (Balance.Balance debtor) (Balance.Balance creditor)
  then Balance.Balance debtor
  else Balance.Balance creditor in
let suggestions :=
  suggestions m ++ [SettlementSuggestion.mk (Balance.User debtor)
                      (Balance.User creditor) settlementAmount currency] in
let creditorBalance := Sub (Balance.Balance creditor) settlementAmount in
let debtorBalance := Sub (Balance.Balance debtor) settlementAmount in
let creditorsWork :=
  setBalanceAt maxCreditorIdx creditorBalance (creditorsWork m) in
let debtorsWork :=
  setBalanceAt maxDebtorIdx debtorBalance (debtorsWork m) in
(* remove users with zero balance *)
let creditorsWork :=
  if Equal creditorBalance Zero
  then removeAt maxCreditorIdx creditorsWork else creditorsWork in
let debtorsWork :=
  if Equal debtorBalance Zero
  then removeAt maxDebtorIdx debtorsWork else debtorsWork in
mkMatching creditorsWork debtorsWork suggestions.

(** [for len(creditorsWork) > 0 && len(debtorsWork) > 0 { ... }], run for
  at most [fuel] iterations; [None] when the fuel runs out first. *)
Fixpoint matchLoop (pickCreditor pickDebtor : selection) (currency : string)
       (fuel : nat) (m : matching) : option matching :=
match creditorsWork m, debtorsWork m with
| _ :: _, _ :: _ =>
    match fuel with
    | O => None
    | S fuel =>
        matchLoop pickCreditor pickDebtor currency fuel
                  (matchStep pickCreditor pickDebtor currency m)
    end
| _, _ => Some m
end.

Definition startMatching (creditors debtors : list Balance.t) : matching :=
mkMatching (map workingCopy creditors) (map workingCopy debtors) [].

(** The greedy matching under an arbitrary selection policy; every
  iteration removes a party, so [length creditors + length debtors]
  iterations are enough (lemma [matchLoop_terminates]). *)
Definition generateSettlementSuggestionsWith
         (pickCreditor pickDebtor : selection)
         (creditors debtors : list Balance.t) (currency : string)
: option (list SettlementSuggestion.t) :=
option_map suggestions
  (matchLoop pickCreditor pickDebtor currency
             (List.length creditors + List.length debtors)
             (startMatching creditors debtors)).

(** greedy algorithm: always match the largest debtor with the largest
  creditor *)
Definition generateSettlementSuggestions (creditors debtors : list Balance.t)
         (currency : string) : list SettlementSuggestion.t :=
match generateSettlementSuggestionsWith largest largest
        creditors debtors currency with
| Some suggestions => suggestions
| None => []
end.

(** [SimplifyDebts] from the balances of the group on. *)
Definition simplifyBalances (balances : list Balance.t) (currency : string)
: DebtSimplification.t :=
let '(creditors, debtors) := separate balances in
(* worst case: everyone owes everyone *)
let originalTransactions :=
  goint.mul (goint.len debtors) (goint.len creditors) in
let originalTransactions :=
  (* at least 1 to avoid division by zero *)
  if (originalTransactions =? 0)%Z then 1%Z else originalTransactions in
let suggestions := generateSettlementSuggestions creditors debtors currency in
let simplifiedTransactions := goint.len suggestions in
let savings := goint.sub originalTransactions simplifiedTransactions in
let savings := if (savings <? 0)%Z then 0%Z else savings in
DebtSimplification.mk originalTransactions simplifiedTransactions
                      savings suggestions.

Definition SimplifyDebts (groupUUID : string) : M DebtSimplification.t :=
refuse negb (IsValidUUID groupUUID)
  with NewInvalidValueError "group_uuid" groupUUID in
do* group := query (fun db => groupRepository.GetByUUID db groupUUID) in
(* get all balances for the group (assuming USD for now) *)
let currency := "USD" in
do* balances := query (fun db => balanceRepository.GetGroupBalances db
                                   (Group.ID group) currency) in
ret (simplifyBalances balances currency).

End WithExternals.
End settlementService.

(** ** internal/service: the balance service *)

Module balanceService.
Section WithExternals.
Context {ext : Externals}.
Import utils.

(** One iteration of the [for _, balance := range balances] loop of
  [GetGroupBalanceSheet]; the state is
  [(userBalances, totalPositive, totalNegative)]. *)
Definition sheetStep (state : list UserBalance.t * Decimal * Decimal)
         (balance : Balance.t) : list UserBalance.t * Decimal * Decimal :=
let '(userBalances, totalPositive, totalNegative) := state in
let userBalance :=
  UserBalance.mk (Balance.UserID balance) (Balance.GroupID balance)
                 (Balance.User balance) (Balance.Balance balance)
                 (Balance.Currency balance) in
let userBalances := userBalances ++ [userBalance] in
if GreaterThan (Balance.Balance balance) Zero then
  (userBalances, Add totalPositive (Balance.Balance balance), totalNegative)
else if LessThan (Balance.Balance balance) Zero then
  (userBalances, totalPositive,
   Add totalNegative (Abs (Balance.Balance balance)))
else (userBalances, totalPositive, totalNegative).

(** [GetGroupBalanceSheet] from the balances of the group on *)
Definition balanceSheet (group : Group.t) (balances : list Balance.t)
         (currency : string) : BalanceSheet.t :=
let '(userBalances, totalPositive, totalNegative) :=
  fold_left sheetStep balances ([], Zero, Zero) in
let summary :=
  BalanceSummary.mk totalPositive totalNegative
                    (* should be close to zero in a balanced system *)
                    (Sub totalPositive totalNegative)
                    (goint.len userBalances) in
BalanceSheet.mk group userBalances summary currency.

Definition GetGroupBalanceSheet (groupUUID : string) : M BalanceSheet.t :=
refuse negb (IsValidUUID groupUUID)
  with NewInvalidValueError "group_uuid" groupUUID in
do* group := query (fun db => groupRepository.GetByUUID db groupUUID) in
(* get all balances for the group (assuming USD for now) *)
let currency := "USD" in
do* balances := query (fun db => balanceRepository.GetGroupBalances db
                                   (Group.ID group) currency) in
ret (balanceSheet group balances currency).

(** Separate creditors and debtors; the pair is [(creditors, debtors)].
  Unlike [SimplifyDebts], the creditors keep their negative balance. *)
Definition separate (balances : list Balance.t)
: list Balance.t * list Balance.t :=
fold_left
  (fun '(creditors, debtors) balance =>
     if GreaterThan (Balance.Balance balance) Zero then
       (creditors, debtors ++ [balance])
     else if LessThan (Balance.Balance balance) Zero then
       (creditors ++ [balance], debtors)
     else (creditors, debtors))
  balances ([], []).

(** [decimal.NewFromFloat(0.01)] *)
Definition oneCent : Decimal := 1 # 100.

(** The body of [for _, debtor := range debtors]: each debtor owes
  proportionally to each creditor. *)
Definition debtsOf (creditors : list Balance.t) (currency : string)
         (relationships : list DebtRelationship.t) (debtor : Balance.t)
: list DebtRelationship.t :=
let totalCredit :=
  fold_left (fun totalCredit creditor =>
               Add totalCredit (Abs (Balance.Balance creditor)))
            creditors Zero in
if GreaterThan totalCredit Zero then
  fold_left
    (fun relationships creditor =>
       (* calculate proportional debt *)
       let proportion := Div (Abs (Balance.Balance creditor)) totalCredit in
       let debtAmount := Round (Mul (Balance.Balance debtor) proportion) 2 in
       (* only include debts > 1 cent *)
       if GreaterThan debtAmount oneCent then
         relationships ++ [DebtRelationship.mk (Balance.User creditor)
                             (Balance.User debtor) debtAmount currency]
       else relationships)
    creditors relationships
else relationships.

(** [GetDebtRelationships] from the balances of the group on *)
Definition debtRelationships (balances : list Balance.t) (currency : string)
: list DebtRelationship.t :=
let '(creditors, debtors) := separate balances in
fold_left (debtsOf creditors currency) debtors [].

Definition GetDebtRelationships (groupUUID : string)
: M (list DebtRelationship.t) :=
refuse negb (IsValidUUID groupUUID)
  with NewInvalidValueError "group_uuid" groupUUID in
do* group := query (fun db => groupRepository.GetByUUID db groupUUID) in
(* get all balances for the group *)
let currency := "USD" in
do* balances := query (fun db => balanceRepository.GetGroupBalances db
                                   (Group.ID group) currency) in
ret (debtRelationships balances currency).

End WithExternals.
End balanceService.

(** ** internal/service: the group service *)

Module groupService.
Section WithExternals.
Context {ext : Externals}.
Import utils.

(** [newUUID] is the value [utils.GenerateUUID()] returns. *)
Definition CreateGroup (newUUID : string) (req : CreateGroupRequest.t)
         (creatorUUID : string) : M Group.t :=
guard ValidateName (CreateGroupRequest.Name req) in
refuse negb (IsValidUUID creatorUUID)
  with NewInvalidValueError "creator_uuid" creatorUUID in
do* creator := query (fun db => userRepository.GetByUUID db creatorUUID) in
let group :=
  Group.mk 0 newUUID (CreateGroupRequest.Name req)
           (CreateGroupRequest.Description req) (User.ID creator) None in
do* group := WithTransaction (
  do* group := exec (groupRepository.Create group) in
  (* add creator as first member *)
  do* _ := exec (groupRepository.AddMember (Group.ID group) (User.ID creator)) in
  ret group) in
ret (Group.mk (Group.ID group) (Group.UUID group) (Group.Name group)
              (Group.Description group) (Group.CreatedBy group)
              (Some creator)).

Definition AddMember (groupUUID : string) (req : AddMemberRequest.t) : M unit :=
refuse negb (IsValidUUID groupUUID)
  with NewInvalidValueError "group_uuid" groupUUID in
refuse negb (IsValidUUID (AddMemberRequest.UserUUID req))
  with NewInvalidValueError "user_uuid" (AddMemberRequest.UserUUID req) in
do* group := query (fun db => groupRepository.GetByUUID db groupUUID) in
do* user := query (fun db => userRepository.GetByUUID db
                               (AddMemberRequest.UserUUID req)) in
(* check if user is already a member *)
do* isMember := query (fun db => groupRepository.IsMember db
                                   (Group.ID group) (User.ID user)) in
refuse isMember
  with NewAlreadyExistsError "User is already a member of this group" in
WithTransaction (exec (groupRepository.AddMember (Group.ID group)
                                                 (User.ID user))).

Definition RemoveMember (groupUUID userUUID : string) : M unit :=
refuse negb (IsValidUUID groupUUID)
  with NewInvalidValueError "group_uuid" groupUUID in
refuse negb (IsValidUUID userUUID)
  with NewInvalidValueError "user_uuid" userUUID in
do* group := query (fun db => groupRepository.GetByUUID db groupUUID) in
do* user := query (fun db => userRepository.GetByUUID db userUUID) in
WithTransaction (exec (groupRepository.RemoveMember (Group.ID group)
                                                    (User.ID user))).

Definition GetGroupMembers (groupUUID : string) : M (list User.t) :=
refuse negb (IsValidUUID groupUUID)
  with NewInvalidValueError "group_uuid" groupUUID in
do* group := query (fun db => groupRepository.GetByUUID db groupUUID) in
query (fun db => groupRepository.GetMembers db (Group.ID group)).

End WithExternals.
End groupService.

(** ** internal/service: the user service *)

Module userService.
Section WithExternals.
Context {ext : Externals}.
Import utils.

(** [newUUID] is the value [utils.GenerateUUID()] returns. *)
Definition CreateUser (newUUID : string) (req : CreateUserRequest.t)
: M User.t :=
guard ValidateName (CreateUserRequest.Name req) in
guard ValidateEmail (CreateUserRequest.Email req) in
(* check if user with email already exists *)
do* existingUser := attempt (fun db => userRepository.GetByEmail db
                                         (CreateUserRequest.Email req)) in
match existingUser with
| Ok _ => fail (NewAlreadyExistsError "User with this email")
| Err err =>
    (* if error is not "not found", return it *)
    refuse negb (String.eqb (Code err) ErrCodeNotFound) with err in
    let user :=
      User.mk 0 newUUID (CreateUserRequest.Name req)
              (CreateUserRequest.Email req) in
    WithTransaction (exec (userRepository.Create user))
end.

Definition GetUserByUUID (uuid : string) : M User.t :=
refuse negb (IsValidUUID uuid) with NewInvalidValueError "uuid" uuid in
query (fun db => userRepository.GetByUUID db uuid).

Definition GetUserByEmail (email : string) : M User.t :=
guard ValidateEmail email in
query (fun db => userRepository.GetByEmail db email).

End WithExternals.
End userService.

(** ** A reference instance of the third-party functions, and sample data

    Used to run the services on concrete requests. *)

Module reference.

Definition isHexDigit (c : ascii) : bool :=
  let n := nat_of_ascii c in
  ((48 <=? n) && (n <=? 57) || (97 <=? n) && (n <=? 102)
   || (65 <=? n) && (n <=? 70))%nat.

(** the canonical textual form xxxxxxxx-xxxx-xxxx-xxxx-xxxxxxxxxxxx,
    which [uuid.Parse] accepts *)
Fixpoint canonicalFrom (i : nat) (s : string) : bool :=
  match s with
  | EmptyString => (i =? 36)%nat
  | String c s =>
      (if ((i =? 8) || (i =? 13) || (i =? 18) || (i =? 23))%nat
       then Ascii.eqb c "-"%char else isHexDigit c)
      && canonicalFrom (S i) s
  end.
Definition canonicalUUID (s : string) : bool := canonicalFrom 0 s.

Definition upperAscii (c : ascii) : ascii :=
  let n := nat_of_ascii c in
  if ((97 <=? n) && (n <=? 122))%nat then ascii_of_nat (n - 32) else c.
Fixpoint toUpper (s : string) : string :=
  match s with
  | EmptyString => EmptyString
  | String c s => String (upperAscii c) (toUpper s)
  end.

Definition isSpace (c : ascii) : bool :=
  let n := nat_of_ascii c in
  ((n =? 32) || (9 <=? n) && (n <=? 13))%nat.
Fixpoint trimLeft (s : string) : string :=
  match s with
  | EmptyString => EmptyString
  | String c s' => if isSpace c then trimLeft s' else s
  end.
Fixpoint rev (s acc : string) : string :=
  match s with
  | EmptyString => acc
  | String c s => rev s (String c acc)
  end.
Definition trimSpace (s : string) : string :=
  rev (trimLeft (rev (trimLeft s) EmptyString)) EmptyString.

Definition digit (d : Z) : ascii := ascii_of_nat (48 + Z.to_nat d).
Fixpoint digitsOf (fuel : nat) (n : Z) (acc : string) : string :=
  match fuel with
  | O => acc
  | S fuel =>
      let acc := String (digit (n mod 10)) acc in
      if (n / 10 =? 0)%Z then acc else digitsOf fuel (n / 10)%Z acc
  end.
Fixpoint fraction (fuel : nat) (r den : Z) : string :=
  match fuel with
  | O => EmptyString
  | S fuel =>
      if (r =? 0)%Z then EmptyString
      else String (digit (r * 10 / den)) (fraction fuel (r * 10 mod den)%Z den)
  end.
(** fixed-point notation without trailing zeros *)
Definition formatDecimal (d : Q) : string :=
  let d := Qred d in
  let den := Zpos (Qden d) in
  let n := Z.abs (Qnum d) in
  ((if (Qnum d <? 0)%Z then "-" else "")
   ++ digitsOf (S (Z.to_nat (Z.log2 (n / den + 1)))) (n / den)%Z ""
   ++ (if (n mod den =? 0)%Z then ""
       else "." ++ fraction (S (Z.to_nat (Z.log2 den))) (n mod den)%Z den))%string.

Definition externals : Externals := {|
  uuid_Parse_ok := canonicalUUID;
  strings_ToUpper := toUpper;
  strings_TrimSpace := trimSpace;
  Decimal_String := formatDecimal
|}.

(** The group and users of the unit tests. *)
Definition alice : User.t :=
  User.mk 1 "aaaaaaaa-aaaa-aaaa-aaaa-aaaaaaaaaaaa" "Alice" "alice@example.com".
Definition bob : User.t :=
  User.mk 2 "bbbbbbbb-bbbb-bbbb-bbbb-bbbbbbbbbbbb" "Bob" "bob@example.com".
Definition carol : User.t :=
  User.mk 3 "cccccccc-cccc-cccc-cccc-cccccccccccc" "Carol" "carol@example.com".
Definition trip : Group.t :=
  Group.mk 10 "11111111-1111-1111-1111-111111111111" "Trip" "" 1 None.

Definition db0 : DB :=
  mkDB [alice; bob; carol] [trip]
       [GroupMember.mk 1 10 1; GroupMember.mk 2 10 2; GroupMember.mk 3 10 3]
       [] [] [] [].

Definition splitFor (u : User.t) (amount percentage : Decimal)
  : CreateExpenseSplitRequest.t :=
  CreateExpenseSplitRequest.mk (User.UUID u) amount percentage.

Definition expenseRequest (amount : Decimal) (splitType : SplitType)
           (splits : list CreateExpenseSplitRequest.t) : CreateExpenseRequest.t :=
  CreateExpenseRequest.mk (Group.UUID trip) (User.UUID alice) amount "USD"
                          "Dinner" splitType splits.

Definition newUUID : string := "eeeeeeee-eeee-4eee-8eee-eeeeeeeeeeee".

End reference.

(** ** Sample requests and snapshots *)

Module samples.
Import reference.

(** 100.00 split equally between Alice, Bob and Carol *)
Definition equalDinner : CreateExpenseRequest.t :=
  expenseRequest 100 SplitTypeEqual
                 [splitFor alice 0 0; splitFor bob 0 0; splitFor carol 0 0].

(** 200.00 split 60 % / 40 % *)
Definition hotel : CreateExpenseRequest.t :=
  expenseRequest 200 SplitTypePercentage
                 [splitFor alice 0 60; splitFor bob 0 40].

(** 10.00 split 33.33 % / 33.33 % / 33.34 % *)
Definition thirds : CreateExpenseRequest.t :=
  expenseRequest 10 SplitTypePercentage
                 [splitFor alice 0 (3333 # 100); splitFor bob 0 (3333 # 100);
                  splitFor carol 0 (3334 # 100)].

(** 100.00 with exact shares 30.00 and 70.00 *)
Definition cab : CreateExpenseRequest.t :=
  expenseRequest 100 SplitTypeExact
                 [splitFor alice 30 0; splitFor bob 70 0].

(** 100.00 with the shares 150.00 and -50.00, which sum to the total *)
Definition refund : CreateExpenseRequest.t :=
  expenseRequest 100 SplitTypeExact
                 [splitFor alice 150 0; splitFor bob (-50) 0].

(** Alice owes 20.00, Bob is owed 20.00 *)
Definition owing : DB :=
  withUserBalances db0
    [Balance.mk 1 10 1 20 "USD" None None;
     Balance.mk 2 10 2 (-20) "USD" None None].

(** Alice pays Bob the 20.00 she owes *)
Definition payBack : CreateSettlementRequest.t :=
  CreateSettlementRequest.mk (Group.UUID trip) (User.UUID alice)
                             (User.UUID bob) 20 "USD" "".

(** the snapshot of the unit test: Alice owes 50, Bob is owed 30, Carol 20 *)
Definition snapshot : list Balance.t :=
  [Balance.mk 1 10 1 50 "USD" None (Some alice);
   Balance.mk 2 10 2 (-30) "USD" None (Some bob);
   Balance.mk 3 10 3 (-20) "USD" None (Some carol)].

(** what [groupRepository.GetByUUID] returns for the group: the creator
    is joined in *)
Definition tripFound : Group.t :=
  Group.mk 10 (Group.UUID trip) "Trip" "" 1 (Some alice).

(** Alice tries to pay Bob 50.00 *)
Definition overpay : CreateSettlementRequest.t :=
  CreateSettlementRequest.mk (Group.UUID trip) (User.UUID alice)
                             (User.UUID bob) 50 "USD" "".

(** a group in which everything is settled *)
Definition settled : list Balance.t :=
  [Balance.mk 1 10 1 0 "USD" None (Some alice);
   Balance.mk 2 10 2 0 "USD" None (Some bob)].

End samples.

(** * Properties *)

(** ** Decimals *)

Section DecimalFacts.

Lemma Equal_iff (a b : Decimal) : Equal a b = true <-> a == b.
Proof.
  unfold Equal, Cmp. rewrite Qeq_alt.
  destruct (a ?= b); split; intro H; try reflexivity; discriminate H.
Qed.

Lemma Equal_false_iff (a b : Decimal) : Equal a b = false <-> ~ a == b.
Proof.
  rewrite <- Equal_iff. destruct (Equal a b); split; intro H;
    try reflexivity; try discriminate H; try (intro K; discriminate K).
  exfalso. apply H. reflexivity.
Qed.

Lemma GreaterThan_iff (a b : Decimal) : GreaterThan a b = true <-> b < a.
Proof.
  unfold GreaterThan, Cmp. rewrite (Qgt_alt a b).
  destruct (a ?= b); split; intro H; try reflexivity; discriminate H.
Qed.

Lemma GreaterThan_false_iff (a b : Decimal) : GreaterThan a b = false <-> a <= b.
Proof.
  unfold GreaterThan, Cmp. rewrite (Qle_alt a b).
  destruct (a ?= b); split; intro H; try reflexivity; try discriminate H;
    try (intro K; discriminate K).
  exfalso. apply H. reflexivity.
Qed.

Lemma LessThan_iff (a b : Decimal) : LessThan a b = true <-> a < b.
Proof.
  unfold LessThan, Cmp. rewrite (Qlt_alt a b).
  destruct (a ?= b); split; intro H; try reflexivity; discriminate H.
Qed.

Lemma LessThan_false_iff (a b : Decimal) : LessThan a b = false <-> b <= a.
Proof.
  split; intro H.
  - apply Qnot_lt_le. intro K. apply LessThan_iff in K. congruence.
  - destruct (LessThan a b) eqn:E; [|reflexivity].
    apply LessThan_iff in E. exfalso. apply (Qlt_not_le _ _ E H).
Qed.

Lemma LessThanOrEqual_iff (a b : Decimal) : LessThanOrEqual a b = true <-> a <= b.
Proof.
  unfold LessThanOrEqual, Cmp. rewrite (Qle_alt a b).
  destruct (a ?= b); split; intro H; try reflexivity; try discriminate H;
    try (intro K; discriminate K).
  exfalso. apply H. reflexivity.
Qed.

Lemma LessThanOrEqual_false_iff (a b : Decimal) :
  LessThanOrEqual a b = false <-> b < a.
Proof.
  split; intro H.
  - apply Qnot_le_lt. intro K. apply LessThanOrEqual_iff in K. congruence.
  - destruct (LessThanOrEqual a b) eqn:E; [|reflexivity].
    apply LessThanOrEqual_iff in E. exfalso. apply (Qlt_not_le _ _ H E).
Qed.

Lemma fold_Add_acc (l : list Decimal) (a : Decimal) :
  fold_left Add l a == a + Sum l.
Proof.
  unfold Sum. revert a.
  induction l as [|x l IH]; intro a; simpl.
  - unfold Zero. ring.
  - rewrite (IH (Add a x)), (IH (Add Zero x)). unfold Add, Zero. ring.
Qed.

Lemma Sum_nil : Sum [] = Zero.
Proof. reflexivity. Qed.

Lemma Sum_cons (x : Decimal) (l : list Decimal) : Sum (x :: l) == x + Sum l.
Proof.
  unfold Sum at 1. simpl. rewrite fold_Add_acc. unfold Add, Zero. ring.
Qed.

Lemma Sum_app (l1 l2 : list Decimal) : Sum (l1 ++ l2) == Sum l1 + Sum l2.
Proof.
  unfold Sum at 1. rewrite fold_left_app. rewrite fold_Add_acc. reflexivity.
Qed.

Lemma Sum_snoc (l : list Decimal) (x : Decimal) : Sum (l ++ [x]) = Add (Sum l) x.
Proof. unfold Sum. rewrite fold_left_app. reflexivity. Qed.

Lemma Sum_nonneg (l : list Decimal) : Forall (fun x => 0 <= x) l -> 0 <= Sum l.
Proof.
  induction 1 as [|x l Hx _ IH].
  - apply Qle_refl.
  - rewrite Sum_cons. cbv beta in Hx. lra.
Qed.

(** A sum of positive numbers is zero only when there are none. *)
Lemma Sum_positive_zero (l : list Decimal) :
  Forall (fun x => 0 < x) l -> Sum l == 0 -> l = [].
Proof.
  intros Hpos Hsum. destruct l as [|x l]; [reflexivity|].
  exfalso. inversion Hpos as [|? ? Hx Hl]; subst.
  rewrite Sum_cons in Hsum. cbv beta in Hx.
  assert (0 <= Sum l).
  { apply Sum_nonneg. eapply Forall_impl; [|exact Hl].
    intros a Ha. cbv beta in *. lra. }
  lra.
Qed.

End DecimalFacts.

(** ** The split calculator *)

Arguments groupRepository.IsMember : simpl never.
Arguments groupRepository.GetByUUID : simpl never.
Arguments userRepository.GetByUUID : simpl never.
Arguments balanceRepository.GetByGroupAndUser : simpl never.
Arguments utils.IsValidUUID : simpl never.
Arguments utils.ValidateAmount : simpl never.
Arguments utils.ValidateDescription : simpl never.
Arguments utils.ValidateCurrency : simpl never.
Arguments utils.ValidatePercentage : simpl never.
Arguments LessThanOrEqual : simpl never.
Arguments LessThan : simpl never.
Arguments GreaterThan : simpl never.
Arguments Equal : simpl never.
Arguments Round : simpl never.
Arguments Div : simpl never.

Section SplitCalculator.
Context {ext : Externals}.
Variables (db : DB) (groupID : Z).
Import expenseService.

(** The participant of a split request has a well-formed identifier that
    resolves to [user], a member of the group. *)
Definition resolves (splitReq : CreateExpenseSplitRequest.t) (user : User.t)
  : Prop :=
  utils.IsValidUUID (CreateExpenseSplitRequest.UserUUID splitReq) = true
  /\ userRepository.GetByUUID db (CreateExpenseSplitRequest.UserUUID splitReq)
     = Ok user
  /\ groupRepository.IsMember db groupID (User.ID user) = Ok true.

Definition validMember (splitReq : CreateExpenseSplitRequest.t) : Prop :=
  exists user, resolves splitReq user.

(** the split line the calculators build for [user] *)
Definition owes (user : User.t) (amount percentage : Decimal) : ExpenseSplit.t :=
  ExpenseSplit.mk 0 0 (User.ID user) amount percentage (Some user).

(** [split] is the line of the participant of [splitReq] *)
Definition lineOf (splitReq : CreateExpenseSplitRequest.t)
           (split : ExpenseSplit.t) : Prop :=
  exists user, resolves splitReq user
               /\ ExpenseSplit.UserID split = User.ID user
               /\ ExpenseSplit.User split = Some user.

Lemma validMembers_resolve (reqs : list CreateExpenseSplitRequest.t) :
  Forall validMember reqs -> exists users, Forall2 resolves reqs users.
Proof.
  induction 1 as [|r reqs [u Hu] _ [users IH]].
  - exists []. constructor.
  - exists (u :: users). constructor; assumption.
Qed.

Lemma GetByUUID_error (uuid : string) (e : AppError) :
  userRepository.GetByUUID db uuid = Err e -> e = NewNotFoundError "User".
Proof.
  unfold userRepository.GetByUUID.
  destruct (find _ _); intro H; inversion H; reflexivity.
Qed.

Lemma IsMember_ok (userID : Z) :
  exists b, groupRepository.IsMember db groupID userID = Ok b.
Proof. unfold groupRepository.IsMember. eexists. reflexivity. Qed.

(** *** Equal splits *)

Fixpoint equalShares (req : CreateExpenseRequest.t) (amountPerUser : Decimal)
         (i : Z) (totalAssigned : Decimal) (users : list User.t)
  : list ExpenseSplit.t :=
  match users with
  | [] => []
  | user :: users =>
      let amount :=
        if (i =? goint.len (CreateExpenseRequest.Splits req) - 1)%Z
        then Sub (CreateExpenseRequest.Amount req) totalAssigned
        else amountPerUser in
      owes user amount Zero
      :: equalShares req amountPerUser (i + 1)%Z (Add totalAssigned amount) users
  end.

Lemma equalSplitsLoop_resolved (req : CreateExpenseRequest.t)
      (amountPerUser : Decimal) (rest : list CreateExpenseSplitRequest.t)
      (users : list User.t) :
  Forall2 resolves rest users ->
  forall i totalAssigned splits,
    equalSplitsLoop db req groupID amountPerUser i rest totalAssigned splits
    = Ok (splits ++ equalShares req amountPerUser i totalAssigned users).
Proof.
  induction 1 as [|r u rest users (Hv & Hu & Hm) _ IH]; intros i total splits.
  - cbn. rewrite app_nil_r. reflexivity.
  - cbn. rewrite Hv, Hu. cbn. rewrite Hm. cbn.
    rewrite IH, <- app_assoc. reflexivity.
Qed.

Lemma equalShares_lines (req : CreateExpenseRequest.t) (amountPerUser : Decimal)
      (rest : list CreateExpenseSplitRequest.t) (users : list User.t) :
  Forall2 resolves rest users ->
  forall i totalAssigned,
    Forall2 lineOf rest (equalShares req amountPerUser i totalAssigned users).
Proof.
  induction 1 as [|r u rest users Hr _ IH]; intros i total; cbn.
  - constructor.
  - constructor; [|apply IH]. exists u. repeat split; try apply Hr; reflexivity.
Qed.

Lemma equalShares_cons (req : CreateExpenseRequest.t) (amountPerUser : Decimal)
      (i : Z) (totalAssigned : Decimal) (user : User.t) (users : list User.t) :
  equalShares req amountPerUser i totalAssigned (user :: users)
  = let amount :=
      if (i =? goint.len (CreateExpenseRequest.Splits req) - 1)%Z
      then Sub (CreateExpenseRequest.Amount req) totalAssigned
      else amountPerUser in
    owes user amount Zero
    :: equalShares req amountPerUser (i + 1)%Z (Add totalAssigned amount) users.
Proof. reflexivity. Qed.

Lemma equalShares_amounts (req : CreateExpenseRequest.t)
      (amountPerUser : Decimal) (users : list User.t) :
  forall i totalAssigned,
    users <> [] ->
    (i + goint.len users = goint.len (CreateExpenseRequest.Splits req))%Z ->
    map ExpenseSplit.Amount (equalShares req amountPerUser i totalAssigned users)
    = repeat amountPerUser (List.length users - 1)
      ++ [Sub (CreateExpenseRequest.Amount req)
              (fold_left Add (repeat amountPerUser (List.length users - 1))
                         totalAssigned)].
Proof.
  induction users as [|u users IH]; intros i total Hne Hlen; [congruence|].
  rewrite equalShares_cons. cbv zeta.
  destruct users as [|u' users].
  - replace (i =? goint.len (CreateExpenseRequest.Splits req) - 1)%Z
      with true
      by (symmetry; apply Z.eqb_eq; unfold goint.len in *;
          cbn [List.length] in Hlen; lia).
    reflexivity.
  - replace (i =? goint.len (CreateExpenseRequest.Splits req) - 1)%Z
      with false
      by (symmetry; apply Z.eqb_neq; unfold goint.len in *;
          cbn [List.length] in Hlen; lia).
    rewrite map_cons, IH;
      [|discriminate|unfold goint.len in *; cbn [List.length] in *; lia].
    cbn [List.length]. rewrite !Nat.sub_succ, !Nat.sub_0_r. reflexivity.
Qed.

(** *** Exact splits *)

Definition exactShares (rest : list CreateExpenseSplitRequest.t)
           (users : list User.t) : list ExpenseSplit.t :=
  map (fun '(r, u) => owes u (CreateExpenseSplitRequest.Amount r) Zero)
      (combine rest users).

Lemma exactSplitsLoop_resolved (rest : list CreateExpenseSplitRequest.t)
      (users : list User.t) :
  Forall2 resolves rest users ->
  Forall (fun r => 0 < CreateExpenseSplitRequest.Amount r) rest ->
  forall total splits,
    exactSplitsLoop db groupID rest total splits
    = Ok (splits ++ exactShares rest users,
          fold_left Add (map CreateExpenseSplitRequest.Amount rest) total).
Proof.
  induction 1 as [|r u rest users (Hv & Hu & Hm) _ IH];
    intros Hpos total splits.
  - cbn. rewrite app_nil_r. reflexivity.
  - inversion Hpos as [|? ? Hr Hrest]; subst.
    apply LessThanOrEqual_false_iff in Hr.
    cbn. rewrite Hv. cbn. unfold Zero in *. rewrite Hr, Hu. cbn.
    rewrite Hm. cbn. rewrite (IH Hrest), <- app_assoc. reflexivity.
Qed.

Lemma exactShares_lines (rest : list CreateExpenseSplitRequest.t)
      (users : list User.t) :
  Forall2 resolves rest users -> Forall2 lineOf rest (exactShares rest users).
Proof.
  induction 1 as [|r u rest users Hr _ IH]; cbn.
  - constructor.
  - constructor; [|apply IH]. exists u. repeat split; try apply Hr; reflexivity.
Qed.

Lemma exactShares_amounts (rest : list CreateExpenseSplitRequest.t)
      (users : list User.t) :
  Forall2 resolves rest users ->
  map ExpenseSplit.Amount (exactShares rest users)
  = map CreateExpenseSplitRequest.Amount rest.
Proof.
  induction 1 as [|r u rest users Hr _ IH]; cbn; [reflexivity|].
  unfold exactShares in IH. rewrite IH. reflexivity.
Qed.

(** The loop stops at the first supplied amount that is not positive. *)
Lemma exactSplitsLoop_nonpositive (pre post : list CreateExpenseSplitRequest.t)
      (splitReq : CreateExpenseSplitRequest.t) (users : list User.t) :
  Forall2 resolves pre users ->
  Forall (fun r => 0 < CreateExpenseSplitRequest.Amount r) pre ->
  utils.IsValidUUID (CreateExpenseSplitRequest.UserUUID splitReq) = true ->
  CreateExpenseSplitRequest.Amount splitReq <= 0 ->
  forall total splits,
    exactSplitsLoop db groupID (pre ++ splitReq :: post) total splits
    = Err (NewValidationError "Split amounts must be greater than zero").
Proof.
  intros Hres Hpos Hv Hle.
  induction Hres as [|r u pre users (Hv' & Hu & Hm) _ IH]; intros total splits.
  - cbn. rewrite Hv. cbn.
    apply LessThanOrEqual_iff in Hle. unfold Zero. rewrite Hle. reflexivity.
  - inversion Hpos as [|? ? Hr Hrest]; subst.
    apply LessThanOrEqual_false_iff in Hr.
    cbn. rewrite Hv'. cbn. unfold Zero in *. rewrite Hr, Hu. cbn.
    rewrite Hm. cbn. apply (IH Hrest).
Qed.

(** Whoever the participants are, a supplied amount that is not positive
    makes the loop fail, so the comparison of the sum with the total is
    not reached. *)
Lemma exactSplitsLoop_rejects (rest : list CreateExpenseSplitRequest.t) :
  Exists (fun r => CreateExpenseSplitRequest.Amount r <= 0) rest ->
  forall total splits,
  exists e, exactSplitsLoop db groupID rest total splits = Err e
            /\ isInvalidSplitError e = false.
Proof.
  induction rest as [|r rest IH]; intros Hex total splits.
  - inversion Hex.
  - cbn.
    destruct (utils.IsValidUUID (CreateExpenseSplitRequest.UserUUID r)); cbn;
      [|eexists; split; reflexivity].
    destruct (LessThanOrEqual (CreateExpenseSplitRequest.Amount r) Zero) eqn:Hr;
      [eexists; split; reflexivity|].
    destruct (userRepository.GetByUUID db (CreateExpenseSplitRequest.UserUUID r))
      as [u|e] eqn:Hu; cbn.
    2:{ apply GetByUUID_error in Hu. subst e. eexists; split; reflexivity. }
    destruct (IsMember_ok (User.ID u)) as [b Hb]. rewrite Hb. cbn.
    destruct b; cbn; [|eexists; split; reflexivity].
    apply IH. inversion Hex as [? ? H|? ? H]; subst; [|exact H].
    apply LessThanOrEqual_false_iff in Hr. unfold Zero in Hr. lra.
Qed.

(** The errors the loop can return. *)
Lemma exactSplitsLoop_error (rest : list CreateExpenseSplitRequest.t) :
  forall total splits e,
    exactSplitsLoop db groupID rest total splits = Err e ->
    e = NewValidationError "Split amounts must be greater than zero"
    \/ e = NewValidationError "All users in split must be members of the group"
    \/ e = NewNotFoundError "User"
    \/ exists uuid, e = NewInvalidValueError "user_uuid" uuid.
Proof.
  induction rest as [|r rest IH]; intros total splits e; cbn; [discriminate|].
  destruct (utils.IsValidUUID (CreateExpenseSplitRequest.UserUUID r)); cbn.
  2:{ intro H. inversion H. right. right. right. eexists. reflexivity. }
  destruct (LessThanOrEqual (CreateExpenseSplitRequest.Amount r) Zero).
  { intro H. inversion H. left. reflexivity. }
  destruct (userRepository.GetByUUID db (CreateExpenseSplitRequest.UserUUID r))
    as [u|e'] eqn:Hu; cbn.
  2:{ apply GetByUUID_error in Hu. subst e'. intro H. inversion H.
      right. right. left. reflexivity. }
  destruct (IsMember_ok (User.ID u)) as [b Hb]. rewrite Hb. cbn.
  destruct b; cbn; [apply IH|].
  intro H. inversion H. right. left. reflexivity.
Qed.

(** The loop returns the error of the amount check exactly when it reaches
    a participant with a well-formed identifier and an amount that is not
    positive: every participant before it has passed the four checks. *)
Lemma exactSplitsLoop_amount_error (rest : list CreateExpenseSplitRequest.t) :
  forall total splits,
    exactSplitsLoop db groupID rest total splits
    = Err (NewValidationError "Split amounts must be greater than zero")
    <-> exists pre splitReq post,
        rest = pre ++ splitReq :: post
        /\ Forall validMember pre
        /\ Forall (fun r => 0 < CreateExpenseSplitRequest.Amount r) pre
        /\ utils.IsValidUUID (CreateExpenseSplitRequest.UserUUID splitReq) = true
        /\ CreateExpenseSplitRequest.Amount splitReq <= 0.
Proof.
  intros total splits. split.
  - revert total splits.
    induction rest as [|r rest IH]; intros total splits; cbn; [discriminate|].
    destruct (utils.IsValidUUID (CreateExpenseSplitRequest.UserUUID r)) eqn:Hv;
      cbn; [|discriminate].
    destruct (LessThanOrEqual (CreateExpenseSplitRequest.Amount r) Zero) eqn:Hr.
    { intros _. exists [], r, rest. split; [reflexivity|].
      split; [constructor|]. split; [constructor|]. split; [exact Hv|].
      apply LessThanOrEqual_iff in Hr. exact Hr. }
    destruct (userRepository.GetByUUID db (CreateExpenseSplitRequest.UserUUID r))
      as [u|e'] eqn:Hu; cbn.
    2:{ apply GetByUUID_error in Hu. subst e'. discriminate. }
    destruct (groupRepository.IsMember db groupID (User.ID u)) as [b|e'] eqn:Hb;
      cbn; [|destruct (IsMember_ok (User.ID u)) as [b Hb']; congruence].
    destruct b; cbn; [|discriminate].
    intro H. destruct (IH _ _ H) as (pre & s & post & -> & Hmem & Hpos & Hs).
    exists (r :: pre), s, post. split; [reflexivity|].
    apply LessThanOrEqual_false_iff in Hr.
    split; [constructor; [exists u; repeat split; assumption|exact Hmem]|].
    split; [constructor; [exact Hr|exact Hpos]|exact Hs].
  - intros (pre & s & post & -> & Hmem & Hpos & Hv & Hle).
    destruct (validMembers_resolve Hmem) as [users Hres].
    apply (exactSplitsLoop_nonpositive post Hres Hpos Hv Hle).
Qed.

(** *** Percentage splits *)

Definition inRange (p : Decimal) : Prop := 0 <= p /\ p <= 100.

Lemma ValidatePercentage_None (p : Decimal) :
  utils.ValidatePercentage p = None <-> inRange p.
Proof.
  unfold utils.ValidatePercentage, inRange, NewFromInt, Zero.
  destruct (LessThan p 0) eqn:H1.
  { apply LessThan_iff in H1. split; [discriminate|]. intros [H _]. lra. }
  apply LessThan_false_iff in H1.
  destruct (GreaterThan p (inject_Z 100)) eqn:H2.
  { apply GreaterThan_iff in H2. split; [discriminate|].
    intros [_ H]. change (inject_Z 100) with 100 in H2. lra. }
  apply GreaterThan_false_iff in H2. change (inject_Z 100) with 100 in H2.
  split; [intros _; split; assumption|reflexivity].
Qed.

Lemma ValidatePercentage_Some (p : Decimal) (e : AppError) :
  utils.ValidatePercentage p = Some e -> isValidationError e = true.
Proof.
  unfold utils.ValidatePercentage.
  destruct (LessThan p Zero); [intro H; inversion H; reflexivity|].
  destruct (GreaterThan p (NewFromInt 100)); intro H; inversion H; reflexivity.
Qed.

Definition percentageShare (req : CreateExpenseRequest.t) (p : Decimal) : Decimal :=
  Round (Div (Mul (CreateExpenseRequest.Amount req) p) (NewFromInt 100)) 2.

Definition percentageShares (req : CreateExpenseRequest.t)
           (rest : list CreateExpenseSplitRequest.t) (users : list User.t)
  : list ExpenseSplit.t :=
  map (fun '(r, u) =>
         owes u (percentageShare req (CreateExpenseSplitRequest.Percentage r))
              (CreateExpenseSplitRequest.Percentage r))
      (combine rest users).

Lemma percentageSplitsLoop_resolved (req : CreateExpenseRequest.t)
      (rest : list CreateExpenseSplitRequest.t) (users : list User.t) :
  Forall2 resolves rest users ->
  Forall (fun r => inRange (CreateExpenseSplitRequest.Percentage r)) rest ->
  forall total splits,
    percentageSplitsLoop db req groupID rest total splits
    = Ok (splits ++ percentageShares req rest users,
          fold_left Add (map CreateExpenseSplitRequest.Percentage rest) total).
Proof.
  induction 1 as [|r u rest users (Hv & Hu & Hm) _ IH];
    intros Hin total splits.
  - cbn. rewrite app_nil_r. reflexivity.
  - inversion Hin as [|? ? Hr Hrest]; subst.
    apply ValidatePercentage_None in Hr.
    cbn. rewrite Hv. cbn. rewrite Hr, Hu. cbn. rewrite Hm. cbn.
    rewrite (IH Hrest), <- app_assoc. reflexivity.
Qed.

Lemma percentageSplitsLoop_out_of_range (req : CreateExpenseRequest.t)
      (rest : list CreateExpenseSplitRequest.t) (users : list User.t) :
  Forall2 resolves rest users ->
  ~ Forall (fun r => inRange (CreateExpenseSplitRequest.Percentage r)) rest ->
  forall total splits,
  exists e, percentageSplitsLoop db req groupID rest total splits = Err e
            /\ isValidationError e = true.
Proof.
  induction 1 as [|r u rest users (Hv & Hu & Hm) _ IH];
    intros Hout total splits.
  - exfalso. apply Hout. constructor.
  - cbn. rewrite Hv. cbn.
    destruct (utils.ValidatePercentage (CreateExpenseSplitRequest.Percentage r))
      as [e|] eqn:Hp.
    + exists e. split; [reflexivity|]. eapply ValidatePercentage_Some, Hp.
    + rewrite Hu. cbn. rewrite Hm. cbn. apply IH.
      intro Hall. apply Hout. constructor; [|exact Hall].
      apply ValidatePercentage_None, Hp.
Qed.

Lemma percentageShares_lines (req : CreateExpenseRequest.t)
      (rest : list CreateExpenseSplitRequest.t) (users : list User.t) :
  Forall2 resolves rest users ->
  Forall2 lineOf rest (percentageShares req rest users).
Proof.
  induction 1 as [|r u rest users Hr _ IH]; cbn.
  - constructor.
  - constructor; [|apply IH]. exists u. repeat split; try apply Hr; reflexivity.
Qed.

Lemma percentageShares_amounts (req : CreateExpenseRequest.t)
      (rest : list CreateExpenseSplitRequest.t) (users : list User.t) :
  Forall2 resolves rest users ->
  map ExpenseSplit.Amount (percentageShares req rest users)
  = map (fun r => percentageShare req (CreateExpenseSplitRequest.Percentage r))
        rest.
Proof.
  induction 1 as [|r u rest users Hr _ IH]; cbn; [reflexivity|].
  unfold percentageShares in IH. rewrite IH. reflexivity.
Qed.

(** *** The dispatch on the split type *)

Lemma validateAndCalculateSplits_equal (req : CreateExpenseRequest.t) :
  CreateExpenseRequest.Splits req <> [] ->
  CreateExpenseRequest.SplitType req = SplitTypeEqual ->
  validateAndCalculateSplits db req groupID = calculateEqualSplits db req groupID.
Proof.
  intros Hne Ht. unfold validateAndCalculateSplits. rewrite Ht.
  destruct (CreateExpenseRequest.Splits req); [congruence|]. reflexivity.
Qed.

Lemma validateAndCalculateSplits_exact (req : CreateExpenseRequest.t) :
  CreateExpenseRequest.Splits req <> [] ->
  CreateExpenseRequest.SplitType req = SplitTypeExact ->
  validateAndCalculateSplits db req groupID = calculateExactSplits db req groupID.
Proof.
  intros Hne Ht. unfold validateAndCalculateSplits. rewrite Ht.
  destruct (CreateExpenseRequest.Splits req); [congruence|]. reflexivity.
Qed.

Lemma validateAndCalculateSplits_percentage (req : CreateExpenseRequest.t) :
  CreateExpenseRequest.Splits req <> [] ->
  CreateExpenseRequest.SplitType req = SplitTypePercentage ->
  validateAndCalculateSplits db req groupID
  = calculatePercentageSplits db req groupID.
Proof.
  intros Hne Ht. unfold validateAndCalculateSplits. rewrite Ht.
  destruct (CreateExpenseRequest.Splits req); [congruence|]. reflexivity.
Qed.

End SplitCalculator.

(** ** The expense engine around the split calculator *)

Section ExpenseEngine.
Context {ext : Externals}.
Import expenseService.

Definition currencyOf (req : CreateExpenseRequest.t) : string :=
  if String.eqb (CreateExpenseRequest.Currency req) "" then "USD"
  else CreateExpenseRequest.Currency req.

(** The request passes every check [CreateExpense] makes before it
    computes the splits; [group] and [payer] are what the identifiers
    resolve to. *)
Definition reachesSplitCalculator (db : DB) (req : CreateExpenseRequest.t)
           (group : Group.t) (payer : User.t) : Prop :=
  utils.ValidateAmount (CreateExpenseRequest.Amount req) = None
  /\ utils.ValidateDescription (CreateExpenseRequest.Description req) = None
  /\ utils.ValidateCurrency (currencyOf req) = None
  /\ utils.IsValidUUID (CreateExpenseRequest.GroupUUID req) = true
  /\ utils.IsValidUUID (CreateExpenseRequest.PaidByUUID req) = true
  /\ groupRepository.GetByUUID db (CreateExpenseRequest.GroupUUID req) = Ok group
  /\ userRepository.GetByUUID db (CreateExpenseRequest.PaidByUUID req) = Ok payer
  /\ groupRepository.IsMember db (Group.ID group) (User.ID payer) = Ok true.

Definition newExpense (newUUID : string) (req : CreateExpenseRequest.t)
           (group : Group.t) (payer : User.t) : Expense.t :=
  Expense.mk 0 newUUID (Group.ID group) (User.ID payer)
             (CreateExpenseRequest.Amount req) (currencyOf req)
             (CreateExpenseRequest.Description req)
             (CreateExpenseRequest.SplitType req) [].

(** the body of the transaction in [CreateExpense] *)
Definition expenseTransaction (expense : Expense.t)
           (splits : list ExpenseSplit.t) : M Expense.t :=
  do* expense := exec (expenseRepository.Create expense) in
  do* splits := createSplits expense splits in
  do* _ := updateBalancesAfterExpense expense splits in
  ret expense.

(** what [CreateExpense] does once the splits are computed *)
Definition persistExpense (expense : Expense.t) (splits : list ExpenseSplit.t)
  : M Expense.t :=
  do* expense := WithTransaction (expenseTransaction expense splits) in
  do* stored := query (fun db => expenseRepository.GetExpenseSplits db
                                   (Expense.ID expense)) in
  ret (Expense.withSplits expense stored).

Lemma CreateExpense_reaches (db : DB) (newUUID : string)
      (req : CreateExpenseRequest.t) (group : Group.t) (payer : User.t) :
  reachesSplitCalculator db req group payer ->
  CreateExpense newUUID req db
  = match validateAndCalculateSplits db req (Group.ID group) with
    | Ok splits => persistExpense (newExpense newUUID req group payer) splits db
    | Err e => (Err e, db)
    end.
Proof.
  intros (Ha & Hd & Hc & Hg & Hp & Hgroup & Hpayer & Hm).
  unfold CreateExpense. fold (currencyOf req).
  rewrite Ha, Hd, Hc, Hg, Hp. cbn [negb].
  unfold bindM at 1, query at 1. rewrite Hgroup.
  unfold bindM at 1, query at 1. rewrite Hpayer.
  unfold bindM at 1, query at 1. rewrite Hm. cbn [negb].
  unfold bindM at 1, query at 1.
  destruct (validateAndCalculateSplits db req (Group.ID group)); reflexivity.
Qed.

(** A request the split calculator refuses is refused by [CreateExpense]
    with the same error, and nothing is written. *)
Lemma CreateExpense_rejected (db : DB) (newUUID : string)
      (req : CreateExpenseRequest.t) (group : Group.t) (payer : User.t)
      (e : AppError) :
  reachesSplitCalculator db req group payer ->
  validateAndCalculateSplits db req (Group.ID group) = Err e ->
  CreateExpense newUUID req db = (Err e, db).
Proof.
  intros Hr He. rewrite (CreateExpense_reaches newUUID Hr), He. reflexivity.
Qed.

Lemma CreateExpense_persists (db : DB) (newUUID : string)
      (req : CreateExpenseRequest.t) (group : Group.t) (payer : User.t)
      (splits : list ExpenseSplit.t) :
  reachesSplitCalculator db req group payer ->
  validateAndCalculateSplits db req (Group.ID group) = Ok splits ->
  CreateExpense newUUID req db
  = persistExpense (newExpense newUUID req group payer) splits db.
Proof.
  intros Hr Hs. rewrite (CreateExpense_reaches newUUID Hr), Hs. reflexivity.
Qed.

(** An accepted expense went through the split calculator. *)
Lemma CreateExpense_accepted (db db' : DB) (newUUID : string)
      (req : CreateExpenseRequest.t) (expense : Expense.t) :
  CreateExpense newUUID req db = (Ok expense, db') ->
  exists group payer splits,
    reachesSplitCalculator db req group payer
    /\ validateAndCalculateSplits db req (Group.ID group) = Ok splits
    /\ persistExpense (newExpense newUUID req group payer) splits db
       = (Ok expense, db').
Proof.
  unfold CreateExpense. fold (currencyOf req).
  destruct (utils.ValidateAmount _) eqn:Ha; [discriminate|].
  destruct (utils.ValidateDescription _) eqn:Hd; [discriminate|].
  destruct (utils.ValidateCurrency _) eqn:Hc; [discriminate|].
  destruct (utils.IsValidUUID (CreateExpenseRequest.GroupUUID req)) eqn:Hg;
    [|discriminate].
  destruct (utils.IsValidUUID (CreateExpenseRequest.PaidByUUID req)) eqn:Hp;
    [|discriminate].
  cbn [negb].
  unfold bindM at 1, query at 1.
  destruct (groupRepository.GetByUUID db _) as [group|] eqn:Hgroup;
    [|discriminate].
  unfold bindM at 1, query at 1.
  destruct (userRepository.GetByUUID db _) as [payer|] eqn:Hpayer;
    [|discriminate].
  unfold bindM at 1, query at 1.
  destruct (groupRepository.IsMember db _ _) as [[|]|] eqn:Hm;
    try discriminate.
  cbn [negb].
  unfold bindM at 1, query at 1.
  destruct (validateAndCalculateSplits db req (Group.ID group))
    as [splits|] eqn:Hs; [|discriminate].
  intro H. exists group, payer, splits.
  repeat split; try assumption.
Qed.

End ExpenseEngine.

(** ** The balance ledger *)

Section Ledger.

(** The effect of [UpdateBalance] on the table [user_balances]. *)
Definition post (groupID userID : Z) (amount : Decimal) (currency : string)
           (rows : list Balance.t) : list Balance.t :=
  balanceRepository.upsertAdd (nextID (map Balance.ID rows))
                              groupID userID amount currency rows.

(** The sum of the balances of a group in a currency. *)
Definition groupTotal (rows : list Balance.t) (groupID : Z) (currency : string)
  : Decimal :=
  Sum (map Balance.Balance
           (filter (balanceRepository.inGroup groupID currency) rows)).

(** The stored balance of a user, zero when there is no row. *)
Definition balanceOf (rows : list Balance.t) (groupID userID : Z)
           (currency : string) : Decimal :=
  match find (balanceRepository.hasKey groupID userID currency) rows with
  | Some row => Balance.Balance row
  | None => Zero
  end.

Definition sameLedger (g : Z) (c : string) (g' : Z) (c' : string) : bool :=
  Z.eqb g g' && String.eqb c c'.

Lemma UpdateBalance_post (groupID userID : Z) (amount : Decimal)
      (currency : string) (db : DB) :
  balanceRepository.UpdateBalance groupID userID amount currency db
  = Ok (tt, withUserBalances db
              (post groupID userID amount currency (user_balances db))).
Proof. reflexivity. Qed.

Lemma hasKey_inGroup (g u : Z) (c : string) (g' : Z) (c' : string)
      (row : Balance.t) :
  balanceRepository.hasKey g u c row = true ->
  balanceRepository.inGroup g' c' row = sameLedger g c g' c'.
Proof.
  unfold balanceRepository.hasKey, balanceRepository.inGroup, sameLedger.
  intro H. apply andb_prop in H. destruct H as [H Hc].
  apply andb_prop in H. destruct H as [Hg _].
  apply Z.eqb_eq in Hg. apply String.eqb_eq in Hc. rewrite Hg, Hc.
  reflexivity.
Qed.

Lemma upsertAdd_total (newID g u : Z) (a : Decimal) (c : string)
      (g' : Z) (c' : string) (rows : list Balance.t) :
  groupTotal (balanceRepository.upsertAdd newID g u a c rows) g' c'
  == groupTotal rows g' c' + (if sameLedger g c g' c' then a else 0).
Proof.
  unfold groupTotal.
  induction rows as [|row rows IH]; cbn [balanceRepository.upsertAdd].
  - cbn [filter map]. unfold balanceRepository.inGroup at 1.
    cbn [Balance.GroupID Balance.Currency]. fold (sameLedger g c g' c').
    destruct (sameLedger g c g' c'); cbn [map].
    + rewrite Sum_cons. cbn [Balance.Balance]. ring.
    + ring.
  - destruct (balanceRepository.hasKey g u c row) eqn:Hk.
    + cbn [filter].
      replace (balanceRepository.inGroup g' c'
                 (Balance.withBalance row (Add (Balance.Balance row) a)))
        with (balanceRepository.inGroup g' c' row) by reflexivity.
      rewrite (hasKey_inGroup g' c' Hk).
      destruct (sameLedger g c g' c'); cbn [map].
      * rewrite !Sum_cons. cbn [Balance.withBalance Balance.Balance].
        unfold Add. ring.
      * ring.
    + cbn [filter].
      destruct (balanceRepository.inGroup g' c' row); cbn [map].
      * rewrite !Sum_cons, IH. ring.
      * exact IH.
Qed.

Lemma post_total (g u : Z) (a : Decimal) (c : string) (g' : Z) (c' : string)
      (rows : list Balance.t) :
  groupTotal (post g u a c rows) g' c'
  == groupTotal rows g' c' + (if sameLedger g c g' c' then a else 0).
Proof. apply upsertAdd_total. Qed.

Lemma hasKey_refl (newID g u : Z) (a : Decimal) (c : string) :
  balanceRepository.hasKey g u c (Balance.mk newID g u a c None None) = true.
Proof.
  unfold balanceRepository.hasKey. cbn.
  rewrite !Z.eqb_refl, String.eqb_refl. reflexivity.
Qed.





(** [GetByGroupAndUser] reads [balanceOf]. *)
Lemma GetByGroupAndUser_balance (db : DB) (g u : Z) (c : string) :
  exists b, balanceRepository.GetByGroupAndUser db g u c = Ok b
            /\ Balance.Balance b = balanceOf (user_balances db) g u c.
Proof.
  unfold balanceRepository.GetByGroupAndUser, balanceOf.
  destruct (find _ _); eexists; split; reflexivity.
Qed.

End Ledger.

(** ** The transactions of the expense engine *)

Section ExpenseTransaction.
Context {ext : Externals}.
Import expenseService.

(** the debits of the splits, applied to the rows of [user_balances] *)
Definition debit (groupID : Z) (currency : string) (rows : list Balance.t)
           (splits : list ExpenseSplit.t) : list Balance.t :=
  fold_left (fun rows split =>
               post groupID (ExpenseSplit.UserID split)
                    (ExpenseSplit.Amount split) currency rows)
            splits rows.

Lemma withUserBalances_same (db : DB) :
  withUserBalances db (user_balances db) = db.
Proof. destruct db. reflexivity. Qed.

Lemma debitSplits_run (expense : Expense.t) (splits : list ExpenseSplit.t) :
  forall db,
    debitSplits expense splits db
    = (Ok tt,
       withUserBalances db
         (debit (Expense.GroupID expense) (Expense.Currency expense)
                (user_balances db) splits)).
Proof.
  induction splits as [|split splits IH]; intro db.
  - cbn. rewrite withUserBalances_same. reflexivity.
  - cbn [debitSplits debit fold_left]. unfold bindM at 1, exec at 1.
    rewrite UpdateBalance_post, IH. reflexivity.
Qed.

Lemma debit_total (g : Z) (c : string) (g' : Z) (c' : string)
      (splits : list ExpenseSplit.t) :
  forall rows,
    groupTotal (debit g c rows splits) g' c'
    == groupTotal rows g' c'
       + (if sameLedger g c g' c'
          then Sum (map ExpenseSplit.Amount splits) else 0).
Proof.
  induction splits as [|split splits IH]; intro rows;
    cbn [debit fold_left map].
  - rewrite Sum_nil. unfold Zero. destruct (sameLedger g c g' c'); ring.
  - fold (debit g c (post g (ExpenseSplit.UserID split)
                          (ExpenseSplit.Amount split) c rows) splits).
    rewrite IH, post_total.
    destruct (sameLedger g c g' c'); [rewrite Sum_cons|]; ring.
Qed.

(** the ledger after [updateBalancesAfterExpense] *)
Definition ledgerAfterExpense (expense : Expense.t)
           (splits : list ExpenseSplit.t) (rows : list Balance.t)
  : list Balance.t :=
  post (Expense.GroupID expense) (Expense.PaidBy expense)
       (Neg (Expense.Amount expense)) (Expense.Currency expense)
       (debit (Expense.GroupID expense) (Expense.Currency expense) rows splits).

Lemma updateBalancesAfterExpense_run (expense : Expense.t)
      (splits : list ExpenseSplit.t) (db : DB) :
  updateBalancesAfterExpense expense splits db
  = (Ok tt, withUserBalances db
              (ledgerAfterExpense expense splits (user_balances db))).
Proof.
  unfold updateBalancesAfterExpense, bindM at 1.
  rewrite debitSplits_run. unfold bindM, exec.
  rewrite UpdateBalance_post. reflexivity.
Qed.

(** The deltas of an expense: what the splits owe, minus the total. *)
Lemma ledgerAfterExpense_total (expense : Expense.t)
      (splits : list ExpenseSplit.t) (rows : list Balance.t)
      (g' : Z) (c' : string) :
  groupTotal (ledgerAfterExpense expense splits rows) g' c'
  == groupTotal rows g' c'
     + (if sameLedger (Expense.GroupID expense) (Expense.Currency expense) g' c'
        then Sum (map ExpenseSplit.Amount splits) - Expense.Amount expense
        else 0).
Proof.
  unfold ledgerAfterExpense. rewrite post_total, debit_total.
  destruct (sameLedger _ _ g' c'); unfold Neg; ring.
Qed.

Lemma createSplits_ok (expense : Expense.t) (splits : list ExpenseSplit.t) :
  forall db stored db',
    createSplits expense splits db = (Ok stored, db') ->
    user_balances db' = user_balances db
    /\ expense_splits db' = expense_splits db ++ stored
    /\ map ExpenseSplit.Amount stored = map ExpenseSplit.Amount splits
    /\ map ExpenseSplit.UserID stored = map ExpenseSplit.UserID splits.
Proof.
  induction splits as [|split splits IH]; intros db stored db'.
  - cbn. intro H. inversion H; subst. rewrite app_nil_r. repeat split.
  - cbn [createSplits]. unfold bindM at 1, exec at 1.
    unfold expenseRepository.CreateSplit.
    destruct (existsb _ _); [discriminate|].
    unfold bindM at 1.
    match goal with
    | |- context [createSplits expense splits ?d] =>
        destruct (createSplits expense splits d) as [[rest|e] db1] eqn:Hrest
    end; [|discriminate].
    cbn. intro H. inversion H; subst.
    destruct (IH _ _ _ Hrest) as (Hb & Hs & Ha & Hu).
    cbn in Hb, Hs. rewrite Hb, Hs, <- app_assoc. cbn [map]. rewrite Ha, Hu.
    repeat split.
Qed.

Lemma createSplits_error (expense : Expense.t) (splits : list ExpenseSplit.t) :
  forall db e db',
    createSplits expense splits db = (Err e, db') -> e = NewDatabaseError.
Proof.
  induction splits as [|split splits IH]; intros db e db'.
  - cbn. discriminate.
  - cbn [createSplits]. unfold bindM at 1, exec at 1.
    unfold expenseRepository.CreateSplit.
    destruct (existsb _ _); [intro H; inversion H; reflexivity|].
    unfold bindM at 1.
    match goal with
    | |- context [createSplits expense splits ?d] =>
        destruct (createSplits expense splits d) as [[rest|e1] db1] eqn:Hrest
    end.
    + cbn. discriminate.
    + intro H. inversion H; subst. eapply IH, Hrest.
Qed.

Lemma expenseTransaction_ok (expense : Expense.t)
      (splits : list ExpenseSplit.t) (db db' : DB) (created : Expense.t) :
  expenseTransaction expense splits db = (Ok created, db') ->
  exists stored,
    map ExpenseSplit.Amount stored = map ExpenseSplit.Amount splits
    /\ map ExpenseSplit.UserID stored = map ExpenseSplit.UserID splits
    /\ expense_splits db' = expense_splits db ++ stored
    /\ user_balances db'
       = ledgerAfterExpense expense stored (user_balances db)
    /\ Expense.GroupID created = Expense.GroupID expense
    /\ Expense.Amount created = Expense.Amount expense.
Proof.
  unfold expenseTransaction, bindM at 1, exec at 1.
  unfold expenseRepository.Create.
  destruct (existsb _ _); [discriminate|].
  unfold bindM at 1.
  match goal with
  | |- context [createSplits ?e splits ?d] =>
      destruct (createSplits e splits d) as [[stored|e1] db1] eqn:Hstored
  end; [|discriminate].
  unfold bindM at 1. rewrite updateBalancesAfterExpense_run.
  cbn [ret]. intro H. inversion H; subst.
  destruct (createSplits_ok Hstored) as (Hb & Hs & Ha & Hu).
  exists stored. cbn in Hb, Hs. cbn. rewrite Hb, Hs.
  repeat split; assumption.
Qed.

Lemma expenseTransaction_error (expense : Expense.t)
      (splits : list ExpenseSplit.t) (db db' : DB) (e : AppError) :
  expenseTransaction expense splits db = (Err e, db') -> e = NewDatabaseError.
Proof.
  unfold expenseTransaction, bindM at 1, exec at 1.
  unfold expenseRepository.Create.
  destruct (existsb _ _); [intro H; inversion H; reflexivity|].
  unfold bindM at 1.
  match goal with
  | |- context [createSplits ?e splits ?d] =>
      destruct (createSplits e splits d) as [[stored|e1] db1] eqn:Hstored
  end.
  - unfold bindM at 1. rewrite updateBalancesAfterExpense_run.
    cbn. discriminate.
  - intro H. inversion H; subst. eapply createSplits_error, Hstored.
Qed.

Lemma scanSplits_error (db : DB) (rows : list ExpenseSplit.t) (e : AppError) :
  expenseRepository.scanSplits db rows = Err e -> e = NewDatabaseError.
Proof.
  induction rows as [|row rows IH]; cbn [expenseRepository.scanSplits].
  - discriminate.
  - destruct (userRepository.joinByID db _);
      [|intro H; inversion H; reflexivity].
    destruct (expenseRepository.scanSplits db rows); cbn [bind].
    + discriminate.
    + intro H. inversion H; subst. apply IH. reflexivity.
Qed.

(** Once the splits are computed, an expense is either accepted, with
    the deltas of its splits and of its payer applied to the ledger, or
    refused with a database error. *)
Lemma persistExpense_ok (expense : Expense.t) (splits : list ExpenseSplit.t)
      (db db' : DB) (created : Expense.t) :
  persistExpense expense splits db = (Ok created, db') ->
  exists stored,
    map ExpenseSplit.Amount stored = map ExpenseSplit.Amount splits
    /\ map ExpenseSplit.UserID stored = map ExpenseSplit.UserID splits
    /\ expense_splits db' = expense_splits db ++ stored
    /\ user_balances db'
       = ledgerAfterExpense expense stored (user_balances db).
Proof.
  unfold persistExpense, bindM at 1, WithTransaction.
  destruct (expenseTransaction expense splits db) as [[e1|err] db1] eqn:Htx;
    [|discriminate].
  unfold bindM, query.
  destruct (expenseRepository.GetExpenseSplits db1 (Expense.ID e1));
    [|discriminate].
  cbn [ret]. intro H. inversion H; subst.
  destruct (expenseTransaction_ok Htx) as (stored & Ha & Hu & Hs & Hb & _).
  exists stored. repeat split; assumption.
Qed.

Lemma persistExpense_error (expense : Expense.t) (splits : list ExpenseSplit.t)
      (db db' : DB) (e : AppError) :
  persistExpense expense splits db = (Err e, db') -> e = NewDatabaseError.
Proof.
  unfold persistExpense, bindM at 1, WithTransaction.
  destruct (expenseTransaction expense splits db) as [[e1|err] db1] eqn:Htx.
  - unfold bindM, query, expenseRepository.GetExpenseSplits.
    destruct (expenseRepository.scanSplits db1 _) eqn:Hscan.
    + cbn. discriminate.
    + intro H. inversion H; subst. eapply scanSplits_error, Hscan.
  - intro H. inversion H; subst. eapply expenseTransaction_error, Htx.
Qed.

(** [CreateExpense] fails with the error of the split calculator, or else
    with a database error. *)
Lemma CreateExpense_split_error (db : DB) (newUUID : string)
      (req : CreateExpenseRequest.t) (group : Group.t) (payer : User.t) :
  reachesSplitCalculator db req group payer ->
  forall e,
    (exists db', CreateExpense newUUID req db = (Err e, db')
                 /\ isInvalidSplitError e = true)
    <-> (validateAndCalculateSplits db req (Group.ID group) = Err e
         /\ isInvalidSplitError e = true).
Proof.
  intros Hr e. rewrite (CreateExpense_reaches newUUID Hr).
  destruct (validateAndCalculateSplits db req (Group.ID group))
    as [splits|e0] eqn:Hs; split.
  - intros (db' & H & Hk). apply persistExpense_error in H. subst e.
    discriminate Hk.
  - intros [H _]. discriminate H.
  - intros (db' & H & Hk). inversion H; subst. split; [reflexivity|exact Hk].
  - intros [H Hk]. inversion H; subst. exists db. split; [reflexivity|exact Hk].
Qed.

(** The ledger after an accepted expense. *)
Lemma CreateExpense_ledger (db db' : DB) (newUUID : string)
      (req : CreateExpenseRequest.t) (expense : Expense.t) :
  CreateExpense newUUID req db = (Ok expense, db') ->
  exists group payer splits,
    reachesSplitCalculator db req group payer
    /\ validateAndCalculateSplits db req (Group.ID group) = Ok splits
    /\ forall g' c',
        groupTotal (user_balances db') g' c'
        == groupTotal (user_balances db) g' c'
           + (if sameLedger (Group.ID group) (currencyOf req) g' c'
              then Sum (map ExpenseSplit.Amount splits)
                   - CreateExpenseRequest.Amount req
              else 0).
Proof.
  intro H. destruct (CreateExpense_accepted H)
    as (group & payer & splits & Hr & Hs & Hp).
  exists group, payer, splits. split; [exact Hr|]. split; [exact Hs|].
  intros g' c'.
  destruct (persistExpense_ok Hp) as (stored & Ha & _ & _ & Hb).
  rewrite Hb, ledgerAfterExpense_total, Ha. reflexivity.
Qed.

End ExpenseTransaction.

(** ** Claims on the split strategies *)

Section SplitClaims.
Context {ext : Externals}.
Import expenseService.

Lemma first_nonpositive (reqs : list CreateExpenseSplitRequest.t) :
  Exists (fun r => CreateExpenseSplitRequest.Amount r <= 0) reqs ->
  exists pre splitReq post,
    reqs = pre ++ splitReq :: post
    /\ Forall (fun r => 0 < CreateExpenseSplitRequest.Amount r) pre
    /\ CreateExpenseSplitRequest.Amount splitReq <= 0.
Proof.
  induction reqs as [|r reqs IH]; intro Hex; [inversion Hex|].
  destruct (Qlt_le_dec 0 (CreateExpenseSplitRequest.Amount r)) as [Hpos|Hle].
  - destruct IH as (pre & s & post & Heq & Hpre & Hs).
    { inversion Hex as [? ? H|? ? H]; subst; [lra|exact H]. }
    exists (r :: pre), s, post. subst reqs.
    repeat split; [constructor; assumption|exact Hs].
  - exists [], r, reqs. repeat split; [constructor|exact Hle].
Qed.

(** The outcome of a service call is an error of the given kind. *)
Definition failsWith {A} (outcome : result A * DB) (kind : AppError -> bool)
  : Prop :=
  exists e db', outcome = (Err e, db') /\ kind e = true.

Lemma CreateExpense_fails_invalid_split (db : DB) (newUUID : string)
      (req : CreateExpenseRequest.t) (group : Group.t) (payer : User.t) :
  reachesSplitCalculator db req group payer ->
  failsWith (CreateExpense newUUID req db) isInvalidSplitError
  <-> exists e, validateAndCalculateSplits db req (Group.ID group) = Err e
                /\ isInvalidSplitError e = true.
Proof.
  intro Hr. unfold failsWith. split.
  - intros (e & db' & H & Hk). exists e.
    apply (CreateExpense_split_error newUUID Hr). exists db'. split; assumption.
  - intros (e & H & Hk). exists e.
    destruct (proj2 (CreateExpense_split_error newUUID Hr e) (conj H Hk))
      as (db' & H' & _).
    exists db'. split; assumption.
Qed.

End SplitClaims.

(** C2.  Equal strategy: with [N >= 1] participants, all of them members of
    the group, and a positive total, the calculator gives
    [Round (total / N, 2)] to each of the first [N - 1] participants and the
    total minus what has been assigned to the last one; the [N] amounts sum
    to the total exactly.  The division is [Decimal.Div], the rounding
    [Decimal.Round]. *)
Theorem equal_split_remainder {ext : Externals} (db : DB)
        (req : CreateExpenseRequest.t) (groupID : Z) :
  (1 <= List.length (CreateExpenseRequest.Splits req))%nat ->
  0 < CreateExpenseRequest.Amount req ->
  Forall (validMember db groupID) (CreateExpenseRequest.Splits req) ->
  let n := List.length (CreateExpenseRequest.Splits req) in
  let amountPerUser :=
    Round (Div (CreateExpenseRequest.Amount req) (NewFromInt (Z.of_nat n))) 2 in
  exists splits,
    expenseService.calculateEqualSplits db req groupID = Ok splits
    /\ (CreateExpenseRequest.SplitType req = SplitTypeEqual ->
        expenseService.validateAndCalculateSplits db req groupID = Ok splits)
    /\ Forall2 (lineOf db groupID) (CreateExpenseRequest.Splits req) splits
    /\ map ExpenseSplit.Amount splits
       = repeat amountPerUser (n - 1)
         ++ [Sub (CreateExpenseRequest.Amount req)
                 (Sum (repeat amountPerUser (n - 1)))]
    /\ Equal (Sum (map ExpenseSplit.Amount splits))
             (CreateExpenseRequest.Amount req) = true.
Proof.
  intros Hn _ Hmem n amountPerUser.
  destruct (validMembers_resolve Hmem) as [users Hres].
  assert (Hne : CreateExpenseRequest.Splits req <> []).
  { intro E. rewrite E in Hn. cbn in Hn. lia. }
  assert (Hlen : List.length users = n).
  { symmetry. eapply Forall2_length, Hres. }
  assert (Hcalc : expenseService.calculateEqualSplits db req groupID
                  = Ok (equalShares req amountPerUser 0 Zero users)).
  { unfold expenseService.calculateEqualSplits.
    rewrite (equalSplitsLoop_resolved req _ Hres). reflexivity. }
  assert (Hamounts :
            map ExpenseSplit.Amount (equalShares req amountPerUser 0 Zero users)
            = repeat amountPerUser (n - 1)
              ++ [Sub (CreateExpenseRequest.Amount req)
                      (Sum (repeat amountPerUser (n - 1)))]).
  { rewrite equalShares_amounts.
    - rewrite Hlen. reflexivity.
    - intro E. rewrite E in Hlen. cbn in Hlen. lia.
    - unfold goint.len. rewrite Hlen. reflexivity. }
  eexists. split; [exact Hcalc|].
  split; [intro Ht; rewrite (validateAndCalculateSplits_equal db groupID Hne Ht);
          exact Hcalc|].
  split; [apply equalShares_lines; exact Hres|].
  split; [exact Hamounts|].
  rewrite Hamounts, Sum_snoc. apply Equal_iff. unfold Add, Sub. ring.
Qed.

(** C3.  Percentage strategy, the participants being members of the group:
    a percentage outside [0,100] is refused (a validation error); with all
    percentages in range the request fails with the invalid-split error
    unless they sum to exactly 100; when it succeeds each participant owes
    [Round (total * percentage / 100, 2)], and nothing corrects the
    remainder afterwards. *)
Theorem percentage_split_validity {ext : Externals} (db : DB)
        (req : CreateExpenseRequest.t) (groupID : Z) :
  Forall (validMember db groupID) (CreateExpenseRequest.Splits req) ->
  let percentages :=
    map CreateExpenseSplitRequest.Percentage (CreateExpenseRequest.Splits req) in
  let result := expenseService.calculatePercentageSplits db req groupID in
  (Forall inRange percentages -> Sum percentages == 100 ->
   exists splits,
     result = Ok splits
     /\ Forall2 (lineOf db groupID) (CreateExpenseRequest.Splits req) splits
     /\ map ExpenseSplit.Amount splits
        = map (fun p => Round (Div (Mul (CreateExpenseRequest.Amount req) p)
                                   (NewFromInt 100)) 2)
              percentages)
  /\ (Forall inRange percentages -> ~ Sum percentages == 100 ->
      result = Err (NewInvalidSplitError "Percentages must sum to 100"))
  /\ (~ Forall inRange percentages ->
      exists e, result = Err e /\ isValidationError e = true
                /\ isInvalidSplitError e = false)
  /\ (CreateExpenseRequest.Splits req <> [] ->
      CreateExpenseRequest.SplitType req = SplitTypePercentage ->
      expenseService.validateAndCalculateSplits db req groupID = result)
  /\ (forall newUUID group payer,
        reachesSplitCalculator db req group payer ->
        Group.ID group = groupID ->
        CreateExpenseRequest.Splits req <> [] ->
        CreateExpenseRequest.SplitType req = SplitTypePercentage ->
        Forall inRange percentages ->
        (failsWith (expenseService.CreateExpense newUUID req db)
                   isInvalidSplitError
         <-> ~ Sum percentages == 100)).
Proof.
  intros Hmem percentages result.
  destruct (validMembers_resolve Hmem) as [users Hres].
  assert (Hin : Forall inRange percentages ->
                Forall (fun r => inRange (CreateExpenseSplitRequest.Percentage r))
                       (CreateExpenseRequest.Splits req)).
  { unfold percentages. rewrite Forall_map. exact (fun H => H). }
  assert (Hinvalid :
            Forall inRange percentages -> ~ Sum percentages == 100 ->
            result = Err (NewInvalidSplitError "Percentages must sum to 100")).
  { intros Hrange Hsum. subst result.
    unfold expenseService.calculatePercentageSplits.
    rewrite (percentageSplitsLoop_resolved req Hres (Hin Hrange)).
    cbn [bind app].
    change (fold_left Add
              (map CreateExpenseSplitRequest.Percentage
                   (CreateExpenseRequest.Splits req)) Zero)
      with (Sum percentages).
    apply Equal_false_iff in Hsum. unfold NewFromInt.
    change (inject_Z 100) with 100. rewrite Hsum. reflexivity. }
  assert (Hvalid :
            Forall inRange percentages -> Sum percentages == 100 ->
            exists splits,
              result = Ok splits
              /\ Forall2 (lineOf db groupID) (CreateExpenseRequest.Splits req)
                         splits
              /\ map ExpenseSplit.Amount splits
                 = map (fun p => Round (Div (Mul (CreateExpenseRequest.Amount req) p)
                                            (NewFromInt 100)) 2)
                       percentages).
  { intros Hrange Hsum. subst result.
    unfold expenseService.calculatePercentageSplits.
    rewrite (percentageSplitsLoop_resolved req Hres (Hin Hrange)).
    cbn [bind app].
    change (fold_left Add
              (map CreateExpenseSplitRequest.Percentage
                   (CreateExpenseRequest.Splits req)) Zero)
      with (Sum percentages).
    apply Equal_iff in Hsum. unfold NewFromInt.
    change (inject_Z 100) with 100. rewrite Hsum. cbn [negb].
    eexists. split; [reflexivity|].
    split; [apply percentageShares_lines; exact Hres|].
    rewrite (percentageShares_amounts req Hres). unfold percentages.
    rewrite map_map. reflexivity. }
  split; [exact Hvalid|]. split; [exact Hinvalid|].
  split; [|split].
  - intros Hout.
    destruct (percentageSplitsLoop_out_of_range (db := db) (groupID := groupID)
                req Hres) with (total := Zero) (splits := @nil ExpenseSplit.t)
      as (e & He & Hv).
    { intro Hall. apply Hout. unfold percentages. rewrite Forall_map. exact Hall. }
    subst result. unfold expenseService.calculatePercentageSplits.
    rewrite He. exists e. cbn [bind].
    split; [reflexivity|]. split; [exact Hv|].
    unfold isValidationError in Hv. apply String.eqb_eq in Hv.
    unfold isInvalidSplitError. rewrite Hv. reflexivity.
  - intros Hne Ht. apply validateAndCalculateSplits_percentage; assumption.
  - intros newUUID group payer Hr Hg Hne Ht Hrange. subst groupID.
    rewrite (CreateExpense_fails_invalid_split newUUID Hr).
    rewrite (validateAndCalculateSplits_percentage db (Group.ID group) Hne Ht).
    fold result. split.
    + intros (e & He & Hk) Hsum.
      destruct (Hvalid Hrange Hsum) as (splits & Hok & _).
      rewrite Hok in He. discriminate He.
    + intro Hsum. eexists. split; [apply (Hinvalid Hrange Hsum)|reflexivity].
Qed.

(** C6.  Exact strategy, the participants being members of the group and
    every supplied amount strictly positive: the request fails with the
    invalid-split error if and only if the supplied amounts do not sum to
    the declared total (numerical equality, no tolerance); when they do,
    each participant owes exactly the amount supplied. *)
Theorem exact_split_sum_check {ext : Externals} (db : DB)
        (req : CreateExpenseRequest.t) (groupID : Z) :
  Forall (validMember db groupID) (CreateExpenseRequest.Splits req) ->
  Forall (fun r => 0 < CreateExpenseSplitRequest.Amount r)
         (CreateExpenseRequest.Splits req) ->
  let supplied :=
    map CreateExpenseSplitRequest.Amount (CreateExpenseRequest.Splits req) in
  let result := expenseService.calculateExactSplits db req groupID in
  ((exists e, result = Err e /\ isInvalidSplitError e = true)
   <-> ~ Sum supplied == CreateExpenseRequest.Amount req)
  /\ (~ Sum supplied == CreateExpenseRequest.Amount req ->
      result = Err (NewInvalidSplitError
                      "Sum of split amounts must equal total expense amount"))
  /\ (Sum supplied == CreateExpenseRequest.Amount req ->
      exists splits,
        result = Ok splits
        /\ Forall2 (lineOf db groupID) (CreateExpenseRequest.Splits req) splits
        /\ map ExpenseSplit.Amount splits = supplied)
  /\ (CreateExpenseRequest.Splits req <> [] ->
      CreateExpenseRequest.SplitType req = SplitTypeExact ->
      expenseService.validateAndCalculateSplits db req groupID = result)
  /\ (forall newUUID group payer,
        reachesSplitCalculator db req group payer ->
        Group.ID group = groupID ->
        CreateExpenseRequest.Splits req <> [] ->
        CreateExpenseRequest.SplitType req = SplitTypeExact ->
        (failsWith (expenseService.CreateExpense newUUID req db)
                   isInvalidSplitError
         <-> ~ Sum supplied == CreateExpenseRequest.Amount req)).
Proof.
  intros Hmem Hpos supplied result.
  destruct (validMembers_resolve Hmem) as [users Hres].
  assert (Hresult :
            result
            = if negb (Equal (Sum supplied) (CreateExpenseRequest.Amount req))
              then Err (NewInvalidSplitError
                          "Sum of split amounts must equal total expense amount")
              else Ok (exactShares (CreateExpenseRequest.Splits req) users)).
  { subst result. unfold expenseService.calculateExactSplits.
    rewrite (exactSplitsLoop_resolved Hres Hpos). reflexivity. }
  assert (Hdispatch :
            CreateExpenseRequest.Splits req <> [] ->
            CreateExpenseRequest.SplitType req = SplitTypeExact ->
            expenseService.validateAndCalculateSplits db req groupID = result).
  { intros Hne Ht. apply validateAndCalculateSplits_exact; assumption. }
  assert (Hcreate :
            forall newUUID group payer,
              reachesSplitCalculator db req group payer ->
              Group.ID group = groupID ->
              CreateExpenseRequest.Splits req <> [] ->
              CreateExpenseRequest.SplitType req = SplitTypeExact ->
              (failsWith (expenseService.CreateExpense newUUID req db)
                         isInvalidSplitError
               <-> exists e, result = Err e /\ isInvalidSplitError e = true)).
  { intros newUUID group payer Hr Hg Hne Ht.
    rewrite (CreateExpense_fails_invalid_split newUUID Hr), Hg.
    rewrite (Hdispatch Hne Ht). reflexivity. }
  clearbody result. subst result.
  destruct (Equal (Sum supplied) (CreateExpenseRequest.Amount req)) eqn:Heq;
    cbn [negb] in *.
  - apply Equal_iff in Heq.
    assert (Hiff : (exists e,
                       Ok (exactShares (CreateExpenseRequest.Splits req) users)
                       = Err e /\ isInvalidSplitError e = true)
                   <-> ~ Sum supplied == CreateExpenseRequest.Amount req).
    { split.
      - intros (e & He & _). discriminate He.
      - intro Hne. exfalso. apply Hne. exact Heq. }
    split; [exact Hiff|]. split; [|split; [|split]].
    + intro Hne. exfalso. apply Hne. exact Heq.
    + intros _. eexists. split; [reflexivity|].
      split; [apply exactShares_lines; exact Hres|].
      apply (exactShares_amounts Hres).
    + exact Hdispatch.
    + intros newUUID group payer Hr Hg Hne Ht.
      rewrite (Hcreate newUUID group payer Hr Hg Hne Ht). exact Hiff.
  - apply Equal_false_iff in Heq.
    assert (Hiff : (exists e,
                       @Err (list ExpenseSplit.t)
                            (NewInvalidSplitError
                               "Sum of split amounts must equal total expense amount")
                       = Err e /\ isInvalidSplitError e = true)
                   <-> ~ Sum supplied == CreateExpenseRequest.Amount req).
    { split.
      - intros _. exact Heq.
      - intros _. eexists. split; reflexivity. }
    split; [exact Hiff|]. split; [|split; [|split]].
    + intros _. reflexivity.
    + intro Hsum. exfalso. apply Heq. exact Hsum.
    + exact Hdispatch.
    + intros newUUID group payer Hr Hg Hne Ht.
      rewrite (Hcreate newUUID group payer Hr Hg Hne Ht). exact Hiff.
Qed.

(** C10.  Exact strategy: a supplied amount that is zero or negative makes
    the request fail before the sum of the amounts is compared with the
    total, whatever that sum is: the error is never the invalid-split error.
    The participants are examined in order, each one for the form of the
    identifier, then for the amount, then for the user and the membership.
    So the error is the validation error "Split amounts must be greater than
    zero" exactly when the first participant whose amount is not positive
    has a well-formed identifier and comes after members of the group only;
    otherwise an earlier check has failed and the error is the one of that
    check: the identifier is malformed, the user is not found, or the user
    is no member of the group. *)
Theorem exact_split_amount_positive {ext : Externals} (db : DB)
        (req : CreateExpenseRequest.t) (groupID : Z) :
  Exists (fun r => CreateExpenseSplitRequest.Amount r <= 0)
         (CreateExpenseRequest.Splits req) ->
  let result := expenseService.calculateExactSplits db req groupID in
  (exists e,
      result = Err e /\ isInvalidSplitError e = false
      /\ (e = NewValidationError "Split amounts must be greater than zero"
          \/ e = NewValidationError
                   "All users in split must be members of the group"
          \/ e = NewNotFoundError "User"
          \/ exists uuid, e = NewInvalidValueError "user_uuid" uuid))
  /\ (result = Err (NewValidationError "Split amounts must be greater than zero")
      <-> exists pre splitReq post,
          CreateExpenseRequest.Splits req = pre ++ splitReq :: post
          /\ Forall (validMember db groupID) pre
          /\ Forall (fun r => 0 < CreateExpenseSplitRequest.Amount r) pre
          /\ utils.IsValidUUID (CreateExpenseSplitRequest.UserUUID splitReq)
             = true
          /\ CreateExpenseSplitRequest.Amount splitReq <= 0)
  /\ isValidationError
       (NewValidationError "Split amounts must be greater than zero") = true
  /\ (CreateExpenseRequest.SplitType req = SplitTypeExact ->
      expenseService.validateAndCalculateSplits db req groupID = result)
  /\ (forall newUUID group payer,
        reachesSplitCalculator db req group payer ->
        Group.ID group = groupID ->
        CreateExpenseRequest.SplitType req = SplitTypeExact ->
        exists e,
          expenseService.CreateExpense newUUID req db = (Err e, db)
          /\ result = Err e /\ isInvalidSplitError e = false).
Proof.
  intros Hex result.
  assert (Hne : CreateExpenseRequest.Splits req <> []).
  { intro E. rewrite E in Hex. inversion Hex. }
  assert (Hrej : exists e, result = Err e /\ isInvalidSplitError e = false).
  { subst result. unfold expenseService.calculateExactSplits.
    destruct (exactSplitsLoop_rejects db groupID Hex Zero [])
      as (e & He & Hk).
    exists e. rewrite He. split; [reflexivity|exact Hk]. }
  split.
  { destruct (exactSplitsLoop_rejects db groupID Hex Zero []) as (e & He & Hk).
    exists e. subst result. unfold expenseService.calculateExactSplits.
    rewrite He. split; [reflexivity|]. split; [exact Hk|].
    exact (exactSplitsLoop_error He). }
  split; [|split; [reflexivity|split]].
  2:{ intro Ht. apply validateAndCalculateSplits_exact; assumption. }
  2:{ intros newUUID group payer Hr Hg Ht. subst groupID.
      destruct Hrej as (e & He & Hk). exists e.
      split; [|split; assumption].
      apply (CreateExpense_rejected newUUID Hr).
      rewrite (validateAndCalculateSplits_exact db (Group.ID group) Hne Ht).
      exact He. }
  rewrite <- (exactSplitsLoop_amount_error db groupID
                (CreateExpenseRequest.Splits req) Zero []).
  subst result. unfold expenseService.calculateExactSplits.
  destruct (exactSplitsLoop_rejects db groupID Hex Zero []) as (e & He & _).
  rewrite He. unfold bind. split; intro H; inversion H; reflexivity.
Qed.

(** ** The settlement engine *)

Section SettlementEngine.
Context {ext : Externals}.
Import settlementService.

Definition settlementCurrency (req : CreateSettlementRequest.t) : string :=
  if String.eqb (CreateSettlementRequest.Currency req) "" then "USD"
  else CreateSettlementRequest.Currency req.

(** The request passes the input and membership validation of
    [CreateSettlement]; [group], [fromUser] and [toUser] are what the
    identifiers resolve to. *)
Definition passesValidation (db : DB) (req : CreateSettlementRequest.t)
           (group : Group.t) (fromUser toUser : User.t) : Prop :=
  utils.ValidateAmount (CreateSettlementRequest.Amount req) = None
  /\ utils.ValidateCurrency (settlementCurrency req) = None
  /\ utils.IsValidUUID (CreateSettlementRequest.GroupUUID req) = true
  /\ utils.IsValidUUID (CreateSettlementRequest.FromUserUUID req) = true
  /\ utils.IsValidUUID (CreateSettlementRequest.ToUserUUID req) = true
  /\ CreateSettlementRequest.FromUserUUID req
     <> CreateSettlementRequest.ToUserUUID req
  /\ groupRepository.GetByUUID db (CreateSettlementRequest.GroupUUID req)
     = Ok group
  /\ userRepository.GetByUUID db (CreateSettlementRequest.FromUserUUID req)
     = Ok fromUser
  /\ userRepository.GetByUUID db (CreateSettlementRequest.ToUserUUID req)
     = Ok toUser
  /\ groupRepository.IsMember db (Group.ID group) (User.ID fromUser) = Ok true
  /\ groupRepository.IsMember db (Group.ID group) (User.ID toUser) = Ok true.

Definition newSettlement (newUUID : string) (req : CreateSettlementRequest.t)
           (group : Group.t) (fromUser toUser : User.t) : Settlement.t :=
  Settlement.mk 0 newUUID (Group.ID group) (User.ID fromUser)
                (User.ID toUser) (CreateSettlementRequest.Amount req)
                (settlementCurrency req)
                (CreateSettlementRequest.Description req) None None None.

(** what [CreateSettlement] does once the amount is accepted *)
Definition persistSettlement (settlement : Settlement.t) : M Settlement.t :=
  do* settlement := WithTransaction (
    do* settlement := exec (settlementRepository.Create settlement) in
    do* _ := updateBalancesAfterSettlement settlement in
    ret settlement) in
  query (fun db => settlementRepository.GetByUUID db (Settlement.UUID settlement)).

(** the ledger after [updateBalancesAfterSettlement] *)
Definition ledgerAfterSettlement (settlement : Settlement.t)
           (rows : list Balance.t) : list Balance.t :=
  post (Settlement.GroupID settlement) (Settlement.ToUserID settlement)
       (Settlement.Amount settlement) (Settlement.Currency settlement)
       (post (Settlement.GroupID settlement) (Settlement.FromUserID settlement)
             (Neg (Settlement.Amount settlement))
             (Settlement.Currency settlement) rows).

Lemma updateBalancesAfterSettlement_run (settlement : Settlement.t) (db : DB) :
  updateBalancesAfterSettlement settlement db
  = (Ok tt, withUserBalances db
              (ledgerAfterSettlement settlement (user_balances db))).
Proof.
  unfold updateBalancesAfterSettlement, bindM, exec.
  rewrite !UpdateBalance_post. reflexivity.
Qed.

(** The two deltas of a settlement cancel. *)
Lemma ledgerAfterSettlement_total (settlement : Settlement.t)
      (rows : list Balance.t) (g' : Z) (c' : string) :
  groupTotal (ledgerAfterSettlement settlement rows) g' c'
  == groupTotal rows g' c'.
Proof.
  unfold ledgerAfterSettlement. rewrite !post_total.
  destruct (sameLedger _ _ g' c'); unfold Neg; ring.
Qed.


Lemma CreateSettlement_validated (db : DB) (newUUID : string)
      (req : CreateSettlementRequest.t) (group : Group.t)
      (fromUser toUser : User.t) :
  passesValidation db req group fromUser toUser ->
  let balance := balanceOf (user_balances db) (Group.ID group)
                           (User.ID fromUser) (settlementCurrency req) in
  CreateSettlement newUUID req db
  = if GreaterThan (CreateSettlementRequest.Amount req) balance
    then (Err (NewInsufficientFundError
                 (Decimal_String balance)
                 (Decimal_String (CreateSettlementRequest.Amount req))), db)
    else persistSettlement (newSettlement newUUID req group fromUser toUser) db.
Proof.
  intros (Ha & Hc & Hg & Hf & Ht & Hne & Hgroup & Hfrom & Hto & Hmf & Hmt).
  cbv zeta.
  unfold CreateSettlement. fold (settlementCurrency req).
  rewrite Ha, Hc, Hg, Hf, Ht. cbn [negb].
  apply String.eqb_neq in Hne. rewrite Hne.
  unfold bindM at 1, query at 1. rewrite Hgroup.
  unfold bindM at 1, query at 1. rewrite Hfrom.
  unfold bindM at 1, query at 1. rewrite Hto.
  unfold bindM at 1, query at 1. rewrite Hmf. cbn [negb].
  unfold bindM at 1, query at 1. rewrite Hmt. cbn [negb].
  unfold bindM at 1, query at 1.
  destruct (GetByGroupAndUser_balance db (Group.ID group) (User.ID fromUser)
                                      (settlementCurrency req))
    as (b & Hb & Hbal).
  rewrite Hb, Hbal.
  destruct (GreaterThan _ _); reflexivity.
Qed.




Lemma persistSettlement_ledger (settlement : Settlement.t) (db db' : DB)
      (stored : Settlement.t) :
  persistSettlement settlement db = (Ok stored, db') ->
  user_balances db' = ledgerAfterSettlement settlement (user_balances db).
Proof.
  unfold persistSettlement, bindM at 1, WithTransaction, bindM at 1, exec.
  unfold settlementRepository.Create.
  destruct (existsb _ _); [discriminate|].
  unfold bindM at 1. rewrite updateBalancesAfterSettlement_run.
  cbn [ret]. unfold bindM, query, settlementRepository.GetByUUID.
  destruct (find _ _); [|discriminate].
  intro H. inversion H; subst. reflexivity.
Qed.


(** An accepted settlement passed the validation and the debt check. *)
Lemma CreateSettlement_accepted (db db' : DB) (newUUID : string)
      (req : CreateSettlementRequest.t) (settlement : Settlement.t) :
  CreateSettlement newUUID req db = (Ok settlement, db') ->
  exists group fromUser toUser,
    passesValidation db req group fromUser toUser
    /\ persistSettlement (newSettlement newUUID req group fromUser toUser) db
       = (Ok settlement, db').
Proof.
  intro H. pose proof H as H0. revert H.
  unfold CreateSettlement. fold (settlementCurrency req).
  destruct (utils.ValidateAmount _) eqn:Ha; [discriminate|].
  destruct (utils.ValidateCurrency _) eqn:Hc; [discriminate|].
  destruct (utils.IsValidUUID (CreateSettlementRequest.GroupUUID req)) eqn:Hg;
    [|discriminate].
  destruct (utils.IsValidUUID (CreateSettlementRequest.FromUserUUID req))
    eqn:Hf; [|discriminate].
  destruct (utils.IsValidUUID (CreateSettlementRequest.ToUserUUID req))
    eqn:Ht; [|discriminate].
  cbn [negb].
  destruct (String.eqb _ _) eqn:Hne; [discriminate|].
  unfold bindM at 1, query at 1.
  destruct (groupRepository.GetByUUID db _) as [group|] eqn:Hgroup;
    [|discriminate].
  unfold bindM at 1, query at 1.
  destruct (userRepository.GetByUUID db (CreateSettlementRequest.FromUserUUID req))
    as [fromUser|] eqn:Hfrom; [|discriminate].
  unfold bindM at 1, query at 1.
  destruct (userRepository.GetByUUID db (CreateSettlementRequest.ToUserUUID req))
    as [toUser|] eqn:Hto; [|discriminate].
  unfold bindM at 1, query at 1.
  destruct (groupRepository.IsMember db _ (User.ID fromUser)) as [[|]|] eqn:Hmf;
    try discriminate.
  cbn [negb]. unfold bindM at 1, query at 1.
  destruct (groupRepository.IsMember db _ (User.ID toUser)) as [[|]|] eqn:Hmt;
    try discriminate.
  intros _.
  assert (Hv : passesValidation db req group fromUser toUser).
  { apply String.eqb_neq in Hne. repeat split; assumption. }
  exists group, fromUser, toUser. split; [exact Hv|].
  rewrite (CreateSettlement_validated newUUID Hv) in H0.
  destruct (GreaterThan _ _); [discriminate|exact H0].
Qed.

End SettlementEngine.


(** ** Debt simplification *)

Section DebtSimplification.
Import settlementService.

Definition sumBalances (work : list Balance.t) : Decimal :=
  Sum (map Balance.Balance work).

Definition sumSuggestions (l : list SettlementSuggestion.t) : Decimal :=
  Sum (map SettlementSuggestion.Amount l).

Definition positive (b : Balance.t) : Prop := 0 < Balance.Balance b.

(** A selection policy returns an index of the slice it is given. *)
Definition inBounds (pick : selection) : Prop :=
  forall work, work <> [] -> (pick work < List.length work)%nat.

(** *** The first largest element *)

Lemma scanMax_bound (work : list Balance.t) (n : nat) :
  forall rest i maxIdx,
    (maxIdx < n)%nat -> (i + List.length rest <= n)%nat ->
    (scanMax work i rest maxIdx < n)%nat.
Proof.
  induction rest as [|c rest IH]; intros i maxIdx Hm Hi; cbn [scanMax].
  - exact Hm.
  - cbn [List.length] in Hi. apply IH; [|lia].
    destruct (GreaterThan _ _); lia.
Qed.

Lemma largest_inBounds : inBounds largest.
Proof.
  intros work Hne. unfold largest. apply scanMax_bound.
  - destruct work; [congruence|cbn; lia].
  - lia.
Qed.

(** [scanMax] keeps the index of a maximum of what it has seen. *)
Lemma scanMax_max (work : list Balance.t) :
  forall rest seen maxIdx,
    work = seen ++ rest ->
    (maxIdx < List.length work)%nat ->
    Forall (fun b => Balance.Balance b
                     <= Balance.Balance (balanceAt work maxIdx)) seen ->
    Forall (fun b => Balance.Balance b
                     <= Balance.Balance
                          (balanceAt work
                             (scanMax work (List.length seen) rest maxIdx)))
           work.
Proof.
  induction rest as [|c rest IH]; intros seen maxIdx Hw Hm Hseen;
    cbn [scanMax].
  - rewrite app_nil_r in Hw. subst seen. exact Hseen.
  - assert (Hw' : work = (seen ++ [c]) ++ rest)
      by (rewrite <- app_assoc; exact Hw).
    assert (Hc : balanceAt work (List.length seen) = c).
    { unfold balanceAt. rewrite Hw, app_nth2, Nat.sub_diag by lia.
      reflexivity. }
    replace (S (List.length seen)) with (List.length (seen ++ [c]))
      by (rewrite length_app; cbn; lia).
    destruct (GreaterThan (Balance.Balance c)
                          (Balance.Balance (balanceAt work maxIdx))) eqn:Hgt.
    + apply GreaterThan_iff in Hgt. apply IH; [exact Hw'| |].
      * rewrite Hw, length_app. cbn. lia.
      * rewrite Hc. apply Forall_app. split.
        -- eapply Forall_impl; [|exact Hseen]. intros b Hb. cbv beta in *. lra.
        -- constructor; [apply Qle_refl|constructor].
    + apply GreaterThan_false_iff in Hgt. apply IH; [exact Hw'|exact Hm|].
      apply Forall_app. split; [exact Hseen|].
      constructor; [exact Hgt|constructor].
Qed.

(** The source's policy selects a largest remaining balance. *)
Lemma largest_is_max (work : list Balance.t) :
  work <> [] ->
  Forall (fun b => Balance.Balance b
                   <= Balance.Balance (balanceAt work (largest work))) work.
Proof.
  intro Hne. unfold largest.
  apply (@scanMax_max work work [] 0%nat); [reflexivity| |constructor].
  destruct work; [congruence|cbn; lia].
Qed.

(** *** Updating and removing an element of a working slice *)

Lemma split_at (work : list Balance.t) (idx : nat) :
  (idx < List.length work)%nat ->
  exists l1 l2, work = l1 ++ balanceAt work idx :: l2 /\ List.length l1 = idx.
Proof.
  intro H. unfold balanceAt.
  destruct (nth_split work Balance.zero H) as (l1 & l2 & Hw & Hl).
  exists l1, l2. split; assumption.
Qed.

Lemma balanceAt_split (l1 l2 : list Balance.t) (b : Balance.t) :
  balanceAt (l1 ++ b :: l2) (List.length l1) = b.
Proof.
  unfold balanceAt. rewrite app_nth2, Nat.sub_diag by lia. reflexivity.
Qed.

Lemma setBalanceAt_split (l1 l2 : list Balance.t) (b : Balance.t) (v : Decimal) :
  setBalanceAt (List.length l1) v (l1 ++ b :: l2)
  = l1 ++ Balance.withBalance b v :: l2.
Proof.
  unfold setBalanceAt.
  rewrite firstn_app, firstn_all, Nat.sub_diag, skipn_app, skipn_all,
    Nat.sub_diag.
  cbn. rewrite app_nil_r. reflexivity.
Qed.

Lemma removeAt_split (l1 l2 : list Balance.t) (b : Balance.t) :
  removeAt (List.length l1) (l1 ++ b :: l2) = l1 ++ l2.
Proof.
  unfold removeAt.
  rewrite firstn_app, firstn_all, Nat.sub_diag, skipn_app.
  rewrite (skipn_all2 (n := S (List.length l1)) l1) by lia.
  replace (S (List.length l1) - List.length l1)%nat with 1%nat by lia.
  cbn. rewrite app_nil_r. reflexivity.
Qed.

(** the working slice after the party at [idx] is left with [v]: the
    balance is updated, and the party removed when [v] is zero *)
Definition settle (idx : nat) (v : Decimal) (work : list Balance.t)
  : list Balance.t :=
  if Equal v Zero
  then removeAt idx (setBalanceAt idx v work)
  else setBalanceAt idx v work.

Lemma settle_split (l1 l2 : list Balance.t) (b : Balance.t) (v : Decimal) :
  settle (List.length l1) v (l1 ++ b :: l2)
  = if Equal v Zero then l1 ++ l2 else l1 ++ Balance.withBalance b v :: l2.
Proof.
  unfold settle. rewrite setBalanceAt_split, removeAt_split. reflexivity.
Qed.

Lemma sumBalances_app (l1 l2 : list Balance.t) :
  sumBalances (l1 ++ l2) == sumBalances l1 + sumBalances l2.
Proof. unfold sumBalances. rewrite map_app. apply Sum_app. Qed.

Lemma sumBalances_cons (b : Balance.t) (l : list Balance.t) :
  sumBalances (b :: l) == Balance.Balance b + sumBalances l.
Proof. unfold sumBalances. cbn [map]. apply Sum_cons. Qed.

Lemma settle_sum (idx : nat) (v : Decimal) (work : list Balance.t) :
  (idx < List.length work)%nat ->
  sumBalances (settle idx v work)
  == sumBalances work - Balance.Balance (balanceAt work idx) + v.
Proof.
  intro H. destruct (split_at H) as (l1 & l2 & Hw & Hl).
  set (b := balanceAt work idx) in *. clearbody b. subst work idx.
  rewrite settle_split.
  destruct (Equal v Zero) eqn:Hz.
  - apply Equal_iff in Hz. unfold Zero in Hz.
    rewrite !sumBalances_app, sumBalances_cons, Hz. ring.
  - rewrite !sumBalances_app, !sumBalances_cons. cbn. ring.
Qed.

Lemma settle_length (idx : nat) (v : Decimal) (work : list Balance.t) :
  (idx < List.length work)%nat ->
  List.length (settle idx v work)
  = if Equal v Zero then (List.length work - 1)%nat else List.length work.
Proof.
  intro H. destruct (split_at H) as (l1 & l2 & Hw & Hl).
  set (b := balanceAt work idx) in *. clearbody b. subst work idx.
  rewrite settle_split.
  destruct (Equal v Zero); rewrite !length_app; cbn; lia.
Qed.

Lemma settle_positive (idx : nat) (v : Decimal) (work : list Balance.t) :
  (idx < List.length work)%nat ->
  0 <= v ->
  Forall positive work -> Forall positive (settle idx v work).
Proof.
  intros H Hv Hpos. destruct (split_at H) as (l1 & l2 & Hw & Hl).
  set (b := balanceAt work idx) in *. clearbody b. subst work idx.
  rewrite settle_split.
  apply Forall_app in Hpos. destruct Hpos as [H1 H2].
  inversion H2 as [|? ? _ H2']; subst.
  destruct (Equal v Zero) eqn:Hz; apply Forall_app; split; try assumption.
  constructor; [|assumption].
  apply Equal_false_iff in Hz. unfold positive, Zero in *. cbn.
  destruct (Qlt_le_dec 0 v) as [Hlt|Hle]; [exact Hlt|].
  exfalso. apply Hz. apply Qle_antisym; assumption.
Qed.

Lemma balanceAt_positive (work : list Balance.t) (idx : nat) :
  (idx < List.length work)%nat ->
  Forall positive work -> positive (balanceAt work idx).
Proof.
  intros H Hpos. destruct (split_at H) as (l1 & l2 & Hw & _).
  rewrite Hw in Hpos. apply Forall_app in Hpos. destruct Hpos as [_ H2].
  inversion H2; assumption.
Qed.

(** *** One iteration *)

Section Step.
Variables (pickCreditor pickDebtor : selection) (currency : string).
Variable m : matching.

Let creditor := balanceAt (creditorsWork m) (pickCreditor (creditorsWork m)).
Let debtor := balanceAt (debtorsWork m) (pickDebtor (debtorsWork m)).
Let amount :=
  if LessThan (Balance.Balance debtor) (Balance.Balance creditor)
  then Balance.Balance debtor else Balance.Balance creditor.

Lemma matchStep_settles :
  matchStep pickCreditor pickDebtor currency m
  = mkMatching
      (settle (pickCreditor (creditorsWork m))
              (Sub (Balance.Balance creditor) amount) (creditorsWork m))
      (settle (pickDebtor (debtorsWork m))
              (Sub (Balance.Balance debtor) amount) (debtorsWork m))
      (suggestions m
       ++ [SettlementSuggestion.mk (Balance.User debtor)
             (Balance.User creditor) amount currency]).
Proof. reflexivity. Qed.

(** the settled amount is the smaller of the two remainders *)
Lemma amount_min :
  amount == Qmin (Balance.Balance debtor) (Balance.Balance creditor).
Proof.
  subst amount.
  destruct (LessThan _ _) eqn:H.
  - apply LessThan_iff in H. symmetry. apply Q.min_l.
    apply Qlt_le_weak. exact H.
  - apply LessThan_false_iff in H. symmetry. apply Q.min_r. exact H.
Qed.

(** one of the two parties is left with exactly zero *)
Lemma amount_exhausts :
  Equal (Sub (Balance.Balance creditor) amount) Zero = true
  \/ Equal (Sub (Balance.Balance debtor) amount) Zero = true.
Proof.
  subst amount.
  destruct (LessThan _ _); [right|left];
    apply Equal_iff; unfold Sub, Zero; ring.
Qed.

Lemma amount_leaves_nonnegative :
  0 <= Sub (Balance.Balance creditor) amount
  /\ 0 <= Sub (Balance.Balance debtor) amount.
Proof.
  subst amount. unfold Sub.
  destruct (LessThan _ _) eqn:H.
  - apply LessThan_iff in H. split; lra.
  - apply LessThan_false_iff in H. split; lra.
Qed.

Hypothesis creditorsLeft : creditorsWork m <> [].
Hypothesis debtorsLeft : debtorsWork m <> [].
Hypothesis pickCreditor_inBounds : inBounds pickCreditor.
Hypothesis pickDebtor_inBounds : inBounds pickDebtor.

Let m' := matchStep pickCreditor pickDebtor currency m.

Lemma matchStep_creditors :
  sumBalances (creditorsWork m') == sumBalances (creditorsWork m) - amount.
Proof.
  subst m'. rewrite matchStep_settles. cbn [creditorsWork].
  rewrite settle_sum by (apply pickCreditor_inBounds; assumption).
  fold creditor. unfold Sub. ring.
Qed.

Lemma matchStep_debtors :
  sumBalances (debtorsWork m') == sumBalances (debtorsWork m) - amount.
Proof.
  subst m'. rewrite matchStep_settles. cbn [debtorsWork].
  rewrite settle_sum by (apply pickDebtor_inBounds; assumption).
  fold debtor. unfold Sub. ring.
Qed.

Lemma matchStep_suggestions :
  sumSuggestions (suggestions m') == sumSuggestions (suggestions m) + amount.
Proof.
  subst m'. rewrite matchStep_settles. cbn [suggestions].
  unfold sumSuggestions. rewrite map_app, Sum_app. cbn [map].
  rewrite Sum_cons, Sum_nil. cbn. unfold Zero. ring.
Qed.

(** a party whose remainder reached zero has been removed *)
Lemma matchStep_removes :
  (List.length (creditorsWork m') <= List.length (creditorsWork m))%nat
  /\ (List.length (debtorsWork m') <= List.length (debtorsWork m))%nat
  /\ (List.length (creditorsWork m') + List.length (debtorsWork m')
      < List.length (creditorsWork m) + List.length (debtorsWork m))%nat.
Proof.
  subst m'. rewrite matchStep_settles. cbn [creditorsWork debtorsWork].
  pose proof (pickCreditor_inBounds creditorsLeft) as Hc.
  pose proof (pickDebtor_inBounds debtorsLeft) as Hd.
  rewrite (settle_length _ Hc), (settle_length _ Hd).
  fold creditor debtor amount.
  destruct amount_exhausts as [E|E];
    destruct (Equal (Sub (Balance.Balance creditor) amount) Zero);
    destruct (Equal (Sub (Balance.Balance debtor) amount) Zero);
    try discriminate E; lia.
Qed.

Lemma matchStep_positive :
  Forall positive (creditorsWork m) -> Forall positive (debtorsWork m) ->
  Forall positive (creditorsWork m') /\ Forall positive (debtorsWork m').
Proof.
  intros Hc Hd. subst m'. rewrite matchStep_settles.
  cbn [creditorsWork debtorsWork].
  destruct amount_leaves_nonnegative as [H1 H2].
  split; apply settle_positive; try assumption.
  - apply pickCreditor_inBounds; assumption.
  - apply pickDebtor_inBounds; assumption.
Qed.

End Step.


(** *** The loop *)

Lemma matchLoop_unfold (pickCreditor pickDebtor : selection)
      (currency : string) (fuel : nat) (m : matching) :
  matchLoop pickCreditor pickDebtor currency fuel m
  = match creditorsWork m, debtorsWork m with
    | _ :: _, _ :: _ =>
        match fuel with
        | O => None
        | S fuel =>
            matchLoop pickCreditor pickDebtor currency fuel
                      (matchStep pickCreditor pickDebtor currency m)
        end
    | _, _ => Some m
    end.
Proof. destruct fuel; reflexivity. Qed.

(** what the loop keeps invariant between a state and the final one *)
Definition settledFrom (m m' : matching) : Prop :=
  (creditorsWork m' = [] \/ debtorsWork m' = [])
  /\ sumSuggestions (suggestions m') + sumBalances (debtorsWork m')
     == sumSuggestions (suggestions m) + sumBalances (debtorsWork m)
  /\ sumBalances (creditorsWork m') - sumBalances (debtorsWork m')
     == sumBalances (creditorsWork m) - sumBalances (debtorsWork m)
  /\ (Forall positive (creditorsWork m) -> Forall positive (debtorsWork m) ->
      Forall positive (creditorsWork m') /\ Forall positive (debtorsWork m'))
  /\ (List.length (suggestions m') + List.length (creditorsWork m')
      + List.length (debtorsWork m')
      <= List.length (suggestions m) + List.length (creditorsWork m)
         + List.length (debtorsWork m))%nat.

(** Every iteration removes a party, so the loop ends within as many
    iterations as there are parties. *)
Lemma matchLoop_terminates (pickCreditor pickDebtor : selection)
      (currency : string) :
  inBounds pickCreditor -> inBounds pickDebtor ->
  forall fuel m,
    (List.length (creditorsWork m) + List.length (debtorsWork m) <= fuel)%nat ->
    exists m',
      matchLoop pickCreditor pickDebtor currency fuel m = Some m'
      /\ settledFrom m m'.
Proof.
  intros HpC HpD.
  induction fuel as [|fuel IH]; intros m Hfuel; rewrite matchLoop_unfold.
  - destruct (creditorsWork m) as [|c cs] eqn:Ec.
    + exists m. split; [reflexivity|]. unfold settledFrom. rewrite Ec.
      repeat split; try reflexivity; try tauto; try lia.
    + destruct (debtorsWork m) as [|d ds] eqn:Ed; [|cbn in Hfuel; lia].
      exists m. split; [reflexivity|]. unfold settledFrom. rewrite Ec, Ed.
      repeat split; try reflexivity; try tauto; try lia.
  - destruct (creditorsWork m) as [|c cs] eqn:Ec.
    + exists m. split; [reflexivity|]. unfold settledFrom. rewrite Ec.
      repeat split; try reflexivity; try tauto; try lia.
    + destruct (debtorsWork m) as [|d ds] eqn:Ed.
      * exists m. split; [reflexivity|]. unfold settledFrom. rewrite Ec, Ed.
        repeat split; try reflexivity; try tauto; try lia.
      * assert (Hc : creditorsWork m <> []) by (rewrite Ec; discriminate).
        assert (Hd : debtorsWork m <> []) by (rewrite Ed; discriminate).
        pose proof (matchStep_removes currency Hc Hd HpC HpD) as (L1 & L2 & L3).
        pose proof (matchStep_creditors pickDebtor currency Hc HpC) as S1.
        pose proof (matchStep_debtors pickCreditor currency Hd HpD) as S2.
        pose proof (matchStep_suggestions pickCreditor pickDebtor currency m)
          as S3.
        pose proof (matchStep_positive currency Hc Hd HpC HpD) as P.
        cbv zeta in *.
        set (m1 := matchStep pickCreditor pickDebtor currency m) in *.
        assert (Hn : List.length (suggestions m1)
                     = S (List.length (suggestions m))).
        { subst m1. rewrite matchStep_settles. cbn [suggestions].
          rewrite length_app. cbn. lia. }
        destruct (IH m1) as (m' & Hrun & Hend & Hs & Hbal & Hpos & Hlen).
        { rewrite Ec, Ed in L3. cbn [List.length] in *. lia. }
        exists m'. split; [exact Hrun|]. unfold settledFrom.
        split; [exact Hend|].
        split; [rewrite Hs, S2, S3; ring|].
        split; [rewrite Hbal, S1, S2; ring|].
        split; [intros Pc Pd; destruct (P Pc Pd); apply Hpos; assumption|].
        lia.
Qed.

Lemma matchLoop_more_fuel (pickCreditor pickDebtor : selection)
      (currency : string) :
  forall fuel m m',
    matchLoop pickCreditor pickDebtor currency fuel m = Some m' ->
    forall extra,
      matchLoop pickCreditor pickDebtor currency (fuel + extra) m = Some m'.
Proof.
  induction fuel as [|fuel IH]; intros m m' H extra;
    rewrite matchLoop_unfold in H |- *.
  - destruct (creditorsWork m); [exact H|].
    destruct (debtorsWork m); [exact H|discriminate H].
  - destruct (creditorsWork m); [exact H|].
    destruct (debtorsWork m); [exact H|].
    cbn [Nat.add]. apply IH. exact H.
Qed.

Lemma startMatching_sums (creditors debtors : list Balance.t) :
  sumBalances (creditorsWork (startMatching creditors debtors))
  = sumBalances creditors
  /\ sumBalances (debtorsWork (startMatching creditors debtors))
     = sumBalances debtors.
Proof.
  unfold startMatching, sumBalances. cbn [creditorsWork debtorsWork].
  rewrite !map_map. split; reflexivity.
Qed.

Lemma startMatching_positive (l : list Balance.t) :
  Forall positive l -> Forall positive (map workingCopy l).
Proof.
  intro H. rewrite Forall_map. eapply Forall_impl; [|exact H].
  intros b Hb. exact Hb.
Qed.

Lemma positive_sum_zero (work : list Balance.t) :
  Forall positive work -> sumBalances work == 0 -> work = [].
Proof.
  intros Hpos Hsum. unfold sumBalances in Hsum.
  apply Sum_positive_zero in Hsum.
  - destruct work; [reflexivity|discriminate Hsum].
  - rewrite Forall_map. exact Hpos.
Qed.

(** The greedy matching always returns, whatever the selection policy. *)
Lemma generateSettlementSuggestionsWith_runs
      (pickCreditor pickDebtor : selection)
      (creditors debtors : list Balance.t) (currency : string) :
  inBounds pickCreditor -> inBounds pickDebtor ->
  exists m,
    matchLoop pickCreditor pickDebtor currency
              (List.length creditors + List.length debtors)
              (startMatching creditors debtors) = Some m
    /\ generateSettlementSuggestionsWith pickCreditor pickDebtor
         creditors debtors currency = Some (suggestions m)
    /\ settledFrom (startMatching creditors debtors) m.
Proof.
  intros HpC HpD.
  destruct (@matchLoop_terminates pickCreditor pickDebtor currency HpC HpD
              (List.length creditors + List.length debtors)
              (startMatching creditors debtors)) as (m & Hrun & Hinv).
  { cbn [startMatching creditorsWork debtorsWork]. rewrite !length_map. lia. }
  exists m. split; [exact Hrun|]. split; [|exact Hinv].
  unfold generateSettlementSuggestionsWith. rewrite Hrun. reflexivity.
Qed.

(** The suggestions move the whole debt when debts and credits balance. *)
Lemma suggestions_total (pickCreditor pickDebtor : selection)
      (creditors debtors : list Balance.t) (currency : string) :
  inBounds pickCreditor -> inBounds pickDebtor ->
  sumBalances debtors == sumBalances creditors ->
  exists l,
    generateSettlementSuggestionsWith pickCreditor pickDebtor
      creditors debtors currency = Some l
    /\ sumSuggestions l == sumBalances debtors
    /\ (List.length l <= List.length creditors + List.length debtors)%nat.
Proof.
  intros HpC HpD Hbal.
  destruct (generateSettlementSuggestionsWith_runs creditors debtors currency
              HpC HpD) as (m & _ & Hgen & Hend & Hs & Hd & _ & Hlen).
  destruct (startMatching_sums creditors debtors) as [Ec Ed].
  rewrite Ec, Ed in Hd. rewrite Ed in Hs.
  cbn [startMatching suggestions creditorsWork debtorsWork] in Hs, Hlen.
  rewrite !length_map in Hlen. cbn [List.length] in Hlen.
  exists (suggestions m). split; [exact Hgen|]. split; [|lia].
  assert (Hzero : sumBalances (debtorsWork m) == 0).
  { destruct Hend as [E|E]; rewrite E in *.
    - change (sumBalances []) with 0 in Hd. lra.
    - reflexivity. }
  change (sumSuggestions []) with 0 in Hs. lra.
Qed.

(** *** The partition of the balances *)

Definition isDebtor (b : Balance.t) : bool := GreaterThan (Balance.Balance b) Zero.
Definition isCreditor (b : Balance.t) : bool := LessThan (Balance.Balance b) Zero.
Definition madePositive (b : Balance.t) : Balance.t :=
  Balance.withBalance b (Abs (Balance.Balance b)).

(** the debtors and the creditors of a snapshot *)
Definition debtorsOf (balances : list Balance.t) : list Balance.t :=
  filter isDebtor balances.
Definition creditorsOf (balances : list Balance.t) : list Balance.t :=
  filter isCreditor balances.

Lemma separate_spec (balances : list Balance.t) :
  separate balances
  = (map madePositive (creditorsOf balances), debtorsOf balances).
Proof.
  unfold separate, creditorsOf, debtorsOf.
  assert (H : forall l cs ds,
             fold_left
               (fun '(creditors, debtors) balance =>
                  if GreaterThan (Balance.Balance balance) Zero then
                    (creditors, debtors ++ [balance])
                  else if LessThan (Balance.Balance balance) Zero then
                    (creditors ++ [Balance.withBalance balance
                                     (Abs (Balance.Balance balance))],
                     debtors)
                  else (creditors, debtors))
               l (cs, ds)
             = (cs ++ map madePositive (filter isCreditor l),
                ds ++ filter isDebtor l)).
  { induction l as [|b l IH]; intros cs ds; cbn [fold_left filter map].
    - rewrite !app_nil_r. reflexivity.
    - unfold isDebtor at 1, isCreditor at 1.
      destruct (GreaterThan (Balance.Balance b) Zero) eqn:Hg.
      + apply GreaterThan_iff in Hg.
        replace (LessThan (Balance.Balance b) Zero) with false
          by (symmetry; apply LessThan_false_iff; unfold Zero in *; lra).
        rewrite IH, <- app_assoc. reflexivity.
      + destruct (LessThan (Balance.Balance b) Zero).
        * rewrite IH, <- app_assoc. reflexivity.
        * apply IH. }
  apply (H balances [] []).
Qed.

Lemma creditors_positive (balances : list Balance.t) :
  Forall positive (map madePositive (creditorsOf balances)).
Proof.
  rewrite Forall_map. unfold creditorsOf. apply Forall_forall.
  intros b Hb. apply filter_In in Hb. destruct Hb as [_ Hb].
  apply LessThan_iff in Hb. unfold positive, madePositive, Abs, Zero in *.
  cbn. rewrite Qabs_neg by lra. lra.
Qed.

Lemma debtors_positive (balances : list Balance.t) :
  Forall positive (debtorsOf balances).
Proof.
  unfold debtorsOf. apply Forall_forall.
  intros b Hb. apply filter_In in Hb. destruct Hb as [_ Hb].
  apply GreaterThan_iff in Hb. exact Hb.
Qed.

(** what the debtors owe, and what the creditors are owed *)
Definition totalOwed (balances : list Balance.t) : Decimal :=
  sumBalances (debtorsOf balances).
Definition totalDue (balances : list Balance.t) : Decimal :=
  Sum (map (fun b => Abs (Balance.Balance b)) (creditorsOf balances)).

Lemma totalDue_creditors (balances : list Balance.t) :
  sumBalances (map madePositive (creditorsOf balances)) = totalDue balances.
Proof. unfold sumBalances, totalDue. rewrite map_map. reflexivity. Qed.

Lemma generateSettlementSuggestions_largest
      (creditors debtors : list Balance.t) (currency : string) :
  generateSettlementSuggestionsWith largest largest creditors debtors currency
  = Some (generateSettlementSuggestions creditors debtors currency).
Proof.
  unfold generateSettlementSuggestions.
  destruct (generateSettlementSuggestionsWith_runs creditors debtors currency
              largest_inBounds largest_inBounds) as (m & _ & Hgen & _).
  rewrite Hgen. reflexivity.
Qed.

End DebtSimplification.

(** C4.  When what the debtors owe equals what the creditors are owed, the
    amounts of the suggestions of [SimplifyDebts] sum to that total, and so
    do the suggestions of the greedy matching under any other policy for
    choosing the next creditor and debtor, in particular under any way of
    breaking ties between equal maxima. *)
Theorem suggestions_sum_to_debt (balances : list Balance.t) (currency : string) :
  totalOwed balances == totalDue balances ->
  let result := settlementService.simplifyBalances balances currency in
  sumSuggestions (DebtSimplification.Suggestions result) == totalOwed balances
  /\ sumSuggestions (DebtSimplification.Suggestions result) == totalDue balances
  /\ (forall pickCreditor pickDebtor,
        inBounds pickCreditor -> inBounds pickDebtor ->
        exists l,
          settlementService.generateSettlementSuggestionsWith
            pickCreditor pickDebtor
            (fst (settlementService.separate balances))
            (snd (settlementService.separate balances)) currency = Some l
          /\ sumSuggestions l == totalOwed balances).
Proof.
  intros Hbal result.
  assert (Hany : forall pickCreditor pickDebtor,
             inBounds pickCreditor -> inBounds pickDebtor ->
             exists l,
               settlementService.generateSettlementSuggestionsWith
                 pickCreditor pickDebtor
                 (map madePositive (creditorsOf balances)) (debtorsOf balances)
                 currency = Some l
               /\ sumSuggestions l == totalOwed balances).
  { intros pc pd Hpc Hpd.
    destruct (@suggestions_total pc pd (map madePositive (creditorsOf balances))
                (debtorsOf balances) currency Hpc Hpd) as (l & Hl & Hsum & _).
    { rewrite totalDue_creditors. exact Hbal. }
    exists l. split; [exact Hl|exact Hsum]. }
  assert (Hsrc : sumSuggestions (DebtSimplification.Suggestions result)
                 == totalOwed balances).
  { subst result. unfold settlementService.simplifyBalances.
    rewrite separate_spec. cbn [DebtSimplification.Suggestions].
    destruct (Hany _ _ largest_inBounds largest_inBounds) as (l & Hl & Hsum).
    rewrite generateSettlementSuggestions_largest in Hl.
    inversion Hl; subst. exact Hsum. }
  split; [exact Hsrc|]. split; [rewrite Hsrc; exact Hbal|].
  rewrite separate_spec. exact Hany.
Qed.

(** The number of debtors and of creditors of a snapshot. *)
Definition debtorCount (balances : list Balance.t) : Z :=
  goint.len (debtorsOf balances).
Definition creditorCount (balances : list Balance.t) : Z :=
  goint.len (creditorsOf balances).

Lemma wrap_small (x : Z) :
  (- 2 ^ 63 <= x < 2 ^ 63)%Z -> goint.wrap x = x.
Proof.
  intro H. unfold goint.wrap.
  rewrite Z.mod_small; lia.
Qed.

Lemma suggestions_count (creditors debtors : list Balance.t) (currency : string) :
  (List.length (settlementService.generateSettlementSuggestions
                  creditors debtors currency)
   <= List.length creditors + List.length debtors)%nat
  /\ (creditors = [] \/ debtors = [] ->
      settlementService.generateSettlementSuggestions creditors debtors currency
      = []).
Proof.
  split.
  - destruct (generateSettlementSuggestionsWith_runs creditors debtors currency
                largest_inBounds largest_inBounds)
      as (m & _ & Hgen & _ & _ & _ & _ & Hlen).
    rewrite generateSettlementSuggestions_largest in Hgen.
    inversion Hgen as [Hl]. rewrite Hl.
    cbn [settlementService.startMatching settlementService.suggestions
         settlementService.creditorsWork settlementService.debtorsWork] in Hlen.
    rewrite !length_map in Hlen. cbn [List.length] in Hlen. lia.
  - intros [E|E]; subst;
      unfold settlementService.generateSettlementSuggestions,
        settlementService.generateSettlementSuggestionsWith;
      rewrite matchLoop_unfold; cbn.
    + reflexivity.
    + destruct (map settlementService.workingCopy creditors); reflexivity.
Qed.

(** C7, as the code has it.  [OriginalTransactions] is the number of
    debtors times the number of creditors when that product is not zero,
    and 1 when it is zero (no debtor or no creditor);
    [SimplifiedTransactions] is the number of suggestions; [Savings] is
    their difference, clamped to be at least 0.  The product is assumed to
    fit Go's [int]. *)
Theorem simplification_counts (balances : list Balance.t) (currency : string) :
  (debtorCount balances * creditorCount balances < 2 ^ 63)%Z ->
  let result := settlementService.simplifyBalances balances currency in
  DebtSimplification.OriginalTransactions result
  = (if (debtorCount balances * creditorCount balances =? 0)%Z then 1%Z
     else (debtorCount balances * creditorCount balances)%Z)
  /\ DebtSimplification.SimplifiedTransactions result
     = goint.len (DebtSimplification.Suggestions result)
  /\ DebtSimplification.Savings result
     = Z.max 0 (DebtSimplification.OriginalTransactions result
                - DebtSimplification.SimplifiedTransactions result).
Proof.
  intros Hfit result. subst result.
  unfold settlementService.simplifyBalances. rewrite separate_spec.
  cbn [DebtSimplification.OriginalTransactions
       DebtSimplification.SimplifiedTransactions
       DebtSimplification.Savings DebtSimplification.Suggestions].
  unfold debtorCount, creditorCount in *.
  set (d := goint.len (debtorsOf balances)) in *.
  assert (Hc : goint.len (map madePositive (creditorsOf balances))
               = goint.len (creditorsOf balances)).
  { unfold goint.len. rewrite length_map. reflexivity. }
  rewrite Hc. set (c := goint.len (creditorsOf balances)) in *.
  set (l := settlementService.generateSettlementSuggestions _ _ _).
  assert (Hd0 : (0 <= d)%Z) by (subst d; unfold goint.len; lia).
  assert (Hc0 : (0 <= c)%Z) by (subst c; unfold goint.len; lia).
  assert (Hmul : goint.mul d c = (d * c)%Z).
  { unfold goint.mul. apply wrap_small. nia. }
  rewrite Hmul.
  destruct (suggestions_count (map madePositive (creditorsOf balances))
              (debtorsOf balances) currency) as [Hlen Hempty].
  fold l in Hlen, Hempty.
  assert (Hl : (0 <= goint.len l <= c + d)%Z).
  { unfold goint.len in *. rewrite length_map in Hlen. subst c d. lia. }
  split; [reflexivity|]. split; [reflexivity|].
  destruct (d * c =? 0)%Z eqn:Hz.
  - apply Z.eqb_eq in Hz.
    assert (Hnil : l = []).
    { apply Hempty. apply Z.mul_eq_0 in Hz. destruct Hz as [Hz|Hz].
      - right. subst d. unfold goint.len in Hz.
        destruct (debtorsOf balances); [reflexivity|cbn in Hz; lia].
      - left. subst c. unfold goint.len in Hz.
        destruct (creditorsOf balances); [reflexivity|cbn in Hz; lia]. }
    rewrite Hnil. reflexivity.
  - apply Z.eqb_neq in Hz.
    assert (Hsub : goint.sub (d * c) (goint.len l) = (d * c - goint.len l)%Z).
    { unfold goint.sub. apply wrap_small.
      assert (H1 : (1 <= d)%Z) by (destruct (Z.eq_dec d 0); [subst; lia|lia]).
      assert (H2 : (1 <= c)%Z)
        by (destruct (Z.eq_dec c 0) as [E|E]; [rewrite E in Hz; lia|lia]).
      assert (H3 : (c + d <= d * c + 1)%Z) by nia.
      change (2 ^ 63)%Z with 9223372036854775808%Z in *. lia. }
    rewrite Hsub.
    destruct (d * c - goint.len l <? 0)%Z eqn:Hneg.
    + apply Z.ltb_lt in Hneg. lia.
    + apply Z.ltb_ge in Hneg. lia.
Qed.

(** C8.  For creditors and debtors with strictly positive amounts the
    greedy loop terminates, within as many iterations as there are parties:
    every iteration settles the smaller of the two selected remainders,
    which leaves one of the two parties with exactly zero and removes it.
    The loop ends with one of the sets empty, and with both empty when the
    debts and the credits have the same sum. *)
Theorem greedy_matching_terminates (creditors debtors : list Balance.t)
        (currency : string) :
  Forall positive creditors -> Forall positive debtors ->
  (exists final,
      (forall fuel,
          (List.length creditors + List.length debtors <= fuel)%nat ->
          settlementService.matchLoop settlementService.largest
            settlementService.largest currency fuel
            (settlementService.startMatching creditors debtors) = Some final)
      /\ settlementService.generateSettlementSuggestions creditors debtors currency
         = settlementService.suggestions final
      /\ (settlementService.creditorsWork final = []
          \/ settlementService.debtorsWork final = [])
      /\ (sumBalances debtors == sumBalances creditors ->
          settlementService.creditorsWork final = []
          /\ settlementService.debtorsWork final = []))
  /\ (forall m,
         Forall positive (settlementService.creditorsWork m) ->
         Forall positive (settlementService.debtorsWork m) ->
         settlementService.creditorsWork m <> [] ->
         settlementService.debtorsWork m <> [] ->
         let creditor :=
           settlementService.balanceAt (settlementService.creditorsWork m)
             (settlementService.largest (settlementService.creditorsWork m)) in
         let debtor :=
           settlementService.balanceAt (settlementService.debtorsWork m)
             (settlementService.largest (settlementService.debtorsWork m)) in
         let amount := Qmin (Balance.Balance debtor) (Balance.Balance creditor) in
         let m' := settlementService.matchStep settlementService.largest
                     settlementService.largest currency m in
         (exists s,
             settlementService.suggestions m'
             = settlementService.suggestions m ++ [s]
             /\ SettlementSuggestion.FromUser s = Balance.User debtor
             /\ SettlementSuggestion.ToUser s = Balance.User creditor
             /\ SettlementSuggestion.Amount s == amount)
         /\ sumBalances (settlementService.creditorsWork m')
            == sumBalances (settlementService.creditorsWork m) - amount
         /\ sumBalances (settlementService.debtorsWork m')
            == sumBalances (settlementService.debtorsWork m) - amount
         /\ (List.length (settlementService.creditorsWork m')
             + List.length (settlementService.debtorsWork m')
             < List.length (settlementService.creditorsWork m)
               + List.length (settlementService.debtorsWork m))%nat
         /\ Forall positive (settlementService.creditorsWork m')
         /\ Forall positive (settlementService.debtorsWork m')).
Proof.
  intros Hc Hd. split.
  - destruct (generateSettlementSuggestionsWith_runs creditors debtors currency
                largest_inBounds largest_inBounds)
      as (final & Hrun & Hgen & Hend & _ & Hbal & Hpos & _).
    exists final. split; [|split; [|split]].
    + intros fuel Hfuel.
      replace fuel
        with ((List.length creditors + List.length debtors)
              + (fuel - (List.length creditors + List.length debtors)))%nat
        by lia.
      apply matchLoop_more_fuel. exact Hrun.
    + rewrite generateSettlementSuggestions_largest in Hgen.
      inversion Hgen. reflexivity.
    + exact Hend.
    + intro Hsum.
      destruct (startMatching_sums creditors debtors) as [Ec Ed].
      rewrite Ec, Ed in Hbal.
      destruct Hpos as [Pc Pd]; [apply startMatching_positive; exact Hc
                                |apply startMatching_positive; exact Hd|].
      destruct Hend as [E|E]; rewrite E in *; split; try reflexivity;
        apply positive_sum_zero; try assumption;
        change (sumBalances []) with 0 in Hbal; lra.
  - intros m Pc Pd Nc Nd creditor debtor amount m'.
    pose proof (amount_min settlementService.largest settlementService.largest m)
      as Hmin.
    pose proof (matchStep_creditors settlementService.largest currency Nc
                  largest_inBounds) as S1.
    pose proof (matchStep_debtors settlementService.largest currency Nd
                  largest_inBounds) as S2.
    pose proof (matchStep_removes currency Nc Nd largest_inBounds
                  largest_inBounds) as (_ & _ & L).
    pose proof (matchStep_positive currency Nc Nd largest_inBounds
                  largest_inBounds Pc Pd) as [P1 P2].
    cbv zeta in *. fold creditor debtor in Hmin, S1, S2.
    fold m' in S1, S2, L, P1, P2.
    split; [|split; [|split; [|split; [|split]]]]; try assumption.
    + eexists. split; [subst m'; rewrite matchStep_settles; reflexivity|].
      cbn. fold creditor debtor. repeat split; try reflexivity. exact Hmin.
    + rewrite S1. subst amount. rewrite <- Hmin. reflexivity.
    + rewrite S2. subst amount. rewrite <- Hmin. reflexivity.
Qed.

(** C9.  When the table holds no balance row for a group, a user and a
    currency, [GetByGroupAndUser] returns, without error, a balance of zero
    for that group, user and currency. *)
Theorem absent_balance_is_zero (db : DB) (groupID userID : Z) (currency : string) :
  (forall row, In row (user_balances db) ->
               balanceRepository.hasKey groupID userID currency row = false) ->
  balanceRepository.GetByGroupAndUser db groupID userID currency
  = Ok (Balance.mk 0 groupID userID Zero currency None None).
Proof.
  intro Hnone. unfold balanceRepository.GetByGroupAndUser.
  destruct (find _ _) as [row|] eqn:Hfind; [|reflexivity].
  apply find_some in Hfind. destruct Hfind as [Hin Hkey].
  rewrite (Hnone row Hin) in Hkey. discriminate Hkey.
Qed.

(** ** The zero-sum invariant of the ledger *)

Section ZeroSum.
Context {ext : Externals}.
Import expenseService.

Lemma equalSplitsLoop_members (db : DB) (req : CreateExpenseRequest.t)
      (groupID : Z) (amountPerUser : Decimal) :
  forall rest i totalAssigned splits out,
    equalSplitsLoop db req groupID amountPerUser i rest totalAssigned splits
    = Ok out ->
    exists users, Forall2 (resolves db groupID) rest users.
Proof.
  induction rest as [|r rest IH]; intros i total splits out.
  - intros _. exists []. constructor.
  - cbn [equalSplitsLoop].
    destruct (utils.IsValidUUID _) eqn:Hv; cbn [negb]; [|discriminate].
    destruct (userRepository.GetByUUID db _) as [u|] eqn:Hu; cbn [bind];
      [|discriminate].
    destruct (groupRepository.IsMember db groupID (User.ID u)) as [[|]|] eqn:Hm;
      cbn [bind negb]; try discriminate.
    intro H. destruct (IH _ _ _ _ H) as [users Hres].
    exists (u :: users). constructor; [|exact Hres].
    repeat split; assumption.
Qed.

(** The equal shares sum to the total. *)
Lemma calculateEqualSplits_sum (db : DB) (req : CreateExpenseRequest.t)
      (groupID : Z) (splits : list ExpenseSplit.t) :
  CreateExpenseRequest.Splits req <> [] ->
  calculateEqualSplits db req groupID = Ok splits ->
  Sum (map ExpenseSplit.Amount splits) == CreateExpenseRequest.Amount req.
Proof.
  intros Hne H. unfold calculateEqualSplits in H.
  destruct (equalSplitsLoop_members H) as [users Hres].
  rewrite (equalSplitsLoop_resolved req _ Hres) in H.
  inversion H; subst. cbn [app].
  rewrite equalShares_amounts.
  - rewrite Sum_snoc. unfold Sum, Add, Sub. ring.
  - intro E. subst users. inversion Hres as [E'|]. congruence.
  - unfold goint.len. rewrite (Forall2_length Hres). lia.
Qed.

Lemma exactSplitsLoop_amounts (db : DB) (groupID : Z) :
  forall rest total splits out sum,
    exactSplitsLoop db groupID rest total splits = Ok (out, sum) ->
    sum = fold_left Add (map CreateExpenseSplitRequest.Amount rest) total
    /\ map ExpenseSplit.Amount out
       = map ExpenseSplit.Amount splits
         ++ map CreateExpenseSplitRequest.Amount rest.
Proof.
  induction rest as [|r rest IH]; intros total splits out sum.
  - cbn. intro H. inversion H; subst. rewrite app_nil_r. split; reflexivity.
  - cbn [exactSplitsLoop].
    destruct (utils.IsValidUUID _); cbn [negb]; [|discriminate].
    destruct (LessThanOrEqual _ _); [discriminate|].
    destruct (userRepository.GetByUUID db _) as [u|]; cbn [bind];
      [|discriminate].
    destruct (groupRepository.IsMember db groupID (User.ID u)) as [[|]|];
      cbn [bind negb]; try discriminate.
    intro H. destruct (IH _ _ _ _ H) as [Hs Ha].
    split; [exact Hs|].
    rewrite Ha, map_app, <- app_assoc. reflexivity.
Qed.

(** The exact shares of an accepted request sum to the total. *)
Lemma calculateExactSplits_sum (db : DB) (req : CreateExpenseRequest.t)
      (groupID : Z) (splits : list ExpenseSplit.t) :
  calculateExactSplits db req groupID = Ok splits ->
  Sum (map ExpenseSplit.Amount splits) == CreateExpenseRequest.Amount req.
Proof.
  unfold calculateExactSplits.
  destruct (exactSplitsLoop db groupID _ Zero [])
    as [[out sum]|] eqn:Hloop; cbn [bind]; [|discriminate].
  destruct (Equal sum (CreateExpenseRequest.Amount req)) eqn:Heq;
    cbn [negb]; [|discriminate].
  intro H. inversion H; subst.
  destruct (exactSplitsLoop_amounts Hloop) as [Hs Ha].
  apply Equal_iff in Heq. rewrite Ha. cbn [map app].
  unfold Sum. rewrite <- Hs. exact Heq.
Qed.

(** An accepted expense with the equal or the exact strategy leaves the
    sum of the balances of every group and currency as it was. *)
Lemma expense_keeps_zero_sum (db db' : DB) (newUUID : string)
      (req : CreateExpenseRequest.t) (expense : Expense.t) :
  CreateExpenseRequest.SplitType req = SplitTypeEqual
  \/ CreateExpenseRequest.SplitType req = SplitTypeExact ->
  CreateExpense newUUID req db = (Ok expense, db') ->
  forall groupID currency,
    groupTotal (user_balances db') groupID currency
    == groupTotal (user_balances db) groupID currency.
Proof.
  intros Ht H g c.
  destruct (CreateExpense_ledger H) as (group & payer & splits & _ & Hs & Hl).
  rewrite Hl.
  assert (Hne : CreateExpenseRequest.Splits req <> []).
  { intro E. unfold validateAndCalculateSplits in Hs. rewrite E in Hs.
    discriminate Hs. }
  assert (Hsum : Sum (map ExpenseSplit.Amount splits)
                 == CreateExpenseRequest.Amount req).
  { destruct Ht as [Ht|Ht].
    - rewrite (validateAndCalculateSplits_equal db (Group.ID group) Hne Ht) in Hs.
      apply (calculateEqualSplits_sum Hne Hs).
    - rewrite (validateAndCalculateSplits_exact db (Group.ID group) Hne Ht) in Hs.
      apply (calculateExactSplits_sum Hs). }
  destruct (sameLedger _ _ g c); [rewrite Hsum|]; ring.
Qed.

(** An accepted settlement leaves the sum of the balances of every group
    and currency as it was. *)
Lemma settlement_keeps_zero_sum (db db' : DB) (newUUID : string)
      (req : CreateSettlementRequest.t) (settlement : Settlement.t) :
  settlementService.CreateSettlement newUUID req db = (Ok settlement, db') ->
  forall groupID currency,
    groupTotal (user_balances db') groupID currency
    == groupTotal (user_balances db) groupID currency.
Proof.
  intros H g c.
  destruct (CreateSettlement_accepted H) as (group & fromUser & toUser & _ & Hp).
  rewrite (persistSettlement_ledger Hp). apply ledgerAfterSettlement_total.
Qed.

(** An accepted expense with the percentage strategy moves the sum of
    the balances of its group by the rounded shares minus the total. *)
Lemma percentage_expense_drift (db db' : DB) (newUUID : string)
      (req : CreateExpenseRequest.t) (expense : Expense.t) :
  CreateExpenseRequest.SplitType req = SplitTypePercentage ->
  CreateExpense newUUID req db = (Ok expense, db') ->
  exists group,
    groupRepository.GetByUUID db (CreateExpenseRequest.GroupUUID req) = Ok group
    /\ groupTotal (user_balances db') (Group.ID group) (currencyOf req)
       == groupTotal (user_balances db) (Group.ID group) (currencyOf req)
          + (Sum (map (fun r => percentageShare
                                  req (CreateExpenseSplitRequest.Percentage r))
                      (CreateExpenseRequest.Splits req))
             - CreateExpenseRequest.Amount req).
Proof.
  intros Ht H.
  destruct (CreateExpense_ledger H) as (group & payer & splits & Hr & Hs & Hl).
  exists group. split; [apply Hr|].
  rewrite Hl. unfold sameLedger. rewrite Z.eqb_refl, String.eqb_refl.
  cbn [andb].
  assert (Hne : CreateExpenseRequest.Splits req <> []).
  { intro E. unfold validateAndCalculateSplits in Hs. rewrite E in Hs.
    discriminate Hs. }
  rewrite (validateAndCalculateSplits_percentage db (Group.ID group) Hne Ht)
    in Hs.
  unfold calculatePercentageSplits in Hs.
  destruct (percentageSplitsLoop db req (Group.ID group) _ Zero [])
    as [[out sum]|] eqn:Hloop; cbn [bind] in Hs; [|discriminate].
  destruct (Equal sum (NewFromInt 100)); cbn [negb] in Hs; [|discriminate].
  inversion Hs; subst.
  assert (Hout : forall rest total acc out sum,
             percentageSplitsLoop db req (Group.ID group) rest total acc
             = Ok (out, sum) ->
             map ExpenseSplit.Amount out
             = map ExpenseSplit.Amount acc
               ++ map (fun r => percentageShare
                                  req (CreateExpenseSplitRequest.Percentage r))
                      rest).
  { induction rest as [|r rest IH]; intros total acc out sum0.
    - cbn. intro E. inversion E; subst. rewrite app_nil_r. reflexivity.
    - cbn [percentageSplitsLoop].
      destruct (utils.IsValidUUID _); cbn [negb]; [|discriminate].
      destruct (utils.ValidatePercentage _); [discriminate|].
      destruct (userRepository.GetByUUID db _) as [u|]; cbn [bind];
        [|discriminate].
      destruct (groupRepository.IsMember db (Group.ID group) (User.ID u))
        as [[|]|]; cbn [bind negb]; try discriminate.
      intro E. rewrite (IH _ _ _ _ E), map_app, <- app_assoc. reflexivity. }
  rewrite (Hout _ _ _ _ _ Hloop). reflexivity.
Qed.

End ZeroSum.

(** C1.  The deltas of an accepted expense do not always cancel: with the
    percentage strategy each share is rounded on its own and nothing
    corrects the remainder.  Here 10.00 is split 33.33 % / 33.33 % / 33.34 %
    in a group whose balances are all zero: the three participants are
    debited 3.33 each, the payer is credited 10.00, and the balances of the
    group then sum to -0.01. *)
Theorem percentage_expense_unbalances_ledger :
  groupTotal (user_balances reference.db0) 10 "USD" == 0
  /\ exists expense db',
      expenseService.CreateExpense (ext := reference.externals)
        reference.newUUID samples.thirds reference.db0 = (Ok expense, db')
      /\ map (fun s => Qred (ExpenseSplit.Amount s)) (Expense.Splits expense)
         = [333 # 100; 333 # 100; 333 # 100]
      /\ map (fun b => (Balance.UserID b, Qred (Balance.Balance b)))
             (user_balances db')
         = [(1%Z, - (667 # 100)); (2%Z, 333 # 100); (3%Z, 333 # 100)]
      /\ groupTotal (user_balances db') 10 "USD" == - (1 # 100)
      /\ ~ groupTotal (user_balances db') 10 "USD" == 0.
Proof.
  split; [reflexivity|].
  eexists. eexists. split; [vm_compute; reflexivity|].
  split; [vm_compute; reflexivity|].
  split; [vm_compute; reflexivity|].
  split; [vm_compute; reflexivity|].
  vm_compute. discriminate.
Qed.

(** ** The claims on concrete requests *)

Ltac member u := exists u; repeat split; reflexivity.

Lemma members_of_trip :
  Forall (validMember (ext := reference.externals) reference.db0 10)
         (CreateExpenseRequest.Splits samples.equalDinner).
Proof.
  repeat constructor;
    [member reference.alice|member reference.bob|member reference.carol].
Defined.

Lemma pair_of_trip (a b p q : Decimal) :
  Forall (validMember (ext := reference.externals) reference.db0 10)
         [reference.splitFor reference.alice a p;
          reference.splitFor reference.bob b q].
Proof.
  repeat constructor; [member reference.alice|member reference.bob].
Defined.

(** 100.00 between three members: 33.33, 33.33 and 33.34. *)
Lemma equal_split_remainder_witness :
  exists splits,
    expenseService.calculateEqualSplits (ext := reference.externals)
      reference.db0 samples.equalDinner 10 = Ok splits
    /\ map Qred (map ExpenseSplit.Amount splits)
       = [3333 # 100; 3333 # 100; 1667 # 50]
    /\ Equal (Sum (map ExpenseSplit.Amount splits)) 100 = true.
Proof.
  destruct (@equal_split_remainder reference.externals reference.db0
              samples.equalDinner 10)
    as (splits & Hcalc & _ & _ & Hamounts & Hsum).
  - cbn. lia.
  - reflexivity.
  - exact members_of_trip.
  - exists splits. split; [exact Hcalc|]. split; [|exact Hsum].
    rewrite Hamounts. vm_compute. reflexivity.
Defined.

(** 200.00 split 60 % / 40 %: 120.00 and 80.00. *)
Lemma percentage_split_validity_witness :
  exists splits,
    expenseService.calculatePercentageSplits (ext := reference.externals)
      reference.db0 samples.hotel 10 = Ok splits
    /\ map Qred (map ExpenseSplit.Amount splits) = [120; 80].
Proof.
  destruct (@percentage_split_validity reference.externals reference.db0
              samples.hotel 10 (pair_of_trip 0 0 60 40)) as (Hok & _).
  destruct Hok as (splits & Hcalc & _ & Hamounts).
  - repeat constructor; cbn; lra.
  - vm_compute. reflexivity.
  - exists splits. split; [exact Hcalc|].
    rewrite Hamounts. vm_compute. reflexivity.
Defined.

(** 30.00 and 70.00 against a total of 100.00 are accepted as supplied. *)
Lemma exact_split_sum_check_witness :
  exists splits,
    expenseService.calculateExactSplits (ext := reference.externals)
      reference.db0 samples.cab 10 = Ok splits
    /\ map ExpenseSplit.Amount splits = [30; 70].
Proof.
  destruct (@exact_split_sum_check reference.externals reference.db0
              samples.cab 10 (pair_of_trip 30 70 0 0)) as (_ & _ & Hok & _).
  - repeat constructor.
  - destruct Hok as (splits & Hcalc & _ & Hamounts).
    + vm_compute. reflexivity.
    + exists splits. split; [exact Hcalc|exact Hamounts].
Defined.

(** 150.00 and -50.00 sum to the total of 100.00 and are refused all the
    same. *)
Lemma exact_split_amount_positive_witness :
  Sum (map CreateExpenseSplitRequest.Amount
           (CreateExpenseRequest.Splits samples.refund))
  == CreateExpenseRequest.Amount samples.refund
  /\ expenseService.calculateExactSplits (ext := reference.externals)
       reference.db0 samples.refund 10
     = Err (NewValidationError "Split amounts must be greater than zero").
Proof.
  split; [vm_compute; reflexivity|].
  destruct (@exact_split_amount_positive reference.externals reference.db0
              samples.refund 10) as (_ & Hval & _).
  - apply Exists_cons_tl, Exists_cons_hd. cbn. lra.
  - apply Hval.
    exists [reference.splitFor reference.alice 150 0],
           (reference.splitFor reference.bob (-50) 0), [].
    split; [reflexivity|].
    split; [repeat constructor; member reference.alice|].
    split; [repeat constructor|]. split; [reflexivity|]. cbn. lra.
Defined.

(** An unknown user charged 110.00 before Bob, who is charged -10.00: the
    amounts sum to the total of 100.00 and one of them is negative, and the
    request fails because the user is not found, which is no validation
    error. *)
Definition strangerFirst : CreateExpenseRequest.t :=
  reference.expenseRequest 100 SplitTypeExact
    [CreateExpenseSplitRequest.mk "99999999-9999-4999-8999-999999999999" 110 0;
     reference.splitFor reference.bob (-10) 0].

Lemma stranger_before_negative_amount :
  Sum (map CreateExpenseSplitRequest.Amount
           (CreateExpenseRequest.Splits strangerFirst))
  == CreateExpenseRequest.Amount strangerFirst
  /\ Exists (fun r => CreateExpenseSplitRequest.Amount r <= 0)
            (CreateExpenseRequest.Splits strangerFirst)
  /\ expenseService.calculateExactSplits (ext := reference.externals)
       reference.db0 strangerFirst 10
     = Err (NewNotFoundError "User")
  /\ expenseService.calculateExactSplits (ext := reference.externals)
       reference.db0 strangerFirst 10
     <> Err (NewValidationError "Split amounts must be greater than zero")
  /\ isValidationError (NewNotFoundError "User") = false
  /\ expenseService.CreateExpense (ext := reference.externals)
       reference.newUUID strangerFirst reference.db0
     = (Err (NewNotFoundError "User"), reference.db0).
Proof.
  split; [vm_compute; reflexivity|].
  split; [apply Exists_cons_tl, Exists_cons_hd; cbn; lra|].
  split; [vm_compute; reflexivity|].
  split; [vm_compute; discriminate|].
  split; vm_compute; reflexivity.
Qed.




(** The snapshot of the unit test: the suggestions sum to the 50.00 owed. *)
Lemma suggestions_sum_to_debt_witness :
  sumSuggestions
    (DebtSimplification.Suggestions
       (settlementService.simplifyBalances samples.snapshot "USD"))
  == 50.
Proof.
  destruct (@suggestions_sum_to_debt samples.snapshot "USD") as (Hsum & _).
  - vm_compute. reflexivity.
  - apply (Qeq_trans _ _ _ Hsum). vm_compute. reflexivity.
Defined.

(** A group in which everything is settled has no debtor and no creditor,
    and [SimplifyDebts] reports one original transaction and a saving of
    one. *)
Lemma settled_group_counts :
  DebtSimplification.OriginalTransactions
    (settlementService.simplifyBalances samples.settled "USD")
  <> (debtorCount samples.settled * creditorCount samples.settled)%Z
  /\ DebtSimplification.Savings
       (settlementService.simplifyBalances samples.settled "USD")
     <> Z.max 0 (debtorCount samples.settled * creditorCount samples.settled
                 - DebtSimplification.SimplifiedTransactions
                     (settlementService.simplifyBalances samples.settled "USD")).
Proof. split; vm_compute; discriminate. Qed.

(** One debtor and two creditors: two original transactions, two
    suggestions, no saving. *)
Lemma simplification_counts_witness :
  DebtSimplification.OriginalTransactions
    (settlementService.simplifyBalances samples.snapshot "USD") = 2%Z
  /\ DebtSimplification.Savings
       (settlementService.simplifyBalances samples.snapshot "USD") = 0%Z.
Proof.
  destruct (@simplification_counts samples.snapshot "USD") as (Ho & Hs & Hv).
  - vm_compute. reflexivity.
  - split.
    + rewrite Ho. vm_compute. reflexivity.
    + rewrite Hv. vm_compute. reflexivity.
Defined.

(** Bob is owed 30 and Carol 20, Alice owes 50: the loop ends with nobody
    left. *)
Lemma greedy_matching_terminates_witness :
  exists final,
    settlementService.generateSettlementSuggestions
      (fst (settlementService.separate samples.snapshot))
      (snd (settlementService.separate samples.snapshot)) "USD"
    = settlementService.suggestions final
    /\ settlementService.creditorsWork final = []
    /\ settlementService.debtorsWork final = [].
Proof.
  destruct (@greedy_matching_terminates
              (fst (settlementService.separate samples.snapshot))
              (snd (settlementService.separate samples.snapshot)) "USD")
    as ((final & _ & Hgen & _ & Hboth) & _).
  - repeat constructor.
  - repeat constructor.
  - exists final. split; [exact Hgen|]. apply Hboth. vm_compute. reflexivity.
Defined.

(** Carol has no balance row in the group. *)
Lemma absent_balance_is_zero_witness :
  balanceRepository.GetByGroupAndUser samples.owing 10 3 "USD"
  = Ok (Balance.mk 0 10 3 Zero "USD" None None).
Proof.
  apply absent_balance_is_zero.
  intros row [<-|[<-|[]]]; reflexivity.
Defined.

(** * Further properties of the services *)

(** ** What a request to [CreateExpense] leaves behind *)

Section ExpenseOutcomes.
Context {ext : Externals}.
Import expenseService.

Lemma exactSplitsLoop_members (db : DB) (groupID : Z) :
  forall rest total splits out,
    exactSplitsLoop db groupID rest total splits = Ok out ->
    exists users,
      Forall2 (resolves db groupID) rest users
      /\ Forall (fun r => 0 < CreateExpenseSplitRequest.Amount r) rest.
Proof.
  induction rest as [|r rest IH]; intros total splits out.
  - intros _. exists []. split; constructor.
  - cbn [exactSplitsLoop].
    destruct (utils.IsValidUUID _) eqn:Hv; cbn [negb]; [|discriminate].
    destruct (LessThanOrEqual _ _) eqn:Hle; [discriminate|].
    destruct (userRepository.GetByUUID db _) as [u|] eqn:Hu; cbn [bind];
      [|discriminate].
    destruct (groupRepository.IsMember db groupID (User.ID u)) as [[|]|] eqn:Hm;
      cbn [bind negb]; try discriminate.
    intro H. destruct (IH _ _ _ H) as (users & Hres & Hpos).
    exists (u :: users). split.
    + constructor; [repeat split; assumption|exact Hres].
    + constructor; [apply LessThanOrEqual_false_iff; exact Hle|exact Hpos].
Qed.

Lemma percentageSplitsLoop_members (db : DB) (req : CreateExpenseRequest.t)
      (groupID : Z) :
  forall rest total splits out,
    percentageSplitsLoop db req groupID rest total splits = Ok out ->
    exists users,
      Forall2 (resolves db groupID) rest users
      /\ Forall (fun r => inRange (CreateExpenseSplitRequest.Percentage r)) rest.
Proof.
  induction rest as [|r rest IH]; intros total splits out.
  - intros _. exists []. split; constructor.
  - cbn [percentageSplitsLoop].
    destruct (utils.IsValidUUID _) eqn:Hv; cbn [negb]; [|discriminate].
    destruct (utils.ValidatePercentage _) eqn:Hp; [discriminate|].
    destruct (userRepository.GetByUUID db _) as [u|] eqn:Hu; cbn [bind];
      [|discriminate].
    destruct (groupRepository.IsMember db groupID (User.ID u)) as [[|]|] eqn:Hm;
      cbn [bind negb]; try discriminate.
    intro H. destruct (IH _ _ _ H) as (users & Hres & Hin).
    exists (u :: users). split.
    + constructor; [repeat split; assumption|exact Hres].
    + constructor; [apply ValidatePercentage_None; exact Hp|exact Hin].
Qed.

(** Every split the calculator returns stands for the participant at the
    same place of the request, a member of the group. *)
Lemma validateAndCalculateSplits_lines (db : DB) (req : CreateExpenseRequest.t)
      (groupID : Z) (splits : list ExpenseSplit.t) :
  validateAndCalculateSplits db req groupID = Ok splits ->
  Forall2 (lineOf db groupID) (CreateExpenseRequest.Splits req) splits.
Proof.
  unfold validateAndCalculateSplits.
  destruct (goint.len _ =? 0)%Z; [discriminate|].
  destruct (String.eqb _ SplitTypeEqual).
  { unfold calculateEqualSplits. intro H.
    destruct (equalSplitsLoop_members H) as [users Hres].
    rewrite (equalSplitsLoop_resolved req _ Hres) in H.
    inversion H; subst. cbn [app]. apply equalShares_lines. exact Hres. }
  destruct (String.eqb _ SplitTypeExact).
  { unfold calculateExactSplits.
    destruct (exactSplitsLoop db groupID _ Zero []) as [[out sum]|] eqn:Hloop;
      cbn [bind]; [|discriminate].
    destruct (Equal sum _); cbn [negb]; [|discriminate].
    intro H. inversion H; subst.
    destruct (exactSplitsLoop_members Hloop) as (users & Hres & Hpos).
    rewrite (exactSplitsLoop_resolved Hres Hpos) in Hloop.
    inversion Hloop; subst. cbn [app]. apply exactShares_lines. exact Hres. }
  destruct (String.eqb _ SplitTypePercentage); [|discriminate].
  unfold calculatePercentageSplits.
  destruct (percentageSplitsLoop db req groupID _ Zero [])
    as [[out sum]|] eqn:Hloop; cbn [bind]; [|discriminate].
  destruct (Equal sum _); cbn [negb]; [|discriminate].
  intro H. inversion H; subst.
  destruct (percentageSplitsLoop_members Hloop) as (users & Hres & Hin).
  rewrite (percentageSplitsLoop_resolved req Hres Hin) in Hloop.
  inversion Hloop; subst. cbn [app]. apply percentageShares_lines. exact Hres.
Qed.

(** [FOREIGN KEY (user_id) REFERENCES users(id)] of [expense_splits] *)
Definition knownUser (db : DB) (split : ExpenseSplit.t) : Prop :=
  userRepository.joinByID db (ExpenseSplit.UserID split) <> None.

Lemma found_user_is_known (db : DB) (uuid : string) (user : User.t) :
  userRepository.GetByUUID db uuid = Ok user ->
  userRepository.joinByID db (User.ID user) <> None.
Proof.
  unfold userRepository.GetByUUID, userRepository.joinByID.
  destruct (find _ (users db)) as [u|] eqn:Hfind; [|discriminate].
  intro H. inversion H; subst.
  apply find_some in Hfind. destruct Hfind as [Hin _].
  intro Hnone.
  pose proof (find_none _ _ Hnone _ Hin) as Hne. cbn in Hne.
  rewrite Z.eqb_refl in Hne. discriminate Hne.
Qed.

Lemma lineOf_known (db : DB) (groupID : Z)
      (reqs : list CreateExpenseSplitRequest.t) (splits : list ExpenseSplit.t) :
  Forall2 (lineOf db groupID) reqs splits -> Forall (knownUser db) splits.
Proof.
  induction 1 as [|r s reqs splits (user & (_ & Hu & _) & Hid & _) _ IH];
    constructor; [|exact IH].
  unfold knownUser. rewrite Hid. eapply found_user_is_known, Hu.
Qed.

Lemma knownUser_stored (db : DB) (stored splits : list ExpenseSplit.t) :
  map ExpenseSplit.UserID stored = map ExpenseSplit.UserID splits ->
  Forall (knownUser db) splits -> Forall (knownUser db) stored.
Proof.
  revert splits. induction stored as [|s stored IH]; intros [|t splits];
    cbn [map]; intros Hu Hk; try discriminate; constructor;
    injection Hu as Hid Htl; inversion Hk; subst.
  - unfold knownUser in *. rewrite Hid. assumption.
  - eapply IH; eassumption.
Qed.

Lemma scanSplits_known (db : DB) (rows : list ExpenseSplit.t) :
  Forall (knownUser db) rows ->
  exists splits, expenseRepository.scanSplits db rows = Ok splits.
Proof.
  induction 1 as [|row rows Hrow _ [splits IH]]; [exists []; reflexivity|].
  cbn [expenseRepository.scanSplits].
  destruct (userRepository.joinByID db (ExpenseSplit.UserID row)) as [u|] eqn:Hu;
    [|contradiction].
  rewrite IH. cbn [bind]. eexists. reflexivity.
Qed.

(** the tables a statement leaves alone *)
Definition sameParties (db db' : DB) : Prop :=
  users db' = users db /\ groups db' = groups db
  /\ group_members db' = group_members db.

Lemma createSplits_parties (expense : Expense.t) (splits : list ExpenseSplit.t) :
  forall db r db',
    createSplits expense splits db = (r, db') -> sameParties db db'.
Proof.
  induction splits as [|split splits IH]; intros db r db'.
  - cbn. intro H. inversion H; subst. repeat split.
  - cbn [createSplits]. unfold bindM at 1, exec at 1.
    unfold expenseRepository.CreateSplit.
    destruct (existsb _ _); [intro H; inversion H; subst; repeat split|].
    unfold bindM at 1.
    match goal with
    | |- context [createSplits expense splits ?d] =>
        destruct (createSplits expense splits d) as [[rest|e1] db1] eqn:Hrest
    end; cbn; intro H; inversion H; subst;
      destruct (IH _ _ _ Hrest) as (Hu & Hg & Hm); cbn in Hu, Hg, Hm;
      repeat split; assumption.
Qed.

Lemma expenseTransaction_parties (expense : Expense.t)
      (splits : list ExpenseSplit.t) (db db' : DB) (created : Expense.t) :
  expenseTransaction expense splits db = (Ok created, db') ->
  sameParties db db'.
Proof.
  unfold expenseTransaction, bindM at 1, exec at 1.
  unfold expenseRepository.Create.
  destruct (existsb _ _); [discriminate|].
  unfold bindM at 1.
  match goal with
  | |- context [createSplits ?e splits ?d] =>
      destruct (createSplits e splits d) as [[stored|e1] db1] eqn:Hstored
  end; [|discriminate].
  unfold bindM at 1. rewrite updateBalancesAfterExpense_run.
  cbn [ret]. intro H. inversion H; subst.
  destruct (createSplits_parties Hstored) as (Hu & Hg & Hm).
  cbn in Hu, Hg, Hm. repeat split; assumption.
Qed.

(** Whatever [CreateExpense] returns, either nothing was written or the
    transaction of an accepted request was committed. *)
Lemma CreateExpense_outcome (db db' : DB) (newUUID : string)
      (req : CreateExpenseRequest.t) (r : result Expense.t) :
  CreateExpense newUUID req db = (r, db') ->
  (db' = db /\ exists e, r = Err e)
  \/ exists group payer splits created,
      reachesSplitCalculator db req group payer
      /\ validateAndCalculateSplits db req (Group.ID group) = Ok splits
      /\ expenseTransaction (newExpense newUUID req group payer) splits db
         = (Ok created, db')
      /\ match expenseRepository.GetExpenseSplits db' (Expense.ID created) with
         | Ok stored => r = Ok (Expense.withSplits created stored)
         | Err e => r = Err e
         end.
Proof.
  unfold CreateExpense. fold (currencyOf req).
  assert (Hfail : forall e, (Err e, db) = (r, db') ->
                            (db' = db /\ exists e, r = Err e)
                            \/ exists group payer splits created,
                                reachesSplitCalculator db req group payer
                                /\ validateAndCalculateSplits db req (Group.ID group)
                                   = Ok splits
                                /\ expenseTransaction
                                     (newExpense newUUID req group payer) splits db
                                   = (Ok created, db')
                                /\ match expenseRepository.GetExpenseSplits
                                           db' (Expense.ID created) with
                                   | Ok stored =>
                                       r = Ok (Expense.withSplits created stored)
                                   | Err e => r = Err e
                                   end).
  { intros e H. inversion H; subst. left. split; [reflexivity|].
    exists e. reflexivity. }
  destruct (utils.ValidateAmount _) eqn:Ha; [apply Hfail|].
  destruct (utils.ValidateDescription _) eqn:Hd; [apply Hfail|].
  destruct (utils.ValidateCurrency _) eqn:Hc; [apply Hfail|].
  destruct (utils.IsValidUUID (CreateExpenseRequest.GroupUUID req)) eqn:Hg;
    [|apply Hfail].
  destruct (utils.IsValidUUID (CreateExpenseRequest.PaidByUUID req)) eqn:Hp;
    [|apply Hfail].
  cbn [negb].
  unfold bindM at 1, query at 1.
  destruct (groupRepository.GetByUUID db _) as [group|] eqn:Hgroup;
    [|apply Hfail].
  unfold bindM at 1, query at 1.
  destruct (userRepository.GetByUUID db _) as [payer|] eqn:Hpayer;
    [|apply Hfail].
  unfold bindM at 1, query at 1.
  destruct (groupRepository.IsMember db _ _) as [[|]|] eqn:Hm;
    try apply Hfail.
  cbn [negb].
  unfold bindM at 1, query at 1.
  destruct (validateAndCalculateSplits db req (Group.ID group))
    as [splits|] eqn:Hs; [|apply Hfail].
  fold (newExpense newUUID req group payer).
  fold (expenseTransaction (newExpense newUUID req group payer) splits).
  unfold bindM at 1, WithTransaction.
  destruct (expenseTransaction _ splits db) as [[created|err] db1] eqn:Htx;
    [|apply Hfail].
  unfold bindM, query, ret.
  intro H. right. exists group, payer, splits, created.
  assert (Hdb : db1 = db').
  { destruct (expenseRepository.GetExpenseSplits db1 _); inversion H;
      reflexivity. }
  subst db1.
  split; [repeat split; assumption|].
  split; [exact Hs|]. split; [exact Htx|].
  destruct (expenseRepository.GetExpenseSplits db' _); inversion H; reflexivity.
Qed.

End ExpenseOutcomes.

(** X1.  A request to [CreateExpense] that fails leaves every table as it
    was: the checks that refuse a request come before the first INSERT, and
    a failing statement rolls the transaction back.  The rows of
    [expense_splits] are assumed to refer to users that exist (the FOREIGN
    KEY of [user_id]), so that reading the new splits back cannot fail after
    the commit. *)
Theorem CreateExpense_failure_writes_nothing {ext : Externals} (db db' : DB)
        (newUUID : string) (req : CreateExpenseRequest.t) (e : AppError) :
  Forall (knownUser db) (expense_splits db) ->
  expenseService.CreateExpense newUUID req db = (Err e, db') ->
  db' = db.
Proof.
  intros Hfk H.
  destruct (CreateExpense_outcome H)
    as [[Hdb _]|(group & payer & splits & created & Hr & Hs & Htx & Hget)];
    [exact Hdb|].
  exfalso.
  destruct (expenseTransaction_ok Htx) as (stored & _ & Hu & Hsp & _).
  destruct (expenseTransaction_parties Htx) as (Husers & _).
  assert (Hsame : forall s, knownUser db s -> knownUser db' s).
  { intros s. unfold knownUser, userRepository.joinByID. rewrite Husers.
    exact (fun x => x). }
  assert (Hknown : Forall (knownUser db') (expense_splits db')).
  { rewrite Hsp. apply Forall_app. split.
    - eapply Forall_impl; [exact Hsame|exact Hfk].
    - pose proof (lineOf_known (validateAndCalculateSplits_lines Hs)) as Hk.
      eapply Forall_impl; [exact Hsame|].
      eapply knownUser_stored; eassumption. }
  unfold expenseRepository.GetExpenseSplits in Hget.
  destruct (@scanSplits_known db'
              (filter (fun s => Z.eqb (ExpenseSplit.ExpenseID s)
                                      (Expense.ID created))
                      (expense_splits db'))) as [l Hl].
  { apply Forall_forall. intros s Hin. apply filter_In in Hin.
    destruct Hin as [Hin _]. revert s Hin. apply Forall_forall. exact Hknown. }
  rewrite Hl in Hget. discriminate Hget.
Qed.

Section DuplicateParticipants.
Context {ext : Externals}.
Import expenseService.

Variable expense : Expense.t.

(** the UNIQUE KEY [unique_expense_user] refuses [split] *)
Definition taken (db : DB) (split : ExpenseSplit.t) : bool :=
  existsb (fun s => Z.eqb (ExpenseSplit.ExpenseID s) (Expense.ID expense)
                    && Z.eqb (ExpenseSplit.UserID s) (ExpenseSplit.UserID split))
          (expense_splits db).

Lemma createSplits_conflict (splits : list ExpenseSplit.t) :
  forall db,
    Exists (fun s => taken db s = true) splits
    \/ ~ NoDup (map ExpenseSplit.UserID splits) ->
    exists e db', createSplits expense splits db = (Err e, db').
Proof.
  induction splits as [|split splits IH]; intros db Hbad.
  - exfalso. destruct Hbad as [Hex|Hdup].
    + inversion Hex.
    + apply Hdup. constructor.
  - cbn [createSplits]. unfold bindM at 1, exec at 1.
    unfold expenseRepository.CreateSplit.
    cbn [ExpenseSplit.withExpenseID ExpenseSplit.ExpenseID ExpenseSplit.UserID].
    fold (taken db split).
    destruct (taken db split) eqn:Htaken; [eexists; eexists; reflexivity|].
    unfold bindM at 1.
    match goal with
    | |- context [createSplits expense splits ?d] =>
        destruct (IH d) as (e & db2 & Hrest)
    end.
    + assert (Hgrow : forall s, taken db s = true \/
                                ExpenseSplit.UserID s = ExpenseSplit.UserID split ->
                                existsb
                                  (fun s0 => Z.eqb (ExpenseSplit.ExpenseID s0)
                                                   (Expense.ID expense)
                                             && Z.eqb (ExpenseSplit.UserID s0)
                                                      (ExpenseSplit.UserID s))
                                  (expense_splits db
                                   ++ [ExpenseSplit.withID
                                         (ExpenseSplit.withExpenseID split
                                            (Expense.ID expense))
                                         (nextID (map ExpenseSplit.ID
                                                      (expense_splits db)))])
                                = true).
      { intros s Hs. rewrite existsb_app. apply orb_true_iff.
        destruct Hs as [Hs|Hs]; [left; exact Hs|right].
        cbn. rewrite Hs, !Z.eqb_refl. reflexivity. }
      destruct Hbad as [Hex|Hdup].
      * left. inversion Hex as [? ? Hhead|? ? Htail]; subst.
        -- rewrite Htaken in Hhead. discriminate Hhead.
        -- apply Exists_exists in Htail. destruct Htail as (s & Hin & Hs).
           apply Exists_exists. exists s. split; [exact Hin|].
           unfold taken.
           cbn [expense_splits withExpenseSplits]. apply Hgrow. left. exact Hs.
      * cbn [map] in Hdup.
        destruct (in_dec Z.eq_dec (ExpenseSplit.UserID split)
                         (map ExpenseSplit.UserID splits)) as [Hin|Hnotin].
        -- left. apply in_map_iff in Hin. destruct Hin as (s & Hs & Hin).
           apply Exists_exists. exists s. split; [exact Hin|].
           unfold taken.
           cbn [expense_splits withExpenseSplits]. apply Hgrow. right. exact Hs.
        -- right. intro Hnd. apply Hdup. constructor; assumption.
    + rewrite Hrest. eexists. eexists. reflexivity.
Qed.

End DuplicateParticipants.

Section DuplicateRequests.
Context {ext : Externals}.
Import expenseService.

Lemma lineOf_same_user (db : DB) (groupID : Z)
      (r r' : CreateExpenseSplitRequest.t) (s s' : ExpenseSplit.t) :
  lineOf db groupID r s -> lineOf db groupID r' s' ->
  CreateExpenseSplitRequest.UserUUID r = CreateExpenseSplitRequest.UserUUID r' ->
  ExpenseSplit.UserID s = ExpenseSplit.UserID s'.
Proof.
  intros (u & (_ & Hu & _) & Hid & _) (u' & (_ & Hu' & _) & Hid' & _) Huuid.
  rewrite Huuid, Hu' in Hu. inversion Hu; subst. congruence.
Qed.

Lemma lines_distinct (db : DB) (groupID : Z)
      (reqs : list CreateExpenseSplitRequest.t) (splits : list ExpenseSplit.t) :
  Forall2 (lineOf db groupID) reqs splits ->
  NoDup (map ExpenseSplit.UserID splits) ->
  NoDup (map CreateExpenseSplitRequest.UserUUID reqs).
Proof.
  induction 1 as [|r s reqs splits Hline Hrest IH]; cbn [map]; intro Hnd;
    [constructor|].
  inversion Hnd as [|? ? Hnotin Hnd']; subst.
  constructor; [|apply IH; exact Hnd'].
  intro Hin. apply Hnotin. clear IH Hnd Hnd' Hnotin.
  induction Hrest as [|r' s' reqs splits Hline' _ IH]; cbn [map] in *;
    [contradiction|].
  destruct Hin as [Heq|Hin]; [left|right; apply IH; exact Hin].
  symmetry. eapply lineOf_same_user; [exact Hline|exact Hline'|].
  symmetry. exact Heq.
Qed.

End DuplicateRequests.

(** X2.  A request that names the same participant twice and passes every
    validation of the service is refused by the database: the second split
    violates the UNIQUE KEY [(expense_id, user_id)], [CreateExpense] returns
    the database error (HTTP status 500) and the transaction is rolled
    back. *)
Theorem CreateExpense_duplicate_participant {ext : Externals} (db : DB)
        (newUUID : string) (req : CreateExpenseRequest.t)
        (group : Group.t) (payer : User.t) (splits : list ExpenseSplit.t) :
  reachesSplitCalculator db req group payer ->
  expenseService.validateAndCalculateSplits db req (Group.ID group) = Ok splits ->
  ~ NoDup (map CreateExpenseSplitRequest.UserUUID
               (CreateExpenseRequest.Splits req)) ->
  expenseService.CreateExpense newUUID req db = (Err NewDatabaseError, db)
  /\ Status NewDatabaseError = 500%Z.
Proof.
  intros Hr Hs Hdup. split; [|reflexivity].
  rewrite (CreateExpense_persists newUUID Hr Hs).
  assert (Hids : ~ NoDup (map ExpenseSplit.UserID splits)).
  { intro Hnd. apply Hdup.
    eapply lines_distinct; [apply (validateAndCalculateSplits_lines Hs)|exact Hnd]. }
  unfold persistExpense, bindM at 1, database.WithTransaction.
  destruct (expenseTransaction (newExpense newUUID req group payer) splits db)
    as [[created|e] db1] eqn:Htx.
  - exfalso. revert Htx.
    unfold expenseTransaction, bindM at 1, exec at 1.
    unfold expenseRepository.Create.
    destruct (existsb _ _); [discriminate|].
    unfold bindM at 1.
    match goal with
    | |- context [expenseService.createSplits ?x splits ?d] =>
        destruct (@createSplits_conflict x splits d (or_intror Hids))
          as (e & db2 & Hfail)
    end.
    rewrite Hfail. discriminate.
  - rewrite (expenseTransaction_error Htx). reflexivity.
Qed.

(** ** Amounts in whole cents

    The columns that hold an amount or a balance are DECIMAL(15,2): MySQL
    rounds the value it is handed to two fractional digits, half away from
    zero as [Round] does, and stores that.  The tables of the model keep the
    value as it is handed over, which is what the column does with an amount
    in whole cents.  The properties of stored amounts and balances below are
    therefore stated for requests whose amounts are in whole cents, and they
    show that the balances then stay in whole cents. *)

Section WholeCents.
Context {ext : Externals}.
Import expenseService.

(** rounding [d] to the scale of the column leaves it as it is *)
Definition inCents (d : Decimal) : Prop := Round d 2 == d.

(** every balance of the table is in whole cents *)
Definition ledgerInCents (rows : list Balance.t) : Prop :=
  Forall (fun row => inCents (Balance.Balance row)) rows.

(** the amounts of the request that reach the database as they are: the
    total, and with the exact strategy the supplied shares *)
Definition expenseInCents (req : CreateExpenseRequest.t) : Prop :=
  inCents (CreateExpenseRequest.Amount req)
  /\ (CreateExpenseRequest.SplitType req = SplitTypeExact ->
      Forall (fun r => inCents (CreateExpenseSplitRequest.Amount r))
             (CreateExpenseRequest.Splits req)).

Lemma roundHalfAway_comp (x y : Q) :
  x == y -> roundHalfAway x = roundHalfAway y.
Proof.
  intro E. unfold roundHalfAway.
  assert (Hb : Qle_bool 0 x = Qle_bool 0 y).
  { destruct (Qle_bool 0 x) eqn:Hx, (Qle_bool 0 y) eqn:Hy; try reflexivity.
    - apply Qle_bool_iff in Hx. rewrite E in Hx. apply Qle_bool_iff in Hx.
      congruence.
    - apply Qle_bool_iff in Hy. rewrite <- E in Hy. apply Qle_bool_iff in Hy.
      congruence. }
  rewrite Hb.
  assert (E1 : x + (1 # 2) == y + (1 # 2)) by (rewrite E; reflexivity).
  assert (E2 : - x + (1 # 2) == - y + (1 # 2)) by (rewrite E; reflexivity).
  rewrite (Qfloor_comp _ _ E1), (Qfloor_comp _ _ E2). reflexivity.
Qed.

Lemma Round_comp (d d' : Decimal) (places : Z) :
  d == d' -> Round d places = Round d' places.
Proof.
  intro E. unfold Round.
  rewrite (@roundHalfAway_comp (d * pow10 places) (d' * pow10 places));
    [reflexivity|rewrite E; reflexivity].
Qed.

Lemma roundHalfAway_inject (n : Z) : roundHalfAway (inject_Z n) = n.
Proof.
  unfold roundHalfAway. destruct (Qle_bool 0 (inject_Z n)).
  - pose proof (Qfloor_le (inject_Z n + (1 # 2))) as Hlo.
    pose proof (Qlt_floor (inject_Z n + (1 # 2))) as Hhi.
    revert Hlo Hhi. generalize (Qfloor (inject_Z n + (1 # 2))). intros f.
    unfold Qle, Qlt. cbn. lia.
  - pose proof (Qfloor_le (- inject_Z n + (1 # 2))) as Hlo.
    pose proof (Qlt_floor (- inject_Z n + (1 # 2))) as Hhi.
    revert Hlo Hhi. generalize (Qfloor (- inject_Z n + (1 # 2))). intros f.
    unfold Qle, Qlt. cbn. lia.
Qed.

(** an amount is in whole cents when it is a number of hundredths *)
Lemma inCents_iff (d : Decimal) :
  inCents d <-> exists n : Z, d == inject_Z n / 100.
Proof.
  unfold inCents, Round. change (pow10 2) with 100. split.
  - intro H. eexists. symmetry. exact H.
  - intros [n E].
    rewrite (@roundHalfAway_comp (d * 100) (inject_Z n)).
    + rewrite roundHalfAway_inject. symmetry. exact E.
    + rewrite E. field.
Qed.

Lemma inCents_Round (d : Decimal) : inCents (Round d 2).
Proof.
  apply inCents_iff. unfold Round. change (pow10 2) with 100.
  eexists. reflexivity.
Qed.

Lemma inCents_comp (d d' : Decimal) : d == d' -> inCents d -> inCents d'.
Proof.
  unfold inCents. intros E H. rewrite <- (Round_comp 2 E), H. exact E.
Qed.

Lemma inCents_zero : inCents Zero.
Proof. apply inCents_iff. exists 0%Z. reflexivity. Qed.

Lemma inCents_Add (d d' : Decimal) : inCents d -> inCents d' -> inCents (Add d d').
Proof.
  intros H H'. apply inCents_iff in H. apply inCents_iff in H'.
  destruct H as [n E]. destruct H' as [m E'].
  apply inCents_iff. exists (n + m)%Z. unfold Add.
  rewrite E, E', inject_Z_plus. field.
Qed.

Lemma inCents_Neg (d : Decimal) : inCents d -> inCents (Neg d).
Proof.
  intro H. apply inCents_iff in H. destruct H as [n E].
  apply inCents_iff. exists (- n)%Z. unfold Neg.
  rewrite E, inject_Z_opp. field.
Qed.

Lemma inCents_Sub (d d' : Decimal) : inCents d -> inCents d' -> inCents (Sub d d').
Proof.
  intros H H'. apply (@inCents_comp (Add d (Neg d'))).
  - unfold Add, Neg, Sub. ring.
  - apply inCents_Add; [exact H|apply inCents_Neg; exact H'].
Qed.

Lemma inCents_fold (l : list Decimal) :
  Forall inCents l -> forall a, inCents a -> inCents (fold_left Add l a).
Proof.
  induction 1 as [|x l Hx _ IH]; intros a Ha; cbn [fold_left]; [exact Ha|].
  apply IH. apply inCents_Add; assumption.
Qed.

Lemma inCents_repeat (d : Decimal) (k : nat) :
  inCents d -> Forall inCents (repeat d k).
Proof. intro H. induction k; cbn [repeat]; constructor; assumption. Qed.

(** With the total in whole cents, and the supplied shares when the
    strategy is the exact one, every share the calculators return is in
    whole cents: the equal and the percentage strategies round to two
    places, and the remainder of the equal strategy is a difference of
    amounts in whole cents. *)
Lemma validateAndCalculateSplits_inCents (db : DB)
      (req : CreateExpenseRequest.t) (groupID : Z)
      (splits : list ExpenseSplit.t) :
  expenseInCents req ->
  validateAndCalculateSplits db req groupID = Ok splits ->
  Forall inCents (map ExpenseSplit.Amount splits).
Proof.
  intros [Htotal Hsupplied] Hs.
  unfold validateAndCalculateSplits in Hs.
  destruct (goint.len _ =? 0)%Z; [discriminate|].
  destruct (String.eqb _ SplitTypeEqual) eqn:He.
  { unfold calculateEqualSplits in Hs.
    destruct (equalSplitsLoop_members Hs) as [users Hres].
    rewrite (equalSplitsLoop_resolved req _ Hres) in Hs.
    inversion Hs; subst. cbn [app].
    destruct users as [|u users]; [constructor|].
    rewrite equalShares_amounts.
    - apply Forall_app. split.
      + apply inCents_repeat, inCents_Round.
      + constructor; [|constructor].
        apply inCents_Sub; [exact Htotal|].
        apply inCents_fold; [|apply inCents_zero].
        apply inCents_repeat, inCents_Round.
    - discriminate.
    - unfold goint.len. rewrite (Forall2_length Hres). lia. }
  destruct (String.eqb _ SplitTypeExact) eqn:Hx.
  { apply String.eqb_eq in Hx. specialize (Hsupplied Hx).
    unfold calculateExactSplits in Hs.
    destruct (exactSplitsLoop db groupID _ Zero []) as [[out sum]|] eqn:Hloop;
      cbn [bind] in Hs; [|discriminate].
    destruct (negb _); [discriminate|]. inversion Hs; subst.
    destruct (exactSplitsLoop_amounts Hloop) as [_ Ha].
    rewrite Ha. cbn [map app]. apply Forall_map. exact Hsupplied. }
  destruct (String.eqb _ SplitTypePercentage); [|discriminate].
  unfold calculatePercentageSplits in Hs.
  destruct (percentageSplitsLoop db req groupID _ Zero [])
    as [[out sum]|] eqn:Hloop; cbn [bind] in Hs; [|discriminate].
  destruct (negb _); [discriminate|]. inversion Hs; subst.
  destruct (percentageSplitsLoop_members Hloop) as (users & Hres & Hin).
  rewrite (percentageSplitsLoop_resolved req Hres Hin) in Hloop.
  inversion Hloop; subst. cbn [app].
  rewrite (percentageShares_amounts req Hres).
  apply Forall_map, Forall_forall. intros r _. apply inCents_Round.
Qed.

Lemma upsertAdd_inCents (newID g u : Z) (a : Decimal) (c : string)
      (rows : list Balance.t) :
  inCents a -> ledgerInCents rows ->
  ledgerInCents (balanceRepository.upsertAdd newID g u a c rows).
Proof.
  intros Ha. unfold ledgerInCents.
  induction 1 as [|row rows Hrow Hrows IH]; cbn [balanceRepository.upsertAdd].
  - constructor; [exact Ha|constructor].
  - destruct (balanceRepository.hasKey g u c row).
    + constructor; [|exact Hrows]. apply inCents_Add; assumption.
    + constructor; assumption.
Qed.

Lemma debit_inCents (g : Z) (c : string) (splits : list ExpenseSplit.t) :
  Forall inCents (map ExpenseSplit.Amount splits) ->
  forall rows, ledgerInCents rows -> ledgerInCents (debit g c rows splits).
Proof.
  induction splits as [|s splits IH]; cbn [map]; intros Hs rows Hrows;
    [exact Hrows|].
  inversion Hs as [|? ? Ha Hrest]; subst. cbn [debit fold_left].
  apply (IH Hrest). apply upsertAdd_inCents; assumption.
Qed.

Lemma ledgerAfterExpense_inCents (expense : Expense.t)
      (splits : list ExpenseSplit.t) (rows : list Balance.t) :
  inCents (Expense.Amount expense) ->
  Forall inCents (map ExpenseSplit.Amount splits) ->
  ledgerInCents rows ->
  ledgerInCents (ledgerAfterExpense expense splits rows).
Proof.
  intros Ha Hs Hrows. unfold ledgerAfterExpense, post.
  apply upsertAdd_inCents; [apply inCents_Neg; exact Ha|].
  apply debit_inCents; assumption.
Qed.

Lemma ledgerAfterSettlement_inCents (settlement : Settlement.t)
      (rows : list Balance.t) :
  inCents (Settlement.Amount settlement) ->
  ledgerInCents rows ->
  ledgerInCents (ledgerAfterSettlement settlement rows).
Proof.
  intros Ha Hrows. unfold ledgerAfterSettlement, post.
  apply upsertAdd_inCents; [exact Ha|].
  apply upsertAdd_inCents; [apply inCents_Neg; exact Ha|exact Hrows].
Qed.

(** The transaction of [CreateExpense] keeps the balances in whole cents. *)
Lemma expenseTransaction_inCents (db db' : DB) (newUUID : string)
      (req : CreateExpenseRequest.t) (group : Group.t) (payer : User.t)
      (splits : list ExpenseSplit.t) (created : Expense.t) :
  expenseInCents req ->
  ledgerInCents (user_balances db) ->
  validateAndCalculateSplits db req (Group.ID group) = Ok splits ->
  expenseTransaction (newExpense newUUID req group payer) splits db
  = (Ok created, db') ->
  ledgerInCents (user_balances db').
Proof.
  intros Hreq Hdb Hs Htx.
  destruct (expenseTransaction_ok Htx) as (stored & Ha & _ & _ & Hb & _).
  rewrite Hb. apply ledgerAfterExpense_inCents.
  - apply Hreq.
  - rewrite Ha. apply (validateAndCalculateSplits_inCents Hreq Hs).
  - exact Hdb.
Qed.

(** Handled by [CreateExpense], accepted or not, a request in whole cents
    leaves the balances in whole cents. *)
Lemma CreateExpense_inCents (db db' : DB) (newUUID : string)
      (req : CreateExpenseRequest.t) (r : result Expense.t) :
  expenseInCents req ->
  ledgerInCents (user_balances db) ->
  CreateExpense newUUID req db = (r, db') ->
  ledgerInCents (user_balances db').
Proof.
  intros Hreq Hdb H.
  destruct (CreateExpense_outcome H)
    as [[-> _]|(group & payer & splits & created & _ & Hs & Htx & _)];
    [exact Hdb|].
  exact (expenseTransaction_inCents Hreq Hdb Hs Htx).
Qed.

End WholeCents.

(** ** The balance of each member *)

Section MemberBalances.
Context {ext : Externals}.
Import expenseService.

(** the keys [(g, u, c)] and [(g', u', c')] of [user_balances] are the same *)
Definition sameKey (g u : Z) (c : string) (g' u' : Z) (c' : string) : bool :=
  Z.eqb g g' && Z.eqb u u' && String.eqb c c'.

Lemma hasKey_sameKey (g u : Z) (c : string) (g' u' : Z) (c' : string)
      (row : Balance.t) :
  balanceRepository.hasKey g u c row = true ->
  balanceRepository.hasKey g' u' c' row = sameKey g u c g' u' c'.
Proof.
  unfold balanceRepository.hasKey, sameKey. intro H.
  apply andb_true_iff in H. destruct H as [H Hc].
  apply andb_true_iff in H. destruct H as [Hg Hu].
  apply Z.eqb_eq in Hg. apply Z.eqb_eq in Hu. apply String.eqb_eq in Hc.
  rewrite Hg, Hu, Hc.
  rewrite (Z.eqb_sym g g'), (Z.eqb_sym u u'), (String.eqb_sym c c').
  reflexivity.
Qed.








End MemberBalances.


(** ** What a request to [CreateSettlement] leaves behind *)

Section SettlementOutcomes.
Context {ext : Externals}.
Import settlementService.

Lemma find_app_fresh {A} (f : A -> bool) (l : list A) (x : A) :
  existsb f l = false -> f x = true -> find f (l ++ [x]) = Some x.
Proof.
  intros Hfresh Hx. induction l as [|a l IH]; cbn in *.
  - rewrite Hx. reflexivity.
  - apply orb_false_iff in Hfresh. destruct Hfresh as [Ha Hl].
    rewrite Ha. apply IH. exact Hl.
Qed.

(** the row [settlementRepository.Create] inserts for [settlement] *)
Definition insertedSettlement (db : DB) (settlement : Settlement.t)
  : Settlement.t :=
  Settlement.withID settlement (nextID (map Settlement.ID (settlements db))).

(** Persisting either fails on the UNIQUE KEY of [uuid] and writes nothing,
    or inserts the settlement, applies its two deltas and reads it back. *)
Lemma persistSettlement_outcome (settlement : Settlement.t) (db db' : DB)
      (r : result Settlement.t) :
  persistSettlement settlement db = (r, db') ->
  (db' = db /\ r = Err NewDatabaseError)
  \/ (db' = withUserBalances
              (withSettlements db (settlements db
                                   ++ [insertedSettlement db settlement]))
              (ledgerAfterSettlement settlement (user_balances db))
      /\ settlementRepository.GetByUUID db' (Settlement.UUID settlement) = r
      /\ find (fun s => String.eqb (Settlement.UUID s) (Settlement.UUID settlement))
              (settlements db')
         = Some (insertedSettlement db settlement)).
Proof.
  unfold persistSettlement, bindM at 1, WithTransaction, bindM at 1, exec.
  unfold settlementRepository.Create.
  destruct (existsb _ _) eqn:Hfresh.
  - intro H. inversion H; subst. left. split; reflexivity.
  - unfold bindM at 1. rewrite updateBalancesAfterSettlement_run.
    cbn [ret]. unfold bindM, query.
    cbn [Settlement.withID Settlement.UUID Settlement.GroupID
         Settlement.FromUserID Settlement.ToUserID Settlement.Amount
         Settlement.Currency].
    intro H. inversion H; subst. right.
    split; [reflexivity|]. split; [reflexivity|].
    cbn [settlements withUserBalances withSettlements].
    apply find_app_fresh; [exact Hfresh|].
    cbn. apply String.eqb_refl.
Qed.

(** Whatever [CreateSettlement] returns, either nothing was written or the
    settlement of a validated request was persisted. *)
Lemma CreateSettlement_outcome (db db' : DB) (newUUID : string)
      (req : CreateSettlementRequest.t) (r : result Settlement.t) :
  CreateSettlement newUUID req db = (r, db') ->
  (db' = db /\ exists e, r = Err e)
  \/ exists group fromUser toUser,
      passesValidation db req group fromUser toUser
      /\ CreateSettlementRequest.Amount req
         <= balanceOf (user_balances db) (Group.ID group) (User.ID fromUser)
                      (settlementCurrency req)
      /\ persistSettlement (newSettlement newUUID req group fromUser toUser) db
         = (r, db')
      /\ db' <> db.
Proof.
  intro H. pose proof H as H0. revert H.
  assert (Hfail : forall e, (Err e, db) = (r, db') ->
                            (db' = db /\ exists e, r = Err e)
                            \/ exists group fromUser toUser,
                                passesValidation db req group fromUser toUser
                                /\ CreateSettlementRequest.Amount req
                                   <= balanceOf (user_balances db) (Group.ID group)
                                                (User.ID fromUser)
                                                (settlementCurrency req)
                                /\ persistSettlement
                                     (newSettlement newUUID req group fromUser
                                                    toUser) db
                                   = (r, db')
                                /\ db' <> db).
  { intros e H. inversion H; subst. left. split; [reflexivity|].
    exists e. reflexivity. }
  unfold CreateSettlement. fold (settlementCurrency req).
  destruct (utils.ValidateAmount _) eqn:Ha; [apply Hfail|].
  destruct (utils.ValidateCurrency _) eqn:Hc; [apply Hfail|].
  destruct (utils.IsValidUUID (CreateSettlementRequest.GroupUUID req)) eqn:Hg;
    [|apply Hfail].
  destruct (utils.IsValidUUID (CreateSettlementRequest.FromUserUUID req))
    eqn:Hf; [|apply Hfail].
  destruct (utils.IsValidUUID (CreateSettlementRequest.ToUserUUID req))
    eqn:Ht; [|apply Hfail].
  cbn [negb].
  destruct (String.eqb _ _) eqn:Hne; [apply Hfail|].
  unfold bindM at 1, query at 1.
  destruct (groupRepository.GetByUUID db _) as [group|] eqn:Hgroup;
    [|apply Hfail].
  unfold bindM at 1, query at 1.
  destruct (userRepository.GetByUUID db (CreateSettlementRequest.FromUserUUID req))
    as [fromUser|] eqn:Hfrom; [|apply Hfail].
  unfold bindM at 1, query at 1.
  destruct (userRepository.GetByUUID db (CreateSettlementRequest.ToUserUUID req))
    as [toUser|] eqn:Hto; [|apply Hfail].
  unfold bindM at 1, query at 1.
  destruct (groupRepository.IsMember db _ (User.ID fromUser)) as [[|]|] eqn:Hmf;
    try apply Hfail.
  cbn [negb]. unfold bindM at 1, query at 1.
  destruct (groupRepository.IsMember db _ (User.ID toUser)) as [[|]|] eqn:Hmt;
    try apply Hfail.
  intros _.
  assert (Hv : passesValidation db req group fromUser toUser).
  { apply String.eqb_neq in Hne. repeat split; assumption. }
  rewrite (CreateSettlement_validated newUUID Hv) in H0.
  destruct (GreaterThan _ _) eqn:Hgt; [apply (Hfail _ H0)|].
  destruct (persistSettlement_outcome H0) as [[Hdb Hr]|(Hdb & Hget & Hfind)].
  - left. split; [exact Hdb|]. eexists. exact Hr.
  - right. exists group, fromUser, toUser.
    split; [exact Hv|]. split; [apply GreaterThan_false_iff; exact Hgt|].
    split; [exact H0|].
    intro Hsame. rewrite Hsame in Hfind.
    pose proof (f_equal settlements Hsame) as Hlen. rewrite Hdb in Hlen.
    cbn [settlements withUserBalances withSettlements] in Hlen.
    apply (f_equal (@List.length _)) in Hlen.
    rewrite length_app in Hlen. cbn in Hlen. lia.
Qed.

(** Handled by [CreateSettlement], accepted or not, an amount in whole
    cents leaves the balances in whole cents. *)
Lemma CreateSettlement_inCents (db db' : DB) (newUUID : string)
      (req : CreateSettlementRequest.t) (r : result Settlement.t) :
  inCents (CreateSettlementRequest.Amount req) ->
  ledgerInCents (user_balances db) ->
  CreateSettlement newUUID req db = (r, db') ->
  ledgerInCents (user_balances db').
Proof.
  intros Ha Hdb H.
  destruct (CreateSettlement_outcome H)
    as [[-> _]|(group & fromUser & toUser & _ & _ & Hp & _)]; [exact Hdb|].
  destruct (persistSettlement_outcome Hp) as [[-> _]|(-> & _)]; [exact Hdb|].
  cbn [user_balances withUserBalances].
  apply ledgerAfterSettlement_inCents; [exact Ha|exact Hdb].
Qed.

End SettlementOutcomes.

(** X4.  A request to [CreateSettlement] that fails leaves every table as
    it was: the settlement is inserted and the two balances are moved in one
    transaction, and the settlement read back after the commit is the row
    just inserted, which is always found. *)
Theorem CreateSettlement_failure_writes_nothing {ext : Externals} (db db' : DB)
        (newUUID : string) (req : CreateSettlementRequest.t) (e : AppError) :
  settlementService.CreateSettlement newUUID req db = (Err e, db') ->
  db' = db.
Proof.
  intro H.
  destruct (CreateSettlement_outcome H)
    as [[Hdb _]|(group & fromUser & toUser & _ & _ & Hp & _)]; [exact Hdb|].
  destruct (persistSettlement_outcome Hp) as [[Hdb _]|(_ & Hget & Hfind)];
    [exact Hdb|].
  exfalso. unfold settlementRepository.GetByUUID in Hget.
  rewrite Hfind in Hget. discriminate Hget.
Qed.


(** X6.  For an amount in whole cents, the settlement [CreateSettlement]
    returns is the row stored under the generated UUID: it carries the
    amount, the currency and the description of the request and the
    identifiers of the group and of the two users, and looking the UUID up
    through [GetSettlementByUUID] returns the same settlement and changes
    nothing.  (The settlement returned is read back from the table, whose
    column rounds an amount with more than two fractional digits; the
    property does not cover it.) *)
Theorem CreateSettlement_then_GetSettlementByUUID {ext : Externals} (db db' : DB)
        (newUUID : string) (req : CreateSettlementRequest.t)
        (settlement : Settlement.t) :
  utils.IsValidUUID newUUID = true ->
  inCents (CreateSettlementRequest.Amount req) ->
  settlementService.CreateSettlement newUUID req db = (Ok settlement, db') ->
  settlementService.GetSettlementByUUID newUUID db' = (Ok settlement, db')
  /\ Settlement.UUID settlement = newUUID
  /\ Settlement.Amount settlement = CreateSettlementRequest.Amount req
  /\ inCents (Settlement.Amount settlement)
  /\ Settlement.Currency settlement = settlementCurrency req
  /\ Settlement.Description settlement = CreateSettlementRequest.Description req
  /\ exists group fromUser toUser,
      passesValidation db req group fromUser toUser
      /\ Settlement.GroupID settlement = Group.ID group
      /\ Settlement.FromUserID settlement = User.ID fromUser
      /\ Settlement.ToUserID settlement = User.ID toUser.
Proof.
  intros Hvalid Hamount H.
  destruct (CreateSettlement_outcome H)
    as [[_ [e He]]|(group & fromUser & toUser & Hv & _ & Hp & _)];
    [discriminate He|].
  destruct (persistSettlement_outcome Hp) as [[_ Hr]|(_ & Hget & Hfind)];
    [discriminate Hr|].
  cbn [newSettlement Settlement.UUID] in Hget, Hfind.
  split.
  - unfold settlementService.GetSettlementByUUID. rewrite Hvalid. cbn [negb].
    unfold query. rewrite Hget. reflexivity.
  - unfold settlementRepository.GetByUUID in Hget. rewrite Hfind in Hget.
    inversion Hget; subst. cbn.
    split; [reflexivity|]. split; [reflexivity|]. split; [exact Hamount|].
    split; [reflexivity|]. split; [reflexivity|].
    exists group, fromUser, toUser. repeat split; try reflexivity; apply Hv.
Qed.

(** ** The ledger over a history of requests *)

Section History.
Context {ext : Externals}.
Import expenseService.

Lemma validateAndCalculateSplits_sum (db : DB) (req : CreateExpenseRequest.t)
      (groupID : Z) (splits : list ExpenseSplit.t) :
  CreateExpenseRequest.SplitType req <> SplitTypePercentage ->
  validateAndCalculateSplits db req groupID = Ok splits ->
  Sum (map ExpenseSplit.Amount splits) == CreateExpenseRequest.Amount req.
Proof.
  intros Ht Hs.
  assert (Hne : CreateExpenseRequest.Splits req <> []).
  { intro E. unfold validateAndCalculateSplits in Hs. rewrite E in Hs.
    discriminate Hs. }
  pose proof Hs as Hs0. unfold validateAndCalculateSplits in Hs.
  destruct (goint.len _ =? 0)%Z; [discriminate|].
  destruct (String.eqb _ SplitTypeEqual) eqn:He.
  { apply (calculateEqualSplits_sum Hne Hs). }
  destruct (String.eqb _ SplitTypeExact) eqn:Hx.
  { apply (calculateExactSplits_sum Hs). }
  destruct (String.eqb _ SplitTypePercentage) eqn:Hp; [|discriminate].
  apply String.eqb_eq in Hp. contradiction.
Qed.

(** a request sent to the service, with the UUID generated for it *)
Inductive request : Type :=
| AddExpense (newUUID : string) (req : CreateExpenseRequest.t)
| Settle (newUUID : string) (req : CreateSettlementRequest.t).

(** the database after the service handled the request, accepted or not *)
Definition handle (db : DB) (r : request) : DB :=
  match r with
  | AddExpense newUUID req => snd (CreateExpense newUUID req db)
  | Settle newUUID req => snd (settlementService.CreateSettlement newUUID req db)
  end.

Definition notByPercentage (r : request) : Prop :=
  match r with
  | AddExpense _ req => CreateExpenseRequest.SplitType req <> SplitTypePercentage
  | Settle _ _ => True
  end.

(** the amounts of the request are in whole cents *)
Definition amountsInCents (r : request) : Prop :=
  match r with
  | AddExpense _ req => expenseInCents req
  | Settle _ req => inCents (CreateSettlementRequest.Amount req)
  end.

Lemma handle_inCents (db : DB) (r : request) :
  amountsInCents r ->
  ledgerInCents (user_balances db) ->
  ledgerInCents (user_balances (handle db r)).
Proof.
  destruct r as [newUUID req|newUUID req]; cbn [handle amountsInCents];
    intros Hr Hdb.
  - destruct (CreateExpense newUUID req db) as [r db'] eqn:H. cbn [snd].
    exact (CreateExpense_inCents Hr Hdb H).
  - destruct (settlementService.CreateSettlement newUUID req db)
      as [r db'] eqn:H.
    cbn [snd]. exact (CreateSettlement_inCents Hr Hdb H).
Qed.

Lemma history_inCents (requests : list request) :
  Forall amountsInCents requests ->
  forall db,
    ledgerInCents (user_balances db) ->
    ledgerInCents (user_balances (fold_left handle requests db)).
Proof.
  induction 1 as [|r requests Hr _ IH]; intros db Hdb; cbn [fold_left];
    [exact Hdb|].
  apply IH. apply handle_inCents; assumption.
Qed.

Lemma handle_total (db : DB) (r : request) (g : Z) (c : string) :
  notByPercentage r ->
  groupTotal (user_balances (handle db r)) g c
  == groupTotal (user_balances db) g c.
Proof.
  destruct r as [newUUID req|newUUID req]; cbn [handle notByPercentage].
  - intro Ht.
    destruct (CreateExpense newUUID req db) as [r db'] eqn:H. cbn [snd].
    destruct (CreateExpense_outcome H)
      as [[Hdb _]|(group & payer & splits & created & _ & Hs & Htx & _)].
    + rewrite Hdb. reflexivity.
    + destruct (expenseTransaction_ok Htx) as (stored & Ha & _ & _ & Hb & _).
      rewrite Hb, ledgerAfterExpense_total, Ha.
      pose proof (validateAndCalculateSplits_sum Ht Hs) as Hsum.
      cbn [newExpense Expense.Amount].
      destruct (sameLedger _ _ g c); [rewrite Hsum|]; ring.
  - intros _.
    destruct (settlementService.CreateSettlement newUUID req db) as [r db'] eqn:H.
    cbn [snd].
    destruct (CreateSettlement_outcome H)
      as [[Hdb _]|(group & fromUser & toUser & _ & _ & Hp & _)].
    + rewrite Hdb. reflexivity.
    + destruct (persistSettlement_outcome Hp) as [[Hdb _]|(Hdb & _)];
        rewrite Hdb; [reflexivity|].
      cbn [user_balances withUserBalances].
      apply ledgerAfterSettlement_total.
Qed.

Lemma history_total (requests : list request) (g : Z) (c : string) :
  Forall notByPercentage requests ->
  forall db,
    groupTotal (user_balances (fold_left handle requests db)) g c
    == groupTotal (user_balances db) g c.
Proof.
  induction 1 as [|r requests Hr _ IH]; intro db; cbn [fold_left];
    [reflexivity|].
  rewrite IH. apply handle_total. exact Hr.
Qed.

End History.

(** X7.  Over any sequence of expense and settlement requests, accepted or
    refused, whose amounts are in whole cents and in which no expense is
    split by percentage, the balances, in whole cents at the start, stay in
    whole cents, and the balances of every group and currency keep their
    sum; a ledger that starts balanced (sum zero) stays balanced.  (With an
    amount of more than two fractional digits the columns round the deltas
    one by one and the sum can move; the property does not cover it.) *)
Theorem ledger_stays_balanced {ext : Externals} (requests : list request)
        (db : DB) (groupID : Z) (currency : string) :
  Forall notByPercentage requests ->
  Forall amountsInCents requests ->
  ledgerInCents (user_balances db) ->
  ledgerInCents (user_balances (fold_left handle requests db))
  /\ groupTotal (user_balances (fold_left handle requests db)) groupID currency
     == groupTotal (user_balances db) groupID currency
  /\ (groupTotal (user_balances db) groupID currency == 0 ->
      groupTotal (user_balances (fold_left handle requests db)) groupID currency
      == 0).
Proof.
  intros H Hcents Hdb.
  pose proof (history_total groupID currency H db) as Ht.
  split; [exact (history_inCents Hcents Hdb)|].
  split; [exact Ht|]. intro Hz. rewrite Ht. exact Hz.
Qed.

(** ** Rounding *)

Section Rounding.

Lemma roundHalfAway_error (x : Q) :
  Qabs (inject_Z (roundHalfAway x) - x) <= 1 # 2.
Proof.
  unfold roundHalfAway.
  destruct (Qle_bool 0 x) eqn:Hsign.
  - pose proof (Qfloor_le (x + (1 # 2))) as Hlo.
    pose proof (Qlt_floor (x + (1 # 2))) as Hhi.
    rewrite inject_Z_plus in Hhi. change (inject_Z 1) with 1 in Hhi.
    apply Qabs_Qle_condition. split; lra.
  - pose proof (Qfloor_le (- x + (1 # 2))) as Hlo.
    pose proof (Qlt_floor (- x + (1 # 2))) as Hhi.
    rewrite inject_Z_plus in Hhi. change (inject_Z 1) with 1 in Hhi.
    rewrite inject_Z_opp.
    apply Qabs_Qle_condition. split; lra.
Qed.

(** half a cent *)
Definition halfCent : Q := 1 # 200.

(** half a unit of the sixteenth decimal place, the precision of [Div] *)
Definition divisionError : Q := 1 # 20000000000000000.

Lemma scaled_error (n : Z) (x scale : Q) :
  0 < scale ->
  Qabs (inject_Z n - x * scale) <= 1 # 2 ->
  Qabs (inject_Z n / scale - x) <= (1 # 2) / scale.
Proof.
  intros Hpos H.
  apply Qabs_Qle_condition in H. destruct H as [Hlo Hhi].
  assert (Hs : ~ scale == 0) by lra.
  assert (Hinv : 0 < / scale) by (apply Qinv_lt_0_compat; exact Hpos).
  apply Qabs_Qle_condition.
  assert (E : inject_Z n / scale - x == (inject_Z n - x * scale) * / scale).
  { field. exact Hs. }
  rewrite E. unfold Qdiv. split.
  - setoid_replace (- ((1 # 2) * / scale)) with ((- (1 # 2)) * / scale) by ring.
    apply Qmult_le_compat_r; lra.
  - apply Qmult_le_compat_r; lra.
Qed.

Lemma Round_2_error (d : Decimal) : Qabs (Round d 2 - d) <= halfCent.
Proof.
  unfold Round. change (pow10 2) with 100.
  setoid_replace halfCent with ((1 # 2) / 100) by reflexivity.
  apply scaled_error; [reflexivity|].
  apply roundHalfAway_error.
Qed.

Lemma Div_error (d d2 : Decimal) : Qabs (Div d d2 - d / d2) <= divisionError.
Proof.
  unfold Div, DivRound, DivisionPrecision.
  change (pow10 16) with 10000000000000000.
  setoid_replace divisionError with ((1 # 2) / 10000000000000000)
    by reflexivity.
  apply scaled_error; [reflexivity|].
  apply roundHalfAway_error.
Qed.

(** what rounding to [DivisionPrecision] digits and then to cents can add
    or take away *)
Definition roundingError : Q := halfCent + divisionError.

Lemma Round_Div_error (d d2 : Decimal) :
  Qabs (Round (Div d d2) 2 - d / d2) <= roundingError.
Proof.
  pose proof (@Round_2_error (Div d d2)) as H1.
  pose proof (@Div_error d d2) as H2.
  apply Qabs_Qle_condition in H1. apply Qabs_Qle_condition in H2.
  unfold roundingError. apply Qabs_Qle_condition. split; lra.
Qed.

End Rounding.

Section RoundedShares.
Context {ext : Externals}.
Import expenseService.

Lemma percentageShare_error (req : CreateExpenseRequest.t) (p : Decimal) :
  Qabs (percentageShare req p - CreateExpenseRequest.Amount req * p / 100)
  <= roundingError.
Proof.
  unfold percentageShare, Mul. change (NewFromInt 100) with 100.
  apply Round_Div_error.
Qed.

Lemma percentageShares_error (req : CreateExpenseRequest.t)
      (percentages : list Decimal) :
  Qabs (Sum (map (percentageShare req) percentages)
        - CreateExpenseRequest.Amount req * Sum percentages / 100)
  <= inject_Z (goint.len percentages) * roundingError.
Proof.
  induction percentages as [|p ps IH].
  - unfold goint.len. cbn [map List.length Z.of_nat]. rewrite Sum_nil.
    unfold Zero.
    assert (E : 0 - CreateExpenseRequest.Amount req * 0 / 100 == 0)
      by (field; discriminate).
    rewrite E. apply Qle_bool_iff. reflexivity.
  - cbn [map]. rewrite !Sum_cons.
    unfold goint.len in *. cbn [List.length].
    rewrite Nat2Z.inj_succ, <- Z.add_1_r, inject_Z_plus.
    change (inject_Z 1) with 1.
    pose proof (@percentageShare_error req p) as Hp.
    apply Qabs_Qle_condition in Hp. apply Qabs_Qle_condition in IH.
    apply Qabs_Qle_condition.
    assert (E : CreateExpenseRequest.Amount req * (p + Sum ps) / 100
                == CreateExpenseRequest.Amount req * p / 100
                   + CreateExpenseRequest.Amount req * Sum ps / 100)
      by (field; discriminate).
    rewrite E. split; lra.
Qed.

Lemma calculatePercentageSplits_hundred (db : DB) (req : CreateExpenseRequest.t)
      (groupID : Z) (splits : list ExpenseSplit.t) :
  calculatePercentageSplits db req groupID = Ok splits ->
  Sum (map CreateExpenseSplitRequest.Percentage (CreateExpenseRequest.Splits req))
  == 100.
Proof.
  unfold calculatePercentageSplits.
  destruct (percentageSplitsLoop db req groupID _ Zero [])
    as [[out sum]|] eqn:Hloop; cbn [bind]; [|discriminate].
  destruct (Equal sum _) eqn:Heq; cbn [negb]; [|discriminate].
  intros _.
  destruct (percentageSplitsLoop_members Hloop) as (users & Hres & Hin).
  rewrite (percentageSplitsLoop_resolved req Hres Hin) in Hloop.
  inversion Hloop; subst.
  apply Equal_iff in Heq. exact Heq.
Qed.

Lemma Sum_repeat (x : Decimal) (k : nat) :
  Sum (repeat x k) == inject_Z (Z.of_nat k) * x.
Proof.
  induction k as [|k IH].
  - cbn. unfold Zero. ring.
  - cbn [repeat]. rewrite Sum_cons, IH.
    rewrite Nat2Z.inj_succ, <- Z.add_1_r, inject_Z_plus.
    change (inject_Z 1) with 1. ring.
Qed.

End RoundedShares.

(** X8.  An accepted expense of an amount in whole cents that is split
    by percentage moves the sum of the balances of its group by the rounding
    of the shares only: by at most [roundingError] (half a cent, and half a
    unit of the sixteenth decimal place for the division) for each
    participant; the balances, in whole cents before, are in whole cents
    afterwards.  (An amount with more than two fractional digits is rounded
    again by the column that takes the credit of the payer; the property
    does not cover it.) *)
Theorem percentage_drift_is_bounded {ext : Externals} (db db' : DB)
        (newUUID : string) (req : CreateExpenseRequest.t) (expense : Expense.t) :
  CreateExpenseRequest.SplitType req = SplitTypePercentage ->
  inCents (CreateExpenseRequest.Amount req) ->
  ledgerInCents (user_balances db) ->
  expenseService.CreateExpense newUUID req db = (Ok expense, db') ->
  exists group,
    groupRepository.GetByUUID db (CreateExpenseRequest.GroupUUID req) = Ok group
    /\ ledgerInCents (user_balances db')
    /\ Qabs (groupTotal (user_balances db') (Group.ID group) (currencyOf req)
             - groupTotal (user_balances db) (Group.ID group) (currencyOf req))
       <= inject_Z (goint.len (CreateExpenseRequest.Splits req)) * roundingError.
Proof.
  intros Ht Hamount Hdb H.
  destruct (percentage_expense_drift Ht H) as (group & Hgroup & Hdrift).
  exists group. split; [exact Hgroup|].
  split.
  { apply (@CreateExpense_inCents ext db db' newUUID req (Ok expense));
      [|exact Hdb|exact H].
    split; [exact Hamount|]. intro Hx. rewrite Ht in Hx. discriminate Hx. }
  destruct (CreateExpense_accepted H) as (group' & payer & splits & Hr & Hs & _).
  assert (Hne : CreateExpenseRequest.Splits req <> []).
  { intro E. unfold expenseService.validateAndCalculateSplits in Hs.
    rewrite E in Hs. discriminate Hs. }
  rewrite (validateAndCalculateSplits_percentage db (Group.ID group') Hne Ht)
    in Hs.
  pose proof (calculatePercentageSplits_hundred Hs) as Hsum.
  pose proof (@percentageShares_error req
                (map CreateExpenseSplitRequest.Percentage
                     (CreateExpenseRequest.Splits req))) as Herr.
  rewrite map_map in Herr. unfold goint.len in Herr. rewrite length_map in Herr.
  fold (goint.len (CreateExpenseRequest.Splits req)) in Herr.
  rewrite Hsum in Herr.
  apply Qabs_Qle_condition in Herr. apply Qabs_Qle_condition.
  rewrite Hdrift.
  assert (E : CreateExpenseRequest.Amount req * 100 / 100
              == CreateExpenseRequest.Amount req) by (field; discriminate).
  rewrite E in Herr. split; lra.
Qed.

(** X9.  The equal strategy is fair up to rounding: with [n] participants
    the first [n - 1] are charged one and the same amount, within
    [roundingError] of the [n]-th part of the total, and the last one is
    charged within [(n - 1) * roundingError] of it. *)
Theorem equal_shares_are_near_equal {ext : Externals} (db : DB)
        (req : CreateExpenseRequest.t) (groupID : Z)
        (splits : list ExpenseSplit.t) :
  CreateExpenseRequest.Splits req <> [] ->
  expenseService.calculateEqualSplits db req groupID = Ok splits ->
  let n := inject_Z (goint.len (CreateExpenseRequest.Splits req)) in
  let fair := CreateExpenseRequest.Amount req / n in
  exists amountPerUser lastAmount,
    map ExpenseSplit.Amount splits
    = repeat amountPerUser (List.length (CreateExpenseRequest.Splits req) - 1)
      ++ [lastAmount]
    /\ Qabs (amountPerUser - fair) <= roundingError
    /\ Qabs (lastAmount - fair) <= (n - 1) * roundingError.
Proof.
  intros Hne H n fair. unfold expenseService.calculateEqualSplits in H.
  destruct (equalSplitsLoop_members H) as [users Hres].
  rewrite (equalSplitsLoop_resolved req _ Hres) in H.
  inversion H; subst. cbn [app]. clear H.
  assert (Hlen : List.length users
                 = List.length (CreateExpenseRequest.Splits req)).
  { symmetry. apply (Forall2_length Hres). }
  rewrite equalShares_amounts.
  2:{ intro E. subst users. inversion Hres as [E'|]. congruence. }
  2:{ unfold goint.len. rewrite Hlen. lia. }
  rewrite Hlen.
  set (k := (List.length (CreateExpenseRequest.Splits req) - 1)%nat).
  set (apu := Round (Div (CreateExpenseRequest.Amount req)
                         (NewFromInt (goint.len (CreateExpenseRequest.Splits req))))
                    2).
  exists apu, (Sub (CreateExpenseRequest.Amount req)
                   (fold_left Add (repeat apu k) Zero)).
  split; [reflexivity|].
  assert (Hapu : Qabs (apu - fair) <= roundingError).
  { subst apu fair n. unfold NewFromInt. apply Round_Div_error. }
  split; [exact Hapu|].
  fold (Sum (repeat apu k)). unfold Sub. rewrite Sum_repeat.
  assert (Hpos : (1 <= goint.len (CreateExpenseRequest.Splits req))%Z).
  { unfold goint.len. destruct (CreateExpenseRequest.Splits req);
      [congruence|cbn [List.length]; lia]. }
  assert (Hk : inject_Z (Z.of_nat k) == n - 1).
  { subst k n. unfold goint.len in *.
    rewrite Nat2Z.inj_sub by lia. unfold Z.sub.
    rewrite inject_Z_plus, inject_Z_opp. reflexivity. }
  rewrite Hk.
  assert (Hn : 1 <= n).
  { subst n. change 1 with (inject_Z 1). rewrite <- Zle_Qle. exact Hpos. }
  assert (Hfair : CreateExpenseRequest.Amount req == n * fair).
  { subst fair. field. lra. }
  apply Qabs_Qle_condition in Hapu. destruct Hapu as [Hlo Hhi].
  assert (E : CreateExpenseRequest.Amount req - (n - 1) * apu - fair
              == (fair - apu) * (n - 1)).
  { rewrite Hfair at 1. ring. }
  rewrite E. apply Qabs_Qle_condition.
  assert (Hn1 : 0 <= n - 1) by lra.
  split.
  - setoid_replace (- ((n - 1) * roundingError))
      with ((- roundingError) * (n - 1)) by ring.
    apply Qmult_le_compat_r; lra.
  - setoid_replace ((n - 1) * roundingError) with (roundingError * (n - 1))
      by ring.
    apply Qmult_le_compat_r; lra.
Qed.

(** ** More on the debt simplification *)

Section Suggestions.
Import settlementService.

Variables (pickCreditor pickDebtor : selection) (currency : string).
Hypothesis pickCreditor_inBounds : inBounds pickCreditor.
Hypothesis pickDebtor_inBounds : inBounds pickDebtor.

(** A property that every iteration keeps holds when the loop ends. *)
Lemma matchLoop_invariant (P : matching -> Prop) :
  (forall m, creditorsWork m <> [] -> debtorsWork m <> [] ->
             P m -> P (matchStep pickCreditor pickDebtor currency m)) ->
  forall fuel m m',
    matchLoop pickCreditor pickDebtor currency fuel m = Some m' ->
    P m -> P m'.
Proof.
  intro Hstep. induction fuel as [|fuel IH]; intros m m';
    rewrite matchLoop_unfold;
    destruct (creditorsWork m) as [|c cs] eqn:Ec;
    destruct (debtorsWork m) as [|d ds] eqn:Ed;
    intro H; try (inversion H; subst; exact (fun x => x)); try discriminate.
  intro Hm. apply (IH _ _ H). apply Hstep; [| |exact Hm]; congruence.
Qed.

(** *** How many suggestions *)

Definition withinParties (parties : nat) (m : matching) : Prop :=
  (List.length (suggestions m)
   + Nat.max 1 (List.length (creditorsWork m) + List.length (debtorsWork m))
   <= parties)%nat.

Lemma matchStep_withinParties (parties : nat) (m : matching) :
  creditorsWork m <> [] -> debtorsWork m <> [] ->
  withinParties parties m ->
  withinParties parties (matchStep pickCreditor pickDebtor currency m).
Proof.
  intros Hc Hd. unfold withinParties.
  pose proof (@matchStep_removes pickCreditor pickDebtor currency m Hc Hd
                pickCreditor_inBounds pickDebtor_inBounds) as (_ & _ & Hless).
  rewrite matchStep_settles in *. cbn [suggestions creditorsWork debtorsWork] in *.
  rewrite length_app. cbn [List.length].
  destruct (creditorsWork m); [congruence|].
  destruct (debtorsWork m); [congruence|].
  cbn [List.length] in *. lia.
Qed.

Lemma suggestions_below_parties (creditors debtors : list Balance.t)
      (l : list SettlementSuggestion.t) :
  generateSettlementSuggestionsWith pickCreditor pickDebtor
    creditors debtors currency = Some l ->
  (List.length l + 1 <= Nat.max 1 (List.length creditors + List.length debtors))%nat.
Proof.
  unfold generateSettlementSuggestionsWith.
  destruct (matchLoop _ _ _ _ _) as [m|] eqn:Hloop; [|discriminate].
  cbn [option_map]. intro H. inversion H; subst.
  pose proof (@matchLoop_invariant
                (withinParties
                   (Nat.max 1 (List.length creditors + List.length debtors)))
                (matchStep_withinParties (parties := _)) _ _ _ Hloop) as Hinv.
  unfold withinParties in Hinv.
  cbn [startMatching suggestions creditorsWork debtorsWork] in Hinv.
  rewrite !length_map in Hinv. cbn [List.length] in Hinv.
  specialize (Hinv ltac:(lia)). lia.
Qed.

(** *** Who pays whom *)

(** what the parties selected by [who] still have to settle *)
Definition owedBy (who : option User.t -> bool) (work : list Balance.t)
  : Decimal :=
  sumBalances (filter (fun b => who (Balance.User b)) work).

(** what the suggestions ask the users selected by [who] to pay *)
Definition paidBy (who : option User.t -> bool)
           (l : list SettlementSuggestion.t) : Decimal :=
  sumSuggestions (filter (fun s => who (SettlementSuggestion.FromUser s)) l).

(** what the suggestions have the users selected by [who] receive *)
Definition receivedBy (who : option User.t -> bool)
           (l : list SettlementSuggestion.t) : Decimal :=
  sumSuggestions (filter (fun s => who (SettlementSuggestion.ToUser s)) l).

Lemma owedBy_app (who : option User.t -> bool) (l1 l2 : list Balance.t) :
  owedBy who (l1 ++ l2) == owedBy who l1 + owedBy who l2.
Proof. unfold owedBy. rewrite filter_app. apply sumBalances_app. Qed.

Lemma owedBy_cons (who : option User.t -> bool) (b : Balance.t)
      (l : list Balance.t) :
  owedBy who (b :: l)
  == (if who (Balance.User b) then Balance.Balance b else 0) + owedBy who l.
Proof.
  unfold owedBy. cbn [filter].
  destruct (who (Balance.User b)); [apply sumBalances_cons|ring].
Qed.

Lemma settle_owedBy (who : option User.t -> bool) (idx : nat) (v : Decimal)
      (work : list Balance.t) :
  (idx < List.length work)%nat ->
  owedBy who (settle idx v work)
  == owedBy who work
     - (if who (Balance.User (balanceAt work idx))
        then Balance.Balance (balanceAt work idx) - v else 0).
Proof.
  intro H. destruct (split_at H) as (l1 & l2 & Hw & Hl).
  set (b := balanceAt work idx) in *. clearbody b. subst work idx.
  rewrite settle_split.
  destruct (Equal v Zero) eqn:Hz.
  - apply Equal_iff in Hz. unfold Zero in Hz.
    rewrite !owedBy_app, owedBy_cons.
    destruct (who (Balance.User b)); [rewrite Hz|]; ring.
  - rewrite !owedBy_app, !owedBy_cons. cbn [Balance.withBalance Balance.User
                                              Balance.Balance].
    destruct (who (Balance.User b)); ring.
Qed.

Lemma paidBy_snoc (who : option User.t -> bool)
      (l : list SettlementSuggestion.t) (s : SettlementSuggestion.t) :
  paidBy who (l ++ [s])
  == paidBy who l
     + (if who (SettlementSuggestion.FromUser s)
        then SettlementSuggestion.Amount s else 0).
Proof.
  unfold paidBy, sumSuggestions. rewrite filter_app, map_app, Sum_app.
  cbn [filter]. destruct (who _); cbn; unfold Sum, Add, Zero; cbn; ring.
Qed.

Lemma receivedBy_snoc (who : option User.t -> bool)
      (l : list SettlementSuggestion.t) (s : SettlementSuggestion.t) :
  receivedBy who (l ++ [s])
  == receivedBy who l
     + (if who (SettlementSuggestion.ToUser s)
        then SettlementSuggestion.Amount s else 0).
Proof.
  unfold receivedBy, sumSuggestions. rewrite filter_app, map_app, Sum_app.
  cbn [filter]. destruct (who _); cbn; unfold Sum, Add, Zero; cbn; ring.
Qed.

(** what has been suggested and what is left add up to what was owed *)
Definition accountsFor (who : option User.t -> bool)
           (creditors debtors : list Balance.t) (m : matching) : Prop :=
  paidBy who (suggestions m) + owedBy who (debtorsWork m)
  == owedBy who debtors
  /\ receivedBy who (suggestions m) + owedBy who (creditorsWork m)
     == owedBy who creditors.

Lemma matchStep_accountsFor (who : option User.t -> bool)
      (creditors debtors : list Balance.t) (m : matching) :
  creditorsWork m <> [] -> debtorsWork m <> [] ->
  accountsFor who creditors debtors m ->
  accountsFor who creditors debtors
              (matchStep pickCreditor pickDebtor currency m).
Proof.
  intros Hc Hd [Hpaid Hreceived]. unfold accountsFor.
  rewrite matchStep_settles. cbn [suggestions creditorsWork debtorsWork].
  rewrite paidBy_snoc, receivedBy_snoc.
  rewrite !settle_owedBy by (try apply pickCreditor_inBounds;
                             try apply pickDebtor_inBounds; assumption).
  cbn [SettlementSuggestion.FromUser SettlementSuggestion.ToUser
       SettlementSuggestion.Amount].
  unfold Sub. split.
  - rewrite <- Hpaid. destruct (who _); ring.
  - rewrite <- Hreceived. destruct (who _); ring.
Qed.

Lemma owedBy_workingCopy (who : option User.t -> bool) (l : list Balance.t) :
  owedBy who (map workingCopy l) == owedBy who l.
Proof.
  induction l as [|b l IH]; [reflexivity|].
  cbn [map]. rewrite !owedBy_cons, IH. reflexivity.
Qed.

Lemma suggestions_accountFor (who : option User.t -> bool)
      (creditors debtors : list Balance.t) :
  exists m,
    generateSettlementSuggestionsWith pickCreditor pickDebtor
      creditors debtors currency = Some (suggestions m)
    /\ accountsFor who creditors debtors m
    /\ (Forall positive creditors -> Forall positive debtors ->
        sumBalances debtors == sumBalances creditors ->
        creditorsWork m = [] /\ debtorsWork m = []).
Proof.
  destruct (generateSettlementSuggestionsWith_runs creditors debtors currency
              pickCreditor_inBounds pickDebtor_inBounds)
    as (m & Hrun & Hgen & Hend & _ & Hbal & Hpos & _).
  exists m. split; [exact Hgen|]. split.
  - apply (@matchLoop_invariant (accountsFor who creditors debtors)
             (@matchStep_accountsFor who creditors debtors) _ _ _ Hrun).
    unfold accountsFor.
    cbn [startMatching suggestions creditorsWork debtorsWork].
    rewrite !owedBy_workingCopy. unfold paidBy, receivedBy, sumSuggestions.
    cbn. unfold Zero. split; ring.
  - intros Hc Hd Hsum.
    destruct (startMatching_sums creditors debtors) as [Ec Ed].
    rewrite Ec, Ed in Hbal.
    destruct Hpos as [Pc Pd]; [apply startMatching_positive; exact Hc
                              |apply startMatching_positive; exact Hd|].
    destruct Hend as [E|E]; rewrite E in *; split; try reflexivity;
      apply positive_sum_zero; try assumption;
      change (sumBalances []) with 0 in Hbal; lra.
Qed.

(** *** What a suggestion looks like *)

Definition wellFormed (creditors debtors : list Balance.t)
           (s : SettlementSuggestion.t) : Prop :=
  0 < SettlementSuggestion.Amount s
  /\ SettlementSuggestion.Currency s = currency
  /\ In (SettlementSuggestion.FromUser s) (map Balance.User debtors)
  /\ In (SettlementSuggestion.ToUser s) (map Balance.User creditors).

Definition wellFormedSoFar (creditors debtors : list Balance.t) (m : matching)
  : Prop :=
  Forall positive (creditorsWork m) /\ Forall positive (debtorsWork m)
  /\ incl (map Balance.User (creditorsWork m)) (map Balance.User creditors)
  /\ incl (map Balance.User (debtorsWork m)) (map Balance.User debtors)
  /\ Forall (wellFormed creditors debtors) (suggestions m).

Lemma settle_users (idx : nat) (v : Decimal) (work : list Balance.t) :
  (idx < List.length work)%nat ->
  incl (map Balance.User (settle idx v work)) (map Balance.User work).
Proof.
  intro H. destruct (split_at H) as (l1 & l2 & Hw & Hl).
  set (b := balanceAt work idx) in *. clearbody b. subst work idx.
  rewrite settle_split.
  destruct (Equal v Zero); rewrite !map_app; cbn [map Balance.withBalance
                                                    Balance.User].
  - apply incl_app; [apply incl_appl, incl_refl
                    |apply incl_appr, incl_tl, incl_refl].
  - apply incl_refl.
Qed.

Lemma balanceAt_user (work : list Balance.t) (idx : nat) :
  (idx < List.length work)%nat ->
  In (Balance.User (balanceAt work idx)) (map Balance.User work).
Proof. intro H. apply in_map. unfold balanceAt. apply nth_In. exact H. Qed.

Lemma matchStep_wellFormedSoFar (creditors debtors : list Balance.t)
      (m : matching) :
  creditorsWork m <> [] -> debtorsWork m <> [] ->
  wellFormedSoFar creditors debtors m ->
  wellFormedSoFar creditors debtors
                  (matchStep pickCreditor pickDebtor currency m).
Proof.
  intros Hc Hd (Pc & Pd & Ic & Id & Hs).
  pose proof (pickCreditor_inBounds Hc) as Bc.
  pose proof (pickDebtor_inBounds Hd) as Bd.
  pose proof (@matchStep_positive pickCreditor pickDebtor currency m Hc Hd
                pickCreditor_inBounds pickDebtor_inBounds Pc Pd) as [Pc' Pd'].
  unfold wellFormedSoFar. split; [exact Pc'|]. split; [exact Pd'|].
  rewrite matchStep_settles. cbn [suggestions creditorsWork debtorsWork].
  split; [eapply incl_tran; [apply settle_users; exact Bc|exact Ic]|].
  split; [eapply incl_tran; [apply settle_users; exact Bd|exact Id]|].
  apply Forall_app. split; [exact Hs|]. constructor; [|constructor].
  unfold wellFormed. cbn [SettlementSuggestion.Amount
                            SettlementSuggestion.Currency
                            SettlementSuggestion.FromUser
                            SettlementSuggestion.ToUser].
  split.
  - pose proof (balanceAt_positive Bc Pc) as P1.
    pose proof (balanceAt_positive Bd Pd) as P2.
    unfold positive in P1, P2. destruct (LessThan _ _); assumption.
  - split; [reflexivity|]. split.
    + apply Id. apply balanceAt_user. exact Bd.
    + apply Ic. apply balanceAt_user. exact Bc.
Qed.

Lemma suggestions_wellFormed (creditors debtors : list Balance.t)
      (l : list SettlementSuggestion.t) :
  Forall positive creditors -> Forall positive debtors ->
  generateSettlementSuggestionsWith pickCreditor pickDebtor
    creditors debtors currency = Some l ->
  Forall (wellFormed creditors debtors) l.
Proof.
  intros Pc Pd. unfold generateSettlementSuggestionsWith.
  destruct (matchLoop _ _ _ _ _) as [m|] eqn:Hloop; [|discriminate].
  cbn [option_map]. intro H. inversion H; subst.
  apply (@matchLoop_invariant (wellFormedSoFar creditors debtors)
           (@matchStep_wellFormedSoFar creditors debtors) _ _ _ Hloop).
  unfold wellFormedSoFar.
  cbn [startMatching suggestions creditorsWork debtorsWork].
  split; [apply startMatching_positive; exact Pc|].
  split; [apply startMatching_positive; exact Pd|].
  rewrite !map_map. cbn [workingCopy Balance.User].
  split; [apply incl_refl|]. split; [apply incl_refl|constructor].
Qed.

End Suggestions.

Lemma simplifyBalances_suggestions (balances : list Balance.t)
      (currency : string) :
  DebtSimplification.Suggestions
    (settlementService.simplifyBalances balances currency)
  = settlementService.generateSettlementSuggestions
      (fst (settlementService.separate balances))
      (snd (settlementService.separate balances)) currency.
Proof.
  unfold settlementService.simplifyBalances.
  destruct (settlementService.separate balances) as [creditors debtors].
  reflexivity.
Qed.

(** X10.  The greedy matching suggests fewer payments than there are
    parties: with [d] debtors and [c] creditors at least one of which is not
    zero, [SimplifyDebts] returns at most [d + c - 1] suggestions (and none
    when nobody owes or nobody is owed). *)
Theorem simplification_suggests_fewer_payments (balances : list Balance.t)
        (currency : string) :
  let result := settlementService.simplifyBalances balances currency in
  (DebtSimplification.SimplifiedTransactions result
   <= Z.max 0 (debtorCount balances + creditorCount balances - 1))%Z
  /\ (debtorCount balances = 0%Z \/ creditorCount balances = 0%Z ->
      DebtSimplification.Suggestions result = []).
Proof.
  cbv zeta.
  assert (Hcount : DebtSimplification.SimplifiedTransactions
                     (settlementService.simplifyBalances balances currency)
                   = goint.len (DebtSimplification.Suggestions
                                  (settlementService.simplifyBalances
                                     balances currency))).
  { unfold settlementService.simplifyBalances.
    destruct (settlementService.separate balances) as [creditors debtors].
    reflexivity. }
  rewrite Hcount, simplifyBalances_suggestions, separate_spec. cbn [fst snd].
  split.
  - pose proof (@suggestions_below_parties settlementService.largest
                  settlementService.largest currency largest_inBounds
                  largest_inBounds
                  (map madePositive (creditorsOf balances))
                  (debtorsOf balances) _
                  (generateSettlementSuggestions_largest _ _ _)) as H.
    rewrite length_map in H.
    unfold debtorCount, creditorCount, goint.len. lia.
  - intro Hzero.
    apply (suggestions_count (map madePositive (creditorsOf balances))
                             (debtorsOf balances) currency).
    unfold debtorCount, creditorCount, goint.len in Hzero.
    destruct Hzero as [Hz|Hz]; [right|left].
    + destruct (debtorsOf balances); [reflexivity|discriminate Hz].
    + destruct (creditorsOf balances); [reflexivity|discriminate Hz].
Qed.

(** X11.  Every suggestion of [SimplifyDebts] asks for a strictly positive
    amount in the currency of the request, from the user of a balance that
    is positive (a debtor) to the user of a balance that is negative (a
    creditor). *)
Theorem suggestions_are_well_formed (balances : list Balance.t)
        (currency : string) :
  Forall (fun s =>
            0 < SettlementSuggestion.Amount s
            /\ SettlementSuggestion.Currency s = currency
            /\ (exists debtor,
                   In debtor balances /\ 0 < Balance.Balance debtor
                   /\ SettlementSuggestion.FromUser s = Balance.User debtor)
            /\ (exists creditor,
                   In creditor balances /\ Balance.Balance creditor < 0
                   /\ SettlementSuggestion.ToUser s = Balance.User creditor))
         (DebtSimplification.Suggestions
            (settlementService.simplifyBalances balances currency)).
Proof.
  rewrite simplifyBalances_suggestions, separate_spec. cbn [fst snd].
  pose proof (@suggestions_wellFormed settlementService.largest
                settlementService.largest currency largest_inBounds
                largest_inBounds
                (map madePositive (creditorsOf balances)) (debtorsOf balances) _
                (creditors_positive balances) (debtors_positive balances)
                (generateSettlementSuggestions_largest _ _ _)) as H.
  eapply Forall_impl; [|exact H].
  intros s (Hamount & Hcur & Hfrom & Hto).
  split; [exact Hamount|]. split; [exact Hcur|]. split.
  - apply in_map_iff in Hfrom. destruct Hfrom as (b & Hb & Hin).
    apply filter_In in Hin. destruct Hin as [Hin Hd].
    exists b. split; [exact Hin|]. split; [|symmetry; exact Hb].
    apply GreaterThan_iff in Hd. exact Hd.
  - rewrite map_map in Hto. apply in_map_iff in Hto.
    destruct Hto as (b & Hb & Hin).
    apply filter_In in Hin. destruct Hin as [Hin Hc].
    exists b. split; [exact Hin|]. split; [|symmetry; exact Hb].
    apply LessThan_iff in Hc. exact Hc.
Qed.

Lemma owedBy_madePositive (who : option User.t -> bool) (l : list Balance.t) :
  owedBy who (map madePositive l)
  == Sum (map (fun b => Abs (Balance.Balance b))
              (filter (fun b => who (Balance.User b)) l)).
Proof.
  unfold owedBy, sumBalances.
  induction l as [|b l IH]; [reflexivity|].
  cbn [map filter madePositive Balance.withBalance Balance.User].
  destruct (who (Balance.User b)); [|exact IH].
  cbn [map Balance.Balance]. rewrite !Sum_cons, IH. reflexivity.
Qed.

(** X12.  When the debts and the credits of the snapshot have the same
    sum, the suggestions of [SimplifyDebts] settle everybody exactly: for
    every selection [who] of users, the suggestions that they pay add up to
    what they owe, and the suggestions that they receive add up to what
    they are owed. *)
Theorem suggestions_settle_every_party (balances : list Balance.t)
        (currency : string) (who : option User.t -> bool) :
  totalOwed balances == totalDue balances ->
  let suggestions :=
    DebtSimplification.Suggestions
      (settlementService.simplifyBalances balances currency) in
  paidBy who suggestions
  == Sum (map Balance.Balance
              (filter (fun b => who (Balance.User b)) (debtorsOf balances)))
  /\ receivedBy who suggestions
     == Sum (map (fun b => Abs (Balance.Balance b))
                 (filter (fun b => who (Balance.User b)) (creditorsOf balances))).
Proof.
  intros Hsum. cbv zeta.
  rewrite simplifyBalances_suggestions, separate_spec. cbn [fst snd].
  destruct (@suggestions_accountFor settlementService.largest
              settlementService.largest currency largest_inBounds
              largest_inBounds who
              (map madePositive (creditorsOf balances)) (debtorsOf balances))
    as (m & Hgen & [Hpaid Hreceived] & Hend).
  rewrite generateSettlementSuggestions_largest in Hgen.
  inversion Hgen as [Hl]. rewrite Hl.
  destruct Hend as [Ec Ed];
    [apply creditors_positive|apply debtors_positive| |].
  { rewrite totalDue_creditors. exact Hsum. }
  rewrite Ec, Ed in *.
  change (owedBy who []) with 0 in Hpaid, Hreceived.
  split.
  - rewrite <- Hpaid. unfold owedBy, sumBalances. ring.
  - rewrite <- owedBy_madePositive, <- Hreceived. ring.
Qed.

(** ** The balance sheet *)

Section BalanceSheets.
Context {ext : Externals}.
Import balanceService.

Lemma insertDesc_sum (b : Balance.t) (l : list Balance.t) :
  sumBalances (balanceRepository.insertDesc b l)
  == Balance.Balance b + sumBalances l.
Proof.
  induction l as [|x l IH]; cbn [balanceRepository.insertDesc].
  - rewrite sumBalances_cons. reflexivity.
  - destruct (GreaterThan _ _).
    + rewrite !sumBalances_cons, IH. ring.
    + rewrite !sumBalances_cons. reflexivity.
Qed.

Lemma orderByBalanceDesc_sum (l : list Balance.t) :
  sumBalances (balanceRepository.orderByBalanceDesc l) == sumBalances l.
Proof.
  unfold balanceRepository.orderByBalanceDesc.
  induction l as [|x l IH]; cbn [fold_right]; [reflexivity|].
  rewrite insertDesc_sum, IH, sumBalances_cons. reflexivity.
Qed.

Lemma insertDesc_length (b : Balance.t) (l : list Balance.t) :
  List.length (balanceRepository.insertDesc b l) = S (List.length l).
Proof.
  induction l as [|x l IH]; cbn [balanceRepository.insertDesc]; [reflexivity|].
  destruct (GreaterThan _ _); cbn [List.length]; [rewrite IH|]; reflexivity.
Qed.

Lemma orderByBalanceDesc_length (l : list Balance.t) :
  List.length (balanceRepository.orderByBalanceDesc l) = List.length l.
Proof.
  unfold balanceRepository.orderByBalanceDesc.
  induction l as [|x l IH]; cbn [fold_right]; [reflexivity|].
  rewrite insertDesc_length, IH. reflexivity.
Qed.

(** The rows [GetGroupBalances] returns hold the balances of the group. *)
Lemma GetGroupBalances_total (db : DB) (groupID : Z) (currency : string) :
  exists balances,
    balanceRepository.GetGroupBalances db groupID currency = Ok balances
    /\ sumBalances balances == groupTotal (user_balances db) groupID currency
    /\ List.length balances
       = List.length (filter (balanceRepository.inGroup groupID currency)
                             (user_balances db)).
Proof.
  eexists. split; [reflexivity|]. split.
  - unfold sumBalances. rewrite map_map. cbn [Balance.Balance].
    apply orderByBalanceDesc_sum.
  - rewrite length_map. apply orderByBalanceDesc_length.
Qed.

Lemma sheetStep_totals (balances : list Balance.t) :
  forall userBalances totalPositive totalNegative,
  exists userBalances' totalPositive' totalNegative',
    fold_left sheetStep balances (userBalances, totalPositive, totalNegative)
    = (userBalances', totalPositive', totalNegative')
    /\ totalPositive' - totalNegative'
       == totalPositive - totalNegative + sumBalances balances
    /\ totalPositive <= totalPositive'
    /\ totalNegative <= totalNegative'
    /\ map UserBalance.Balance userBalances'
       = map UserBalance.Balance userBalances ++ map Balance.Balance balances.
Proof.
  induction balances as [|b balances IH]; intros ub tp tn.
  - exists ub, tp, tn. cbn. rewrite app_nil_r.
    repeat split; try apply Qle_refl. unfold sumBalances. cbn.
    unfold Zero. ring.
  - cbn [fold_left]. unfold sheetStep at 2.
    destruct (GreaterThan (Balance.Balance b) Zero) eqn:Hpos;
      [|destruct (LessThan (Balance.Balance b) Zero) eqn:Hneg].
    + destruct (IH (ub ++ [UserBalance.mk (Balance.UserID b) (Balance.GroupID b)
                             (Balance.User b) (Balance.Balance b)
                             (Balance.Currency b)])
                   (Add tp (Balance.Balance b)) tn)
        as (ub' & tp' & tn' & Hrun & Hnet & Hp & Hn & Hmap).
      exists ub', tp', tn'. split; [exact Hrun|].
      apply GreaterThan_iff in Hpos. unfold Zero, Add in *.
      split; [rewrite sumBalances_cons, Hnet; ring|].
      split; [lra|]. split; [lra|].
      rewrite Hmap, map_app, <- app_assoc. reflexivity.
    + destruct (IH (ub ++ [UserBalance.mk (Balance.UserID b) (Balance.GroupID b)
                             (Balance.User b) (Balance.Balance b)
                             (Balance.Currency b)])
                   tp (Add tn (Abs (Balance.Balance b))))
        as (ub' & tp' & tn' & Hrun & Hnet & Hp & Hn & Hmap).
      exists ub', tp', tn'. split; [exact Hrun|].
      apply LessThan_iff in Hneg. unfold Zero, Add, Abs in *.
      assert (Habs : Qabs (Balance.Balance b) == - Balance.Balance b).
      { apply Qabs_neg. lra. }
      rewrite Habs in Hn, Hnet.
      split; [rewrite sumBalances_cons, Hnet; ring|].
      split; [lra|]. split; [lra|].
      rewrite Hmap, map_app, <- app_assoc. reflexivity.
    + destruct (IH (ub ++ [UserBalance.mk (Balance.UserID b) (Balance.GroupID b)
                             (Balance.User b) (Balance.Balance b)
                             (Balance.Currency b)])
                   tp tn)
        as (ub' & tp' & tn' & Hrun & Hnet & Hp & Hn & Hmap).
      exists ub', tp', tn'. split; [exact Hrun|].
      apply GreaterThan_false_iff in Hpos. apply LessThan_false_iff in Hneg.
      unfold Zero in *.
      assert (Hzero : Balance.Balance b == 0) by (apply Qle_antisym; assumption).
      split; [rewrite sumBalances_cons, Hnet, Hzero; ring|].
      split; [lra|]. split; [lra|].
      rewrite Hmap, map_app, <- app_assoc. reflexivity.
Qed.

Lemma balanceSheet_summary (group : Group.t) (balances : list Balance.t)
      (currency : string) :
  let sheet := balanceSheet group balances currency in
  BalanceSheet.Group sheet = group
  /\ BalanceSheet.Currency sheet = currency
  /\ map UserBalance.Balance (BalanceSheet.Balances sheet)
     = map Balance.Balance balances
  /\ BalanceSummary.UserCount (BalanceSheet.Summary sheet)
     = goint.len balances
  /\ BalanceSummary.NetBalance (BalanceSheet.Summary sheet)
     == sumBalances balances
  /\ 0 <= BalanceSummary.TotalPositive (BalanceSheet.Summary sheet)
  /\ 0 <= BalanceSummary.TotalNegative (BalanceSheet.Summary sheet).
Proof.
  cbv zeta. unfold balanceSheet.
  destruct (sheetStep_totals balances [] Zero Zero)
    as (ub & tp & tn & Hrun & Hnet & Hp & Hn & Hmap).
  rewrite Hrun. cbn [BalanceSheet.Group BalanceSheet.Currency
                     BalanceSheet.Balances BalanceSheet.Summary
                     BalanceSummary.UserCount BalanceSummary.NetBalance
                     BalanceSummary.TotalPositive BalanceSummary.TotalNegative].
  cbn [map app] in Hmap. unfold Zero, Sub in *.
  repeat split; try assumption.
  - unfold goint.len. f_equal.
    rewrite <- (length_map UserBalance.Balance), Hmap, length_map. reflexivity.
  - rewrite Hnet. ring.
Qed.

Lemma GetGroupBalanceSheet_outcome (groupUUID : string) (db db' : DB)
      (sheet : BalanceSheet.t) :
  GetGroupBalanceSheet groupUUID db = (Ok sheet, db') ->
  db' = db
  /\ exists group balances,
      groupRepository.GetByUUID db groupUUID = Ok group
      /\ balanceRepository.GetGroupBalances db (Group.ID group) "USD"
         = Ok balances
      /\ sheet = balanceSheet group balances "USD".
Proof.
  unfold GetGroupBalanceSheet.
  destruct (utils.IsValidUUID groupUUID); cbn [negb]; [|discriminate].
  unfold bindM at 1, query at 1.
  destruct (groupRepository.GetByUUID db groupUUID) as [group|] eqn:Hgroup;
    [|discriminate].
  unfold bindM, query, ret.
  destruct (balanceRepository.GetGroupBalances db (Group.ID group) "USD")
    as [balances|] eqn:Hbal; [|discriminate].
  intro H. inversion H; subst. split; [reflexivity|].
  exists group, balances. repeat split; assumption.
Qed.

End BalanceSheets.

(** X13.  The balance sheet [GetGroupBalanceSheet] returns for a group
    reads the database without changing it; its net balance is the sum of
    the USD balances of the group, its two totals are not negative, and it
    counts one user per balance row of the group. *)
Theorem balance_sheet_nets_the_ledger {ext : Externals} (groupUUID : string)
        (db db' : DB) (sheet : BalanceSheet.t) :
  balanceService.GetGroupBalanceSheet groupUUID db = (Ok sheet, db') ->
  db' = db
  /\ groupRepository.GetByUUID db groupUUID = Ok (BalanceSheet.Group sheet)
  /\ let groupID := Group.ID (BalanceSheet.Group sheet) in
     let summary := BalanceSheet.Summary sheet in
     BalanceSummary.NetBalance summary
     == groupTotal (user_balances db) groupID "USD"
     /\ BalanceSummary.NetBalance summary
        == BalanceSummary.TotalPositive summary
           - BalanceSummary.TotalNegative summary
     /\ 0 <= BalanceSummary.TotalPositive summary
     /\ 0 <= BalanceSummary.TotalNegative summary
     /\ BalanceSummary.UserCount summary
        = goint.len (filter (balanceRepository.inGroup groupID "USD")
                            (user_balances db))
     /\ List.length (BalanceSheet.Balances sheet)
        = List.length (filter (balanceRepository.inGroup groupID "USD")
                              (user_balances db)).
Proof.
  intro H.
  destruct (GetGroupBalanceSheet_outcome H)
    as (Hdb & group & balances & Hgroup & Hbal & Hsheet).
  split; [exact Hdb|].
  destruct (balanceSheet_summary group balances "USD")
    as (Hg & _ & Hmap & Hcount & Hnet & Hp & Hn).
  rewrite <- Hsheet in *. rewrite Hg.
  split; [exact Hgroup|]. cbv zeta.
  destruct (GetGroupBalances_total db (Group.ID group) "USD")
    as (balances' & Hbal' & Htotal & Hlen).
  rewrite Hbal in Hbal'. inversion Hbal'; subst balances'.
  split; [rewrite Hnet; exact Htotal|].
  split.
  { rewrite Hsheet. unfold balanceService.balanceSheet.
    destruct (fold_left _ _ _) as [[ub tp] tn]. reflexivity. }
  split; [exact Hp|]. split; [exact Hn|]. split.
  - rewrite Hcount. unfold goint.len. rewrite Hlen. reflexivity.
  - rewrite <- (length_map UserBalance.Balance), Hmap, length_map. exact Hlen.
Qed.

(** X14.  "Should be close to zero in a balanced system": after any
    sequence of expense and settlement requests whose amounts are in whole
    cents and in which no expense is split by percentage, sent to a database
    whose balances are in whole cents and whose USD balances sum to zero in
    every group, the balances are in whole cents and the net balance of
    every balance sheet is exactly zero.  (With an amount of more than two
    fractional digits the columns round the deltas one by one; the property
    does not cover it.) *)
Theorem balance_sheet_nets_to_zero {ext : Externals} (requests : list request)
        (db db' : DB) (groupUUID : string) (sheet : BalanceSheet.t) :
  Forall notByPercentage requests ->
  Forall amountsInCents requests ->
  ledgerInCents (user_balances db) ->
  (forall groupID, groupTotal (user_balances db) groupID "USD" == 0) ->
  balanceService.GetGroupBalanceSheet groupUUID (fold_left handle requests db)
  = (Ok sheet, db') ->
  ledgerInCents (user_balances (fold_left handle requests db))
  /\ BalanceSummary.NetBalance (BalanceSheet.Summary sheet) == 0.
Proof.
  intros Hreq Hcents Hdb Hzero H.
  split; [exact (history_inCents Hcents Hdb)|].
  destruct (GetGroupBalanceSheet_outcome H)
    as (_ & group & balances & _ & Hbal & Hsheet).
  destruct (balanceSheet_summary group balances "USD")
    as (_ & _ & _ & _ & Hnet & _).
  rewrite <- Hsheet in Hnet. rewrite Hnet.
  destruct (GetGroupBalances_total (fold_left handle requests db)
                                   (Group.ID group) "USD")
    as (balances' & Hbal' & Htotal & _).
  rewrite Hbal in Hbal'. inversion Hbal'; subst balances'.
  rewrite Htotal, (history_total (Group.ID group) "USD" Hreq db).
  apply Hzero.
Qed.

(** ** Debt relationships *)

Section DebtRelationships.
Import balanceService.

Lemma balanceService_separate (balances : list Balance.t) :
  separate balances = (creditorsOf balances, debtorsOf balances).
Proof.
  unfold separate, creditorsOf, debtorsOf.
  assert (H : forall creditors debtors,
             fold_left
               (fun '(creditors, debtors) balance =>
                  if GreaterThan (Balance.Balance balance) Zero then
                    (creditors, debtors ++ [balance])
                  else if LessThan (Balance.Balance balance) Zero then
                    (creditors ++ [balance], debtors)
                  else (creditors, debtors))
               balances (creditors, debtors)
             = (creditors ++ filter isCreditor balances,
                debtors ++ filter isDebtor balances)).
  { induction balances as [|b balances IH]; intros creditors debtors.
    - cbn. rewrite !app_nil_r. reflexivity.
    - cbn [fold_left filter]. unfold isDebtor at 1, isCreditor at 1.
      destruct (GreaterThan (Balance.Balance b) Zero) eqn:Hpos.
      + assert (Hneg : LessThan (Balance.Balance b) Zero = false).
        { apply GreaterThan_iff in Hpos. apply LessThan_false_iff.
          apply Qlt_le_weak. exact Hpos. }
        rewrite Hneg, IH, <- app_assoc. reflexivity.
      + destruct (LessThan (Balance.Balance b) Zero);
          rewrite IH, <- ?app_assoc; reflexivity. }
  apply (H [] []).
Qed.

(** what is owed to all the creditors together *)
Definition totalCredit (creditors : list Balance.t) : Decimal :=
  fold_left (fun totalCredit creditor =>
               Add totalCredit (Abs (Balance.Balance creditor)))
            creditors Zero.

(** the share of the debt of [debtor] that goes to [creditor] *)
Definition debtAmount (creditors : list Balance.t) (debtor creditor : Balance.t)
  : Decimal :=
  Round (Mul (Balance.Balance debtor)
             (Div (Abs (Balance.Balance creditor)) (totalCredit creditors))) 2.

(** the relationship between [debtor] and [creditor], when it is listed *)
Definition debtTo (creditors : list Balance.t) (currency : string)
           (debtor creditor : Balance.t) : list DebtRelationship.t :=
  if GreaterThan (debtAmount creditors debtor creditor) oneCent
  then [DebtRelationship.mk (Balance.User creditor) (Balance.User debtor)
          (debtAmount creditors debtor creditor) currency]
  else [].

Lemma debtTo_fold (creditors : list Balance.t) (currency : string)
      (debtor : Balance.t) (l : list Balance.t) :
  forall relationships,
    fold_left
      (fun relationships creditor =>
         if GreaterThan (debtAmount creditors debtor creditor) oneCent then
           relationships ++ [DebtRelationship.mk (Balance.User creditor)
                               (Balance.User debtor)
                               (debtAmount creditors debtor creditor) currency]
         else relationships)
      l relationships
    = relationships ++ flat_map (debtTo creditors currency debtor) l.
Proof.
  induction l as [|creditor l IH]; intro relationships; cbn [fold_left flat_map].
  - rewrite app_nil_r. reflexivity.
  - rewrite IH. unfold debtTo at 2.
    destruct (GreaterThan _ oneCent); cbn [app];
      rewrite <- ?app_assoc; reflexivity.
Qed.

Lemma debtsOf_spec (creditors : list Balance.t) (currency : string)
      (relationships : list DebtRelationship.t) (debtor : Balance.t) :
  debtsOf creditors currency relationships debtor
  = relationships
    ++ (if GreaterThan (totalCredit creditors) Zero
        then flat_map (debtTo creditors currency debtor) creditors
        else []).
Proof.
  unfold debtsOf. fold (totalCredit creditors).
  destruct (GreaterThan (totalCredit creditors) Zero);
    [|rewrite app_nil_r; reflexivity].
  apply (debtTo_fold creditors currency debtor creditors).
Qed.

Lemma debtRelationships_spec (balances : list Balance.t) (currency : string) :
  debtRelationships balances currency
  = if GreaterThan (totalCredit (creditorsOf balances)) Zero
    then flat_map (fun debtor =>
                     flat_map (debtTo (creditorsOf balances) currency debtor)
                              (creditorsOf balances))
                  (debtorsOf balances)
    else [].
Proof.
  unfold debtRelationships. rewrite balanceService_separate.
  assert (H : forall debtors relationships,
             fold_left (debtsOf (creditorsOf balances) currency)
                       debtors relationships
             = relationships
               ++ flat_map
                    (fun debtor =>
                       if GreaterThan (totalCredit (creditorsOf balances)) Zero
                       then flat_map (debtTo (creditorsOf balances) currency
                                             debtor)
                                     (creditorsOf balances)
                       else [])
                    debtors).
  { induction debtors as [|debtor debtors IH]; intro relationships;
      cbn [fold_left flat_map].
    - rewrite app_nil_r. reflexivity.
    - rewrite IH, debtsOf_spec, <- app_assoc. reflexivity. }
  rewrite H. cbn [app].
  destruct (GreaterThan (totalCredit (creditorsOf balances)) Zero);
    [reflexivity|].
  induction (debtorsOf balances) as [|d l IH]; [reflexivity|exact IH].
Qed.

Lemma flat_map_length_le {A B} (f : A -> list B) (l : list A) (k : nat) :
  (forall a, List.length (f a) <= k)%nat ->
  (List.length (flat_map f l) <= List.length l * k)%nat.
Proof.
  intro H. induction l as [|a l IH]; cbn [flat_map List.length]; [lia|].
  rewrite length_app. specialize (H a). lia.
Qed.

Lemma Div_same (d d' : Decimal) : 0 < d -> d == d' -> Div d d' == 1.
Proof.
  intros Hpos E. unfold Div, DivRound, DivisionPrecision.
  change (pow10 16) with 10000000000000000.
  rewrite (@roundHalfAway_comp (d / d' * 10000000000000000)
                               10000000000000000).
  - reflexivity.
  - rewrite <- E. field. lra.
Qed.

Lemma GetDebtRelationships_outcome {ext : Externals} (groupUUID : string)
      (db db' : DB) (relationships : list DebtRelationship.t) :
  GetDebtRelationships groupUUID db = (Ok relationships, db') ->
  db' = db
  /\ exists group balances,
      groupRepository.GetByUUID db groupUUID = Ok group
      /\ balanceRepository.GetGroupBalances db (Group.ID group) "USD"
         = Ok balances
      /\ relationships = debtRelationships balances "USD".
Proof.
  unfold GetDebtRelationships.
  destruct (utils.IsValidUUID groupUUID); cbn [negb]; [|discriminate].
  unfold bindM at 1, query at 1.
  destruct (groupRepository.GetByUUID db groupUUID) as [group|] eqn:Hgroup;
    [|discriminate].
  unfold bindM, query, ret.
  destruct (balanceRepository.GetGroupBalances db (Group.ID group) "USD")
    as [balances|] eqn:Hbal; [|discriminate].
  intro H. inversion H; subst. split; [reflexivity|].
  exists group, balances. repeat split; assumption.
Qed.

End DebtRelationships.

(** X15.  [GetDebtRelationships] reads the USD balances of the group,
    changes nothing, and pairs debtors with creditors and nothing else:
    every relationship it lists goes from the user of a positive
    balance of the group to the user of a negative one, in USD, for the
    debtor's balance times the creditor's part of all the credit, rounded to
    cents; a debt of one cent or less is never listed; there are at most
    debtors times creditors relationships, and none when nobody is owed
    anything. *)
Theorem debt_relationships_pair_debtors_with_creditors {ext : Externals}
        (balances : list Balance.t) (currency : string) :
  let relationships := balanceService.debtRelationships balances currency in
  (forall groupUUID db db' listed,
      balanceService.GetDebtRelationships groupUUID db = (Ok listed, db') ->
      db' = db
      /\ exists group rows,
          groupRepository.GetByUUID db groupUUID = Ok group
          /\ balanceRepository.GetGroupBalances db (Group.ID group) "USD"
             = Ok rows
          /\ listed = balanceService.debtRelationships rows "USD")
  /\ Forall (fun r =>
            balanceService.oneCent < DebtRelationship.Amount r
            /\ DebtRelationship.Currency r = currency
            /\ exists debtor creditor,
                In debtor balances /\ 0 < Balance.Balance debtor
                /\ In creditor balances /\ Balance.Balance creditor < 0
                /\ DebtRelationship.Debtor r = Balance.User debtor
                /\ DebtRelationship.Creditor r = Balance.User creditor
                /\ DebtRelationship.Amount r
                   = Round (Mul (Balance.Balance debtor)
                                (Div (Abs (Balance.Balance creditor))
                                     (totalDue balances))) 2)
         relationships
  /\ (List.length relationships
      <= List.length (debtorsOf balances) * List.length (creditorsOf balances))%nat
  /\ (creditorsOf balances = [] -> relationships = []).
Proof.
  cbv zeta. split; [intros groupUUID db db' listed;
                     apply GetDebtRelationships_outcome|].
  rewrite debtRelationships_spec.
  assert (Htotal : totalCredit (creditorsOf balances) = totalDue balances).
  { unfold totalCredit, totalDue, Sum.
    generalize Zero as acc.
    induction (creditorsOf balances) as [|c l IH]; intro acc; [reflexivity|].
    cbn [fold_left map]. apply IH. }
  destruct (GreaterThan (totalCredit (creditorsOf balances)) Zero) eqn:Hpos.
  2:{ split; [constructor|]. split; [cbn; lia|reflexivity]. }
  split; [|split].
  - apply Forall_forall. intros r Hin.
    apply in_flat_map in Hin. destruct Hin as (debtor & Hdebtor & Hin).
    apply in_flat_map in Hin. destruct Hin as (creditor & Hcreditor & Hin).
    unfold debtTo in Hin.
    destruct (GreaterThan (debtAmount _ debtor creditor) _) eqn:Hcent;
      [|contradiction].
    destruct Hin as [<-|[]].
    cbn [DebtRelationship.Amount DebtRelationship.Currency
         DebtRelationship.Debtor DebtRelationship.Creditor].
    apply GreaterThan_iff in Hcent.
    split; [exact Hcent|]. split; [reflexivity|].
    exists debtor, creditor.
    apply filter_In in Hdebtor. destruct Hdebtor as [Hd1 Hd2].
    apply filter_In in Hcreditor. destruct Hcreditor as [Hc1 Hc2].
    apply GreaterThan_iff in Hd2. apply LessThan_iff in Hc2.
    split; [exact Hd1|]. split; [exact Hd2|].
    split; [exact Hc1|]. split; [exact Hc2|].
    split; [reflexivity|]. split; [reflexivity|].
    unfold debtAmount. rewrite Htotal. reflexivity.
  - apply flat_map_length_le. intro debtor.
    rewrite <- (Nat.mul_1_r (List.length (creditorsOf balances))).
    apply flat_map_length_le. intro creditor. unfold debtTo.
    destruct (GreaterThan (debtAmount _ _ _) _); cbn [List.length]; lia.
  - intro Hnone. rewrite Hnone.
    induction (debtorsOf balances) as [|d l IH]; [reflexivity|exact IH].
Qed.

(** X16.  With a single creditor in the group, [GetDebtRelationships]
    lists, for every debtor in the order of the balances, the debtor's whole
    balance rounded to cents as owed to that creditor, and leaves out the
    debtors whose rounded balance is one cent or less. *)
Theorem debt_relationships_with_one_creditor (balances : list Balance.t)
        (currency : string) (creditor : Balance.t) :
  creditorsOf balances = [creditor] ->
  balanceService.debtRelationships balances currency
  = map (fun debtor =>
           DebtRelationship.mk (Balance.User creditor) (Balance.User debtor)
                               (Round (Balance.Balance debtor) 2) currency)
        (filter (fun debtor =>
                   GreaterThan (Round (Balance.Balance debtor) 2)
                               balanceService.oneCent)
                (debtorsOf balances)).
Proof.
  intro Hone. rewrite debtRelationships_spec, Hone.
  assert (Hneg : Balance.Balance creditor < 0).
  { assert (Hin : In creditor (creditorsOf balances))
      by (rewrite Hone; left; reflexivity).
    apply filter_In in Hin. destruct Hin as [_ Hc].
    apply LessThan_iff in Hc. exact Hc. }
  assert (Habs : 0 < Abs (Balance.Balance creditor)).
  { unfold Abs. rewrite Qabs_neg by lra. lra. }
  assert (Htotal : totalCredit [creditor] == Abs (Balance.Balance creditor)).
  { unfold totalCredit. cbn. unfold Add, Zero. ring. }
  assert (Hpos : GreaterThan (totalCredit [creditor]) Zero = true).
  { apply GreaterThan_iff. rewrite Htotal. exact Habs. }
  rewrite Hpos.
  assert (Hamount : forall debtor,
             debtAmount [creditor] debtor creditor
             = Round (Balance.Balance debtor) 2).
  { intro debtor. unfold debtAmount. apply Round_comp.
    unfold Mul. rewrite (@Div_same _ _ Habs (Qeq_sym _ _ Htotal)). ring. }
  rewrite (@flat_map_ext _ _ _
             (fun debtor =>
                if GreaterThan (Round (Balance.Balance debtor) 2)
                               balanceService.oneCent
                then [DebtRelationship.mk (Balance.User creditor)
                        (Balance.User debtor)
                        (Round (Balance.Balance debtor) 2) currency]
                else [])).
  2:{ intro debtor. cbn [flat_map]. rewrite app_nil_r. unfold debtTo.
      rewrite Hamount. reflexivity. }
  induction (debtorsOf balances) as [|debtor l IH]; [reflexivity|].
  cbn [flat_map filter]. rewrite IH.
  destruct (GreaterThan _ balanceService.oneCent); reflexivity.
Qed.

(** ** The balance rows *)

Section BalanceRows.

Lemma find_upsertAdd_elsewhere (newID g u : Z) (a : Decimal) (c : string)
      (g' u' : Z) (c' : string) (rows : list Balance.t) :
  sameKey g u c g' u' c' = false ->
  find (balanceRepository.hasKey g' u' c')
       (balanceRepository.upsertAdd newID g u a c rows)
  = find (balanceRepository.hasKey g' u' c') rows.
Proof.
  intro Hother.
  induction rows as [|row rows IH]; cbn [balanceRepository.upsertAdd find].
  - rewrite (hasKey_sameKey g' u' c' (hasKey_refl newID g u a c)), Hother.
    reflexivity.
  - destruct (balanceRepository.hasKey g u c row) eqn:Hk; cbn [find].
    + assert (Hk' : balanceRepository.hasKey g u c
                      (Balance.withBalance row (Add (Balance.Balance row) a))
                    = true) by exact Hk.
      rewrite (hasKey_sameKey g' u' c' Hk'), (hasKey_sameKey g' u' c' Hk), Hother.
      reflexivity.
    + destruct (balanceRepository.hasKey g' u' c' row); [reflexivity|exact IH].
Qed.





End BalanceRows.

(** *** The constraints of the table

    [user_balances] (001_initial_schema.up.sql) declares
    [FOREIGN KEY (group_id)], [FOREIGN KEY (user_id)],
    [currency VARCHAR(3)] and [balance DECIMAL(15,2)].  Under the strict
    SQL mode, the default of MySQL, a statement that breaks a FOREIGN KEY,
    that hands over a string of more characters than the column holds or a
    number of more integral digits than the column holds fails, and the
    repository returns [NewDatabaseError]; a number with more than two
    fractional digits is rounded half away from zero, and the rounded
    number is stored.  [balanceRepository.UpdateBalance] and
    [balanceRepository.Upsert] give the effect of the two statements on the
    rows without these constraints; the module [schema] gives the two
    statements with them. *)

(** the largest value of a DECIMAL(15,2) column: thirteen integral and two
    fractional digits *)
Definition columnMax : Decimal := 999999999999999 # 100.



Module schema.

(** what a DECIMAL(15,2) column stores when it is handed [d]; [None] is
    "Out of range value for column" *)
Definition decimal_15_2 (d : Decimal) : option Decimal :=
  let stored := Round d 2 in
  if Qle_bool (Qabs stored) columnMax then Some stored else None.

(** the bytes of a UTF-8 string that begin a character: all but the
    continuation bytes [10xxxxxx] *)
Definition beginsCharacter (c : ascii) : bool :=
  match c with
  | Ascii _ _ _ _ _ _ false true => false
  | _ => true
  end.

Definition characters (s : string) : Z :=
  goint.len (filter beginsCharacter (list_ascii_of_string s)).

(** a VARCHAR(n) column takes [s]; otherwise "Data too long for column" *)
Definition varchar (n : Z) (s : string) : bool := (characters s <=? n)%Z.

(** [FOREIGN KEY (group_id) REFERENCES groups(id)] *)
Definition groupExists (db : DB) (groupID : Z) : bool :=
  existsb (fun g => Z.eqb (Group.ID g) groupID) (groups db).

(** [FOREIGN KEY (user_id) REFERENCES users(id)] *)
Definition userExists (db : DB) (userID : Z) : bool :=
  existsb (fun u => Z.eqb (User.ID u) userID) (users db).

(** [ON DUPLICATE KEY UPDATE balance = balance + VALUES(balance)] on the
    row of the key, the sum going through the column; a new row holding
    [value] when no row has the key *)
Fixpoint upsertAdd (newID groupID userID : Z) (value : Decimal)
         (currency : string) (rows : list Balance.t)
  : option (list Balance.t) :=
  match rows with
  | [] => Some [Balance.mk newID groupID userID value currency None None]
  | row :: rest =>
      if balanceRepository.hasKey groupID userID currency row
      then match decimal_15_2 (Add (Balance.Balance row) value) with
           | Some balance => Some (Balance.withBalance row balance :: rest)
           | None => None
           end
      else match upsertAdd newID groupID userID value currency rest with
           | Some rest' => Some (row :: rest')
           | None => None
           end
  end.

(** the statement of [UpdateBalance]; [VALUES(balance)] is the amount as
    the column takes it *)
Definition UpdateBalance (groupID userID : Z) (amount : Decimal)
           (currency : string) (db : DB) : result (unit * DB) :=
  if negb (groupExists db groupID) then Err NewDatabaseError
  else if negb (userExists db userID) then Err NewDatabaseError
  else if negb (varchar 3 currency) then Err NewDatabaseError
  else
    match decimal_15_2 amount with
    | None => Err NewDatabaseError
    | Some value =>
        match upsertAdd (nextID (map Balance.ID (user_balances db)))
                        groupID userID value currency (user_balances db) with
        | None => Err NewDatabaseError
        | Some rows => Ok (tt, withUserBalances db rows)
        end
    end.

(** the statement of [Upsert] *)
Definition Upsert (balance : Balance.t) (db : DB) : result (unit * DB) :=
  if negb (groupExists db (Balance.GroupID balance)) then Err NewDatabaseError
  else if negb (userExists db (Balance.UserID balance)) then
    Err NewDatabaseError
  else if negb (varchar 3 (Balance.Currency balance)) then
    Err NewDatabaseError
  else
    match decimal_15_2 (Balance.Balance balance) with
    | None => Err NewDatabaseError
    | Some value =>
        Ok (tt, withUserBalances db
                  (balanceRepository.upsertSet
                     (nextID (map Balance.ID (user_balances db)))
                     (Balance.withBalance balance value) (user_balances db)))
    end.

End schema.

Section Constraints.












End Constraints.



(** ** Groups and their members *)

Section Memberships.

Lemma len_filter_existsb {A} (p : A -> bool) (l : list A) :
  (0 <? goint.len (filter p l))%Z = existsb p l.
Proof.
  unfold goint.len.
  induction l as [|a l IH]; cbn [filter existsb]; [reflexivity|].
  destruct (p a); cbn [orb]; [|exact IH].
  apply Z.ltb_lt. cbn [List.length]. lia.
Qed.

Lemma IsMember_existsb (db : DB) (groupID userID : Z) :
  groupRepository.IsMember db groupID userID
  = Ok (existsb (groupRepository.isMembership groupID userID)
                (group_members db)).
Proof.
  unfold groupRepository.IsMember. f_equal.
  apply (len_filter_existsb (groupRepository.isMembership groupID userID)).
Qed.

Lemma isMembership_refl (id groupID userID : Z) :
  groupRepository.isMembership groupID userID
    (GroupMember.mk id groupID userID) = true.
Proof.
  unfold groupRepository.isMembership. cbn.
  rewrite !Z.eqb_refl. reflexivity.
Qed.

Lemma isMembership_other (id groupID userID g u : Z) :
  g <> groupID \/ u <> userID ->
  groupRepository.isMembership g u (GroupMember.mk id groupID userID) = false.
Proof.
  unfold groupRepository.isMembership. cbn. intros [H|H].
  - replace (groupID =? g)%Z with false by (symmetry; apply Z.eqb_neq; congruence).
    reflexivity.
  - replace (userID =? u)%Z with false by (symmetry; apply Z.eqb_neq; congruence).
    apply andb_false_r.
Qed.

Lemma filter_none {A} (p : A -> bool) (l : list A) :
  (forall x, In x l -> p x = false) -> filter p l = [].
Proof.
  induction l as [|a l IH]; cbn [filter]; intro H; [reflexivity|].
  rewrite (H a (or_introl eq_refl)). apply IH.
  intros x Hx. apply H. right. exact Hx.
Qed.

Lemma filter_all {A} (p : A -> bool) (l : list A) :
  (forall x, In x l -> p x = true) -> filter p l = l.
Proof.
  induction l as [|a l IH]; cbn [filter]; intro H; [reflexivity|].
  rewrite (H a (or_introl eq_refl)). f_equal. apply IH.
  intros x Hx. apply H. right. exact Hx.
Qed.

(** [users.id] is the primary key: a user is the only row of its id. *)
Lemma filter_by_key (l : list User.t) (u : User.t) :
  NoDup (map User.ID l) -> In u l ->
  filter (fun x => Z.eqb (User.ID x) (User.ID u)) l = [u].
Proof.
  induction l as [|a l IH]; cbn [map filter]; intros Hkey Hin; [destruct Hin|].
  inversion Hkey as [|? ? Hnotin Hnd]; subst.
  destruct Hin as [->|Hin].
  - rewrite Z.eqb_refl. f_equal. apply filter_none.
    intros x Hx. apply Z.eqb_neq. intro E. apply Hnotin.
    rewrite <- E. apply in_map. exact Hx.
  - replace (User.ID a =? User.ID u)%Z with false.
    + apply IH; assumption.
    + symmetry. apply Z.eqb_neq. intro E. apply Hnotin.
      rewrite E. apply in_map. exact Hin.
Qed.

Lemma find_by_key (l : list User.t) (u : User.t) :
  NoDup (map User.ID l) -> In u l ->
  find (fun x => Z.eqb (User.ID x) (User.ID u)) l = Some u.
Proof.
  induction l as [|a l IH]; cbn [map find]; intros Hkey Hin; [destruct Hin|].
  inversion Hkey as [|? ? Hnotin Hnd]; subst.
  destruct Hin as [->|Hin].
  - rewrite Z.eqb_refl. reflexivity.
  - replace (User.ID a =? User.ID u)%Z with false.
    + apply IH; assumption.
    + symmetry. apply Z.eqb_neq. intro E. apply Hnotin.
      rewrite E. apply in_map. exact Hin.
Qed.

Lemma found_user_stored (db : DB) (uuid : string) (user : User.t) :
  userRepository.GetByUUID db uuid = Ok user ->
  In user (users db) /\ User.UUID user = uuid.
Proof.
  unfold userRepository.GetByUUID.
  destruct (find _ _) as [x|] eqn:F; [|discriminate].
  intro H. inversion H; subst. apply find_some in F.
  destruct F as [Hin E]. apply String.eqb_eq in E. split; assumption.
Qed.

Lemma found_group_stored (db : DB) (uuid : string) (group : Group.t) :
  groupRepository.GetByUUID db uuid = Ok group ->
  existsb (fun g => Z.eqb (Group.ID g) (Group.ID group)) (groups db) = true.
Proof.
  unfold groupRepository.GetByUUID.
  destruct (find _ _) as [x|] eqn:F; [|discriminate].
  intro H. inversion H; subst. cbn [Group.ID]. apply find_some in F.
  apply existsb_exists. exists x. split; [apply F|apply Z.eqb_refl].
Qed.

Lemma user_exists (l : list User.t) (u : User.t) :
  In u l -> existsb (fun x => Z.eqb (User.ID x) (User.ID u)) l = true.
Proof.
  intro Hin. apply existsb_exists. exists u. split; [exact Hin|apply Z.eqb_refl].
Qed.

(** the users [GetMembers] lists for one membership *)
Definition memberRows (db : DB) (gm : GroupMember.t) : list User.t :=
  filter (fun u => Z.eqb (User.ID u) (GroupMember.UserID gm)) (users db).

(** the users [GetMembers] lists for a group *)
Definition fetched (db : DB) (groupID : Z) : list User.t :=
  flat_map (memberRows db)
    (filter (fun gm => Z.eqb (GroupMember.GroupID gm) groupID)
            (group_members db)).

Lemma GetMembers_rows (db : DB) (groupID : Z) :
  groupRepository.GetMembers db groupID
  = Ok (flat_map (memberRows db)
          (filter (fun gm => Z.eqb (GroupMember.GroupID gm) groupID)
                  (group_members db))).
Proof. reflexivity. Qed.

Lemma memberRows_removed (db : DB) (groupID userID : Z)
      (rows : list GroupMember.t) :
  flat_map (memberRows db)
    (filter (fun gm => Z.eqb (GroupMember.GroupID gm) groupID)
       (filter (fun m => negb (groupRepository.isMembership groupID userID m))
               rows))
  = filter (fun u => negb (Z.eqb (User.ID u) userID))
      (flat_map (memberRows db)
         (filter (fun gm => Z.eqb (GroupMember.GroupID gm) groupID) rows)).
Proof.
  induction rows as [|m rows IH]; [reflexivity|].
  cbn [filter]. unfold groupRepository.isMembership at 1.
  destruct (GroupMember.GroupID m =? groupID)%Z eqn:Hg; cbn [andb negb].
  - destruct (GroupMember.UserID m =? userID)%Z eqn:Hu; cbn [negb filter].
    + cbn [flat_map]. rewrite filter_app, <- IH.
      replace (filter _ (memberRows db m)) with (@nil User.t); [reflexivity|].
      symmetry. apply filter_none. intros x Hx.
      unfold memberRows in Hx. apply filter_In in Hx. destruct Hx as [_ Hx].
      apply Z.eqb_eq in Hx. apply Z.eqb_eq in Hu.
      apply negb_false_iff. apply Z.eqb_eq. congruence.
    + rewrite Hg. cbn [flat_map]. rewrite filter_app, <- IH. f_equal.
      symmetry. apply filter_all. intros x Hx.
      unfold memberRows in Hx. apply filter_In in Hx. destruct Hx as [_ Hx].
      apply Z.eqb_eq in Hx. apply Z.eqb_neq in Hu.
      apply negb_true_iff. apply Z.eqb_neq. congruence.
  - cbn [filter]. rewrite Hg. exact IH.
Qed.

Lemma existsb_removed (groupID userID g u : Z) (rows : list GroupMember.t) :
  existsb (groupRepository.isMembership g u)
    (filter (fun m => negb (groupRepository.isMembership groupID userID m)) rows)
  = existsb (groupRepository.isMembership g u) rows
    && negb ((g =? groupID)%Z && (u =? userID)%Z).
Proof.
  induction rows as [|m rows IH]; [reflexivity|].
  cbn [filter existsb].
  destruct (groupRepository.isMembership groupID userID m) eqn:Hm;
    cbn [negb existsb]; rewrite IH.
  - unfold groupRepository.isMembership in Hm |- *.
    apply andb_true_iff in Hm. destruct Hm as [Hg Hu].
    apply Z.eqb_eq in Hg. apply Z.eqb_eq in Hu. rewrite Hg, Hu.
    rewrite (Z.eqb_sym groupID g), (Z.eqb_sym userID u).
    destruct ((g =? groupID)%Z && (u =? userID)%Z); cbn [negb orb];
      [rewrite !andb_false_r; reflexivity|rewrite !andb_true_r; reflexivity].
  - destruct (groupRepository.isMembership g u m) eqn:Hgu; cbn [orb andb];
      [|reflexivity].
    unfold groupRepository.isMembership in Hm, Hgu.
    apply andb_true_iff in Hgu. destruct Hgu as [Hg Hu].
    apply Z.eqb_eq in Hg. apply Z.eqb_eq in Hu. rewrite Hg, Hu in Hm.
    rewrite Hm. reflexivity.
Qed.

Context {ext : Externals}.
Import groupService.

(** what [AddMember] of the service does for an identified group and user *)
Lemma AddMember_run (db : DB) (groupUUID : string) (req : AddMemberRequest.t)
      (group : Group.t) (user : User.t) :
  utils.IsValidUUID groupUUID = true ->
  utils.IsValidUUID (AddMemberRequest.UserUUID req) = true ->
  groupRepository.GetByUUID db groupUUID = Ok group ->
  userRepository.GetByUUID db (AddMemberRequest.UserUUID req) = Ok user ->
  AddMember groupUUID req db
  = if existsb (groupRepository.isMembership (Group.ID group) (User.ID user))
               (group_members db)
    then (Err (NewAlreadyExistsError "User is already a member of this group"),
          db)
    else (Ok tt,
          withGroupMembers db
            (group_members db
             ++ [GroupMember.mk (nextID (map GroupMember.ID (group_members db)))
                                (Group.ID group) (User.ID user)])).
Proof.
  intros Hg Hu Hgroup Huser. unfold AddMember. rewrite Hg, Hu. cbn [negb].
  unfold bindM at 1, query at 1. rewrite Hgroup.
  unfold bindM at 1, query at 1. rewrite Huser.
  unfold bindM at 1, query at 1. rewrite IsMember_existsb.
  destruct (existsb _ (group_members db)) eqn:Hm; [reflexivity|].
  unfold WithTransaction, exec, groupRepository.AddMember. rewrite Hm.
  rewrite (found_group_stored Hgroup).
  rewrite (user_exists (proj1 (found_user_stored Huser))). reflexivity.
Qed.

Lemma RemoveMember_run (db : DB) (groupUUID userUUID : string)
      (group : Group.t) (user : User.t) :
  utils.IsValidUUID groupUUID = true ->
  utils.IsValidUUID userUUID = true ->
  groupRepository.GetByUUID db groupUUID = Ok group ->
  userRepository.GetByUUID db userUUID = Ok user ->
  RemoveMember groupUUID userUUID db
  = if existsb (groupRepository.isMembership (Group.ID group) (User.ID user))
               (group_members db)
    then (Ok tt,
          withGroupMembers db
            (filter (fun m => negb (groupRepository.isMembership
                                      (Group.ID group) (User.ID user) m))
                    (group_members db)))
    else (Err (NewNotFoundError "Group membership"), db).
Proof.
  intros Hg Hu Hgroup Huser. unfold RemoveMember. rewrite Hg, Hu. cbn [negb].
  unfold bindM at 1, query at 1. rewrite Hgroup.
  unfold bindM at 1, query at 1. rewrite Huser.
  unfold WithTransaction, exec, groupRepository.RemoveMember.
  rewrite <- (len_filter_existsb
                (groupRepository.isMembership (Group.ID group) (User.ID user))).
  destruct (goint.len _ =? 0)%Z eqn:Hz.
  - apply Z.eqb_eq in Hz. rewrite Hz. reflexivity.
  - apply Z.eqb_neq in Hz.
    replace (0 <? goint.len _)%Z with true; [reflexivity|].
    symmetry. apply Z.ltb_lt. unfold goint.len in *. lia.
Qed.

(** the identified group and user of a removal that succeeded *)
Lemma RemoveMember_done (db db' : DB) (groupUUID userUUID : string) :
  RemoveMember groupUUID userUUID db = (Ok tt, db') ->
  exists group user,
    groupRepository.GetByUUID db groupUUID = Ok group
    /\ userRepository.GetByUUID db userUUID = Ok user
    /\ db' = withGroupMembers db
               (filter (fun m => negb (groupRepository.isMembership
                                         (Group.ID group) (User.ID user) m))
                       (group_members db)).
Proof.
  intro H. pose proof H as H0. revert H. unfold RemoveMember.
  destruct (utils.IsValidUUID groupUUID) eqn:Hg; [|discriminate].
  destruct (utils.IsValidUUID userUUID) eqn:Hu; [|discriminate].
  cbn [negb]. unfold bindM at 1, query at 1.
  destruct (groupRepository.GetByUUID db groupUUID) as [group|] eqn:Hgroup;
    [|discriminate].
  unfold bindM at 1, query at 1.
  destruct (userRepository.GetByUUID db userUUID) as [user|] eqn:Huser;
    [|discriminate].
  intros _. rewrite (RemoveMember_run Hg Hu Hgroup Huser) in H0.
  destruct (existsb _ _); [|discriminate].
  inversion H0; subst. exists group, user. repeat split.
Qed.

Lemma GetGroupMembers_run (db : DB) (groupUUID : string) (group : Group.t) :
  utils.IsValidUUID groupUUID = true ->
  groupRepository.GetByUUID db groupUUID = Ok group ->
  GetGroupMembers groupUUID db
  = (groupRepository.GetMembers db (Group.ID group), db).
Proof.
  intros Hg Hgroup. unfold GetGroupMembers. rewrite Hg. cbn [negb].
  unfold bindM, query. rewrite Hgroup. reflexivity.
Qed.

Lemma GetGroupMembers_memberships (db : DB) (rows : list GroupMember.t)
      (groupUUID : string) (group : Group.t) :
  utils.IsValidUUID groupUUID = true ->
  groupRepository.GetByUUID db groupUUID = Ok group ->
  GetGroupMembers groupUUID (withGroupMembers db rows)
  = (groupRepository.GetMembers (withGroupMembers db rows) (Group.ID group),
     withGroupMembers db rows).
Proof. intros Hg Hgroup. apply GetGroupMembers_run; assumption. Qed.

End Memberships.

(** X19.  Adding a member: for an existing group and user, [AddMember]
    answers ALREADY_EXISTS (409) and writes nothing when the user is a member;
    otherwise it succeeds, the user is a member afterwards, [GetGroupMembers]
    lists the user and the members it listed before, no other membership
    changes and no balance is touched.  [users.id] is the primary key. *)
Theorem AddMember_adds_the_member {ext : Externals} (db : DB)
        (groupUUID : string) (req : AddMemberRequest.t)
        (group : Group.t) (user : User.t) :
  NoDup (map User.ID (users db)) ->
  utils.IsValidUUID groupUUID = true ->
  utils.IsValidUUID (AddMemberRequest.UserUUID req) = true ->
  groupRepository.GetByUUID db groupUUID = Ok group ->
  userRepository.GetByUUID db (AddMemberRequest.UserUUID req) = Ok user ->
  (groupRepository.IsMember db (Group.ID group) (User.ID user) = Ok true ->
   groupService.AddMember groupUUID req db
   = (Err (NewAlreadyExistsError "User is already a member of this group"), db)
   /\ Status (NewAlreadyExistsError "User is already a member of this group")
      = 409%Z)
  /\ (groupRepository.IsMember db (Group.ID group) (User.ID user) = Ok false ->
      exists db' members members',
        groupService.AddMember groupUUID req db = (Ok tt, db')
        /\ groupRepository.IsMember db' (Group.ID group) (User.ID user)
           = Ok true
        /\ groupService.GetGroupMembers groupUUID db = (Ok members, db)
        /\ groupService.GetGroupMembers groupUUID db' = (Ok members', db')
        /\ Permutation members' (user :: members)
        /\ (forall groupID userID,
              groupID <> Group.ID group \/ userID <> User.ID user ->
              groupRepository.IsMember db' groupID userID
              = groupRepository.IsMember db groupID userID)
        /\ user_balances db' = user_balances db).
Proof.
  intros Hkey Hg Hu Hgroup Huser.
  rewrite (AddMember_run Hg Hu Hgroup Huser), IsMember_existsb.
  split; intro Hm; inversion Hm as [Hm']; rewrite Hm'.
  - split; reflexivity.
  - eexists. eexists. exists (fetched db (Group.ID group) ++ [user]).
    split; [reflexivity|].
    rewrite !IsMember_existsb. cbn [group_members withGroupMembers].
    split.
    { rewrite existsb_app. cbn [existsb]. rewrite isMembership_refl.
      rewrite orb_true_r. reflexivity. }
    split; [apply (GetGroupMembers_run Hg Hgroup)|].
    split.
    { rewrite (GetGroupMembers_memberships _ Hg Hgroup).
      rewrite !GetMembers_rows. cbn [group_members withGroupMembers].
      rewrite filter_app, flat_map_app. cbn [filter GroupMember.GroupID].
      rewrite Z.eqb_refl. cbn [flat_map]. rewrite app_nil_r.
      change (memberRows (withGroupMembers db ?rows)) with (memberRows db).
      unfold fetched. f_equal. f_equal. f_equal.
      apply (filter_by_key Hkey (proj1 (found_user_stored Huser))). }
    split; [apply Permutation_sym, Permutation_cons_append|].
    split; [|reflexivity].
    intros g u Hne. rewrite !IsMember_existsb.
    cbn [group_members withGroupMembers].
    rewrite existsb_app. cbn [existsb]. rewrite (isMembership_other _ Hne).
    rewrite !orb_false_r. reflexivity.
Qed.

(** X20.  Removing a member: for an existing group and user,
    [RemoveMember] answers NOT_FOUND (404, "Group membership not found") and
    writes nothing when the user is no member; otherwise it succeeds, the
    user is no member afterwards, [GetGroupMembers] lists the members it
    listed before but the user, no other membership changes, and the
    balances, the one of the removed user included, stay as they are. *)
Theorem RemoveMember_removes_the_member {ext : Externals} (db : DB)
        (groupUUID userUUID : string) (group : Group.t) (user : User.t) :
  utils.IsValidUUID groupUUID = true ->
  utils.IsValidUUID userUUID = true ->
  groupRepository.GetByUUID db groupUUID = Ok group ->
  userRepository.GetByUUID db userUUID = Ok user ->
  (groupRepository.IsMember db (Group.ID group) (User.ID user) = Ok false ->
   groupService.RemoveMember groupUUID userUUID db
   = (Err (NewNotFoundError "Group membership"), db)
   /\ Status (NewNotFoundError "Group membership") = 404%Z
   /\ Message (NewNotFoundError "Group membership")
      = "Group membership not found")
  /\ (groupRepository.IsMember db (Group.ID group) (User.ID user) = Ok true ->
      exists db' members members',
        groupService.RemoveMember groupUUID userUUID db = (Ok tt, db')
        /\ groupRepository.IsMember db' (Group.ID group) (User.ID user)
           = Ok false
        /\ groupService.GetGroupMembers groupUUID db = (Ok members, db)
        /\ groupService.GetGroupMembers groupUUID db' = (Ok members', db')
        /\ Permutation
             members'
             (filter (fun u => negb (Z.eqb (User.ID u) (User.ID user))) members)
        /\ (forall groupID userID,
              groupID <> Group.ID group \/ userID <> User.ID user ->
              groupRepository.IsMember db' groupID userID
              = groupRepository.IsMember db groupID userID)
        /\ user_balances db' = user_balances db).
Proof.
  intros Hg Hu Hgroup Huser.
  rewrite (RemoveMember_run Hg Hu Hgroup Huser), IsMember_existsb.
  split; intro Hm; inversion Hm as [Hm']; rewrite Hm'.
  - repeat split.
  - eexists. eexists.
    exists (filter (fun u => negb (Z.eqb (User.ID u) (User.ID user)))
                   (fetched db (Group.ID group))).
    split; [reflexivity|].
    rewrite !IsMember_existsb. cbn [group_members withGroupMembers].
    split.
    { rewrite existsb_removed, !Z.eqb_refl. cbn [andb negb].
      rewrite andb_false_r. reflexivity. }
    split; [apply (GetGroupMembers_run Hg Hgroup)|].
    split.
    { rewrite (GetGroupMembers_memberships _ Hg Hgroup).
      rewrite !GetMembers_rows. cbn [group_members withGroupMembers].
      unfold fetched. rewrite <- (memberRows_removed db). reflexivity. }
    split; [apply Permutation_refl|].
    split; [|reflexivity].
    intros g u Hne. rewrite !IsMember_existsb.
    cbn [group_members withGroupMembers]. rewrite existsb_removed.
    replace ((g =? Group.ID group)%Z && (u =? User.ID user)%Z) with false.
    + cbn [negb]. rewrite andb_true_r. reflexivity.
    + symmetry. apply andb_false_iff.
      destruct Hne as [H|H]; [left|right]; apply Z.eqb_neq; exact H.
Qed.

Section RemovedMembers.
Context {ext : Externals}.

Lemma removed_is_no_member (db : DB) (groupID userID : Z) :
  groupRepository.IsMember
    (withGroupMembers db
       (filter (fun m => negb (groupRepository.isMembership groupID userID m))
               (group_members db)))
    groupID userID
  = Ok false.
Proof.
  rewrite IsMember_existsb. cbn [group_members withGroupMembers].
  rewrite existsb_removed, !Z.eqb_refl. cbn [andb negb].
  rewrite andb_false_r. reflexivity.
Qed.

End RemovedMembers.

(** X21.  A removed member is locked out while the balance stays: after
    [RemoveMember] succeeded the balances are what they were, and every
    settlement of the group that names the user as payer or receiver, and
    every expense of the group that names the user as payer or participant,
    is refused and writes nothing. *)
Theorem removed_member_is_locked_out {ext : Externals} (db db' : DB)
        (groupUUID userUUID : string) :
  groupService.RemoveMember groupUUID userUUID db = (Ok tt, db') ->
  user_balances db' = user_balances db
  /\ (forall newUUID req,
        CreateSettlementRequest.GroupUUID req = groupUUID ->
        CreateSettlementRequest.FromUserUUID req = userUUID
        \/ CreateSettlementRequest.ToUserUUID req = userUUID ->
        exists e,
          settlementService.CreateSettlement newUUID req db' = (Err e, db'))
  /\ (forall newUUID req,
        CreateExpenseRequest.GroupUUID req = groupUUID ->
        CreateExpenseRequest.PaidByUUID req = userUUID
        \/ In userUUID (map CreateExpenseSplitRequest.UserUUID
                            (CreateExpenseRequest.Splits req)) ->
        exists e,
          expenseService.CreateExpense newUUID req db' = (Err e, db')).
Proof.
  intro H. destruct (RemoveMember_done H) as (group & user & Hgroup & Huser & ->).
  clear H. split; [reflexivity|].
  pose proof (removed_is_no_member db (Group.ID group) (User.ID user)) as Hout.
  set (db' := withGroupMembers db _) in *.
  assert (Hgroup' : groupRepository.GetByUUID db' groupUUID = Ok group)
    by exact Hgroup.
  assert (Huser' : userRepository.GetByUUID db' userUUID = Ok user)
    by exact Huser.
  clearbody db'. split.
  - intros newUUID req Eg Eu.
    destruct (settlementService.CreateSettlement newUUID req db')
      as [r db''] eqn:Hrun.
    destruct (CreateSettlement_outcome Hrun)
      as [[-> [e ->]]|(g & fromUser & toUser & Hv & _)].
    + exists e. reflexivity.
    + exfalso.
      destruct Hv as (_ & _ & _ & _ & _ & _ & Hg & Hf & Ht & Hmf & Hmt).
      rewrite Eg, Hgroup' in Hg. inversion Hg; subst g.
      destruct Eu as [Eu|Eu].
      * rewrite Eu, Huser' in Hf. inversion Hf; subst fromUser.
        rewrite Hout in Hmf. discriminate.
      * rewrite Eu, Huser' in Ht. inversion Ht; subst toUser.
        rewrite Hout in Hmt. discriminate.
  - intros newUUID req Eg Eu.
    destruct (expenseService.CreateExpense newUUID req db')
      as [r db''] eqn:Hrun.
    destruct (CreateExpense_outcome Hrun)
      as [[-> [e ->]]|(g & payer & splits & created & Hv & Hsplits & _)].
    + exists e. reflexivity.
    + exfalso.
      destruct Hv as (_ & _ & _ & _ & _ & Hg & Hp & Hmp).
      rewrite Eg, Hgroup' in Hg. inversion Hg; subst g.
      destruct Eu as [Eu|Eu].
      * rewrite Eu, Huser' in Hp. inversion Hp; subst payer.
        rewrite Hout in Hmp. discriminate.
      * apply validateAndCalculateSplits_lines in Hsplits.
        apply in_map_iff in Eu. destruct Eu as (splitReq & Eu & Hin).
        revert Hin. induction Hsplits as [|r0 s0 reqs ss Hline _ IH].
        { intros []. }
        intros [->|Hin]; [|exact (IH Hin)].
        destruct Hline as (u & (_ & Hu & Hm) & _).
        rewrite Eu, Huser' in Hu. inversion Hu; subst u.
        rewrite Hout in Hm. discriminate.
Qed.

Section NewGroups.
Context {ext : Externals}.

Lemma nextID_above (ids : list Z) (x : Z) : In x ids -> (x < nextID ids)%Z.
Proof.
  unfold nextID. induction ids as [|a ids IH]; cbn [fold_right In]; [tauto|].
  intros [->|Hin]; [lia|]. specialize (IH Hin). lia.
Qed.

(** every membership refers to a group: [FOREIGN KEY (group_id) REFERENCES
    groups(id)] *)
Definition membershipsReferToGroups (db : DB) : Prop :=
  Forall (fun m => existsb (fun g => Z.eqb (Group.ID g) (GroupMember.GroupID m))
                           (groups db) = true)
         (group_members db).

Lemma no_member_of_next_group (db : DB) (m : GroupMember.t) :
  membershipsReferToGroups db -> In m (group_members db) ->
  (GroupMember.GroupID m =? nextID (map Group.ID (groups db)))%Z = false.
Proof.
  intros Hfk Hin. unfold membershipsReferToGroups in Hfk.
  rewrite Forall_forall in Hfk. specialize (Hfk m Hin).
  apply existsb_exists in Hfk. destruct Hfk as (g & Hg & E).
  apply Z.eqb_eq in E. apply Z.eqb_neq.
  pose proof (@nextID_above (map Group.ID (groups db)) (Group.ID g)
                            (in_map _ _ _ Hg)).
  lia.
Qed.

End NewGroups.

(** X22.  Creating a group: with a valid name, an existing creator and
    an unused UUID, [CreateGroup] succeeds; the group it returns carries the
    request's name and description and the creator, [GetByUUID] finds exactly
    that group, the creator is a member and the only one [GetGroupMembers]
    lists, and no balance is touched.  [users.id] is the primary key and
    memberships refer to groups; the UUID, the name and the description are
    assumed to fit their columns (VARCHAR(36), VARCHAR(255) and TEXT), whose
    widths the model does not check. *)
Theorem CreateGroup_makes_the_creator_a_member {ext : Externals} (db : DB)
        (newUUID : string) (req : CreateGroupRequest.t) (creatorUUID : string)
        (creator : User.t) :
  NoDup (map User.ID (users db)) ->
  membershipsReferToGroups db ->
  (String.length newUUID <= 36)%nat ->
  (String.length (CreateGroupRequest.Name req) <= 255)%nat ->
  (Z.of_nat (String.length (CreateGroupRequest.Description req)) <= 65535)%Z ->
  utils.ValidateName (CreateGroupRequest.Name req) = None ->
  utils.IsValidUUID creatorUUID = true ->
  utils.IsValidUUID newUUID = true ->
  userRepository.GetByUUID db creatorUUID = Ok creator ->
  existsb (fun g => String.eqb (Group.UUID g) newUUID) (groups db) = false ->
  exists group db',
    groupService.CreateGroup newUUID req creatorUUID db = (Ok group, db')
    /\ Group.UUID group = newUUID
    /\ Group.Name group = CreateGroupRequest.Name req
    /\ Group.Description group = CreateGroupRequest.Description req
    /\ Group.CreatedBy group = User.ID creator
    /\ Group.Creator group = Some creator
    /\ groupRepository.GetByUUID db' newUUID = Ok group
    /\ groupRepository.IsMember db' (Group.ID group) (User.ID creator) = Ok true
    /\ groupService.GetGroupMembers newUUID db' = (Ok [creator], db')
    /\ user_balances db' = user_balances db.
Proof.
  intros Hkey Hfk _ _ _ Hname Hvalid Hnew Hcreator Hfresh.
  destruct (found_user_stored Hcreator) as [Hin _].
  assert (Hnone : existsb (groupRepository.isMembership
                             (nextID (map Group.ID (groups db)))
                             (User.ID creator))
                          (group_members db) = false).
  { apply not_true_is_false. intro E. apply existsb_exists in E.
    destruct E as (m & Hm & E). unfold groupRepository.isMembership in E.
    apply andb_true_iff in E. destruct E as [E _].
    rewrite (no_member_of_next_group Hfk Hm) in E. discriminate. }
  assert (Hrun : groupService.CreateGroup newUUID req creatorUUID db
                 = (Ok (Group.mk (nextID (map Group.ID (groups db))) newUUID
                                 (CreateGroupRequest.Name req)
                                 (CreateGroupRequest.Description req)
                                 (User.ID creator) (Some creator)),
                    withGroupMembers
                      (withGroups db
                         (groups db
                          ++ [Group.mk (nextID (map Group.ID (groups db)))
                                newUUID (CreateGroupRequest.Name req)
                                (CreateGroupRequest.Description req)
                                (User.ID creator) None]))
                      (group_members db
                       ++ [GroupMember.mk
                             (nextID (map GroupMember.ID (group_members db)))
                             (nextID (map Group.ID (groups db)))
                             (User.ID creator)]))).
  { unfold groupService.CreateGroup. rewrite Hname, Hvalid. cbn [negb].
    unfold bindM at 1, query at 1. rewrite Hcreator.
    unfold bindM at 1, WithTransaction, bindM at 1, exec at 1.
    unfold groupRepository.Create.
    cbn [Group.UUID Group.CreatedBy Group.Name Group.Description Group.Creator].
    rewrite Hfresh, (user_exists Hin). cbn [negb orb].
    unfold bindM at 1, exec, groupRepository.AddMember.
    cbn [Group.ID group_members groups users withGroups].
    rewrite Hnone, existsb_app. cbn [existsb Group.ID].
    rewrite Z.eqb_refl, (user_exists Hin), orb_true_r. cbn [negb orb].
    reflexivity. }
  eexists. eexists. split; [exact Hrun|].
  cbn [Group.UUID Group.Name Group.Description Group.CreatedBy Group.Creator
       Group.ID].
  do 5 (split; [reflexivity|]).
  assert (Hget : groupRepository.GetByUUID
                   (withGroupMembers
                      (withGroups db
                         (groups db
                          ++ [Group.mk (nextID (map Group.ID (groups db)))
                                newUUID (CreateGroupRequest.Name req)
                                (CreateGroupRequest.Description req)
                                (User.ID creator) None]))
                      (group_members db
                       ++ [GroupMember.mk
                             (nextID (map GroupMember.ID (group_members db)))
                             (nextID (map Group.ID (groups db)))
                             (User.ID creator)]))
                   newUUID
                 = Ok (Group.mk (nextID (map Group.ID (groups db))) newUUID
                                (CreateGroupRequest.Name req)
                                (CreateGroupRequest.Description req)
                                (User.ID creator) (Some creator))).
  { unfold groupRepository.GetByUUID. cbn [groups withGroupMembers withGroups].
    rewrite (@find_app_fresh _ (fun g => String.eqb (Group.UUID g) newUUID)
               (groups db)
               (Group.mk (nextID (map Group.ID (groups db))) newUUID
                         (CreateGroupRequest.Name req)
                         (CreateGroupRequest.Description req)
                         (User.ID creator) None)
               Hfresh (String.eqb_refl newUUID)).
    cbn [Group.ID Group.UUID Group.Name Group.Description Group.CreatedBy].
    unfold userRepository.joinByID. cbn [users withGroupMembers withGroups].
    rewrite (find_by_key Hkey Hin). destruct creator; reflexivity. }
  split; [exact Hget|].
  split.
  { rewrite IsMember_existsb. cbn [group_members withGroupMembers].
    rewrite existsb_app. cbn [existsb]. rewrite isMembership_refl.
    rewrite orb_true_r. reflexivity. }
  split; [|reflexivity].
  rewrite (GetGroupMembers_run Hnew Hget). f_equal.
  rewrite GetMembers_rows. cbn [group_members withGroupMembers Group.ID].
  rewrite filter_app. cbn [filter GroupMember.GroupID]. rewrite Z.eqb_refl.
  rewrite (@filter_none _ _ (group_members db)).
  - cbn [app flat_map]. rewrite app_nil_r. f_equal.
    apply (filter_by_key Hkey Hin).
  - intros m Hm. apply (no_member_of_next_group Hfk Hm).
Qed.

(** ** Users *)

Section NewUsers.
Context {ext : Externals}.
Import userService.

Lemma find_app_found {A} (f : A -> bool) (l : list A) (x y : A) :
  find f l = Some y -> find f (l ++ [x]) = Some y.
Proof.
  induction l as [|a l IH]; cbn [find app]; [discriminate|].
  destruct (f a); [trivial|exact IH].
Qed.

Lemma find_none_existsb {A} (f : A -> bool) (l : list A) :
  find f l = None -> existsb f l = false.
Proof.
  induction l as [|a l IH]; cbn [find existsb]; [reflexivity|].
  destruct (f a); [discriminate|exact IH].
Qed.

Lemma existsb_or {A} (f g : A -> bool) (l : list A) :
  existsb (fun x => f x || g x) l = existsb f l || existsb g l.
Proof.
  induction l as [|a l IH]; cbn [existsb]; [reflexivity|].
  rewrite IH. destruct (f a), (g a), (existsb f l), (existsb g l); reflexivity.
Qed.

(** the row [userRepository.Create] inserts for a request *)
Definition insertedUser (db : DB) (newUUID : string) (req : CreateUserRequest.t)
  : User.t :=
  User.mk (nextID (map User.ID (users db))) newUUID
          (CreateUserRequest.Name req) (CreateUserRequest.Email req).

(** Whatever [CreateUser] returns, either nothing was written or the user
    of a validated request, whose email and UUID nobody had, was inserted. *)
Lemma CreateUser_outcome (db db' : DB) (newUUID : string)
      (req : CreateUserRequest.t) (r : result User.t) :
  CreateUser newUUID req db = (r, db') ->
  (db' = db /\ exists e, r = Err e)
  \/ (utils.ValidateName (CreateUserRequest.Name req) = None
      /\ utils.ValidateEmail (CreateUserRequest.Email req) = None
      /\ existsb (fun u => String.eqb (User.Email u) (CreateUserRequest.Email req))
                 (users db) = false
      /\ existsb (fun u => String.eqb (User.UUID u) newUUID) (users db) = false
      /\ r = Ok (insertedUser db newUUID req)
      /\ db' = withUsers db (users db ++ [insertedUser db newUUID req])).
Proof.
  unfold CreateUser.
  assert (Hfail : forall e, (Err e, db) = (r, db') ->
                            db' = db /\ exists e, r = Err e).
  { intros e H. inversion H; subst. split; [reflexivity|].
    exists e. reflexivity. }
  destruct (utils.ValidateName _) eqn:Hn; [left; eapply Hfail; eassumption|].
  destruct (utils.ValidateEmail _) eqn:He; [left; eapply Hfail; eassumption|].
  unfold bindM, attempt, userRepository.GetByEmail.
  destruct (find _ (users db)) as [existing|] eqn:Hfind;
    [left; eapply Hfail; eassumption|].
  cbn [Code NewNotFoundError]. rewrite String.eqb_refl. cbn [negb].
  unfold WithTransaction, exec, userRepository.Create.
  cbn [User.UUID User.Email User.Name].
  rewrite existsb_or, (find_none_existsb Hfind), orb_false_r.
  destruct (existsb _ (users db)) eqn:Hu.
  - left. eapply Hfail; eassumption.
  - intro H. inversion H; subst. right. repeat split; reflexivity.
Qed.

End NewUsers.

(** X23.  Creating a user: with a valid name and email, and when the
    lookups by the email and by the new UUID find nobody, [CreateUser]
    succeeds; the user carries the request's name and email and an id no
    other user has, [GetUserByUUID] and [GetUserByEmail] return exactly that
    user afterwards, and every lookup that found a user before finds the same
    user.  The UUID, the name and the email are assumed to fit their columns
    (VARCHAR(36) and VARCHAR(255)), whose widths the model does not check. *)
Theorem CreateUser_then_lookup {ext : Externals} (db : DB) (newUUID : string)
        (req : CreateUserRequest.t) :
  (String.length newUUID <= 36)%nat ->
  (String.length (CreateUserRequest.Name req) <= 255)%nat ->
  (String.length (CreateUserRequest.Email req) <= 255)%nat ->
  utils.ValidateName (CreateUserRequest.Name req) = None ->
  utils.ValidateEmail (CreateUserRequest.Email req) = None ->
  utils.IsValidUUID newUUID = true ->
  userRepository.GetByEmail db (CreateUserRequest.Email req)
  = Err (NewNotFoundError "User") ->
  userRepository.GetByUUID db newUUID = Err (NewNotFoundError "User") ->
  exists user db',
    userService.CreateUser newUUID req db = (Ok user, db')
    /\ User.UUID user = newUUID
    /\ User.Name user = CreateUserRequest.Name req
    /\ User.Email user = CreateUserRequest.Email req
    /\ ~ In (User.ID user) (map User.ID (users db))
    /\ userService.GetUserByUUID newUUID db' = (Ok user, db')
    /\ userService.GetUserByEmail (CreateUserRequest.Email req) db'
       = (Ok user, db')
    /\ (forall uuid found,
          userRepository.GetByUUID db uuid = Ok found ->
          userRepository.GetByUUID db' uuid = Ok found)
    /\ (forall email found,
          userRepository.GetByEmail db email = Ok found ->
          userRepository.GetByEmail db' email = Ok found).
Proof.
  intros _ _ _ Hname Hemail Hnew Hbyemail Hbyuuid.
  assert (He : existsb (fun u => String.eqb (User.Email u)
                                            (CreateUserRequest.Email req))
                       (users db) = false).
  { apply find_none_existsb. unfold userRepository.GetByEmail in Hbyemail.
    destruct (find _ _); [discriminate|reflexivity]. }
  assert (Hu : existsb (fun u => String.eqb (User.UUID u) newUUID) (users db)
               = false).
  { apply find_none_existsb. unfold userRepository.GetByUUID in Hbyuuid.
    destruct (find _ _); [discriminate|reflexivity]. }
  exists (insertedUser db newUUID req).
  exists (withUsers db (users db ++ [insertedUser db newUUID req])).
  split.
  { unfold userService.CreateUser. rewrite Hname, Hemail.
    unfold bindM, attempt. rewrite Hbyemail.
    cbn [Code NewNotFoundError]. rewrite String.eqb_refl.
    cbn [negb]. unfold WithTransaction, exec, userRepository.Create.
    cbn [User.UUID User.Email User.Name].
    rewrite existsb_or, He, Hu. reflexivity. }
  do 3 (split; [reflexivity|]).
  split.
  { cbn [insertedUser User.ID]. intro Hin.
    pose proof (nextID_above Hin). lia. }
  split.
  { unfold userService.GetUserByUUID. rewrite Hnew. cbn [negb].
    unfold query, userRepository.GetByUUID. cbn [users withUsers].
    rewrite (@find_app_fresh _ (fun u => String.eqb (User.UUID u) newUUID)
               (users db) (insertedUser db newUUID req) Hu
               (String.eqb_refl newUUID)).
    reflexivity. }
  split.
  { unfold userService.GetUserByEmail. rewrite Hemail.
    unfold query, userRepository.GetByEmail. cbn [users withUsers].
    rewrite (@find_app_fresh _
               (fun u => String.eqb (User.Email u) (CreateUserRequest.Email req))
               (users db) (insertedUser db newUUID req) He
               (String.eqb_refl _)).
    reflexivity. }
  split.
  - intros uuid found. unfold userRepository.GetByUUID.
    cbn [users withUsers].
    destruct (find _ (users db)) as [x|] eqn:F; [|discriminate].
    rewrite (find_app_found _ F). trivial.
  - intros email found. unfold userRepository.GetByEmail.
    cbn [users withUsers].
    destruct (find _ (users db)) as [x|] eqn:F; [|discriminate].
    rewrite (find_app_found _ F). trivial.
Qed.

(** X24.  An email is registered once: after [CreateUser] succeeded,
    every further [CreateUser] with the same email and a valid name answers
    ALREADY_EXISTS (409, "User with this email already exists") and writes
    nothing, whatever the name and the new UUID. *)
Theorem CreateUser_twice_is_refused {ext : Externals} (db db' : DB)
        (newUUID : string) (req : CreateUserRequest.t) (user : User.t) :
  userService.CreateUser newUUID req db = (Ok user, db') ->
  forall newUUID' req',
    CreateUserRequest.Email req' = CreateUserRequest.Email req ->
    utils.ValidateName (CreateUserRequest.Name req') = None ->
    userService.CreateUser newUUID' req' db'
    = (Err (NewAlreadyExistsError "User with this email"), db')
    /\ Status (NewAlreadyExistsError "User with this email") = 409%Z
    /\ Message (NewAlreadyExistsError "User with this email")
       = "User with this email already exists".
Proof.
  intros H newUUID' req' Eemail Hname'.
  destruct (CreateUser_outcome H)
    as [[_ [e He]]|(_ & Hemail & Hfree & _ & _ & ->)]; [discriminate|].
  split; [|split; reflexivity].
  unfold userService.CreateUser. rewrite Hname', Eemail, Hemail.
  unfold bindM, attempt, userRepository.GetByEmail. cbn [users withUsers].
  rewrite (@find_app_fresh _
             (fun u => String.eqb (User.Email u) (CreateUserRequest.Email req))
             (users db) (insertedUser db newUUID req) Hfree
             (String.eqb_refl _)).
  reflexivity.
Qed.

(** ** The email pattern *)

Section EmailPattern.
Import regexp.

(** the strings a pattern denotes *)
Inductive matches : Regexp -> string -> Prop :=
| matches_empty : matches EmptyMatch ""
| matches_class class c : class c = true -> matches (CharClass class) (String c "")
| matches_concat r1 r2 s1 s2 :
    matches r1 s1 -> matches r2 s2 -> matches (Concat r1 r2) (s1 ++ s2)
| matches_left r1 r2 s : matches r1 s -> matches (Alternate r1 r2) s
| matches_right r1 r2 s : matches r2 s -> matches (Alternate r1 r2) s
| matches_star_nil r : matches (Star r) ""
| matches_star_app r s1 s2 :
    matches r s1 -> matches (Star r) s2 -> matches (Star r) (s1 ++ s2).

Lemma append_nil_r (s : string) : (s ++ "")%string = s.
Proof. induction s as [|c s IH]; cbn; [reflexivity|rewrite IH; reflexivity]. Qed.

Lemma append_assoc (s1 s2 s3 : string) :
  ((s1 ++ s2) ++ s3)%string = (s1 ++ (s2 ++ s3))%string.
Proof. induction s1 as [|c s1 IH]; cbn; [reflexivity|rewrite IH; reflexivity]. Qed.

Lemma append_eq_nil (s1 s2 : string) :
  (s1 ++ s2)%string = "" -> s1 = "" /\ s2 = "".
Proof. destruct s1; cbn; [auto|discriminate]. Qed.

Lemma append_eq_cons (s1 s2 : string) (c : ascii) (s : string) :
  (s1 ++ s2)%string = String c s ->
  (s1 = "" /\ s2 = String c s)
  \/ exists s1', s1 = String c s1' /\ s = (s1' ++ s2)%string.
Proof.
  destruct s1 as [|c1 s1]; cbn; intro H; [left; auto|].
  inversion H; subst. right. exists s1. auto.
Qed.

Lemma concat_spec (r1 r2 : Regexp) (s : string) :
  matches (Concat r1 r2) s
  <-> exists s1 s2, s = (s1 ++ s2)%string /\ matches r1 s1 /\ matches r2 s2.
Proof.
  split.
  - intro H. inversion H; subst. eexists. eexists. eauto.
  - intros (s1 & s2 & -> & H1 & H2). exact (matches_concat H1 H2).
Qed.

Lemma nullable_spec (r : Regexp) : nullable r = true <-> matches r "".
Proof.
  induction r as [| |class|r1 IH1 r2 IH2|r1 IH1 r2 IH2|r IH]; cbn [nullable].
  - split; [discriminate|]. intro H. inversion H.
  - split; [intros _; constructor|reflexivity].
  - split; [discriminate|]. intro H. inversion H.
  - rewrite andb_true_iff, IH1, IH2. split.
    + intros [H1 H2]. exact (matches_concat H1 H2).
    + intro H. apply concat_spec in H. destruct H as (s1 & s2 & E & H1 & H2).
      symmetry in E. apply append_eq_nil in E. destruct E; subst. auto.
  - rewrite orb_true_iff, IH1, IH2. split.
    + intros [H|H]; [apply matches_left|apply matches_right]; exact H.
    + intro H. inversion H; subst; auto.
  - split; [intros _; constructor|reflexivity].
Qed.

(** a non-empty match of [x*] starts with a non-empty match of [x] *)
Lemma star_cons (r : Regexp) (c : ascii) (s : string) :
  matches (Star r) (String c s) ->
  exists s1 s2, s = (s1 ++ s2)%string /\ matches r (String c s1)
                /\ matches (Star r) s2.
Proof.
  intro H. remember (Star r) as r' eqn:Er. remember (String c s) as t eqn:Et.
  revert s Et.
  induction H as [| | | | | |r0 s1 s2 H1 _ H2 IH2]; try discriminate.
  inversion Er; subst r0. intros s Et.
  apply append_eq_cons in Et. destruct Et as [[-> ->]|(s1' & -> & ->)].
  - apply IH2; reflexivity.
  - exists s1', s2. auto.
Qed.

Lemma derive_spec (r : Regexp) (c : ascii) (s : string) :
  matches (derive c r) s <-> matches r (String c s).
Proof.
  revert s.
  induction r as [| |class|r1 IH1 r2 IH2|r1 IH1 r2 IH2|r IH]; intro s;
    cbn [derive].
  - split; intro H; inversion H.
  - split; intro H; inversion H.
  - destruct (class c) eqn:Hc; split; intro H; inversion H; subst.
    + constructor. exact Hc.
    + constructor.
    + congruence.
  - assert (Hstep : matches (Concat (derive c r1) r2) s
                    <-> exists s1 s2, s = (s1 ++ s2)%string
                                      /\ matches r1 (String c s1)
                                      /\ matches r2 s2).
    { split.
      - intro H. apply concat_spec in H.
        destruct H as (s1 & s2 & -> & H1 & H2).
        exists s1, s2. rewrite <- IH1. auto.
      - intros (s1 & s2 & -> & H1 & H2). apply matches_concat; [|exact H2].
        apply IH1. exact H1. }
    assert (Hall : matches (Concat r1 r2) (String c s)
                   <-> (matches r1 "" /\ matches r2 (String c s))
                       \/ exists s1 s2, s = (s1 ++ s2)%string
                                        /\ matches r1 (String c s1)
                                        /\ matches r2 s2).
    { split.
      - intro H. apply concat_spec in H.
        destruct H as (s1 & s2 & E & H1 & H2). symmetry in E.
        apply append_eq_cons in E. destruct E as [[-> ->]|(s1' & -> & ->)].
        + left. auto.
        + right. exists s1', s2. auto.
      - intros [[H1 H2]|(s1 & s2 & -> & H1 & H2)].
        + exact (matches_concat H1 H2).
        + exact (matches_concat H1 H2). }
    rewrite Hall. destruct (nullable r1) eqn:Hn.
    + split.
      * intro H. inversion H; subst.
        -- right. apply Hstep. assumption.
        -- left. split; [apply nullable_spec; exact Hn|apply IH2; assumption].
      * intros [[_ H2]|H].
        -- apply matches_right. apply IH2. exact H2.
        -- apply matches_left. apply Hstep. exact H.
    + rewrite Hstep. split; [auto|].
      intros [[H1 _]|H]; [|exact H].
      apply nullable_spec in H1. congruence.
  - split; intro H; inversion H; subst.
    + apply matches_left. apply IH1. assumption.
    + apply matches_right. apply IH2. assumption.
    + apply matches_left. apply IH1. assumption.
    + apply matches_right. apply IH2. assumption.
  - split.
    + intro H. apply concat_spec in H.
      destruct H as (s1 & s2 & -> & H1 & H2).
      apply IH in H1. exact (matches_star_app H1 H2).
    + intro H. apply star_cons in H. destruct H as (s1 & s2 & -> & H1 & H2).
      apply matches_concat; [apply IH; exact H1|exact H2].
Qed.

Lemma matchAll_spec (r : Regexp) (s : string) :
  matchAll r s = true <-> matches r s.
Proof.
  revert r. induction s as [|c s IH]; intro r; cbn [matchAll].
  - apply nullable_spec.
  - rewrite IH. apply derive_spec.
Qed.

(** every character of [s] is in the class *)
Definition allOf (class : ascii -> bool) (s : string) : Prop :=
  forallb class (list_ascii_of_string s) = true.

Lemma allOf_append (class : ascii -> bool) (s1 s2 : string) :
  allOf class (s1 ++ s2) <-> allOf class s1 /\ allOf class s2.
Proof.
  unfold allOf. induction s1 as [|c s1 IH]; cbn.
  - tauto.
  - rewrite !andb_true_iff, IH. tauto.
Qed.

Lemma star_class (class : ascii -> bool) (s : string) :
  matches (Star (CharClass class)) s <-> allOf class s.
Proof.
  split.
  - intro H. remember (Star (CharClass class)) as r eqn:Er.
    induction H as [| | | | | |r0 s1 s2 H1 _ H2 IH2]; try discriminate.
    + reflexivity.
    + inversion Er; subst r0. apply allOf_append. split; [|apply IH2; reflexivity].
      inversion H1; subst. unfold allOf. cbn. rewrite andb_true_r. assumption.
  - unfold allOf. induction s as [|c s IH]; cbn.
    + intros _. constructor.
    + rewrite andb_true_iff. intros [Hc Hs].
      apply (@matches_star_app (CharClass class) (String c "") s).
      * constructor. exact Hc.
      * apply IH. exact Hs.
Qed.

Lemma class_spec (class : ascii -> bool) (s : string) :
  matches (CharClass class) s <-> exists c, s = String c "" /\ class c = true.
Proof.
  split.
  - intro H. inversion H; subst. eexists. eauto.
  - intros (c & -> & Hc). constructor. exact Hc.
Qed.

Lemma literal_spec (c : ascii) (s : string) :
  matches (Literal c) s <-> s = String c "".
Proof.
  unfold Literal. rewrite class_spec. split.
  - intros (c' & -> & E). apply Ascii.eqb_eq in E. subst. reflexivity.
  - intros ->. exists c. split; [reflexivity|apply Ascii.eqb_refl].
Qed.

Lemma plus_class (class : ascii -> bool) (s : string) :
  matches (Plus (CharClass class)) s <-> s <> "" /\ allOf class s.
Proof.
  unfold Plus. rewrite concat_spec. split.
  - intros (s1 & s2 & -> & H1 & H2). apply class_spec in H1.
    destruct H1 as (c & -> & Hc). apply star_class in H2. split.
    + discriminate.
    + apply (@allOf_append class (String c "") s2). split; [|exact H2].
      unfold allOf. cbn. rewrite Hc. reflexivity.
  - intros [Hne Hall]. destruct s as [|c s]; [congruence|].
    apply (@allOf_append class (String c "") s) in Hall.
    destruct Hall as [Hc Hs]. exists (String c ""), s.
    split; [reflexivity|]. split.
    + constructor. unfold allOf in Hc. cbn in Hc.
      rewrite andb_true_r in Hc. exact Hc.
    + apply star_class. exact Hs.
Qed.

Lemma atLeast_class (n : nat) (class : ascii -> bool) (s : string) :
  matches (AtLeast n (CharClass class)) s
  <-> (n <= String.length s)%nat /\ allOf class s.
Proof.
  revert s. induction n as [|n IH]; intro s; cbn [AtLeast].
  - rewrite star_class. split; [intro H; split; [lia|exact H]|tauto].
  - rewrite concat_spec. split.
    + intros (s1 & s2 & -> & H1 & H2). apply class_spec in H1.
      destruct H1 as (c & -> & Hc). apply IH in H2. destruct H2 as [Hlen Hall].
      split; [cbn; lia|].
      apply (@allOf_append class (String c "") s2). split; [|exact Hall].
      unfold allOf. cbn. rewrite Hc. reflexivity.
    + intros [Hlen Hall]. destruct s as [|c s]; [cbn in Hlen; lia|].
      apply (@allOf_append class (String c "") s) in Hall.
      destruct Hall as [Hc Hs]. exists (String c ""), s.
      split; [reflexivity|]. split.
      * constructor. unfold allOf in Hc. cbn in Hc.
        rewrite andb_true_r in Hc. exact Hc.
      * apply IH. cbn in Hlen. split; [lia|exact Hs].
Qed.

End EmailPattern.

(** X25.  The emails [ValidateEmail] accepts are exactly the strings
    local@domain.tld where local is a non-empty string over letters,
    digits and [._%+-], domain a non-empty string over letters, digits, [.]
    and [-], and tld consists of at least two letters.  The empty string is
    reported as a missing field, every other string as an invalid value. *)
Theorem ValidateEmail_accepts_exactly (email : string) :
  (utils.ValidateEmail email = None
   <-> exists local domain tld,
       email = (local ++ "@" ++ domain ++ "." ++ tld)%string
       /\ local <> "" /\ allOf utils.localChar local
       /\ domain <> "" /\ allOf utils.domainChar domain
       /\ (2 <= String.length tld)%nat /\ allOf utils.isLetter tld)
  /\ utils.ValidateEmail "" = Some (NewRequiredFieldError "email")
  /\ (email <> "" -> utils.ValidateEmail email <> None ->
      utils.ValidateEmail email = Some (NewInvalidValueError "email" email)).
Proof.
  assert (Hmatch : regexp.MatchString utils.emailRegex email = true
                   <-> exists local domain tld,
                       email = (local ++ "@" ++ domain ++ "." ++ tld)%string
                       /\ local <> "" /\ allOf utils.localChar local
                       /\ domain <> "" /\ allOf utils.domainChar domain
                       /\ (2 <= String.length tld)%nat
                       /\ allOf utils.isLetter tld).
  { unfold regexp.MatchString, utils.emailRegex. rewrite matchAll_spec.
    rewrite concat_spec. split.
    - intros (local & rest1 & -> & Hlocal & H).
      apply concat_spec in H. destruct H as (at_ & rest2 & -> & Hat & H).
      apply concat_spec in H. destruct H as (domain & rest3 & -> & Hdomain & H).
      apply concat_spec in H. destruct H as (dot & tld & -> & Hdot & Htld).
      apply literal_spec in Hat. apply literal_spec in Hdot. subst.
      apply plus_class in Hlocal. apply plus_class in Hdomain.
      apply atLeast_class in Htld.
      exists local, domain, tld. split; [reflexivity|]. tauto.
    - intros (local & domain & tld & -> & Hl1 & Hl2 & Hd1 & Hd2 & Ht1 & Ht2).
      exists local, ("@" ++ domain ++ "." ++ tld)%string.
      split; [reflexivity|]. split; [apply plus_class; auto|].
      apply concat_spec. exists "@"%string, (domain ++ "." ++ tld)%string.
      split; [reflexivity|]. split; [apply literal_spec; reflexivity|].
      apply concat_spec. exists domain, ("." ++ tld)%string.
      split; [reflexivity|]. split; [apply plus_class; auto|].
      apply concat_spec. exists "."%string, tld.
      split; [reflexivity|]. split; [apply literal_spec; reflexivity|].
      apply atLeast_class. auto. }
  split; [|split; [reflexivity|]].
  - rewrite <- Hmatch. unfold utils.ValidateEmail.
    destruct (String.eqb email "") eqn:He.
    + apply String.eqb_eq in He. subst. split; [discriminate|].
      intro H. vm_compute in H. discriminate.
    + destruct (regexp.MatchString utils.emailRegex email); cbn [negb];
        split; trivial; discriminate.
  - intros Hne Hbad. unfold utils.ValidateEmail in *.
    destruct (String.eqb email "") eqn:He;
      [apply String.eqb_eq in He; congruence|].
    destruct (regexp.MatchString utils.emailRegex email); cbn [negb] in *;
      [congruence|reflexivity].
Qed.

(** ** The further properties on concrete requests *)

Module examples.
Import reference.

(** 100.00 split equally, Alice named twice *)
Definition twice : CreateExpenseRequest.t :=
  expenseRequest 100 SplitTypeEqual [splitFor alice 0 0; splitFor alice 0 0].

(** Bob pays Alice 13.33 *)
Definition bobPays : CreateSettlementRequest.t :=
  CreateSettlementRequest.mk (Group.UUID trip) (User.UUID bob)
                             (User.UUID alice) (1333 # 100) "USD" "".

(** a dinner of 100.00 that Alice pays, and Bob, who was owed 20.00 and
    owes 33.33 for the dinner, paying the 13.33 he then owes *)
Definition evening : list request :=
  [AddExpense newUUID samples.equalDinner; Settle newUUID bobPays].

(** Alice selected *)
Definition isAlice (user : option User.t) : bool :=
  match user with
  | Some u => Z.eqb (User.ID u) (User.ID alice)
  | None => false
  end.

(** the trip before Carol joined *)
Definition beforeCarol : DB :=
  withGroupMembers db0 [GroupMember.mk 1 10 1; GroupMember.mk 2 10 2].

Definition addCarol : AddMemberRequest.t := AddMemberRequest.mk (User.UUID carol).

Definition flat : CreateGroupRequest.t :=
  CreateGroupRequest.mk "Flat" "Rent and bills".

Definition dave : CreateUserRequest.t :=
  CreateUserRequest.mk "Dave" "dave@example.com".
Definition david : CreateUserRequest.t :=
  CreateUserRequest.mk "David" "dave@example.com".
Definition daveUUID : string := "dddddddd-dddd-4ddd-8ddd-dddddddddddd".

End examples.

Lemma users_of_trip_keyed : NoDup (map User.ID (users reference.db0)).
Proof. repeat constructor; cbn; intuition discriminate. Defined.


Lemma thirds_accepted :
  exists expense db',
    expenseService.CreateExpense (ext := reference.externals)
      reference.newUUID samples.thirds samples.owing = (Ok expense, db').
Proof. eexists. eexists. vm_compute. reflexivity. Defined.

Lemma owing_inCents : ledgerInCents (user_balances samples.owing).
Proof. repeat constructor; vm_compute; reflexivity. Defined.

Lemma dinner_inCents : expenseInCents samples.equalDinner.
Proof. split; [vm_compute; reflexivity|intro H; discriminate H]. Defined.

Lemma evening_inCents : Forall amountsInCents examples.evening.
Proof.
  constructor; [exact dinner_inCents|].
  constructor; [vm_compute; reflexivity|constructor].
Defined.

Lemma owing_balanced (groupID : Z) :
  groupTotal (user_balances samples.owing) groupID "USD" == 0.
Proof.
  unfold groupTotal. cbn [samples.owing user_balances withUserBalances filter].
  unfold balanceRepository.inGroup. cbn [Balance.GroupID Balance.Currency].
  destruct (10 =? groupID)%Z; reflexivity.
Defined.

Lemma payBack_accepted :
  exists settlement db',
    settlementService.CreateSettlement (ext := reference.externals)
      reference.newUUID samples.payBack samples.owing = (Ok settlement, db').
Proof. eexists. eexists. vm_compute. reflexivity. Defined.

Lemma alice_removed :
  exists db',
    groupService.RemoveMember (ext := reference.externals)
      (Group.UUID reference.trip) (User.UUID reference.alice) samples.owing
    = (Ok tt, db').
Proof. eexists. vm_compute. reflexivity. Defined.

Lemma dave_created :
  exists user db',
    userService.CreateUser (ext := reference.externals)
      examples.daveUUID examples.dave reference.db0 = (Ok user, db').
Proof. eexists. eexists. vm_compute. reflexivity. Defined.

(** The refused refund leaves the database as it was. *)
Lemma CreateExpense_failure_writes_nothing_witness :
  snd (expenseService.CreateExpense (ext := reference.externals)
         reference.newUUID samples.refund reference.db0)
  = reference.db0.
Proof.
  apply (@CreateExpense_failure_writes_nothing reference.externals
           reference.db0 _ reference.newUUID samples.refund
           (NewValidationError "Split amounts must be greater than zero")).
  - constructor.
  - vm_compute. reflexivity.
Defined.

(** Alice named twice: the database refuses the second split. *)
Lemma CreateExpense_duplicate_participant_witness :
  expenseService.CreateExpense (ext := reference.externals)
    reference.newUUID examples.twice reference.db0
  = (Err NewDatabaseError, reference.db0)
  /\ Status NewDatabaseError = 500%Z.
Proof.
  eapply (@CreateExpense_duplicate_participant reference.externals
            reference.db0 reference.newUUID examples.twice samples.tripFound
            reference.alice).
  - repeat split; reflexivity.
  - vm_compute. reflexivity.
  - intro H. inversion H as [|? ? Hnotin _]. apply Hnotin. left. reflexivity.
Defined.


(** Alice owes 20.00: the refused settlement of 50.00 leaves the database
    as it was. *)
Lemma CreateSettlement_failure_writes_nothing_witness :
  snd (settlementService.CreateSettlement (ext := reference.externals)
         reference.newUUID samples.overpay samples.owing)
  = samples.owing.
Proof.
  eapply (@CreateSettlement_failure_writes_nothing reference.externals
            samples.owing _ reference.newUUID samples.overpay).
  vm_compute. reflexivity.
Defined.


(** The settlement of 20.00 is found under its UUID. *)
Lemma CreateSettlement_then_GetSettlementByUUID_witness :
  exists settlement db',
    settlementService.CreateSettlement (ext := reference.externals)
      reference.newUUID samples.payBack samples.owing = (Ok settlement, db')
    /\ settlementService.GetSettlementByUUID (ext := reference.externals)
         reference.newUUID db' = (Ok settlement, db')
    /\ Settlement.Amount settlement = 20.
Proof.
  destruct payBack_accepted as (settlement & db' & H).
  exists settlement, db'. split; [exact H|].
  destruct (@CreateSettlement_then_GetSettlementByUUID reference.externals
              samples.owing db' reference.newUUID samples.payBack settlement
              eq_refl)
    as (Hget & _ & Hamount & _).
  - vm_compute. reflexivity.
  - exact H.
  - split; [exact Hget|exact Hamount].
Defined.

(** Alice owes Bob 20.00: after the dinner and Bob's payment the balances
    of the trip are in whole cents and still sum to zero. *)
Lemma ledger_stays_balanced_witness :
  ledgerInCents
    (user_balances (fold_left (handle (ext := reference.externals))
                              examples.evening samples.owing))
  /\ groupTotal
       (user_balances (fold_left (handle (ext := reference.externals))
                                 examples.evening samples.owing))
       10 "USD"
     == 0.
Proof.
  destruct (@ledger_stays_balanced reference.externals examples.evening
              samples.owing 10 "USD")
    as (Hcents & _ & Hzero).
  - repeat constructor. discriminate.
  - exact evening_inCents.
  - exact owing_inCents.
  - split; [exact Hcents|]. apply Hzero. apply owing_balanced.
Defined.

(** 10.00 split 33.33 % / 33.33 % / 33.34 %: the drift of one cent is
    within three rounding errors. *)
Lemma percentage_drift_is_bounded_witness :
  exists expense db',
    expenseService.CreateExpense (ext := reference.externals)
      reference.newUUID samples.thirds samples.owing = (Ok expense, db')
    /\ exists group,
        groupRepository.GetByUUID samples.owing
          (CreateExpenseRequest.GroupUUID samples.thirds) = Ok group
        /\ ledgerInCents (user_balances db')
        /\ Qabs (groupTotal (user_balances db') (Group.ID group)
                            (currencyOf samples.thirds)
                 - groupTotal (user_balances samples.owing) (Group.ID group)
                              (currencyOf samples.thirds))
           <= 3 * roundingError.
Proof.
  destruct thirds_accepted as (expense & db' & H).
  exists expense, db'. split; [exact H|].
  apply (@percentage_drift_is_bounded reference.externals samples.owing db'
           reference.newUUID samples.thirds expense eq_refl).
  - vm_compute. reflexivity.
  - exact owing_inCents.
  - exact H.
Defined.

(** 100.00 between three: two shares of one amount and the last one, each
    within the bound of 33.33... *)
Lemma equal_shares_are_near_equal_witness :
  exists splits amountPerUser lastAmount,
    expenseService.calculateEqualSplits (ext := reference.externals)
      reference.db0 samples.equalDinner 10 = Ok splits
    /\ map ExpenseSplit.Amount splits
       = [amountPerUser; amountPerUser; lastAmount]
    /\ Qabs (amountPerUser - 100 / 3) <= roundingError
    /\ Qabs (lastAmount - 100 / 3) <= (3 - 1) * roundingError.
Proof.
  assert (H : exists splits,
             expenseService.calculateEqualSplits (ext := reference.externals)
               reference.db0 samples.equalDinner 10 = Ok splits)
    by (eexists; vm_compute; reflexivity).
  destruct H as (splits & H).
  destruct (@equal_shares_are_near_equal reference.externals reference.db0
              samples.equalDinner 10 splits)
    as (amountPerUser & lastAmount & Hamounts & Hfirst & Hlast).
  - discriminate.
  - exact H.
  - exists splits, amountPerUser, lastAmount.
    split; [exact H|]. split; [exact Hamounts|].
    split; [exact Hfirst|exact Hlast].
Defined.

(** The snapshot of the unit test: Alice pays the 50.00 she owes and
    receives nothing. *)
Lemma suggestions_settle_every_party_witness :
  paidBy examples.isAlice
         (DebtSimplification.Suggestions
            (settlementService.simplifyBalances samples.snapshot "USD"))
  == 50
  /\ receivedBy examples.isAlice
                (DebtSimplification.Suggestions
                   (settlementService.simplifyBalances samples.snapshot "USD"))
     == 0.
Proof.
  destruct (@suggestions_settle_every_party samples.snapshot "USD"
              examples.isAlice)
    as [Hpaid Hreceived].
  - vm_compute. reflexivity.
  - split.
    + apply (Qeq_trans _ _ _ Hpaid). vm_compute. reflexivity.
    + apply (Qeq_trans _ _ _ Hreceived). vm_compute. reflexivity.
Defined.

(** The sheet of the trip in which Alice owes Bob 20.00 nets to zero. *)
Lemma balance_sheet_nets_the_ledger_witness :
  exists sheet,
    balanceService.GetGroupBalanceSheet (ext := reference.externals)
      (Group.UUID reference.trip) samples.owing = (Ok sheet, samples.owing)
    /\ BalanceSummary.NetBalance (BalanceSheet.Summary sheet)
       == groupTotal (user_balances samples.owing)
                     (Group.ID (BalanceSheet.Group sheet)) "USD"
    /\ BalanceSummary.UserCount (BalanceSheet.Summary sheet) = 2%Z.
Proof.
  assert (H : exists sheet db',
             balanceService.GetGroupBalanceSheet (ext := reference.externals)
               (Group.UUID reference.trip) samples.owing = (Ok sheet, db'))
    by (eexists; eexists; vm_compute; reflexivity).
  destruct H as (sheet & db' & H).
  destruct (@balance_sheet_nets_the_ledger reference.externals
              (Group.UUID reference.trip) samples.owing db' sheet H)
    as (Hdb & Hgroup & Hnet & _ & _ & _ & Hcount & _).
  exists sheet. rewrite Hdb in H. split; [exact H|]. split; [exact Hnet|].
  rewrite Hcount. unfold groupRepository.GetByUUID in Hgroup.
  cbn in Hgroup. inversion Hgroup as [Hg]. reflexivity.
Defined.

(** Alice owes Bob 20.00: after the dinner and Bob's payment the sheet of
    the trip nets to zero. *)
Lemma balance_sheet_nets_to_zero_witness :
  exists sheet db',
    balanceService.GetGroupBalanceSheet (ext := reference.externals)
      (Group.UUID reference.trip)
      (fold_left (handle (ext := reference.externals)) examples.evening
                 samples.owing)
    = (Ok sheet, db')
    /\ BalanceSummary.NetBalance (BalanceSheet.Summary sheet) == 0.
Proof.
  assert (H : exists sheet db',
             balanceService.GetGroupBalanceSheet (ext := reference.externals)
               (Group.UUID reference.trip)
               (fold_left (handle (ext := reference.externals))
                          examples.evening samples.owing)
             = (Ok sheet, db'))
    by (eexists; eexists; vm_compute; reflexivity).
  destruct H as (sheet & db' & H).
  exists sheet, db'. split; [exact H|].
  apply (@balance_sheet_nets_to_zero reference.externals examples.evening
           samples.owing db' (Group.UUID reference.trip) sheet).
  - repeat constructor. discriminate.
  - exact evening_inCents.
  - exact owing_inCents.
  - exact owing_balanced.
  - exact H.
Defined.

(** Alice owes 20.00 in a group in which only Bob is owed. *)
Lemma debt_relationships_with_one_creditor_witness :
  exists creditor,
    creditorsOf (user_balances samples.owing) = [creditor]
    /\ List.length (balanceService.debtRelationships
                      (user_balances samples.owing) "USD") = 1%nat.
Proof.
  eexists. split; [reflexivity|].
  rewrite (@debt_relationships_with_one_creditor (user_balances samples.owing)
             "USD" _ eq_refl).
  reflexivity.
Defined.

(** What the columns do with the other values: a third of a cent is
    rounded away, fourteen integral digits, a currency of seven letters, a
    group or a user that does not exist are refused. *)
Example UpdateBalance_rounds :
  exists db',
    schema.UpdateBalance 10 1 (333 # 1000) "USD" samples.owing = Ok (tt, db')
    /\ balanceOf (user_balances db') 10 1 "USD" == 2033 # 100.
Proof. eexists. split; [vm_compute; reflexivity|reflexivity]. Qed.

Example UpdateBalance_refuses :
  schema.UpdateBalance 10 1 (10000000000000 # 1) "USD" samples.owing
  = Err NewDatabaseError
  /\ schema.UpdateBalance 10 1 5 "DOLLARS" samples.owing
     = Err NewDatabaseError
  /\ schema.UpdateBalance 11 1 5 "USD" samples.owing = Err NewDatabaseError
  /\ schema.UpdateBalance 10 9 5 "USD" samples.owing = Err NewDatabaseError.
Proof. repeat split; vm_compute; reflexivity. Qed.

Example Upsert_rounds :
  exists db',
    schema.Upsert (Balance.mk 0 10 1 (7505 # 1000) "USD" None None)
                  samples.owing = Ok (tt, db')
    /\ balanceOf (user_balances db') 10 1 "USD" == 751 # 100.
Proof. eexists. split; [vm_compute; reflexivity|reflexivity]. Qed.



(** Carol joins the trip and is listed with Alice and Bob. *)
Lemma AddMember_adds_the_member_witness :
  exists db' members',
    groupService.AddMember (ext := reference.externals)
      (Group.UUID reference.trip) examples.addCarol examples.beforeCarol
    = (Ok tt, db')
    /\ groupService.GetGroupMembers (ext := reference.externals)
         (Group.UUID reference.trip) db' = (Ok members', db')
    /\ Permutation members'
                   [reference.carol; reference.alice; reference.bob].
Proof.
  destruct (@AddMember_adds_the_member reference.externals examples.beforeCarol
              (Group.UUID reference.trip) examples.addCarol samples.tripFound
              reference.carol users_of_trip_keyed eq_refl eq_refl eq_refl
              eq_refl)
    as (_ & Hadd).
  destruct (Hadd eq_refl)
    as (db' & members & members' & Hrun & _ & Hbefore & Hafter & Hperm & _).
  exists db', members'. split; [exact Hrun|]. split; [exact Hafter|].
  vm_compute in Hbefore. inversion Hbefore as [Hmembers].
  rewrite <- Hmembers in Hperm. exact Hperm.
Defined.

(** Alice, who owes 20.00, leaves the trip: Bob and Carol remain and her
    balance stays. *)
Lemma RemoveMember_removes_the_member_witness :
  exists db',
    groupService.RemoveMember (ext := reference.externals)
      (Group.UUID reference.trip) (User.UUID reference.alice) samples.owing
    = (Ok tt, db')
    /\ groupRepository.IsMember db' 10 1 = Ok false
    /\ user_balances db' = user_balances samples.owing.
Proof.
  destruct (@RemoveMember_removes_the_member reference.externals samples.owing
              (Group.UUID reference.trip) (User.UUID reference.alice)
              samples.tripFound reference.alice eq_refl eq_refl eq_refl eq_refl)
    as (_ & Hremove).
  destruct (Hremove eq_refl)
    as (db' & members & members' & Hrun & Hout & _ & _ & _ & _ & Hbal).
  exists db'. split; [exact Hrun|]. split; [exact Hout|exact Hbal].
Defined.

(** Once Alice has left she cannot pay Bob the 20.00 she owes. *)
Lemma removed_member_is_locked_out_witness :
  exists db' e,
    groupService.RemoveMember (ext := reference.externals)
      (Group.UUID reference.trip) (User.UUID reference.alice) samples.owing
    = (Ok tt, db')
    /\ user_balances db' = user_balances samples.owing
    /\ settlementService.CreateSettlement (ext := reference.externals)
         reference.newUUID samples.payBack db' = (Err e, db').
Proof.
  destruct alice_removed as (db' & H).
  destruct (@removed_member_is_locked_out reference.externals samples.owing db'
              (Group.UUID reference.trip) (User.UUID reference.alice) H)
    as (Hbal & Hsettle & _).
  destruct (Hsettle reference.newUUID samples.payBack eq_refl
                    (or_introl eq_refl)) as (e & He).
  exists db', e. split; [exact H|]. split; [exact Hbal|exact He].
Defined.

(** Alice opens a group for the flat and is its only member. *)
Lemma CreateGroup_makes_the_creator_a_member_witness :
  exists group db',
    groupService.CreateGroup (ext := reference.externals) reference.newUUID
      examples.flat (User.UUID reference.alice) reference.db0 = (Ok group, db')
    /\ groupRepository.GetByUUID db' reference.newUUID = Ok group
    /\ groupService.GetGroupMembers (ext := reference.externals)
         reference.newUUID db' = (Ok [reference.alice], db').
Proof.
  destruct (@CreateGroup_makes_the_creator_a_member reference.externals
              reference.db0 reference.newUUID examples.flat
              (User.UUID reference.alice) reference.alice users_of_trip_keyed)
    as (group & db' & Hrun & _ & _ & _ & _ & _ & Hget & _ & Hmembers & _).
  - repeat constructor.
  - cbn. lia.
  - cbn. lia.
  - cbn. lia.
  - reflexivity.
  - reflexivity.
  - reflexivity.
  - reflexivity.
  - reflexivity.
  - exists group, db'. split; [exact Hrun|]. split; [exact Hget|exact Hmembers].
Defined.

(** Dave registers and is found by UUID and by email. *)
Lemma CreateUser_then_lookup_witness :
  exists user db',
    userService.CreateUser (ext := reference.externals) examples.daveUUID
      examples.dave reference.db0 = (Ok user, db')
    /\ userService.GetUserByUUID (ext := reference.externals)
         examples.daveUUID db' = (Ok user, db')
    /\ userService.GetUserByEmail "dave@example.com" db' = (Ok user, db').
Proof.
  destruct (@CreateUser_then_lookup reference.externals reference.db0
              examples.daveUUID examples.dave)
    as (user & db' & Hrun & _ & _ & _ & _ & Huuid & Hemail & _).
  - cbn. lia.
  - cbn. lia.
  - cbn. lia.
  - reflexivity.
  - vm_compute. reflexivity.
  - reflexivity.
  - reflexivity.
  - reflexivity.
  - exists user, db'. split; [exact Hrun|]. split; [exact Huuid|exact Hemail].
Defined.

(** Dave's email cannot be registered again under another name. *)
Lemma CreateUser_twice_is_refused_witness :
  exists user db',
    userService.CreateUser (ext := reference.externals) examples.daveUUID
      examples.dave reference.db0 = (Ok user, db')
    /\ userService.CreateUser (ext := reference.externals) reference.newUUID
         examples.david db'
       = (Err (NewAlreadyExistsError "User with this email"), db').
Proof.
  destruct dave_created as (user & db' & H).
  exists user, db'. split; [exact H|].
  apply (@CreateUser_twice_is_refused reference.externals reference.db0 db'
           examples.daveUUID examples.dave user H reference.newUUID
           examples.david eq_refl).
  reflexivity.
Defined.
